(* ===== verification/_CoqProject ===== *)
-Q . S2P
Prelude.v
Config.v
Context.v
Breaker.v
Circuit.v
RateLimit.v
Common.v
Auth.v
Proxy.v
Router.v
Health.v
Metrics.v
Tracing.v
Pipeline.v
Traces.v
BreakerSpec.v
Environment.v
Frame.v
Main.v
