(* ===== verification/Prelude.v ===== *)
(** * Verification of the minisource API gateway

    ** The program

    The gateway is an HTTP reverse proxy written in Go on the fiber web
    framework.  A request runs through a fixed chain of middleware stages
    (recovery, request id, security headers, CORS, tracing, metrics, access
    log, content type, tenant extraction, authentication, rate limit,
    circuit breaker) and then reaches a health endpoint or the handler of a
    route, which forwards it to one of two upstream services.  Three
    components hold state shared by all requests: the manager of the circuit
    breakers, the rate limiter with its two backends, and the registry of
    services with their health flags.  [main] reads the configuration from
    the environment, builds the components and the application, listens,
    and on a signal shuts everything down; two background tasks run beside
    the requests, the prober of the services and the sweeper of the local
    buckets.

    ** The files, and the code each one models

    - [Prelude] (this file): machine integers ([uint32] as [Z] with
      [wrap32]), instants and durations as nanoseconds in [Z], Go's integer
      division [go_div] ([None] is the run-time panic), the functions of
      Go's [strings] package the sources call, truncation and ordering of
      the rationals that stand for [float64], [itoa], tactics and hint
      databases.
    - [Config]: the records of [config/routes.go] and [config/config.go]
      (carried in [src/Dockerfile]): [Route], [RouteConfig], the default
      route table [DefaultRoutes], and the configuration [Configuration.t]
      (the struct [Config]) with the record of each of its parts.
    - [Context]: the request context of the framework ([fiber.Ctx]): request,
      response, the locals as a record with one optional field per key the
      sources use; handlers return an [Outcome] (an error value or a panic)
      with the context and the world after them; a [Stage] is a handler that
      is given the rest of the chain, [chain] composes stages as [app.Use]
      does.  The classes [Lens] and [Clock] say what a component sees of the
      world: its own state, and the time.  The other services of the
      environment are classes too, declared where they are first used:
      [UUIDSource], [LogSink], [Framework] (the path of the matched route,
      the length of a body), [TokenParser], [Upstream], [TimeFormat],
      [Runtime].
    - [Breaker]: the breaker object of the gobreaker library, which is not
      part of the repository and is modelled in the library's shape:
      [beforeRequest] and [afterRequest] around a call, generations, the
      counts of the window (32-bit, wrapping), expiry; a trace of operations
      as a list of [event]s with [step] and [run].
    - [Circuit]: [src/internal/middleware/circuit.go].  Module
      [CircuitBreakerManager]: the map of breakers, [GetBreaker] with its
      double-checked creation, [ReadyToTrip], [GetState], [GetAllStates],
      and [Middleware] split into [bypass], [Execute], [completed] and
      [after_Execute].  Module [RetryMiddleware]: the retry loop with its
      back-off.
    - [RateLimit]: [src/internal/middleware/ratelimit.go].  Module
      [LocalLimiter] (the in-process buckets and a round of their sweeper),
      module [Redis] (the store with expiring entries and the Lua script),
      module [RateLimiter] (choice of backend, fall-back, key, limits,
      headers, [Middleware]).  [NewRateLimiter] returns the limiter together
      with the goroutine it started ([Sweeper]): none with a store, else
      the sweeper, which holds its ticker or has panicked making it
      ([NewTicker] refuses an interval that is not positive).
    - [Common]: [src/internal/middleware/logging.go]: the logger, the access
      log stage, the error handler, and the stateless stages [RequestID],
      [SecurityHeaders], [CORS], [ContentType], [TransformHeaders],
      [Recover].
    - [Auth]: [src/internal/middleware/auth.go]: [Auth], [validateToken],
      [RequireRoles], [TenantExtractor], [NewAuthMiddleware].  The JWT
      library is the class [TokenParser].
    - [Proxy]: [src/unnamed/part_001] (the proxy package): the registry
      [ServiceProxy], [Forward], [HealthCheck], one round of the prober
      [health_round], [isHopByHopHeader].  The HTTP client is the class
      [Upstream].
    - [Router]: [src/unnamed/part_002] (the router package): the look-ups of
      the route table ([matchesPath], [GetRouteForPath], [IsPublicRoute]),
      the registrations [setupRoute] makes, the handler of a route, the
      catch-all, and the framework's dispatch over the registrations.
    - [Health]: [src/internal/handler/health.go]: the four endpoints.
    - [Metrics]: [src/unnamed/part_000] (the metrics of the middleware
      package): the nine metrics by name, the stage [Metrics] (its part
      after [c.Next()] is [record]), [UpdateCircuitBreakerMetric],
      [GetMetricsHandler].  Module [Registry] stands for the registry of the
      metrics library: counters, gauges and the observations of histograms,
      keyed by metric name and label values.
    - [Tracing]: [src/internal/middleware/tracing.go]: [InitTracer] with
      its three ways to fail and the shutdown function it returns, the stage
      [Tracing] ([started] up to [c.Next()], [closing] after it, with the
      deferred [End]), [CreateSpan], the two carriers, [GetSpanFromContext].
      Module [Tracer] stands for the tracing library: the provider and the
      propagators [InitTracer] installs (without them [Start] hands out the
      no-op span and nothing is propagated), the spans started, with the
      attributes, status, errors and end they were given; [traceparent] and
      [parse_traceparent] are the header of the propagator.  The exporter
      and the resource are the class [OTLP].
    - [Pipeline]: [main.go] (carried in
      [src/tests/integration/gateway_test.go], lines 157 to 362):
      [setupMiddleware], the endpoints and routes registered after the
      stages, the error handler, and [serve], one request through the whole
      application.  Module [Gateway] is a concrete world with every
      component, on which the scenarios of the design are run.
    - [Traces]: interleaved requests on a breaker of the manager, as traces
      of the breaker's operations; the probes of a half-open generation.
    - [BreakerSpec]: the state machine of the design for one service
      (module [Spec]: closed with a window, open until an instant,
      half-open with a run of successes), the abstraction [abs] from the
      breaker's state to it, and the refinement.
    - [Environment]: [config/config.go] and [config/routes.go] (in
      [src/Dockerfile]): [Load] and its helpers [getEnv], [getEnvInt],
      [getEnvBool], [getEnvFloat], [getDuration], [getEnvSlice] as functions
      of the variables of the process ([Environ], a map) and of the file
      [.env]; [Atoi] and [ParseBool] of Go's [strconv] written out, its
      [ParseFloat] and [ParseDuration] the class [Strconv]; [LoadRoutes] as
      a function of the files, the YAML parser the class [YAML].
    - [Frame]: what a stage leaves alone.  [lifts P m] says that the stage
      [m] keeps the property [P] of the world when the rest of the chain
      does; one lemma per stage, endpoint and handler, composed along
      [setupMiddleware] ([outer], the metrics stage, [inner]) into
      [preserves_serve].  The classes [Apart] and [Sheltered] say that two
      components, or a component and the environment, do not share state.
    - [Main]: [main] (in [src/tests/integration/gateway_test.go], lines 181
      to 312).  [startup] is the boot up to listening: [Load],
      [load_routes], the logger, [init_tracer], [connect_redis], the three
      components; it ends with code 2 when the sweeper of the limiter
      panics.  [stop] is the shutdown sequence.  These two, [handle] and
      the helpers of the boot are translated from [main]; the rest is a
      model of the runtime around it: a process is [Running] with what it
      booted ([Booted.t]: the local variables of [main] and the goroutine
      of the limiter) or [Exited] with a code, and [on_event] says what one
      [Event] does to it (a request through [handle], a tick of the prober
      or of the sweeper, a failure of the listener, the signal with
      [stop]); [main] runs a list of events from the boot.  [log.Printf]
      and [log.Fatalf] are the class [StdLog].

    ** What is proved

    - Breaker: every operation keeps the breaker well formed and its
      parameters fixed; generations only grow; a breaker made by the manager
      opens exactly at the first failure that brings its window to the
      threshold with half the requests failed ([breaker_trips], against the
      reference function [trips]); an open breaker admits nothing until its
      timeout has run out and is then half-open ([Execute_recovery],
      [Middleware_open_rejects]); the middleware keeps the manager well
      formed and never returns an error.  For a sequential client the
      breaker refines the machine of the design, state by state and verdict
      by verdict ([breaker_refines]); for concurrent clients, in any
      interleaving, a half-open generation admits at most [MaxRequests]
      probes ([half_open_probes_bounded]).  The retry back-off is the
      capped power of two while the product fits in 64 bits
      ([sleepTime_exact]).
    - Rate limiter: the token-bucket bound ([grants_bound]: at most burst
      plus rate times elapsed seconds are granted), the burst is granted,
      a rested bucket grants and a client that keeps to the rate is never
      turned away ([paced_always_granted]), the requests of other keys,
      however interleaved, change nothing for a key ([grants_isolated]),
      the sweeper cannot be observed, both backends
      keep their buckets sound and agree on a fresh key; the middleware's
      answers on grant and denial; the division by zero at rate 0.
    - Authenticator: the only ways past [Auth] ([Auth_guard]), the identity
      headers come from the token, the role policy, the tenant extractor,
      the public paths come from public routes only.
    - Proxy and registry: hop-by-hop headers cross in neither direction,
      the refusals of [Forward], the verdict of a probe and its frame; the
      flags after a round of probes do not depend on the order in which
      the services are probed ([probe_all_any_order] in [Frame]), which is
      why ranging over the registry in key order loses nothing.
    - Router: [matchesPath] and [GetRouteForPath] characterised (first match
      in declared order), the registrations are sound for the table.
    - Common stages: recovery, request id, preflight, access log.
    - Metrics: what one request adds to each counter ([counter_Metrics],
      [Metrics_counts_request]), the gauge of active connections returns to
      its value unless the rest of the chain panics
      ([Metrics_active_connections]), the label [upstream_unavailable] is
      never counted.
    - Tracing: [InitTracer] returns a shutdown function or an error and
      installs the tracer exactly in the first case ([InitTracer_spec]);
      with the tracer installed the rest of the chain sees the span and a
      [traceparent] header that continues the caller's trace
      ([Tracing_propagates]), the span is ended on every exit, panics
      included ([Tracing_ends_span]), and the header written is the header
      read ([traceparent_roundtrip]); without it the stage does nothing
      ([Tracing_without_provider]).
    - Configuration: the defaults of [Load]; [Atoi] reads back what [itoa]
      prints ([Atoi_itoa]), hence a threshold written in decimal is the
      threshold loaded ([Load_threshold]); values that do not parse give
      the default; the environment goes before the file [.env]; nothing is
      required of the environment, whatever the README says
      ([load_without_secret]).
    - The application as a whole ([Frame]): every request leaves the manager
      of the breakers well formed ([serve_keeps_wf]), no span open
      ([serve_ends_spans]), the label [upstream_unavailable] uncounted
      ([serve_upstream_unavailable]) and the gauge of active connections no
      lower than it was ([serve_connections_monotone]).
    - The process ([Main]): the manager of the breakers is well formed in
      every state the process reaches, for every environment, by rule
      induction on [reachable] ([main_keeps_wf]), and the counter of
      [upstream_unavailable] never moves ([main_upstream_unavailable]); a
      store that is down at the boot leaves the gateway on the local
      limiter, listening when the interval of the sweeper is positive and
      dead with code 2 when it is not ([startup_without_store]).  Nothing
      is claimed of the exit codes or of the number of answers: those would
      be facts of the model of the runtime, not of [main].
    - Pipeline: [serve] answers every request ([serve_total]); every stage
      before the breaker's runs the rest of the chain on a context without
      route, service or public mark if it was given one ([blind], proved
      for each stage of [front]), hence in the pipeline as wired the
      breaker's stage guards no request ([breaker_stage_idle]), the limits
      of a route are never applied ([limits_unrouted]), and requests are
      counted under the service label "gateway"
      ([service_label_unrouted]).
    Each file ends with examples that run the model on the scenarios of the
    design; those that differ from the design are recorded as findings.

    ** Idealisations and bounds

    - [float64] token counts are exact rationals kept in lowest terms; the
      rounding of floating point is not modelled.  The trip ratio is
      compared exactly, with the division by zero of the float written out.
    - Go's [int] and [int64] are unbounded [Z], except the counters of the
      breaker ([uint32], wrapping), the shift of the retry back-off
      ([int64], wrapping), the integers [Atoi] accepts (64 bits) and the
      conversion of the breaker's settings to [uint32] in [Load]
      (wrapping).
    - The life of a process is a finite list of events, each one step, and
      [main] is a fold over it: that it ends is by construction and says
      nothing of the program.  A request is served between two events;
      requests in flight together, and the grace period of the shutdown,
      are not modelled (the outcome of the drain is a field of the
      signal).  The panic of the sweeper's goroutine is taken where the
      goroutine starts, although the main goroutine may run a little
      further before the process dies.
    - The tracer records every span it is asked to start once a provider is
      installed, whatever the sampling rate; a span context is the two
      identifiers, without flags or the remote bit.
    - The limiter reads the clock once per request; the source reads it in
      [allow] and again for [retry_after], so that the two may differ by
      the time the call took.
    - The claims are stored under the key ["user"], the [ContextKey] of
      [DefaultAuthConfig], the only one [NewAuthMiddleware] uses; the
      generation of a breaker, a [uint64], is an unbounded integer;
      [Forward] takes the path of the request for the path of its URI and
      merges the headers of the answer without making their names
      canonical again; the host of a request is the header as it came,
      without the framework's handling of trusted proxies.
    - The state machine [Spec] of [BreakerSpec] is the one the code
      implements, not the table of the design: an open breaker admits
      strictly after its timeout and a breaker trips only at a failure.
      Both differences are recorded as findings.
    - A request is one atomic step on the world: the mutexes of the manager,
      the limiter and the registry are modelled by each operation being a
      function.  Interleavings inside the breaker are traces of its two
      operations ([Breaker.event]).  The clock is read from the world and
      moves only when a handler or the environment moves it.
    - The retry loop recurses on the attempts left, [maxAttempts + 1] of
      them, which is exactly the number of iterations of the source's loop;
      no other definition needs fuel.
    - Maps iterated by the source in Go's unspecified order are iterated in
      key order.  For the round of probes this loses nothing
      ([probe_all_any_order]); for [TransformHeaders], whose lists stand
      for the maps in the order Go happens to choose, it does.

    ** Not modelled

    The libraries the gateway calls are classes or models of their
    documented behaviour, not their code: the web framework, the breaker
    (modelled in [Breaker]), the JWT, YAML, tracing and metrics libraries,
    the store.  Hence the buckets of the histograms and the text of
    [/metrics] (the handler of the metrics library is a parameter of the
    pipeline), the batching and export of spans, the syntax of YAML and of
    floats and durations, the text format of log lines, connection pooling
    and the sockets are outside the development.  The structs [Router] and
    [HealthHandler] only hold the arguments of their methods, which the
    model passes directly.  The Makefile, the README and the container
    build hold no program logic.

    Not yet covered by theorems: the refinement of the breaker
    under interleaved completions (it is proved for sequential clients), and
    requests of several clients interleaved through the whole pipeline (the
    limiter and the breaker are treated on their own, in [RateLimit] and
    [Traces]).  [TransformHeaders] does depend on the order in which Go
    ranges over its maps ([rename_order_matters]).

    ** This file

    What every component file shares: the notation scope [gw_scope], the
    machine-integer and clock conventions, the Go standard library string
    functions the gateway calls, the rational-number helpers used for
    [float64] token counts, the development's tactics and the hints. *)

From stdpp Require Import base strings list pretty.
From Stdlib Require Import ZArith QArith Qminmax Qround Lia Lqa Ascii String.

Declare Scope gw_scope.
Delimit Scope gw_scope with gw.

Create HintDb gw discriminated.
Create Rewrite HintDb gw_rw.

#[local] Open Scope string_scope.
#[local] Open Scope Z_scope.

(** ** Tactics *)

(** [gw_bool] turns the boolean tests of a model into propositions. *)
Ltac gw_bool :=
  repeat match goal with
  | H : (_ && _)%bool = true |- _ => apply andb_true_iff in H; destruct H
  | H : (_ || _)%bool = false |- _ => apply orb_false_iff in H; destruct H
  | H : negb _ = true |- _ => apply negb_true_iff in H
  | H : negb _ = false |- _ => apply negb_false_iff in H
  | H : (_ <=? _)%Z = true |- _ => apply Z.leb_le in H
  | H : (_ <=? _)%Z = false |- _ => apply Z.leb_gt in H
  | H : (_ <? _)%Z = true |- _ => apply Z.ltb_lt in H
  | H : (_ <? _)%Z = false |- _ => apply Z.ltb_ge in H
  | H : (_ =? _)%Z = true |- _ => apply Z.eqb_eq in H
  | H : (_ =? _)%Z = false |- _ => apply Z.eqb_neq in H
  | H : (_ =? _)%string = true |- _ => apply String.eqb_eq in H
  | H : (_ =? _)%string = false |- _ => apply String.eqb_neq in H
  end.

(** [gw_cases] splits on the first [if] or [match] scrutinee of the goal,
    remembering the equation, and normalises the boolean facts. *)
Ltac gw_cases :=
  repeat (case_match; simplify_eq/=; gw_bool); try done.

(** ** Machine integers

    Go's [uint32] counters wrap around; they are kept as [Z] with the
    wrap-around written out. *)

Definition uint32_max : Z := 4294967295.

Definition wrap32 (z : Z) : Z := z mod 4294967296.

Definition is_uint32 (z : Z) : Prop := (0 <= z <= uint32_max)%Z.

Lemma wrap32_range z : is_uint32 (wrap32 z).
Proof. unfold is_uint32, wrap32, uint32_max. pose proof (Z.mod_pos_bound z 4294967296). lia. Qed.

Lemma wrap32_small z : is_uint32 z -> wrap32 z = z.
Proof. unfold is_uint32, wrap32, uint32_max. intros. apply Z.mod_small. lia. Qed.

Lemma wrap32_succ_small z : (0 <= z < uint32_max)%Z -> wrap32 (z + 1) = (z + 1)%Z.
Proof. intros. apply wrap32_small. unfold is_uint32. lia. Qed.

Lemma wrap32_succ_max : wrap32 (uint32_max + 1) = 0%Z.
Proof. reflexivity. Qed.

#[export] Hint Resolve wrap32_range : gw.
#[export] Hint Rewrite wrap32_small using (unfold is_uint32, uint32_max in *; lia) : gw_rw.

(** ** Clock

    A [time.Time] is the number of nanoseconds since the epoch and a
    [time.Duration] a number of nanoseconds, both as [Z].  [Unix] is
    [Time.Unix()]: whole seconds, rounded down. *)

Definition Time := Z.
Definition Duration := Z.

Definition Second : Duration := 1000000000.

Definition Unix (t : Time) : Z := (t / Second)%Z.

Lemma Unix_mono t1 t2 : (t1 <= t2)%Z -> (Unix t1 <= Unix t2)%Z.
Proof. intros. unfold Unix, Second. apply Z.div_le_mono; lia. Qed.

Lemma Unix_add_second t : Unix (t + Second) = (Unix t + 1)%Z.
Proof.
  unfold Unix, Second.
  replace (t + 1000000000)%Z with (t + 1 * 1000000000)%Z by lia.
  rewrite Z.div_add by lia. reflexivity.
Qed.

(** Go's integer division on [int64] truncates toward zero and panics on a
    zero divisor: [None] is the panic. *)
Definition go_div (a b : Z) : option Z :=
  if (b =? 0)%Z then None else Some (Z.quot a b).

Lemma go_div_Some a b q : go_div a b = Some q <-> b <> 0%Z /\ q = Z.quot a b.
Proof. unfold go_div. destruct (Z.eqb_spec b 0); split; intros; destruct_and?; simplify_eq; done. Qed.

Lemma go_div_None a b : go_div a b = None <-> b = 0%Z.
Proof. unfold go_div. destruct (Z.eqb_spec b 0); split; intros; simplify_eq; done. Qed.

(** ** Rationals for [float64]

    Token counts are [float64] in the source; they are modelled as exact
    rationals, so rounding is not modelled. *)

Definition Qltb (a b : Q) : bool := negb (Qle_bool b a).

Lemma Qltb_lt a b : Qltb a b = true <-> (a < b)%Q.
Proof.
  unfold Qltb. rewrite negb_true_iff. split; intros H.
  - apply Qnot_le_lt. intros Hle. apply Qle_bool_iff in Hle. congruence.
  - apply not_true_is_false. intros Hle%Qle_bool_iff. lra.
Qed.

Lemma Qltb_ge a b : Qltb a b = false <-> (b <= a)%Q.
Proof.
  unfold Qltb. rewrite negb_false_iff. apply Qle_bool_iff.
Qed.

Lemma Qle_bool_false a b : Qle_bool a b = false <-> (b < a)%Q.
Proof.
  split; intros H.
  - apply Qnot_le_lt. intros Hle%Qle_bool_iff. congruence.
  - apply not_true_is_false. intros Hle%Qle_bool_iff. lra.
Qed.

(** [int(x)] on a [float64]: truncation toward zero. *)
Definition Qtrunc (q : Q) : Z :=
  if Qle_bool 0 q then Qfloor q else Qceiling q.

Lemma Qtrunc_nonneg q : (0 <= q)%Q -> (0 <= Qtrunc q)%Z.
Proof.
  intros H. unfold Qtrunc. rewrite (proj2 (Qle_bool_iff 0 q) H).
  change 0%Z with (Qfloor 0). apply Qfloor_resp_le, H.
Qed.

Lemma Qtrunc_le q : (0 <= q)%Q -> (inject_Z (Qtrunc q) <= q)%Q.
Proof.
  intros H. unfold Qtrunc. rewrite (proj2 (Qle_bool_iff 0 q) H). apply Qfloor_le.
Qed.

Lemma Qtrunc_inject_Z z : Qtrunc (inject_Z z) = z.
Proof.
  unfold Qtrunc. destruct (Qle_bool 0 (inject_Z z)).
  - apply Qfloor_Z.
  - apply Qceiling_Z.
Qed.

Ltac gw_qbool :=
  repeat match goal with
  | H : Qltb _ _ = true |- _ => apply Qltb_lt in H
  | H : Qltb _ _ = false |- _ => apply Qltb_ge in H
  | H : Qle_bool _ _ = true |- _ => apply Qle_bool_iff in H
  | H : Qle_bool _ _ = false |- _ => apply Qle_bool_false in H
  end.

Notation "a <?q b" := (Qltb a b) (at level 70, no associativity) : gw_scope.
Notation "a <=?q b" := (Qle_bool a b) (at level 70, no associativity) : gw_scope.

(** ** Go's [strings] package on byte strings

    Header names, methods and paths are ASCII; case folding is modelled on
    ASCII letters only. *)

Definition lower_ascii (c : ascii) : ascii :=
  let n := N_of_ascii c in
  if ((65 <=? n) && (n <=? 90))%N then ascii_of_N (n + 32) else c.

Definition upper_ascii (c : ascii) : ascii :=
  let n := N_of_ascii c in
  if ((97 <=? n) && (n <=? 122))%N then ascii_of_N (n - 32) else c.

Fixpoint map_string (f : ascii -> ascii) (s : string) : string :=
  match s with
  | EmptyString => EmptyString
  | String c s' => String (f c) (map_string f s')
  end.

Definition ToLower : string -> string := map_string lower_ascii.
Definition ToUpper : string -> string := map_string upper_ascii.

Definition EqualFold (s t : string) : bool := String.eqb (ToLower s) (ToLower t).

Definition HasPrefix (s p : string) : bool := String.prefix p s.

Fixpoint drop_string (n : nat) (s : string) : string :=
  match n, s with
  | O, _ => s
  | S n', String _ s' => drop_string n' s'
  | S _, EmptyString => EmptyString
  end.

Definition TrimPrefix (s p : string) : string :=
  if HasPrefix s p then drop_string (String.length p) s else s.

Definition HasSuffix (s p : string) : bool :=
  HasPrefix (String.rev s) (String.rev p).

(** [strings.Join]. *)
Fixpoint Join (l : list string) (sep : string) : string :=
  match l with
  | [] => ""
  | [s] => s
  | s :: l' => s +:+ sep +:+ Join l' sep
  end.

(** [strings.Split] for a one-byte separator (the gateway splits on "." and
    ","): the pieces between separators, at least one piece. *)
Fixpoint split_go (sep : ascii) (cur : string) (s : string) : list string :=
  match s with
  | EmptyString => [String.rev cur]
  | String c s' =>
      if Ascii.eqb c sep then String.rev cur :: split_go sep EmptyString s'
      else split_go sep (String c cur) s'
  end.

Definition Split (s : string) (sep : ascii) : list string := split_go sep EmptyString s.

(** *** Lemmas on case folding *)

Lemma ascii_forall (P : ascii -> bool) :
  forallb P (List.map ascii_of_nat (seq 0 256)) = true -> forall c, P c = true.
Proof.
  intros H c. rewrite forallb_forall in H. apply H, in_map_iff.
  exists (nat_of_ascii c). split; [apply ascii_nat_embedding|].
  apply in_seq. pose proof (nat_ascii_bounded c). lia.
Qed.

(** [ascii_cases c] proves an equation between computable functions of the
    byte [c] by running both sides on the 256 bytes. *)
Ltac ascii_cases c :=
  revert c;
  match goal with
  | |- forall c, @?f c = @?g c =>
      let H := fresh in
      intros c;
      pose proof (ascii_forall (fun c => bool_decide (f c = g c))) as H;
      specialize (H ltac:(vm_compute; reflexivity) c); simpl in H;
      exact (bool_decide_eq_true_1 _ H)
  end.

Lemma lower_ascii_idem c : lower_ascii (lower_ascii c) = lower_ascii c.
Proof. ascii_cases c. Qed.

Lemma upper_ascii_idem c : upper_ascii (upper_ascii c) = upper_ascii c.
Proof. ascii_cases c. Qed.

Lemma lower_upper_ascii c : lower_ascii (upper_ascii c) = lower_ascii c.
Proof. ascii_cases c. Qed.

Lemma upper_lower_ascii c : upper_ascii (lower_ascii c) = upper_ascii c.
Proof. ascii_cases c. Qed.

Lemma upper_ascii_hyphen c : Ascii.eqb (upper_ascii c) "-" = Ascii.eqb c "-".
Proof. ascii_cases c. Qed.

Lemma lower_ascii_hyphen c : Ascii.eqb (lower_ascii c) "-" = Ascii.eqb c "-".
Proof. ascii_cases c. Qed.

Lemma map_string_compose f g s : map_string f (map_string g s) = map_string (fun c => f (g c)) s.
Proof. induction s; simpl; congruence. Qed.

Lemma map_string_ext f g s : (forall c, f c = g c) -> map_string f s = map_string g s.
Proof. intros H. induction s; simpl; congruence. Qed.

Lemma map_string_length f s : String.length (map_string f s) = String.length s.
Proof. induction s; simpl; congruence. Qed.

Lemma ToLower_ToUpper s : ToLower (ToUpper s) = ToLower s.
Proof. unfold ToLower, ToUpper. rewrite map_string_compose. apply map_string_ext, lower_upper_ascii. Qed.

Lemma ToUpper_ToLower s : ToUpper (ToLower s) = ToUpper s.
Proof. unfold ToLower, ToUpper. rewrite map_string_compose. apply map_string_ext, upper_lower_ascii. Qed.

Lemma ToUpper_idem s : ToUpper (ToUpper s) = ToUpper s.
Proof. unfold ToUpper. rewrite map_string_compose. apply map_string_ext, upper_ascii_idem. Qed.

(** [EqualFold] is the kernel of [ToUpper] (and of [ToLower]). *)
Lemma EqualFold_ToUpper s t : EqualFold s t = true <-> ToUpper s = ToUpper t.
Proof.
  unfold EqualFold. rewrite String.eqb_eq. split; intros H.
  - rewrite <- (ToUpper_ToLower s), <- (ToUpper_ToLower t). congruence.
  - rewrite <- (ToLower_ToUpper s), <- (ToLower_ToUpper t). congruence.
Qed.

Lemma EqualFold_refl s : EqualFold s s = true.
Proof. apply String.eqb_refl. Qed.

Lemma EqualFold_sym s t : EqualFold s t = EqualFold t s.
Proof. apply String.eqb_sym. Qed.

Lemma EqualFold_trans s t u :
  EqualFold s t = true -> EqualFold t u = true -> EqualFold s u = true.
Proof. unfold EqualFold. rewrite !String.eqb_eq. congruence. Qed.

Lemma EqualFold_eq s t : s = t -> EqualFold s t = true.
Proof. intros ->. apply EqualFold_refl. Qed.

(** Strings equal up to ASCII case, as a relation. *)
Definition fold_equiv (s t : string) : Prop := EqualFold s t = true.

#[export] Instance fold_equiv_equivalence : Equivalence fold_equiv.
Proof.
  split.
  - intros s. apply EqualFold_refl.
  - intros s t H. unfold fold_equiv. rewrite EqualFold_sym. exact H.
  - intros s t u. apply EqualFold_trans.
Qed.

#[export] Instance fold_equiv_dec s t : Decision (fold_equiv s t).
Proof. unfold fold_equiv. apply _. Defined.

#[export] Instance ToUpper_proper : Proper (fold_equiv ==> eq) ToUpper.
Proof. intros s t H. apply EqualFold_ToUpper, H. Qed.

#[export] Instance EqualFold_proper : Proper (fold_equiv ==> fold_equiv ==> eq) EqualFold.
Proof.
  intros s s' Hs t t' Ht. unfold fold_equiv, EqualFold in *.
  apply String.eqb_eq in Hs, Ht. congruence.
Qed.

(** *** Lemmas on prefixes *)

Lemma string_app_nil_l s : "" +:+ s = s.
Proof. reflexivity. Qed.

Lemma string_app_cons c s t : String c s +:+ t = String c (s +:+ t).
Proof. reflexivity. Qed.

#[export] Hint Rewrite string_app_nil_l string_app_cons : gw_rw.

(** [string_induction] is induction on a string with appends pushed inward. *)
Ltac string_induction s :=
  induction s; rewrite ?string_app_nil_l, ?string_app_cons; simpl.

Lemma HasPrefix_nil s : HasPrefix s "" = true.
Proof. destruct s; reflexivity. Qed.

Lemma HasPrefix_cons c s d p :
  HasPrefix (String c s) (String d p) = (if ascii_dec d c then HasPrefix s p else false).
Proof. reflexivity. Qed.

Lemma HasPrefix_app p s : HasPrefix (p +:+ s) p = true.
Proof.
  induction p as [|c p IH]; [apply HasPrefix_nil|].
  change (HasPrefix (String c (p +:+ s)) (String c p) = true).
  rewrite HasPrefix_cons. destruct (ascii_dec c c); [apply IH | done].
Qed.

Lemma HasPrefix_refl s : HasPrefix s s = true.
Proof.
  induction s as [|c s IH]; [reflexivity|].
  rewrite HasPrefix_cons. destruct (ascii_dec c c); [apply IH | done].
Qed.

(** A prefix test succeeds exactly when the string splits at the prefix. *)
Lemma HasPrefix_spec s p : HasPrefix s p = true <-> exists r, s = p +:+ r.
Proof.
  split.
  - revert s. induction p as [|d p IH]; intros s H; [by exists s|].
    destruct s as [|c s]; [discriminate|].
    rewrite HasPrefix_cons in H. destruct (ascii_dec d c) as [->|]; [|discriminate].
    destruct (IH s H) as [r ->]. by exists r.
  - intros [r ->]. apply HasPrefix_app.
Qed.

Lemma drop_string_app p s : drop_string (String.length p) (p +:+ s) = s.
Proof. string_induction p; auto. Qed.

Lemma TrimPrefix_app p s : TrimPrefix (p +:+ s) p = s.
Proof. unfold TrimPrefix. rewrite HasPrefix_app. apply drop_string_app. Qed.

Lemma TrimPrefix_no_prefix s p : HasPrefix s p = false -> TrimPrefix s p = s.
Proof. unfold TrimPrefix. by intros ->. Qed.

Lemma TrimPrefix_self s : TrimPrefix s s = "".
Proof.
  unfold TrimPrefix. rewrite HasPrefix_refl.
  induction s; simpl; auto.
Qed.

Lemma TrimPrefix_nil s : TrimPrefix s "" = s.
Proof. unfold TrimPrefix. rewrite HasPrefix_nil. reflexivity. Qed.

(** What [TrimPrefix] removed can be put back. *)
Lemma TrimPrefix_restore s p : HasPrefix s p = true -> p +:+ TrimPrefix s p = s.
Proof. intros [r ->]%HasPrefix_spec. by rewrite TrimPrefix_app. Qed.

Lemma string_app_nil_r s : s +:+ "" = s.
Proof. string_induction s; congruence. Qed.

Lemma string_app_assoc s t u : (s +:+ t) +:+ u = s +:+ (t +:+ u).
Proof. string_induction s; congruence. Qed.

Lemma string_app_inv_head p s t : p +:+ s = p +:+ t -> s = t.
Proof. string_induction p; intros H; [done|]. injection H. auto. Qed.

Lemma HasPrefix_trans s p q : HasPrefix s p = true -> HasPrefix p q = true -> HasPrefix s q = true.
Proof.
  intros [r ->]%HasPrefix_spec [r' ->]%HasPrefix_spec.
  rewrite string_app_assoc. apply HasPrefix_app.
Qed.

#[export] Hint Resolve HasPrefix_nil HasPrefix_app HasPrefix_refl EqualFold_refl : gw.
#[export] Hint Rewrite TrimPrefix_app TrimPrefix_self TrimPrefix_nil string_app_nil_r : gw_rw.

(** ** More on rationals *)

Lemma inject_Z_nonneg (z : Z) : 0 <= z -> (0 <= inject_Z z)%Q.
Proof. intros. unfold Qle; simpl. lia. Qed.

Lemma inject_Z_pos (z : Z) : 1 <= z -> (1 <= inject_Z z)%Q.
Proof. intros. unfold Qle; simpl. lia. Qed.

Lemma inject_Z_sub (x y : Z) : (inject_Z (x - y)%Z == inject_Z x - inject_Z y)%Q.
Proof. unfold Z.sub. rewrite inject_Z_plus, inject_Z_opp. ring. Qed.

(** An integer is a reduced fraction. *)
Lemma Qred_inject_Z (z : Z) : Qred (inject_Z z) = inject_Z z.
Proof.
  unfold Qred, inject_Z. pose proof (Z.ggcd_gcd z 1) as Hg.
  pose proof (Z.ggcd_correct_divisors z 1) as Hd.
  destruct (Z.ggcd z 1) as [g [x y]]. simpl in *. rewrite Z.gcd_1_r in Hg. subst g.
  destruct Hd as [Hx Hy]. assert (x = z) as -> by lia. by assert (y = 1) as -> by lia.
Qed.

Lemma Qtrunc_comp (x y : Q) : (x == y)%Q -> Qtrunc x = Qtrunc y.
Proof.
  intros H. unfold Qtrunc.
  by rewrite (Qfloor_comp _ _ H), (Qceiling_comp _ _ H), (Qleb_comp 0%Q 0%Q (Qeq_refl 0%Q) _ _ H).
Qed.

Lemma Qfloor_unique (n : Z) (x : Q) :
  (inject_Z n <= x)%Q -> (x < inject_Z (n + 1))%Q -> Qfloor x = n.
Proof.
  intros Hle Hlt. pose proof (Qfloor_le x) as H1. pose proof (Qlt_floor x) as H2.
  assert (inject_Z n < inject_Z (Qfloor x + 1))%Q as H3 by lra.
  assert (inject_Z (Qfloor x) < inject_Z (n + 1))%Q as H4 by lra.
  rewrite <- Zlt_Qlt in H3, H4. lia.
Qed.

(** ** Printing integers *)

(** [strconv.Itoa], and [fmt.Sprintf] with the verb d. *)
Definition itoa (n : Z) : string := pretty n.

(** ** Options and association lists *)

Definition is_none {A} (o : option A) : bool :=
  match o with None => true | Some _ => false end.

Lemma is_none_true {A} (o : option A) : is_none o = true <-> o = None.
Proof. destruct o; split; intros; simplify_eq/=; done. Qed.
