(* ===== verification/Config.v ===== *)
(** * Configuration data: routes document and policy parameters

    The structs of package [config] (routes.go and config.go, carried in
    src/Dockerfile after its first 54 lines): [Route] with its optional
    policy overrides, the default route table [DefaultRoutes], and the
    parameter records of the circuit breaker, the rate limiter and the
    upstream services.  Each struct is a [Record] in a module of its name, so
    that [Route.Path r] reads as the source's [route.Path]; Go's [int] and
    [uint32] fields are [Z], [time.Duration] is [Z] nanoseconds, a nil
    pointer is [None].  The struct [Config] itself is the record
    [Configuration.t], since the file already bears the name; [Load], which
    fills it from the environment, is in [Environment]. *)

From stdpp Require Import base strings list.
From Stdlib Require Import ZArith QArith.
From S2P Require Import Prelude.

#[local] Open Scope string_scope.
#[local] Open Scope Z_scope.

Module RouteLimit.
Record t := mk { RequestsPerSec : Z; BurstSize : Z }.
End RouteLimit.
Abbreviation RouteLimit := RouteLimit.t.

Module RetryConfig.
Record t := mk { MaxAttempts : Z; WaitTime : string }.
End RetryConfig.
Abbreviation RetryConfig := RetryConfig.t.

Module CacheConfig.
Record t := mk { Enabled : bool; TTL : string; Methods : list string }.
End CacheConfig.
Abbreviation CacheConfig := CacheConfig.t.

Module Route.
Record t := mk {
  Path : string;
  Service : string;
  StripPrefix : bool;
  Methods : list string;
  Public : bool;
  RateLimit : option RouteLimit;
  Timeout : string;
  CircuitBreaker : bool;
  Retry : option RetryConfig;
  Cache : option CacheConfig;
}.
End Route.
Abbreviation Route := Route.t.

Module RouteConfig.
Record t := mk { Routes : list Route }.
End RouteConfig.
Abbreviation RouteConfig := RouteConfig.t.

Module ServiceConfig.
Record t := mk {
  URL : string;
  Timeout : Duration;
  MaxIdleConns : Z;
  MaxConnsPerHost : Z;
  HealthPath : string;
}.
End ServiceConfig.
Abbreviation ServiceConfig := ServiceConfig.t.

Module ServicesConfig.
Record t := mk { Auth : ServiceConfig; Notifier : ServiceConfig }.
End ServicesConfig.
Abbreviation ServicesConfig := ServicesConfig.t.

Module RateLimitConfig.
Record t := mk {
  Enabled : bool;
  RequestsPerSec : Z;
  BurstSize : Z;
  CleanupInterval : Duration;
}.
End RateLimitConfig.
Abbreviation RateLimitConfig := RateLimitConfig.t.

Module CircuitConfig.
Record t := mk {
  Enabled : bool;
  MaxRequests : Z;
  Interval : Duration;
  Timeout : Duration;
  FailureThreshold : Z;
}.
End CircuitConfig.
Abbreviation CircuitConfig := CircuitConfig.t.

Module LoggingConfig.
Record t := mk { Level : string; Format : string }.
End LoggingConfig.
Abbreviation LoggingConfig := LoggingConfig.t.

Module ServerConfig.
Record t := mk {
  Port : string;
  Host : string;
  ReadTimeout : Duration;
  WriteTimeout : Duration;
  IdleTimeout : Duration;
  ShutdownTimeout : Duration;
  TrustedProxies : list string;
}.
End ServerConfig.
Abbreviation ServerConfig := ServerConfig.t.

Module RedisConfig.
Record t := mk { Host : string; Port : string; Password : string; DB : Z }.
End RedisConfig.
Abbreviation RedisConfig := RedisConfig.t.

Module JWTConfig.
Record t := mk { Secret : string; AccessExpiresIn : Duration; RefreshExpiresIn : Duration }.
End JWTConfig.
Abbreviation JWTConfig := JWTConfig.t.

Module TracingConfig.
Record t := mk { Enabled : bool; ServiceName : string; Endpoint : string; SampleRate : Q }.
End TracingConfig.
Abbreviation TracingConfig := TracingConfig.t.

(** The whole configuration, [config.Config]. *)
Module Configuration.
Record t := mk {
  Server : ServerConfig;
  Services : ServicesConfig;
  Redis : RedisConfig;
  JWT : JWTConfig;
  RateLimit : RateLimitConfig;
  Circuit : CircuitConfig;
  Tracing : TracingConfig;
  Logging : LoggingConfig;
}.
End Configuration.
Abbreviation Configuration := Configuration.t.

#[export] Instance RouteLimit_eq_dec : EqDecision RouteLimit.
Proof. solve_decision. Defined.
#[export] Instance RetryConfig_eq_dec : EqDecision RetryConfig.
Proof. solve_decision. Defined.
#[export] Instance CacheConfig_eq_dec : EqDecision CacheConfig.
Proof. solve_decision. Defined.
#[export] Instance Route_eq_dec : EqDecision Route.
Proof. solve_decision. Defined.

(** ** The default route table *)

(** A route literal of [DefaultRoutes]: the fields a literal leaves out are
    Go's zero values. *)
Definition route_lit (path service : string) (methods : list string)
    (public cb : bool) (rl : option RouteLimit) : Route :=
  Route.mk path service false methods public rl "" cb None None.

Definition DefaultRoutes : RouteConfig :=
  RouteConfig.mk [
    route_lit "/api/v1/auth" "auth" ["GET"; "POST"; "PUT"; "DELETE"; "PATCH"] false true None;
    route_lit "/api/v1/auth/login" "auth" ["POST"] true true (Some (RouteLimit.mk 10 20));
    route_lit "/api/v1/auth/register" "auth" ["POST"] true true (Some (RouteLimit.mk 5 10));
    route_lit "/api/v1/auth/refresh" "auth" ["POST"] true true None;
    route_lit "/api/v1/auth/verify-email" "auth" ["POST"; "GET"] true true None;
    route_lit "/api/v1/auth/forgot-password" "auth" ["POST"] true true (Some (RouteLimit.mk 3 5));
    route_lit "/api/v1/auth/reset-password" "auth" ["POST"] true true None;
    route_lit "/api/v1/users" "auth" ["GET"; "POST"; "PUT"; "DELETE"; "PATCH"] false true None;
    route_lit "/api/v1/roles" "auth" ["GET"; "POST"; "PUT"; "DELETE"] false true None;
    route_lit "/api/v1/permissions" "auth" ["GET"; "POST"; "PUT"; "DELETE"] false true None;
    route_lit "/api/v1/admin" "auth" ["GET"; "POST"; "PUT"; "DELETE"; "PATCH"] false true None;
    route_lit "/api/v1/notifications" "notifier" ["GET"; "POST"; "PUT"; "DELETE"] false true None;
    route_lit "/api/v1/templates" "notifier" ["GET"; "POST"; "PUT"; "DELETE"] false true None;
    route_lit "/api/v1/preferences" "notifier" ["GET"; "POST"; "PUT"; "DELETE"] false true None;
    route_lit "/health" "gateway" ["GET"] true false None;
    route_lit "/ready" "gateway" ["GET"] true false None;
    route_lit "/metrics" "gateway" ["GET"] true false None
  ].

(** ** Defaults of [Load] when the environment sets nothing *)

Definition default_RateLimit : RateLimitConfig :=
  RateLimitConfig.mk true 100 200 (60 * Second).

Definition default_Circuit : CircuitConfig :=
  CircuitConfig.mk true 5 (60 * Second) (30 * Second) 5.

Definition default_Services : ServicesConfig :=
  ServicesConfig.mk
    (ServiceConfig.mk "http://localhost:5000" (30 * Second) 100 100 "/api/health")
    (ServiceConfig.mk "http://localhost:5001" (30 * Second) 100 100 "/api/health").

(** ** Well-formedness of a route table (invariant I2 of the design) *)

(** The names a route may forward to: the two upstreams the registry
    creates, or the reserved name of the gateway's own endpoints. *)
Definition known_service (s : string) : bool :=
  bool_decide (s = "auth") || bool_decide (s = "notifier") || bool_decide (s = "gateway").

Definition routes_wf (rc : RouteConfig) : bool :=
  forallb (fun r => known_service (Route.Service r)) (RouteConfig.Routes rc).

Lemma DefaultRoutes_wf : routes_wf DefaultRoutes = true.
Proof. reflexivity. Qed.

Lemma routes_wf_In rc r :
  routes_wf rc = true -> In r (RouteConfig.Routes rc) -> known_service (Route.Service r) = true.
Proof. unfold routes_wf. rewrite forallb_forall. auto. Qed.

(** Gateway-internal routes of the default table carry no breaker flag and
    are public. *)
Lemma DefaultRoutes_gateway_public r :
  In r (RouteConfig.Routes DefaultRoutes) -> Route.Service r = "gateway" ->
  Route.Public r = true /\ Route.CircuitBreaker r = false.
Proof.
  intros Hin Hs. simpl in Hin.
  repeat (destruct Hin as [<- | Hin]; [try discriminate Hs; auto|]). destruct Hin.
Qed.
