(* ===== verification/Context.v ===== *)
(** * The per-request context and the handler chain

    What the handlers of the gateway share: HTTP headers with canonical keys,
    the request, the response under construction, the typed bag of
    per-request values (the [c.Locals] keys of the source, as the record the
    design notes ask for), the errors a handler returns, and the chain of
    middleware.  A handler is a function of the context and of the process
    state (the "world"); [c.Next()] is the handler's continuation, passed as
    an argument, so that a stage runs code before and after the rest of the
    chain exactly as the source does.  A component reaches its own part of
    the world through a lens ([Lens]), the interface between a component and
    the pipeline that assembles the world. *)

From stdpp Require Import base strings list gmap.
From Stdlib Require Import ZArith Ascii.
From S2P Require Import Prelude Config.

#[local] Open Scope string_scope.
#[local] Open Scope Z_scope.

(** ** Headers *)

(** [http.CanonicalHeaderKey]: the first letter and every letter after a
    hyphen in upper case, the others in lower case. *)
Fixpoint canon_go (upper : bool) (s : string) : string :=
  match s with
  | EmptyString => EmptyString
  | String c s' =>
      String (if upper then upper_ascii c else lower_ascii c)
             (canon_go (Ascii.eqb c "-"%char) s')
  end.

Definition CanonicalHeaderKey (s : string) : string := canon_go true s.

(** Header tables are keyed by canonical names, as fasthttp normalises the
    names it parses and the names it is given. *)
Abbreviation Headers := (gmap string string).

Definition hget (h : Headers) (k : string) : string :=
  default "" (h !! CanonicalHeaderKey k).

Definition hset (h : Headers) (k v : string) : Headers :=
  <[CanonicalHeaderKey k := v]> h.

Definition hdel (h : Headers) (k : string) : Headers :=
  delete (CanonicalHeaderKey k) h.

(** ** Bodies *)

Inductive JSON :=
| JString (s : string)
| JInt (z : Z)
| JBool (b : bool)
| JObject (fields : list (string * JSON)).

Inductive Body :=
| Raw (bytes : string)
| Json (j : JSON).

(** ** Request, response, claims, locals *)

Module Request.
Record t := mk {
  Method : string;
  Path : string;
  QueryString : string;
  Host : string;
  Protocol : string;
  IP : string;
  Header : Headers;
  Body : string;
}.
Definition with_Header (h : Headers) (r : t) : t :=
  mk (Method r) (Path r) (QueryString r) (Host r) (Protocol r) (IP r) h (Body r).
End Request.
Abbreviation Request := Request.t.

Module Response.
Record t := mk {
  StatusCode : Z;
  Header : Headers;
  Body : Body;
}.
Definition empty : t := mk 200 ∅ (Raw "").
End Response.
Abbreviation Response := Response.t.

Module Claims.
Record t := mk {
  UserID : string;
  TenantID : string;
  Email : string;
  Roles : list string;
  ExpiresAt : option Time;
}.
End Claims.
Abbreviation Claims := Claims.t.

(** The keys the source stores with [c.Locals(key, value)]; [None] is a key
    that was never set ([c.Locals(key)] is nil). *)
Module Locals.
Record t := mk {
  request_id : option string;
  user_id : option string;
  tenant_id : option string;
  user : option Claims;
  route : option Route;
  isPublic : option bool;
  service : option string;
  span : option string;
}.
Definition empty : t := mk None None None None None None None None.
Definition set_request_id v (l : t) :=
  mk (Some v) (user_id l) (tenant_id l) (user l) (route l) (isPublic l) (service l) (span l).
Definition set_user_id v (l : t) :=
  mk (request_id l) (Some v) (tenant_id l) (user l) (route l) (isPublic l) (service l) (span l).
Definition set_tenant_id v (l : t) :=
  mk (request_id l) (user_id l) (Some v) (user l) (route l) (isPublic l) (service l) (span l).
Definition set_user v (l : t) :=
  mk (request_id l) (user_id l) (tenant_id l) (Some v) (route l) (isPublic l) (service l) (span l).
Definition set_route v (l : t) :=
  mk (request_id l) (user_id l) (tenant_id l) (user l) (Some v) (isPublic l) (service l) (span l).
Definition set_isPublic v (l : t) :=
  mk (request_id l) (user_id l) (tenant_id l) (user l) (route l) (Some v) (service l) (span l).
Definition set_service v (l : t) :=
  mk (request_id l) (user_id l) (tenant_id l) (user l) (route l) (isPublic l) (Some v) (span l).
Definition set_span v (l : t) :=
  mk (request_id l) (user_id l) (tenant_id l) (user l) (route l) (isPublic l) (service l) (Some v).
End Locals.
Abbreviation Locals := Locals.t.

(** ** The fiber context *)

Module Ctx.
Record t := mk {
  request : Request;
  response : Response;
  locals : Locals;
}.

Definition new (r : Request) : t := mk r Response.empty Locals.empty.

Definition with_request (r : Request) (c : t) : t := mk r (response c) (locals c).
Definition with_response (r : Response) (c : t) : t := mk (request c) r (locals c).
Definition with_locals (l : Locals) (c : t) : t := mk (request c) (response c) l.

(** [c.Get(key)]: a request header, the empty string when absent. *)
Definition Get (c : t) (k : string) : string := hget (Request.Header (request c)) k.

(** [c.Set(key, val)]: sets a response header. *)
Definition SetHeader (k v : string) (c : t) : t :=
  with_response (Response.mk (Response.StatusCode (response c))
                             (hset (Response.Header (response c)) k v)
                             (Response.Body (response c))) c.

(** [c.GetRespHeader(key)]. *)
Definition GetRespHeader (c : t) (k : string) : string := hget (Response.Header (response c)) k.

(** [c.Request().Header.Set(key, val)] and [Del]. *)
Definition SetReqHeader (k v : string) (c : t) : t :=
  with_request (Request.with_Header (hset (Request.Header (request c)) k v) (request c)) c.

Definition DelReqHeader (k : string) (c : t) : t :=
  with_request (Request.with_Header (hdel (Request.Header (request c)) k) (request c)) c.

(** [c.Status(code)]. *)
Definition Status (code : Z) (c : t) : t :=
  with_response (Response.mk code (Response.Header (response c)) (Response.Body (response c))) c.

(** [c.JSON(v)]: the body and its content type. *)
Definition JSON (fields : list (string * JSON)) (c : t) : t :=
  with_response (Response.mk (Response.StatusCode (response c))
                             (hset (Response.Header (response c)) "Content-Type" "application/json")
                             (Json (JObject fields))) c.

(** [c.Send(body)]. *)
Definition Send (b : string) (c : t) : t :=
  with_response (Response.mk (Response.StatusCode (response c))
                             (Response.Header (response c)) (Raw b)) c.

(** [utils.StatusMessage] for the codes the gateway answers. *)
Definition StatusMessage (code : Z) : string :=
  if code =? 200 then "OK" else if code =? 204 then "No Content"
  else if code =? 400 then "Bad Request" else if code =? 401 then "Unauthorized"
  else if code =? 403 then "Forbidden" else if code =? 404 then "Not Found"
  else if code =? 415 then "Unsupported Media Type"
  else if code =? 429 then "Too Many Requests"
  else if code =? 500 then "Internal Server Error" else if code =? 502 then "Bad Gateway"
  else if code =? 503 then "Service Unavailable" else if code =? 504 then "Gateway Timeout"
  else "".

(** [c.SendStatus(code)]: the status, and its message as the body when the
    response has no body yet. *)
Definition SendStatus (code : Z) (c : t) : t :=
  let c' := Status code c in
  match Response.Body (response c') with
  | Raw "" => Send (StatusMessage code) c'
  | _ => c'
  end.

(** [c.Hostname()]: the host of the request, which the server keeps in
    lower case. *)
Definition Hostname (c : t) : string := ToLower (Request.Host (request c)).

(** [c.Body()]. *)
Definition Body (c : t) : string := Request.Body (request c).

Definition StatusCode (c : t) : Z := Response.StatusCode (response c).
Definition Path (c : t) : string := Request.Path (request c).
Definition Method (c : t) : string := Request.Method (request c).
Definition IP (c : t) : string := Request.IP (request c).

Definition map_locals (f : Locals -> Locals) (c : t) : t := with_locals (f (locals c)) c.
End Ctx.
Abbreviation Ctx := Ctx.t.

(** ** Errors, outcomes, handlers *)

(** The [error] values the gateway tells apart: a [*fiber.Error], the two
    sentinel errors of the breaker, any other error. *)
Inductive error :=
| FiberError (code : Z) (msg : string)
| ErrOpenState
| ErrTooManyRequests
| OtherError (msg : string).

#[export] Instance error_eq_dec : EqDecision error.
Proof. solve_decision. Defined.

(** A handler returns an [error] (or nil) or panics. *)
Inductive Outcome :=
| Return (e : option error)
| Panic (msg : string).

#[export] Instance Outcome_eq_dec : EqDecision Outcome.
Proof. solve_decision. Defined.

Section Handlers.
Context {W : Type}.

(** A handler: the context and the world before, the outcome and both
    after. *)
Definition Handler : Type := Ctx -> W -> Outcome * Ctx * W.

(** A middleware stage receives [c.Next] as an argument. *)
Definition Stage : Type := Handler -> Handler.

(** The stack [app.Use(m1); app.Use(m2); ...] around a final handler: the
    first registered stage is the outermost. *)
Definition chain (ms : list Stage) (final : Handler) : Handler :=
  foldr (fun m h => m h) final ms.

Lemma chain_nil final : chain [] final = final.
Proof. reflexivity. Qed.

Lemma chain_cons m ms final : chain (m :: ms) final = m (chain ms final).
Proof. reflexivity. Qed.

Lemma chain_app ms1 ms2 final : chain (ms1 ++ ms2) final = chain ms1 (chain ms2 final).
Proof. unfold chain. apply foldr_app. Qed.

(** A stage that only calls [c.Next()]. *)
Definition pass : Stage := fun next => next.

Lemma chain_pass ms final : chain (pass :: ms) final = chain ms final.
Proof. reflexivity. Qed.

End Handlers.

Arguments Handler W : clear implicits.
Arguments Stage W : clear implicits.

(** ** The world, seen from a component *)

(** A component owns a part [S] of the process state [W]. *)
Class Lens (W S : Type) := {
  view : W -> S;
  update : S -> W -> W;
  view_update : forall s w, view (update s w) = s;
  update_view : forall w, update (view w) w = w;
  update_update : forall s s' w, update s (update s' w) = update s w;
}.

(** The clock [time.Now()] reads. *)
Class Clock (W : Type) := {
  Now : W -> Time;
}.

(** Updating a component's state leaves the clock alone. *)
Class ClockFrame (W S : Type) `{Lens W S} `{Clock W} := {
  Now_update : forall (s : S) (w : W), Now (update s w) = Now w;
}.

#[export] Hint Rewrite @view_update @update_view @update_update : gw_rw.

(** ** Lemmas on headers *)

Lemma canon_go_idem b s : canon_go b (canon_go b s) = canon_go b s.
Proof.
  revert b. induction s as [|c s IH]; intros b; [done|]. simpl.
  destruct b; rewrite ?upper_ascii_idem, ?lower_ascii_idem, ?upper_ascii_hyphen,
    ?lower_ascii_hyphen, IH; done.
Qed.

Lemma CanonicalHeaderKey_idem k : CanonicalHeaderKey (CanonicalHeaderKey k) = CanonicalHeaderKey k.
Proof. apply canon_go_idem. Qed.

Lemma canon_go_fold b s t : ToLower s = ToLower t -> canon_go b s = canon_go b t.
Proof.
  revert b t. induction s as [|c s IH]; intros b [|d t] H; simplify_eq/=; [done|].
  assert (Hu : upper_ascii c = upper_ascii d).
  { rewrite <- (upper_lower_ascii c), <- (upper_lower_ascii d). congruence. }
  assert (Hh : Ascii.eqb c "-"%char = Ascii.eqb d "-"%char).
  { rewrite <- (lower_ascii_hyphen c), <- (lower_ascii_hyphen d). congruence. }
  rewrite Hh. f_equal; [by destruct b | by apply IH].
Qed.

(** Header names that differ only in case share a canonical key. *)
Lemma CanonicalHeaderKey_fold s t : EqualFold s t = true -> CanonicalHeaderKey s = CanonicalHeaderKey t.
Proof. unfold EqualFold. rewrite String.eqb_eq. apply canon_go_fold. Qed.

#[export] Instance CanonicalHeaderKey_proper : Proper (fold_equiv ==> eq) CanonicalHeaderKey.
Proof. intros s t. apply CanonicalHeaderKey_fold. Qed.

Lemma hget_hset h k v : hget (hset h k v) k = v.
Proof. unfold hget, hset. by rewrite lookup_insert_eq. Qed.

Lemma hget_hset_ne h k k' v :
  CanonicalHeaderKey k <> CanonicalHeaderKey k' -> hget (hset h k v) k' = hget h k'.
Proof. intros. unfold hget, hset. by rewrite lookup_insert_ne. Qed.

Lemma hget_hset_fold h k k' v : EqualFold k k' = true -> hget (hset h k v) k' = v.
Proof.
  intros Hf. unfold hget, hset. rewrite (CanonicalHeaderKey_fold _ _ Hf).
  by rewrite lookup_insert_eq.
Qed.

Lemma hget_hdel h k : hget (hdel h k) k = "".
Proof. unfold hget, hdel. by rewrite lookup_delete_eq. Qed.

Lemma hget_empty k : hget ∅ k = "".
Proof. unfold hget. by rewrite lookup_empty. Qed.

#[export] Hint Rewrite hget_hset hget_hdel hget_empty : gw_rw.

(** ** Lemmas on the context operations *)

Lemma GetRespHeader_SetHeader c k v : Ctx.GetRespHeader (Ctx.SetHeader k v c) k = v.
Proof. apply hget_hset. Qed.

Lemma StatusCode_Status c code : Ctx.StatusCode (Ctx.Status code c) = code.
Proof. reflexivity. Qed.

Lemma StatusCode_SetHeader c k v : Ctx.StatusCode (Ctx.SetHeader k v c) = Ctx.StatusCode c.
Proof. reflexivity. Qed.

Lemma StatusCode_JSON c f : Ctx.StatusCode (Ctx.JSON f c) = Ctx.StatusCode c.
Proof. reflexivity. Qed.

Lemma locals_Status c code : Ctx.locals (Ctx.Status code c) = Ctx.locals c.
Proof. reflexivity. Qed.

Lemma locals_JSON c f : Ctx.locals (Ctx.JSON f c) = Ctx.locals c.
Proof. reflexivity. Qed.

Lemma locals_SetHeader c k v : Ctx.locals (Ctx.SetHeader k v c) = Ctx.locals c.
Proof. reflexivity. Qed.

Lemma Get_SetReqHeader c k v : Ctx.Get (Ctx.SetReqHeader k v c) k = v.
Proof. apply hget_hset. Qed.

Lemma Get_SetReqHeader_ne c k k' v :
  CanonicalHeaderKey k <> CanonicalHeaderKey k' ->
  Ctx.Get (Ctx.SetReqHeader k v c) k' = Ctx.Get c k'.
Proof. apply hget_hset_ne. Qed.

Lemma Get_map_locals c f k : Ctx.Get (Ctx.map_locals f c) k = Ctx.Get c k.
Proof. reflexivity. Qed.

Lemma locals_SetReqHeader c k v : Ctx.locals (Ctx.SetReqHeader k v c) = Ctx.locals c.
Proof. reflexivity. Qed.

Lemma response_SetReqHeader c k v : Ctx.response (Ctx.SetReqHeader k v c) = Ctx.response c.
Proof. reflexivity. Qed.

Lemma GetRespHeader_SetHeader_ne c k k' v :
  CanonicalHeaderKey k <> CanonicalHeaderKey k' ->
  Ctx.GetRespHeader (Ctx.SetHeader k v c) k' = Ctx.GetRespHeader c k'.
Proof. apply hget_hset_ne. Qed.

Lemma GetRespHeader_Status c code k :
  Ctx.GetRespHeader (Ctx.Status code c) k = Ctx.GetRespHeader c k.
Proof. reflexivity. Qed.

Lemma GetRespHeader_JSON c f k :
  CanonicalHeaderKey "Content-Type" <> CanonicalHeaderKey k ->
  Ctx.GetRespHeader (Ctx.JSON f c) k = Ctx.GetRespHeader c k.
Proof. apply hget_hset_ne. Qed.

#[export] Hint Rewrite GetRespHeader_SetHeader StatusCode_Status StatusCode_SetHeader
  StatusCode_JSON locals_Status locals_JSON locals_SetHeader : gw_rw.

(** ** Invariants of handlers *)

(** A handler preserves a property of the world. *)
Definition preserves {W} (P : W -> Prop) (h : Handler W) : Prop :=
  forall c w, P w -> P (h c w).2.

Lemma preserves_chain {W} (P : W -> Prop) (ms : list (Stage W)) (final : Handler W) :
  Forall (fun m => forall h, preserves P h -> preserves P (m h)) ms ->
  preserves P final -> preserves P (chain ms final).
Proof. induction 1; simpl; auto. Qed.
