(* ===== verification/Breaker.v ===== *)
(** * The breaker object (the gobreaker library the gateway calls)

    circuit.go imports the breaker from a library that is not part of the
    repository's sources.  This file models that object in the library's
    shape (its three states, the five counters of a generation, the
    generation number and the expiry instant) with the behaviour the design
    describes in its section 4.4: the counters are cleared at each new
    generation, a closed breaker starts a new generation when its interval
    has run out, an open breaker becomes half-open when its timeout has run
    out, a half-open breaker admits [maxRequests] probes and closes after as
    many consecutive successes, and reopens on a failure.  Every operation
    takes the instant [now] that the library reads from the clock.

    The trip predicate [readyToTrip] is a field: the gateway supplies its
    own (see Circuit.v). *)

From stdpp Require Import base strings list.
From Stdlib Require Import ZArith Lia.
From S2P Require Import Prelude Context.

#[local] Open Scope string_scope.
#[local] Open Scope list_scope.
#[local] Open Scope Z_scope.

Inductive State := StateClosed | StateHalfOpen | StateOpen.

#[export] Instance State_eq_dec : EqDecision State.
Proof. solve_decision. Defined.

(** [State.String()]. *)
Definition State_String (s : State) : string :=
  match s with
  | StateClosed => "closed"
  | StateHalfOpen => "half-open"
  | StateOpen => "open"
  end.

Module Counts.
Record t := mk {
  Requests : Z;
  TotalSuccesses : Z;
  TotalFailures : Z;
  ConsecutiveSuccesses : Z;
  ConsecutiveFailures : Z;
}.

Definition zero : t := mk 0 0 0 0 0.

Definition onRequest (c : t) : t :=
  mk (wrap32 (Requests c + 1)) (TotalSuccesses c) (TotalFailures c)
     (ConsecutiveSuccesses c) (ConsecutiveFailures c).

Definition onSuccess (c : t) : t :=
  mk (Requests c) (wrap32 (TotalSuccesses c + 1)) (TotalFailures c)
     (wrap32 (ConsecutiveSuccesses c + 1)) 0.

Definition onFailure (c : t) : t :=
  mk (Requests c) (TotalSuccesses c) (wrap32 (TotalFailures c + 1))
     0 (wrap32 (ConsecutiveFailures c + 1)).

Definition clear (c : t) : t := zero.

(** All five counters are [uint32] values. *)
Definition wf (c : t) : Prop :=
  is_uint32 (Requests c) /\ is_uint32 (TotalSuccesses c) /\ is_uint32 (TotalFailures c) /\
  is_uint32 (ConsecutiveSuccesses c) /\ is_uint32 (ConsecutiveFailures c).
End Counts.
Abbreviation Counts := Counts.t.

#[export] Instance Counts_eq_dec : EqDecision Counts.
Proof. solve_decision. Defined.

Module Settings.
Record t := mk {
  Name : string;
  MaxRequests : Z;
  Interval : Duration;
  Timeout : Duration;
  ReadyToTrip : option (Counts -> bool);
}.
End Settings.
Abbreviation Settings := Settings.t.

Definition defaultInterval : Duration := 0.
Definition defaultTimeout : Duration := 60 * Second.

(** The library's own trip predicate, used when the settings give none. *)
Definition defaultReadyToTrip (c : Counts) : bool := 5 <? Counts.ConsecutiveFailures c.

Module CircuitBreaker.
Record t := mk {
  name : string;
  maxRequests : Z;
  interval : Duration;
  timeout : Duration;
  readyToTrip : Counts -> bool;
  state : State;
  generation : Z;
  counts : Counts;
  expiry : option Time;
}.

Definition with_dyn (s : State) (g : Z) (c : Counts) (e : option Time) (cb : t) : t :=
  mk (name cb) (maxRequests cb) (interval cb) (timeout cb) (readyToTrip cb) s g c e.

Definition with_counts (c : Counts) (cb : t) : t :=
  with_dyn (state cb) (generation cb) c (expiry cb) cb.

(** A new generation: the counters restart and the expiry is set from the
    state. *)
Definition toNewGeneration (now : Time) (cb : t) : t :=
  let e := match state cb with
           | StateClosed => if interval cb =? 0 then None else Some (now + interval cb)
           | StateOpen => Some (now + timeout cb)
           | StateHalfOpen => None
           end in
  with_dyn (state cb) (generation cb + 1) Counts.zero e cb.

Definition setState (s : State) (now : Time) (cb : t) : t :=
  if decide (state cb = s) then cb
  else toNewGeneration now (with_dyn s (generation cb) (counts cb) (expiry cb) cb).

(** The state at [now]: expiries take effect when the breaker is next
    looked at. *)
Definition currentState (now : Time) (cb : t) : t :=
  match state cb with
  | StateClosed =>
      match expiry cb with
      | Some e => if e <? now then toNewGeneration now cb else cb
      | None => cb
      end
  | StateOpen =>
      match expiry cb with
      | Some e => if e <? now then setState StateHalfOpen now cb else cb
      | None => setState StateHalfOpen now cb
      end
  | StateHalfOpen => cb
  end.

Definition NewCircuitBreaker (st : Settings) (now : Time) : t :=
  toNewGeneration now
    (mk (Settings.Name st)
        (if Settings.MaxRequests st =? 0 then 1 else Settings.MaxRequests st)
        (if Settings.Interval st <=? 0 then defaultInterval else Settings.Interval st)
        (if Settings.Timeout st <=? 0 then defaultTimeout else Settings.Timeout st)
        (default defaultReadyToTrip (Settings.ReadyToTrip st))
        StateClosed 0 Counts.zero None).

(** Admission: the generation the request belongs to, or the error the
    caller gets. *)
Definition beforeRequest (now : Time) (cb : t) : t * (Z + error) :=
  let cb' := currentState now cb in
  match state cb' with
  | StateOpen => (cb', inr ErrOpenState)
  | StateHalfOpen =>
      if maxRequests cb' <=? Counts.Requests (counts cb') then (cb', inr ErrTooManyRequests)
      else (with_counts (Counts.onRequest (counts cb')) cb', inl (generation cb'))
  | StateClosed => (with_counts (Counts.onRequest (counts cb')) cb', inl (generation cb'))
  end.

Definition onSuccess (s : State) (now : Time) (cb : t) : t :=
  match s with
  | StateClosed => with_counts (Counts.onSuccess (counts cb)) cb
  | StateHalfOpen =>
      let cb' := with_counts (Counts.onSuccess (counts cb)) cb in
      if maxRequests cb' <=? Counts.ConsecutiveSuccesses (counts cb')
      then setState StateClosed now cb' else cb'
  | StateOpen => cb
  end.

Definition onFailure (s : State) (now : Time) (cb : t) : t :=
  match s with
  | StateClosed =>
      let cb' := with_counts (Counts.onFailure (counts cb)) cb in
      if readyToTrip cb' (counts cb') then setState StateOpen now cb' else cb'
  | StateHalfOpen => setState StateOpen now cb
  | StateOpen => cb
  end.

(** Completion: counted only when the request's generation is still the
    current one. *)
Definition afterRequest (before : Z) (success : bool) (now : Time) (cb : t) : t :=
  let cb' := currentState now cb in
  if decide (generation cb' = before) then
    if success then onSuccess (state cb') now cb' else onFailure (state cb') now cb'
  else cb'.

(** The static part of a breaker never changes. *)
Definition same_params (a b : t) : Prop :=
  name a = name b /\ maxRequests a = maxRequests b /\ interval a = interval b /\
  timeout a = timeout b /\ readyToTrip a = readyToTrip b.

(** Well-formedness: counters in range, a probe budget that is a positive
    [uint32], a positive timeout, generations counted from one, an expiry
    exactly where the state calls for one, and no more probes admitted in a
    half-open generation than the budget. *)
Definition wf (cb : t) : Prop :=
  Counts.wf (counts cb) /\ 1 <= maxRequests cb <= uint32_max /\ 0 <= interval cb /\
  0 < timeout cb /\ 1 <= generation cb /\
  match state cb with
  | StateClosed => expiry cb = None <-> interval cb = 0
  | StateOpen => is_Some (expiry cb)
  | StateHalfOpen => expiry cb = None /\ Counts.Requests (counts cb) <= maxRequests cb
  end.

(** [cb.State()]: looking at the state applies a pending expiry. *)
Definition State (now : Time) (cb : t) : t * State :=
  let cb' := currentState now cb in (cb', state cb').
End CircuitBreaker.
Abbreviation CircuitBreaker := CircuitBreaker.t.

(** ** Lemmas: counters *)

Section CountsLemmas.
Import Counts.

Lemma Counts_zero_wf : Counts.wf Counts.zero.
Proof. unfold Counts.wf, is_uint32, uint32_max; simpl. lia. Qed.

Lemma Counts_onRequest_wf c : Counts.wf c -> Counts.wf (onRequest c).
Proof. unfold Counts.wf. intros (?&?&?&?&?). simpl. auto with gw. Qed.

Lemma Counts_onSuccess_wf c : Counts.wf c -> Counts.wf (onSuccess c).
Proof.
  unfold Counts.wf. intros (?&?&?&?&?). simpl. split_and!; auto with gw.
  unfold is_uint32, uint32_max. lia.
Qed.

Lemma Counts_onFailure_wf c : Counts.wf c -> Counts.wf (onFailure c).
Proof.
  unfold Counts.wf. intros (?&?&?&?&?). simpl. split_and!; auto with gw.
  unfold is_uint32, uint32_max. lia.
Qed.

End CountsLemmas.

#[export] Hint Resolve Counts_zero_wf Counts_onRequest_wf Counts_onSuccess_wf
  Counts_onFailure_wf : gw.

(** ** Lemmas: the static part and well-formedness *)

Section BreakerLemmas.
Import CircuitBreaker.
Implicit Types (cb : CircuitBreaker) (now : Time) (s : Breaker.State).

#[export] Instance same_params_equiv : Equivalence same_params.
Proof.
  unfold same_params. split.
  - by intros cb.
  - intros a b (?&?&?&?&?). by split_and!.
  - intros a b c (?&?&?&?&?) (?&?&?&?&?). split_and!; congruence.
Qed.

Lemma toNewGeneration_params now cb : same_params cb (toNewGeneration now cb).
Proof. by unfold same_params. Qed.

Lemma setState_params s now cb : same_params cb (setState s now cb).
Proof. unfold setState. case_decide; by unfold same_params. Qed.

Lemma currentState_params now cb : same_params cb (currentState now cb).
Proof.
  unfold currentState. repeat case_match; try reflexivity;
    auto using toNewGeneration_params, setState_params.
Qed.

Lemma beforeRequest_params now cb : same_params cb (beforeRequest now cb).1.
Proof.
  unfold beforeRequest. pose proof (currentState_params now cb) as H.
  repeat case_match; simpl; try done; etrans; try exact H; by unfold same_params.
Qed.

Lemma onSuccess_params s now cb : same_params cb (onSuccess s now cb).
Proof.
  unfold onSuccess. repeat case_match; try reflexivity.
  - by unfold same_params.
  - etrans; [|apply setState_params]. by unfold same_params.
  - by unfold same_params.
Qed.

Lemma onFailure_params s now cb : same_params cb (onFailure s now cb).
Proof.
  unfold onFailure. repeat case_match; try reflexivity.
  - etrans; [|apply setState_params]. by unfold same_params.
  - by unfold same_params.
  - apply setState_params.
Qed.

Lemma afterRequest_params g ok now cb : same_params cb (afterRequest g ok now cb).
Proof.
  unfold afterRequest. pose proof (currentState_params now cb) as H.
  repeat case_match; try done; etrans; try exact H;
    auto using onSuccess_params, onFailure_params.
Qed.

(** A new generation is well formed whatever the counters were. *)
Lemma toNewGeneration_wf now cb :
  1 <= maxRequests cb <= uint32_max -> 0 <= interval cb -> 0 < timeout cb ->
  0 <= generation cb -> wf (toNewGeneration now cb).
Proof.
  intros. unfold wf, toNewGeneration; simpl. split_and!; auto with gw; try lia.
  destruct (state cb); simpl; [|split; [done|lia]|done].
  destruct (Z.eqb_spec (interval cb) 0); split; intros; simplify_eq; done.
Qed.

Lemma setState_wf s now cb : wf cb -> wf (setState s now cb).
Proof.
  intros Hwf. unfold setState. case_decide; [done|].
  destruct Hwf as (?&?&?&?&?&?). apply toNewGeneration_wf; simpl; lia.
Qed.

Lemma currentState_wf now cb : wf cb -> wf (currentState now cb).
Proof.
  intros Hwf. unfold currentState.
  repeat case_match; auto using setState_wf.
  destruct Hwf as (?&?&?&?&?&?). apply toNewGeneration_wf; lia.
Qed.

(** Replacing the counters keeps a breaker well formed when the new
    request count respects the half-open budget. *)
Lemma with_counts_wf c cb :
  wf cb -> Counts.wf c ->
  (state cb = StateHalfOpen -> Counts.Requests c <= maxRequests cb) ->
  wf (with_counts c cb).
Proof.
  unfold wf. intros (?&?&?&?&?&Hs) ? Hh. split_and!; simpl; try done; try lia.
  destruct (state cb); try done. split; [apply Hs | by apply Hh].
Qed.

Lemma wf_Requests_bound cb :
  wf cb -> 0 <= Counts.Requests (counts cb) <= uint32_max.
Proof. intros (Hc&_). apply Hc. Qed.

Lemma beforeRequest_wf now cb : wf cb -> wf (beforeRequest now cb).1.
Proof.
  intros Hwf%(currentState_wf now). unfold beforeRequest.
  pose proof (wf_Requests_bound _ Hwf) as Hr. pose proof Hwf as (Hc&Hm&_).
  repeat case_match; simpl; try done; gw_bool;
    (apply with_counts_wf; [done | by apply Counts_onRequest_wf |]);
    intros; simpl; first [congruence | rewrite wrap32_succ_small; lia].
Qed.

Lemma onSuccess_wf s now cb : wf cb -> wf (onSuccess s now cb).
Proof.
  intros Hwf. unfold onSuccess.
  repeat case_match; try done; try apply setState_wf;
    (apply with_counts_wf; [done | by apply Counts_onSuccess_wf, Hwf |]);
    intros Hh; simpl; destruct Hwf as (_&_&_&_&_&Hs); rewrite Hh in Hs; by destruct Hs.
Qed.

Lemma onFailure_wf s now cb : wf cb -> wf (onFailure s now cb).
Proof.
  intros Hwf. unfold onFailure.
  repeat case_match; try done; try apply setState_wf; auto;
    (apply with_counts_wf; [done | by apply Counts_onFailure_wf, Hwf |]);
    intros Hh; simpl; destruct Hwf as (_&_&_&_&_&Hs); rewrite Hh in Hs; by destruct Hs.
Qed.

Lemma afterRequest_wf g ok now cb : wf cb -> wf (afterRequest g ok now cb).
Proof.
  intros Hwf%(currentState_wf now). unfold afterRequest.
  repeat case_match; auto using onSuccess_wf, onFailure_wf.
Qed.

Lemma NewCircuitBreaker_wf st now :
  is_uint32 (Settings.MaxRequests st) -> wf (NewCircuitBreaker st now).
Proof.
  unfold is_uint32, uint32_max. intros.
  unfold NewCircuitBreaker. apply toNewGeneration_wf; simpl;
    unfold defaultInterval, defaultTimeout, Second, uint32_max;
    repeat case_match; gw_bool; lia.
Qed.

End BreakerLemmas.

#[export] Hint Resolve toNewGeneration_wf setState_wf currentState_wf beforeRequest_wf
  onSuccess_wf onFailure_wf afterRequest_wf NewCircuitBreaker_wf : gw.

(** ** Traces

    Concurrent requests reach a breaker through its lock, one operation at a
    time: an admission, a completion carrying the generation its admission
    returned, or a state query.  A trace is the order the lock gave them. *)

Inductive event :=
| EvBefore (now : Time)
| EvAfter (before : Z) (success : bool) (now : Time)
| EvState (now : Time).

Definition step (ev : event) (cb : CircuitBreaker) : CircuitBreaker :=
  match ev with
  | EvBefore now => (CircuitBreaker.beforeRequest now cb).1
  | EvAfter g ok now => CircuitBreaker.afterRequest g ok now cb
  | EvState now => (CircuitBreaker.State now cb).1
  end.

Definition run (evs : list event) (cb : CircuitBreaker) : CircuitBreaker :=
  foldl (fun cb ev => step ev cb) cb evs.

(** The admissions of a trace: for each admitted request, the generation it
    was given and the state that admitted it. *)
Fixpoint admissions (evs : list event) (cb : CircuitBreaker) : list (Z * State) :=
  match evs with
  | [] => []
  | ev :: evs' =>
      match ev with
      | EvBefore now =>
          match CircuitBreaker.beforeRequest now cb with
          | (cb', inl g) => [(g, CircuitBreaker.state cb')]
          | (_, inr _) => []
          end
      | _ => []
      end ++ admissions evs' (step ev cb)
  end.

(** One request of a sequential client: admitted at [tb] and completed at
    [ta] with outcome [ok], or rejected with the breaker's error. *)
Definition call (tb ta : Time) (ok : bool) (cb : CircuitBreaker) : CircuitBreaker * option error :=
  match CircuitBreaker.beforeRequest tb cb with
  | (cb', inl g) => (CircuitBreaker.afterRequest g ok ta cb', None)
  | (cb', inr e) => (cb', Some e)
  end.

(** No expiry has passed at [t]. *)
Definition not_expired (t : Time) (cb : CircuitBreaker) : Prop :=
  match CircuitBreaker.expiry cb with
  | Some e => t <= e
  | None => True
  end.

(** The arrows of the state machine. *)
Inductive arrow : State -> State -> Prop :=
| arrow_trip : arrow StateClosed StateOpen
| arrow_probe : arrow StateOpen StateHalfOpen
| arrow_recover : arrow StateHalfOpen StateClosed
| arrow_reopen : arrow StateHalfOpen StateOpen.

#[export] Instance arrow_dec s s' : Decision (arrow s s').
Proof.
  destruct s, s'; first [left; constructor | right; inversion 1].
Defined.

Section TraceLemmas.
Import CircuitBreaker.
Implicit Types (cb : CircuitBreaker) (now tb ta : Time) (s : Breaker.State) (ev : event).

Lemma breaker_eq a b :
  same_params a b -> state a = state b -> generation a = generation b ->
  counts a = counts b -> expiry a = expiry b -> a = b.
Proof.
  destruct a, b; unfold same_params; simpl. intros (?&?&?&?&?) ? ? ? ?. congruence.
Qed.

Lemma step_wf ev cb : wf cb -> wf (step ev cb).
Proof. destruct ev; simpl; unfold State; simpl; auto with gw. Qed.

Lemma run_wf evs cb : wf cb -> wf (run evs cb).
Proof. revert cb. induction evs; simpl; auto using step_wf. Qed.

Lemma step_params ev cb : same_params cb (step ev cb).
Proof.
  destruct ev; simpl; unfold State; simpl;
    auto using beforeRequest_params, afterRequest_params, currentState_params.
Qed.

Lemma run_params evs cb : same_params cb (run evs cb).
Proof.
  revert cb. induction evs as [|ev evs IH]; intros cb; simpl; [reflexivity|].
  etrans; [apply (step_params ev)|apply IH].
Qed.

Lemma run_app evs1 evs2 cb : run (evs1 ++ evs2) cb = run evs2 (run evs1 cb).
Proof. apply foldl_app. Qed.

Lemma admissions_app evs1 evs2 cb :
  admissions (evs1 ++ evs2) cb = admissions evs1 cb ++ admissions evs2 (run evs1 cb).
Proof.
  revert cb. induction evs1 as [|ev evs IH]; intros cb; simpl; [done|].
  by rewrite IH, app_assoc.
Qed.

(** *** The current state when nothing has expired *)

Lemma currentState_not_expired now cb :
  state cb <> StateOpen \/ is_Some (expiry cb) -> not_expired now cb -> currentState now cb = cb.
Proof.
  unfold not_expired, currentState. intros Hs He.
  destruct (state cb), (expiry cb) as [e|]; try done.
  - destruct (Z.ltb_spec e now); [lia|done].
  - destruct (Z.ltb_spec e now); [lia|done].
  - destruct Hs as [?|[? ?]]; done.
Qed.

Lemma currentState_halfopen now cb : state cb = StateHalfOpen -> currentState now cb = cb.
Proof. unfold currentState. by intros ->. Qed.

(** An open breaker whose timeout has run out becomes half-open, in a new
    generation with cleared counters. *)
Lemma currentState_open_expired now cb e :
  state cb = StateOpen -> expiry cb = Some e -> e < now ->
  currentState now cb = with_dyn StateHalfOpen (generation cb + 1) Counts.zero None cb.
Proof.
  unfold currentState. intros Hs He Hlt. rewrite Hs, He.
  destruct (Z.ltb_spec e now); [|lia]. unfold setState.
  case_decide; [congruence|]. reflexivity.
Qed.

(** *** Generations only grow *)

Lemma toNewGeneration_generation now cb : generation (toNewGeneration now cb) = generation cb + 1.
Proof. reflexivity. Qed.

Lemma setState_generation s now cb : generation cb <= generation (setState s now cb).
Proof. unfold setState. case_decide; simpl; lia. Qed.

Lemma setState_state s now cb : state (setState s now cb) = s.
Proof. unfold setState. case_decide; simpl; done. Qed.

(** A change of state is a change of generation. *)
Lemma setState_changed s now cb :
  state cb <> s -> generation (setState s now cb) = generation cb + 1.
Proof. unfold setState. intros. case_decide; done. Qed.

Lemma currentState_generation now cb : generation cb <= generation (currentState now cb).
Proof.
  unfold currentState. repeat case_match; try lia;
    first [apply setState_generation | simpl; lia].
Qed.

Lemma beforeRequest_generation now cb : generation cb <= generation (beforeRequest now cb).1.
Proof.
  unfold beforeRequest. pose proof (currentState_generation now cb).
  repeat case_match; simpl; lia.
Qed.

Lemma onSuccess_generation s now cb : generation cb <= generation (onSuccess s now cb).
Proof.
  unfold onSuccess. repeat case_match; simpl; try lia.
  etrans; [|apply setState_generation]. simpl. lia.
Qed.

Lemma onFailure_generation s now cb : generation cb <= generation (onFailure s now cb).
Proof.
  unfold onFailure. repeat case_match; simpl; try lia;
    (etrans; [|apply setState_generation]); simpl; lia.
Qed.

Lemma afterRequest_generation g ok now cb : generation cb <= generation (afterRequest g ok now cb).
Proof.
  unfold afterRequest. pose proof (currentState_generation now cb).
  repeat case_match; try lia;
    (etrans; [eassumption|]); auto using onSuccess_generation, onFailure_generation.
Qed.

Lemma step_generation ev cb : generation cb <= generation (step ev cb).
Proof.
  destruct ev; simpl; unfold State; simpl;
    auto using beforeRequest_generation, afterRequest_generation, currentState_generation.
Qed.

Lemma run_generation evs cb : generation cb <= generation (run evs cb).
Proof.
  revert cb. induction evs as [|ev evs IH]; intros cb; simpl; [lia|].
  etrans; [apply (step_generation ev)|apply IH].
Qed.

(** The generation an admission returns is the breaker's after it. *)
Lemma beforeRequest_token now cb cb' g :
  beforeRequest now cb = (cb', inl g) -> g = generation cb'.
Proof. unfold beforeRequest. intros. repeat case_match; by simplify_eq/=. Qed.

(** *** What an operation does to the state *)

(** Looking at the state either leaves it or takes the probe arrow, in a
    new generation. *)
Lemma currentState_state now cb :
  state (currentState now cb) = state cb \/
  (state cb = StateOpen /\ state (currentState now cb) = StateHalfOpen /\
   generation (currentState now cb) = generation cb + 1).
Proof.
  unfold currentState. destruct (state cb) eqn:Hs; repeat case_match; auto;
    right; (split_and!; [done|apply setState_state|apply setState_changed; congruence]).
Qed.

Lemma beforeRequest_state now cb :
  state (beforeRequest now cb).1 = state (currentState now cb).
Proof. unfold beforeRequest. repeat case_match; done. Qed.

Lemma onSuccess_state s now cb :
  state cb = s ->
  state (onSuccess s now cb) = s \/ arrow s (state (onSuccess s now cb)).
Proof.
  intros <-. unfold onSuccess. destruct (state cb) eqn:Hs; repeat case_match; auto.
  right. rewrite setState_state. constructor.
Qed.

Lemma onFailure_state s now cb :
  state cb = s ->
  state (onFailure s now cb) = s \/ arrow s (state (onFailure s now cb)).
Proof.
  intros <-. unfold onFailure. destruct (state cb) eqn:Hs; repeat case_match; auto;
    right; rewrite setState_state; constructor.
Qed.

(** A completion whose generation is no longer current changes nothing
    beyond what looking at the state does. *)
Lemma afterRequest_stale g ok now cb :
  g <> generation (currentState now cb) -> afterRequest g ok now cb = currentState now cb.
Proof. unfold afterRequest. intros. case_decide; congruence. Qed.

(** *** Sequential requests on a closed breaker *)

Lemma not_expired_le t t' cb : t <= t' -> not_expired t' cb -> not_expired t cb.
Proof. unfold not_expired. destruct (expiry cb); [lia|done]. Qed.

Lemma beforeRequest_closed now cb :
  state cb = StateClosed -> not_expired now cb ->
  beforeRequest now cb = (with_counts (Counts.onRequest (counts cb)) cb, inl (generation cb)).
Proof.
  intros Hs He. unfold beforeRequest.
  rewrite currentState_not_expired by (auto; left; congruence). by rewrite Hs.
Qed.

Lemma afterRequest_closed ok now cb :
  state cb = StateClosed -> not_expired now cb ->
  afterRequest (generation cb) ok now cb =
    if ok then with_counts (Counts.onSuccess (counts cb)) cb
    else if readyToTrip cb (Counts.onFailure (counts cb))
         then with_dyn StateOpen (generation cb + 1) Counts.zero (Some (now + timeout cb)) cb
         else with_counts (Counts.onFailure (counts cb)) cb.
Proof.
  intros Hs He. unfold afterRequest.
  rewrite currentState_not_expired by (auto; left; congruence).
  rewrite decide_True by done. rewrite Hs. destruct ok; simpl; [done|].
  case_match; [|done]. unfold setState. simpl. rewrite Hs.
  by rewrite decide_False.
Qed.

(** One request on a closed breaker, start to end: it is counted, and a
    failure that satisfies the trip predicate opens the breaker. *)
Lemma call_closed tb ta ok cb :
  state cb = StateClosed -> tb <= ta -> not_expired ta cb ->
  call tb ta ok cb =
    (let c := Counts.onRequest (counts cb) in
     if ok then with_counts (Counts.onSuccess c) cb
     else if readyToTrip cb (Counts.onFailure c)
          then with_dyn StateOpen (generation cb + 1) Counts.zero (Some (ta + timeout cb)) cb
          else with_counts (Counts.onFailure c) cb, None).
Proof.
  intros Hs Hle He. unfold call.
  rewrite beforeRequest_closed by eauto using not_expired_le.
  f_equal. etrans.
  { apply (afterRequest_closed ok ta (with_counts (Counts.onRequest (counts cb)) cb) Hs He). }
  simpl. by repeat case_match.
Qed.

(** *** An open breaker *)

Lemma beforeRequest_open now cb e :
  state cb = StateOpen -> expiry cb = Some e -> now <= e ->
  beforeRequest now cb = (cb, inr ErrOpenState).
Proof.
  intros Hs He Hle. unfold beforeRequest.
  rewrite currentState_not_expired; [by rewrite Hs|right; by rewrite He|].
  unfold not_expired. by rewrite He.
Qed.

Lemma beforeRequest_open_expired now cb e :
  state cb = StateOpen -> expiry cb = Some e -> e < now -> 1 <= maxRequests cb ->
  beforeRequest now cb =
    (with_dyn StateHalfOpen (generation cb + 1) (Counts.onRequest Counts.zero) None cb,
     inl (generation cb + 1)).
Proof.
  intros Hs He Hlt Hm. unfold beforeRequest.
  rewrite (currentState_open_expired now cb e) by done. simpl.
  destruct (Z.leb_spec (maxRequests cb) 0); [lia|done].
Qed.

(** *** A half-open breaker *)

Lemma beforeRequest_halfopen now cb :
  state cb = StateHalfOpen ->
  beforeRequest now cb =
    if maxRequests cb <=? Counts.Requests (counts cb) then (cb, inr ErrTooManyRequests)
    else (with_counts (Counts.onRequest (counts cb)) cb, inl (generation cb)).
Proof. intros Hs. unfold beforeRequest. rewrite currentState_halfopen by done. by rewrite Hs. Qed.

Lemma afterRequest_halfopen ok now cb :
  state cb = StateHalfOpen ->
  afterRequest (generation cb) ok now cb =
    if ok then
      let c := Counts.onSuccess (counts cb) in
      if maxRequests cb <=? Counts.ConsecutiveSuccesses c
      then toNewGeneration now (with_dyn StateClosed (generation cb) c None cb)
      else with_counts c cb
    else with_dyn StateOpen (generation cb + 1) Counts.zero (Some (now + timeout cb)) cb.
Proof.
  intros Hs. unfold afterRequest. rewrite currentState_halfopen by done.
  rewrite decide_True by done. rewrite Hs. destruct ok; simpl.
  - case_match; [|done]. unfold setState. simpl. rewrite Hs. by rewrite decide_False.
  - unfold setState. rewrite Hs. by rewrite decide_False.
Qed.

End TraceLemmas.

#[export] Hint Resolve step_wf run_wf : gw.
