(* ===== verification/Circuit.v ===== *)
(** * Circuit breaker manager, its middleware, and the retry wrapper

    Models src/internal/middleware/circuit.go: the manager's map from
    service names to breakers with lazy, double-checked creation
    ([GetBreaker]), the trip predicate the gateway gives every breaker
    ([ReadyToTrip]), the state queries, the middleware that wraps the rest of
    the chain in [Execute], and [RetryMiddleware].  A breaker pointer of the
    source is the service name here: the breaker is re-read from the map at
    every use, so that whatever the wrapped handlers did to it is seen. *)

From stdpp Require Import base strings list gmap.
From Stdlib Require Import ZArith QArith Lia.
From S2P Require Import Prelude Config Context Breaker.

#[local] Open Scope string_scope.
#[local] Open Scope list_scope.
#[local] Open Scope Z_scope.

(** ** The trip predicate *)

(** [float64(a) / float64(b) >= 0.5] for [uint32] operands: a zero divisor
    gives +Inf for a positive dividend and NaN, which compares false, for
    zero. *)
Definition ratio_ge_half (a b : Z) : bool :=
  if b =? 0 then 0 <? a
  else Qle_bool (1 # 2) (inject_Z a / inject_Z b).

Definition ReadyToTrip (cfg : CircuitConfig) (counts : Counts) : bool :=
  let failureRatio_ge := ratio_ge_half (Counts.TotalFailures counts) (Counts.Requests counts) in
  (CircuitConfig.FailureThreshold cfg <=? Counts.Requests counts) && failureRatio_ge.

(** ** The manager *)

Module CircuitBreakerManager.
Record t := mk {
  breakers : gmap string CircuitBreaker;
  cfg : CircuitConfig;
}.

Definition NewCircuitBreakerManager (cfg : CircuitConfig) : t := mk ∅ cfg.

Definition settings (m : t) (serviceName : string) : Settings :=
  Settings.mk serviceName (CircuitConfig.MaxRequests (cfg m)) (CircuitConfig.Interval (cfg m))
    (CircuitConfig.Timeout (cfg m)) (Some (ReadyToTrip (cfg m))).

(** The part of [GetBreaker] under the write lock: the second look-up, then
    the creation. *)
Definition GetBreaker_locked (serviceName : string) (now : Time) (m : t) : t * CircuitBreaker :=
  match breakers m !! serviceName with
  | Some cb => (m, cb)
  | None =>
      let cb := CircuitBreaker.NewCircuitBreaker (settings m serviceName) now in
      (mk (<[serviceName := cb]> (breakers m)) (cfg m), cb)
  end.

Definition GetBreaker (serviceName : string) (now : Time) (m : t) : t * CircuitBreaker :=
  match breakers m !! serviceName with
  | Some cb => (m, cb)
  | None => GetBreaker_locked serviceName now m
  end.

(** Applies a breaker method through the pointer. *)
Definition with_breaker (serviceName : string) (f : CircuitBreaker -> CircuitBreaker) (m : t) : t :=
  mk (alter f serviceName (breakers m)) (cfg m).

Definition GetState (serviceName : string) (now : Time) (m : t) : t * State :=
  match breakers m !! serviceName with
  | None => (m, StateClosed)
  | Some cb =>
      let '(cb', s) := CircuitBreaker.State now cb in
      (mk (<[serviceName := cb']> (breakers m)) (cfg m), s)
  end.

Definition GetAllStates (now : Time) (m : t) : t * gmap string string :=
  let bs := CircuitBreaker.currentState now <$> breakers m in
  (mk bs (cfg m), (fun cb => State_String (CircuitBreaker.state cb)) <$> bs).

(** The configured probe budget is a [uint32], and every breaker of the
    map is well formed, carries its key as its name and the manager's
    parameters. *)
Definition wf (m : t) : Prop :=
  is_uint32 (CircuitConfig.MaxRequests (cfg m)) /\
  forall name cb, breakers m !! name = Some cb ->
    CircuitBreaker.wf cb /\
    CircuitBreaker.same_params cb (CircuitBreaker.NewCircuitBreaker (settings m name) 0).

(** ** The middleware *)

Definition open_body (serviceName : string) : list (string * JSON) :=
  [("error", JString "service_unavailable");
   ("message", JString "Service temporarily unavailable, please try again later");
   ("service", JString serviceName)].

Definition too_many_body (serviceName : string) : list (string * JSON) :=
  [("error", JString "too_many_requests");
   ("message", JString "Service is recovering, please try again");
   ("service", JString serviceName)].

(** What the middleware does with the error [Execute] returned. *)
Definition after_Execute (serviceName : string) (err : option error) (c : Ctx) : Ctx :=
  match err with
  | Some ErrOpenState => Ctx.JSON (open_body serviceName) (Ctx.Status 503 c)
  | Some ErrTooManyRequests => Ctx.JSON (too_many_body serviceName) (Ctx.Status 503 c)
  | _ => c
  end.

(** The error the wrapped function hands to the breaker: a status of 500
    or more is an error whatever the handler returned. *)
Definition upstream_error (statusCode : Z) (err : option error) : option error :=
  if 500 <=? statusCode then Some (FiberError statusCode "upstream error") else err.

Section Middleware.
Context {W : Type} `{!Lens W t} `{!Clock W}.

(** Whether the middleware steps aside for this request. *)
Definition bypass (m : t) (c : Ctx) : bool :=
  negb (CircuitConfig.Enabled (cfg m)) ||
  match Locals.service (Ctx.locals c) with
  | None => true
  | Some serviceName =>
      (serviceName =? "")%string || (serviceName =? "gateway")%string ||
      match Locals.route (Ctx.locals c) with
      | Some route => negb (Route.CircuitBreaker route)
      | None => false
      end
  end.

(** The end of [cb.Execute(req)] for a request admitted in [generation],
    given what the wrapped function did: its result is reported to the
    breaker, a panic as a failure before it propagates. *)
Definition completed (serviceName : string) (generation : Z) (r : Outcome * Ctx * W)
    : Outcome * Ctx * W :=
  let '(out, c2, w2) := r in
  let after ok := update (with_breaker serviceName
                    (CircuitBreaker.afterRequest generation ok (Now w2)) (view w2)) w2 in
  match out with
  | Panic msg => (Panic msg, c2, after false)
  | Return err =>
      let err' := upstream_error (Ctx.StatusCode c2) err in
      (Return err', c2, after (is_none err'))
  end.

(** [cb.Execute(req)] on the breaker of [serviceName], with [next] inside
    the wrapped function. *)
Definition Execute (serviceName : string) (next : Handler W) : Handler W := fun c w =>
  let '(m1, cb) := GetBreaker serviceName (Now w) (view w) in
  let '(cb1, admitted) := CircuitBreaker.beforeRequest (Now w) cb in
  let w1 := update (mk (<[serviceName := cb1]> (breakers m1)) (cfg m1)) w in
  match admitted with
  | inr err => (Return (Some err), c, w1)
  | inl generation => completed serviceName generation (next c w1)
  end.

(** The second half of the middleware, once the service is known to be
    guarded: whatever [Execute] returns, the middleware returns nil. *)
Definition guarded (serviceName : string) : Stage W := fun next c w =>
  let '(out, c', w') := Execute serviceName next c w in
  match out with
  | Panic msg => (Panic msg, c', w')
  | Return err => (Return None, after_Execute serviceName err c', w')
  end.

Definition Middleware : Stage W := fun next c w =>
  if negb (CircuitConfig.Enabled (cfg (view w))) then next c w else
  match Locals.service (Ctx.locals c) with
  | None => next c w
  | Some serviceName =>
      if (serviceName =? "")%string || (serviceName =? "gateway")%string then next c w else
      match Locals.route (Ctx.locals c) with
      | Some route =>
          if negb (Route.CircuitBreaker route) then next c w
          else guarded serviceName next c w
      | None => guarded serviceName next c w
      end
  end.

End Middleware.
End CircuitBreakerManager.
Abbreviation CircuitBreakerManager := CircuitBreakerManager.t.

(** The statistics of a breaker; no function of the package makes one. *)
Module CircuitBreakerStats.
Record t := mk {
  Name : string;
  State : string;
  Requests : Z;
  Successes : Z;
  Failures : Z;
  ConsecutiveFails : Z;
}.
End CircuitBreakerStats.
Abbreviation CircuitBreakerStats := CircuitBreakerStats.t.

(** ** Retry *)

Definition int64_min : Z := - 9223372036854775808.

(** [int64] arithmetic wraps. *)
Definition wrap64 (z : Z) : Z := (z - int64_min) mod 18446744073709551616 + int64_min.

(** [time.Sleep]. *)
Class Sleeper (W : Type) := { Sleep : Duration -> W -> W }.

Module RetryMiddleware.
Record t := mk {
  MaxRetries : Z;
  WaitTime : Duration;
  MaxWaitTime : Duration;
}.

Definition NewRetryMiddleware (maxRetries : Z) (waitTime : Duration) : t :=
  mk maxRetries waitTime (30 * Second).

(** The back-off before attempt [attempt + 1]: [waitTime * 2^attempt],
    capped. *)
Definition sleepTime (rm : t) (waitTime : Duration) (attempt : Z) : Duration :=
  let s := wrap64 (waitTime * wrap64 (Z.shiftl 1 attempt)) in
  if MaxWaitTime rm <? s then MaxWaitTime rm else s.

Section Retry.
Context {W : Type} `{!Sleeper W}.
Context (ParseDuration : string -> option Duration).

(** The parameters of the loop for this request: the route's when it has a
    retry block, the middleware's when a value is zero. *)
Definition retry_params (rm : t) (c : Ctx) : Z * Duration :=
  let '(maxAttempts, waitTime) :=
    match Locals.route (Ctx.locals c) with
    | Some route =>
        match Route.Retry route with
        | Some r => (RetryConfig.MaxAttempts r, default 0 (ParseDuration (RetryConfig.WaitTime r)))
        | None => (0, 0)
        end
    | None => (0, 0)
    end in
  (if maxAttempts =? 0 then MaxRetries rm else maxAttempts,
   if waitTime =? 0 then WaitTime rm else waitTime).

(** The loop [for attempt := 0; attempt <= maxAttempts; attempt++], by
    recursion on the attempts left; [lastErr] is what the loop returns when
    it runs out. *)
Fixpoint retry_loop (rm : t) (maxAttempts : Z) (waitTime : Duration)
    (next : Handler W) (left : nat) (attempt : Z) (lastErr : option error)
    (c : Ctx) (w : W) : Outcome * Ctx * W :=
  match left with
  | O => (Return lastErr, c, w)
  | S left' =>
      let '(out, c', w') := next c w in
      match out with
      | Panic msg => (Panic msg, c', w')
      | Return err =>
          if Ctx.StatusCode c' <? 500 then (Return err, c', w')
          else
            let w'' := if attempt <? maxAttempts
                       then Sleep (sleepTime rm waitTime attempt) w' else w' in
            retry_loop rm maxAttempts waitTime next left' (attempt + 1) err c' w''
      end
  end.

Definition Middleware (rm : t) : Stage W := fun next c w =>
  let '(maxAttempts, waitTime) := retry_params rm c in
  retry_loop rm maxAttempts waitTime next (Z.to_nat (maxAttempts + 1)) 0 None c w.

End Retry.
End RetryMiddleware.
Abbreviation RetryMiddleware := RetryMiddleware.t.

(** * Properties of the trip predicate *)

Lemma Qle_bool_half a b : 0 < b -> Qle_bool (1 # 2) (inject_Z a / inject_Z b) = (b <=? 2 * a).
Proof.
  intros Hb. apply eq_true_iff_eq. rewrite Qle_bool_iff, Z.leb_le.
  destruct b as [|p|p]; try lia.
  unfold Qdiv, Qle, Qmult, Qinv, inject_Z; simpl. lia.
Qed.

Lemma ratio_ge_half_pos a b : 0 < b -> ratio_ge_half a b = (b <=? 2 * a).
Proof.
  intros Hb. unfold ratio_ge_half. destruct (Z.eqb_spec b 0); [lia|]. by apply Qle_bool_half.
Qed.

Lemma ratio_ge_half_zero a : ratio_ge_half a 0 = (0 <? a).
Proof. reflexivity. Qed.

(** The trip predicate the gateway installs holds exactly when the
    generation has seen at least [FailureThreshold] requests, at least one
    failure, and failures are at least half of the requests; the float
    division of the source, its zero divisor included, agrees with the
    integer comparison. *)
Theorem ReadyToTrip_iff cfg c :
  Counts.wf c ->
  ReadyToTrip cfg c = true <->
  CircuitConfig.FailureThreshold cfg <= Counts.Requests c /\
  0 < Counts.TotalFailures c /\ Counts.Requests c <= 2 * Counts.TotalFailures c.
Proof.
  intros (Hr&_&Hf&_). unfold ReadyToTrip, is_uint32 in *.
  rewrite andb_true_iff, Z.leb_le.
  destruct (Z.eq_dec (Counts.Requests c) 0) as [E|E].
  - rewrite E, ratio_ge_half_zero, Z.ltb_lt. lia.
  - rewrite ratio_ge_half_pos, Z.leb_le by lia. lia.
Qed.

Lemma ReadyToTrip_iff_witness : ReadyToTrip default_Circuit (Counts.mk 5 2 3 0 1) = true.
Proof.
  apply (ReadyToTrip_iff default_Circuit (Counts.mk 5 2 3 0 1)).
  - unfold Counts.wf, is_uint32, uint32_max; simpl. lia.
  - simpl. lia.
Defined.

(** On a failure just counted the failure total is positive, so the
    predicate is the two comparisons of the design. *)
Lemma ReadyToTrip_onFailure cfg c :
  Counts.wf c -> Counts.TotalFailures c < uint32_max ->
  ReadyToTrip cfg (Counts.onFailure c) =
    (CircuitConfig.FailureThreshold cfg <=? Counts.Requests c) &&
    (Counts.Requests c <=? 2 * (Counts.TotalFailures c + 1)).
Proof.
  intros (Hr&_&Hf&_) Hlt. unfold ReadyToTrip, is_uint32 in *. simpl.
  rewrite wrap32_succ_small by lia.
  destruct (Z.eq_dec (Counts.Requests c) 0) as [E|E].
  - rewrite E, ratio_ge_half_zero. apply eq_true_iff_eq.
    rewrite !andb_true_iff, !Z.leb_le, Z.ltb_lt. lia.
  - by rewrite ratio_ge_half_pos by lia.
Qed.

(** * Properties of the manager *)

Section ManagerLemmas.
Import CircuitBreakerManager.
Implicit Types (m : CircuitBreakerManager) (name : string) (now : Time).

Lemma GetBreaker_locked_eq name now m : GetBreaker name now m = GetBreaker_locked name now m.
Proof. unfold GetBreaker, GetBreaker_locked. by destruct (breakers m !! name). Qed.

Lemma GetBreaker_existing name now m cb :
  breakers m !! name = Some cb -> GetBreaker name now m = (m, cb).
Proof. unfold GetBreaker. by intros ->. Qed.

Lemma GetBreaker_fresh name now m :
  breakers m !! name = None ->
  GetBreaker name now m =
    (mk (<[name := CircuitBreaker.NewCircuitBreaker (settings m name) now]> (breakers m)) (cfg m),
     CircuitBreaker.NewCircuitBreaker (settings m name) now).
Proof. unfold GetBreaker, GetBreaker_locked. by intros ->. Qed.

Lemma GetBreaker_lookup name now m :
  breakers (GetBreaker name now m).1 !! name = Some (GetBreaker name now m).2.
Proof.
  destruct (breakers m !! name) as [cb|] eqn:E.
  - by rewrite (GetBreaker_existing _ _ _ _ E).
  - rewrite (GetBreaker_fresh _ _ _ E). simpl. by rewrite lookup_insert_eq.
Qed.

Lemma GetBreaker_other name name' now m :
  name <> name' -> breakers (GetBreaker name now m).1 !! name' = breakers m !! name'.
Proof.
  intros Hne. destruct (breakers m !! name) as [cb|] eqn:E.
  - by rewrite (GetBreaker_existing _ _ _ _ E).
  - rewrite (GetBreaker_fresh _ _ _ E). simpl. by rewrite lookup_insert_ne.
Qed.

Lemma GetBreaker_cfg name now m : cfg (GetBreaker name now m).1 = cfg m.
Proof.
  destruct (breakers m !! name) as [cb|] eqn:E.
  - by rewrite (GetBreaker_existing _ _ _ _ E).
  - by rewrite (GetBreaker_fresh _ _ _ E).
Qed.

Lemma settings_cfg m m' name : cfg m = cfg m' -> settings m name = settings m' name.
Proof. unfold settings. by intros ->. Qed.

Lemma NewCircuitBreaker_params st now now' :
  CircuitBreaker.same_params (CircuitBreaker.NewCircuitBreaker st now)
                             (CircuitBreaker.NewCircuitBreaker st now').
Proof. by unfold CircuitBreaker.same_params. Qed.

(** Replacing a breaker by a well-formed one with the same static part
    keeps the manager well formed. *)
Lemma insert_wf name cb cb' m :
  wf m -> breakers m !! name = Some cb -> CircuitBreaker.wf cb' ->
  CircuitBreaker.same_params cb cb' -> wf (mk (<[name := cb']> (breakers m)) (cfg m)).
Proof.
  intros [Hc Hwf] Hl Hcb' Hp. split; [done|]. intros n b. simpl.
  destruct (decide (name = n)) as [<-|Hne].
  - rewrite lookup_insert_eq. intros [= <-]. split; [done|].
    destruct (Hwf _ _ Hl) as [_ Hp']. etrans; [symmetry; exact Hp | exact Hp'].
  - rewrite lookup_insert_ne by done. apply Hwf.
Qed.

Lemma with_breaker_wf name f m :
  (forall cb, CircuitBreaker.wf cb -> CircuitBreaker.wf (f cb)) ->
  (forall cb, CircuitBreaker.same_params cb (f cb)) ->
  wf m -> wf (with_breaker name f m).
Proof.
  intros Hf Hp [Hc Hwf]. split; [done|]. intros n b. simpl.
  rewrite lookup_alter. case_decide as Hn; [subst n|apply Hwf].
  destruct (breakers m !! name) as [cb|] eqn:E; [|done]. intros [= <-].
  destruct (Hwf _ _ E) as [? Hp']. split; [auto|].
  etrans; [symmetry; apply Hp | exact Hp'].
Qed.

End ManagerLemmas.

Section ManagerInvariant.
Import CircuitBreakerManager.
Implicit Types (m : CircuitBreakerManager) (name : string) (now : Time).

Lemma NewCircuitBreakerManager_wf cfg :
  is_uint32 (CircuitConfig.MaxRequests cfg) -> wf (NewCircuitBreakerManager cfg).
Proof. intros Hc. split; [done|]. intros n cb. simpl. by rewrite lookup_empty. Qed.

Lemma GetBreaker_keeps_wf name now m :
  wf m -> wf (GetBreaker name now m).1.
Proof.
  intros Hwf. destruct (breakers m !! name) as [cb|] eqn:E.
  - by rewrite (GetBreaker_existing _ _ _ _ E).
  - rewrite (GetBreaker_fresh _ _ _ E). simpl. destruct Hwf as [Hc Hwf]. split; [done|].
    intros n b. simpl. destruct (decide (name = n)) as [<-|Hne].
    + rewrite lookup_insert_eq. intros [= <-]. split; [by apply NewCircuitBreaker_wf|].
      apply NewCircuitBreaker_params.
    + rewrite lookup_insert_ne by done. apply Hwf.
Qed.

(** Looking a breaker up, creating it when the service has none, keeps
    the manager well formed: the breaker returned is the one the map now
    holds for the service, it is well formed, and no other service's
    breaker changes. *)
Theorem GetBreaker_wf name now m :
  wf m ->
  wf (GetBreaker name now m).1 /\
  breakers (GetBreaker name now m).1 !! name = Some (GetBreaker name now m).2 /\
  CircuitBreaker.wf (GetBreaker name now m).2 /\
  forall name', name <> name' -> breakers (GetBreaker name now m).1 !! name' = breakers m !! name'.
Proof.
  intros Hwf. pose proof (GetBreaker_keeps_wf name now m Hwf) as Hwf'.
  pose proof (GetBreaker_lookup name now m) as Hl.
  split_and!; [done|done| |by intros; apply GetBreaker_other].
  by destruct Hwf' as [_ H]; destruct (H _ _ Hl).
Qed.

Lemma GetBreaker_wf_witness :
  CircuitBreaker.wf (GetBreaker "auth" 0 (NewCircuitBreakerManager default_Circuit)).2.
Proof.
  apply (GetBreaker_wf "auth" 0 (NewCircuitBreakerManager default_Circuit)).
  apply NewCircuitBreakerManager_wf. unfold is_uint32, uint32_max. simpl. lia.
Defined.

(** Creation happens once: a second [GetBreaker] for the same service,
    at any later instant, returns the breaker the first one created and
    leaves the manager as it was. *)
Theorem GetBreaker_idem name now now' m :
  GetBreaker name now' (GetBreaker name now m).1 =
    ((GetBreaker name now m).1, (GetBreaker name now m).2).
Proof. apply GetBreaker_existing, GetBreaker_lookup. Qed.

Lemma GetState_wf name now m : wf m -> wf (GetState name now m).1.
Proof.
  intros Hwf. unfold GetState. destruct (breakers m !! name) as [cb|] eqn:E; [|done].
  simpl. destruct Hwf as [Hc Hwf]. destruct (Hwf _ _ E) as [Hcb Hp].
  eapply (insert_wf name cb); [by split|done|by apply currentState_wf|].
  apply currentState_params.
Qed.

(** A service that has no breaker yet reports closed, and asking does not
    create one. *)
Lemma GetState_unknown name now m :
  breakers m !! name = None -> GetState name now m = (m, StateClosed).
Proof. unfold GetState. by intros ->. Qed.

Lemma GetAllStates_wf now m : wf m -> wf (GetAllStates now m).1.
Proof.
  intros [Hc Hwf]. split; [done|]. intros n b. simpl. rewrite lookup_fmap.
  destruct (breakers m !! n) as [cb|] eqn:E; [|done]. intros [= <-].
  destruct (Hwf _ _ E) as [Hcb Hp]. split; [by apply currentState_wf|].
  etrans; [symmetry; apply currentState_params | exact Hp].
Qed.

(** The states reported are those of the breakers after the query. *)
Lemma GetAllStates_lookup now m name :
  (GetAllStates now m).2 !! name =
    (fun cb => State_String (CircuitBreaker.state (CircuitBreaker.currentState now cb)))
      <$> breakers m !! name.
Proof. unfold GetAllStates. simpl. rewrite !lookup_fmap. by destruct (breakers m !! name). Qed.

End ManagerInvariant.

(** * Properties of the middleware *)

Section MiddlewareLemmas.
Context {W : Type} `{!Lens W CircuitBreakerManager} `{!Clock W}.
Import CircuitBreakerManager.
Implicit Types (next : Handler W) (c : Ctx) (w : W) (name : string).

Lemma Middleware_stepped_aside next c w :
  bypass (view w) c = true -> Middleware next c w = next c w.
Proof.
  unfold bypass, Middleware. intros H.
  destruct (negb (CircuitConfig.Enabled (cfg (view w)))); [done|]. simpl in H.
  destruct (Locals.service (Ctx.locals c)) as [s|]; [|done].
  destruct ((s =? "")%string || (s =? "gateway")%string); [done|]. simpl in H.
  destruct (Locals.route (Ctx.locals c)) as [r|]; [|done]. by rewrite H.
Qed.

Lemma Middleware_guarded next c w :
  bypass (view w) c = false ->
  exists name, Locals.service (Ctx.locals c) = Some name /\ name <> "" /\ name <> "gateway" /\
    Middleware next c w = guarded name next c w.
Proof.
  unfold bypass, Middleware. intros H.
  destruct (negb (CircuitConfig.Enabled (cfg (view w)))); [done|]. simpl in H.
  destruct (Locals.service (Ctx.locals c)) as [s|]; [|done]. exists s.
  destruct (String.eqb_spec s ""); [done|]. destruct (String.eqb_spec s "gateway"); [done|].
  simpl in *. split_and!; try done.
  destruct (Locals.route (Ctx.locals c)) as [r|]; [|done]. by rewrite H.
Qed.

(** The middleware either steps aside, running the rest of the chain
    unchanged and touching no breaker, or runs it under the breaker of the
    service the context names; it steps aside exactly when breaking is
    disabled, when the context names no service, the empty service or the
    gateway itself, or when the route found in the context opts out. *)
Theorem Middleware_bypass next c w :
  Middleware next c w =
    if bypass (view w) c then next c w
    else guarded (default "" (Locals.service (Ctx.locals c))) next c w.
Proof.
  destruct (bypass (view w) c) eqn:Hb; [by apply Middleware_stepped_aside|].
  by destruct (Middleware_guarded next c w Hb) as (n & -> & _ & _ & ->).
Qed.

Lemma manager_eta (m : CircuitBreakerManager) : mk (breakers m) (cfg m) = m.
Proof. by destruct m. Qed.

Lemma Execute_open next c w name cb e :
  breakers (view w) !! name = Some cb ->
  CircuitBreaker.state cb = StateOpen -> CircuitBreaker.expiry cb = Some e -> Now w <= e ->
  Execute name next c w = (Return (Some ErrOpenState), c, w).
Proof.
  intros Hl Hs He Hle. unfold Execute.
  rewrite (GetBreaker_existing _ _ _ _ Hl), (beforeRequest_open _ _ e) by done.
  by rewrite insert_id, manager_eta, update_view.
Qed.

(** C7: a request to a service whose breaker opened is admitted only once
    the breaker's timeout has run out, strictly after the instant the
    breaker recorded on opening; the breaker is then half-open with this
    request counted as its first probe, and the rest of the chain runs in
    that state; until then the request is rejected and nothing changes. *)
Theorem Execute_recovery next c w name cb e :
  breakers (view w) !! name = Some cb ->
  CircuitBreaker.state cb = StateOpen -> CircuitBreaker.expiry cb = Some e ->
  1 <= CircuitBreaker.maxRequests cb ->
  Execute name next c w =
    if Now w <=? e then (Return (Some ErrOpenState), c, w)
    else
      let probe := CircuitBreaker.with_dyn StateHalfOpen (CircuitBreaker.generation cb + 1)
                     (Counts.onRequest Counts.zero) None cb in
      completed name (CircuitBreaker.generation cb + 1)
        (next c (update (mk (<[name := probe]> (breakers (view w))) (cfg (view w))) w)).
Proof.
  intros Hl Hs He Hm. destruct (Z.leb_spec (Now w) e).
  - by apply (Execute_open next c w name cb e).
  - unfold Execute.
    by rewrite (GetBreaker_existing _ _ _ _ Hl), (beforeRequest_open_expired _ _ e).
Qed.

(** C4: while a service's breaker is open and its timeout has not run out,
    a request to that service is answered 503 [service_unavailable] at
    once: the rest of the chain is not run and the world is unchanged. *)
Theorem Middleware_open_rejects next c w name cb e :
  bypass (view w) c = false -> Locals.service (Ctx.locals c) = Some name ->
  breakers (view w) !! name = Some cb ->
  CircuitBreaker.state cb = StateOpen -> CircuitBreaker.expiry cb = Some e -> Now w <= e ->
  Middleware next c w =
    (Return None, Ctx.JSON (open_body name) (Ctx.Status 503 c), w).
Proof.
  intros Hb Hsvc Hl Hs He Hle.
  destruct (Middleware_guarded next c w Hb) as (n & Hn & _ & _ & ->).
  assert (n = name) as -> by congruence.
  unfold guarded. by rewrite (Execute_open next c w name cb e).
Qed.

(** The world a handler leaves keeps the manager well formed. *)
Definition keeps_wf (h : Handler W) : Prop := preserves (fun w => wf (view w)) h.

Lemma Execute_keeps_wf name next : keeps_wf next -> keeps_wf (Execute name next).
Proof.
  intros Hnext c w Hwf. unfold Execute.
  pose proof (GetBreaker_keeps_wf name (Now w) _ Hwf) as Hwf1.
  pose proof (GetBreaker_lookup name (Now w) (view w)) as Hl.
  destruct (GetBreaker name (Now w) (view w)) as [m1 cb]. simpl in *.
  pose proof (beforeRequest_wf (Now w) cb) as Hb.
  pose proof (beforeRequest_params (Now w) cb) as Hp.
  destruct (CircuitBreaker.beforeRequest (Now w) cb) as [cb1 adm]. simpl in *.
  assert (Hw1 : wf (view (update (mk (<[name:=cb1]> (breakers m1)) (cfg m1)) w))).
  { rewrite view_update. destruct Hwf1 as [? H1]. destruct (H1 _ _ Hl).
    eapply insert_wf; eauto. by split. }
  destruct adm as [g|err]; [|done]. unfold completed.
  specialize (Hnext c _ Hw1). destruct (next c _) as [[out c2] w2]. simpl in *.
  assert (forall ok, wf (view (update (with_breaker name
            (CircuitBreaker.afterRequest g ok (Now w2)) (view w2)) w2))) as Ha.
  { intros ok. rewrite view_update.
    apply with_breaker_wf; auto using afterRequest_wf, afterRequest_params. }
  destruct out; simpl; apply Ha.
Qed.

Lemma guarded_keeps_wf name next : keeps_wf next -> keeps_wf (guarded name next).
Proof.
  intros Hnext c w Hwf. unfold guarded.
  pose proof (Execute_keeps_wf name next Hnext c w Hwf) as H.
  destruct (Execute name next c w) as [[out c'] w']. by destruct out.
Qed.

(** The middleware keeps the manager well formed whenever the rest of
    the chain does: every breaker stays well formed with the configured
    parameters, through admission, the wrapped handlers and completion. *)
Theorem Middleware_keeps_wf next : keeps_wf next -> keeps_wf (Middleware next).
Proof.
  intros Hnext c w Hwf.
  destruct (bypass (view w) c) eqn:Hb.
  - rewrite Middleware_stepped_aside by done. by apply Hnext.
  - destruct (Middleware_guarded next c w Hb) as (n & _ & _ & _ & ->).
    by apply guarded_keeps_wf.
Qed.

(** C40: on a guarded request the middleware never returns an error: an
    error of the wrapped handlers is recorded as a failure and then
    dropped, only a panic propagates. *)
Theorem Middleware_swallows_errors next c w :
  bypass (view w) c = false ->
  (Middleware next c w).1.1 = Return None \/ exists msg, (Middleware next c w).1.1 = Panic msg.
Proof.
  intros Hb. destruct (Middleware_guarded next c w Hb) as (n & _ & _ & _ & ->).
  unfold guarded. destruct (Execute n next c w) as [[out c'] w'].
  destruct out; simpl; eauto.
Qed.

End MiddlewareLemmas.

(** * A sequential client of a gateway breaker

    The requests of one client, each admitted and completed before the next
    starts: [(tb, ta, ok)] is a request admitted at [tb] that completes at
    [ta], successfully or not. *)

Definition calls (obs : list (Time * Time * bool)) (cb : CircuitBreaker) : CircuitBreaker :=
  foldl (fun cb o => (call o.1.1 o.1.2 o.2 cb).1) cb obs.

(** The reference for tripping: with [r] requests and [f] failures counted
    so far, whether some observation of the list is a failure that brings
    the requests to the threshold [N] or more with at least half of them
    failed. *)
Fixpoint trips (N r f : Z) (oks : list bool) : bool :=
  match oks with
  | [] => false
  | ok :: rest =>
      let f' := if ok then f else f + 1 in
      if negb ok && (N <=? r + 1) && (r + 1 <=? 2 * f') then true
      else trips N (r + 1) f' rest
  end.

Section SequentialClient.
Import CircuitBreaker.
Implicit Types (cb : CircuitBreaker) (obs : list (Time * Time * bool)).

Lemma calls_cons o obs cb : calls (o :: obs) cb = calls obs (call o.1.1 o.1.2 o.2 cb).1.
Proof. reflexivity. Qed.

Lemma calls_app obs1 obs2 cb : calls (obs1 ++ obs2) cb = calls obs2 (calls obs1 cb).
Proof. apply foldl_app. Qed.

(** While an open breaker's timeout has not run out every request is
    rejected and nothing changes. *)
Lemma calls_open obs cb e :
  state cb = StateOpen -> expiry cb = Some e -> Forall (fun o => o.1.1 <= e) obs ->
  calls obs cb = cb.
Proof.
  intros Hs He. induction 1 as [|o obs Ho _ IH]; [done|].
  rewrite calls_cons. unfold call. by rewrite (beforeRequest_open _ _ e).
Qed.

(** The window of the observations: all of them between [t0] and [T]. *)
Definition within (t0 T : Time) obs : Prop :=
  Forall (fun o => t0 <= o.1.1 /\ o.1.1 <= o.1.2 /\ o.1.2 <= T) obs.

Lemma within_cons t0 T o obs :
  within t0 T (o :: obs) <-> (t0 <= o.1.1 /\ o.1.1 <= o.1.2 /\ o.1.2 <= T) /\ within t0 T obs.
Proof. unfold within. by rewrite Forall_cons. Qed.

(** One observation on a closed gateway breaker, as the reference sees it. *)
Lemma call_closed_gateway cfg cb tb ta ok :
  state cb = StateClosed -> readyToTrip cb = ReadyToTrip cfg -> Counts.wf (counts cb) ->
  Counts.TotalFailures (counts cb) <= Counts.Requests (counts cb) < uint32_max ->
  tb <= ta -> not_expired ta cb ->
  let r := Counts.Requests (counts cb) in
  let f := Counts.TotalFailures (counts cb) in
  let cb' := (call tb ta ok cb).1 in
  if negb ok && (CircuitConfig.FailureThreshold cfg <=? r + 1) && (r + 1 <=? 2 * (f + 1))
  then state cb' = StateOpen /\ expiry cb' = Some (ta + timeout cb)
  else state cb' = StateClosed /\ readyToTrip cb' = ReadyToTrip cfg /\
       Counts.wf (counts cb') /\ expiry cb' = expiry cb /\ timeout cb' = timeout cb /\
       Counts.Requests (counts cb') = r + 1 /\
       Counts.TotalFailures (counts cb') = (if ok then f else f + 1).
Proof.
  intros Hs Hr Hwf Hb Hle He. simpl. rewrite call_closed by done. simpl.
  pose proof (Counts_onRequest_wf _ Hwf) as Hwf1.
  assert (Hreq : wrap32 (Counts.Requests (counts cb) + 1) = Counts.Requests (counts cb) + 1).
  { destruct Hwf as ([? ?]&_). apply wrap32_succ_small. lia. }
  destruct ok; simpl.
  - split_and!; auto with gw.
  - rewrite Hr, ReadyToTrip_onFailure; [|done|simpl; lia]. simpl. rewrite !Hreq.
    case_match; simpl; [done|]. split_and!; auto with gw.
    destruct Hwf as (_&_&[? ?]&_). apply wrap32_succ_small. lia.
Qed.

Lemma calls_closed_trips cfg t0 T obs : forall cb,
  state cb = StateClosed -> readyToTrip cb = ReadyToTrip cfg -> Counts.wf (counts cb) ->
  Counts.TotalFailures (counts cb) <= Counts.Requests (counts cb) ->
  Counts.Requests (counts cb) + Z.of_nat (length obs) <= uint32_max ->
  not_expired T cb -> T <= t0 + timeout cb -> within t0 T obs ->
  state (calls obs cb) =
    if trips (CircuitConfig.FailureThreshold cfg) (Counts.Requests (counts cb))
             (Counts.TotalFailures (counts cb)) obs.*2
    then StateOpen else StateClosed.
Proof.
  induction obs as [|[[tb ta] ok] obs IH]; intros cb Hs Hr Hwf Hf Hlen He HT Hw; [done|].
  apply within_cons in Hw as [(H0 & Hba & HaT) Hw].
  rewrite calls_cons. simpl. rewrite length_cons, Nat2Z.inj_succ in Hlen.
  pose proof (call_closed_gateway cfg cb tb ta ok Hs Hr Hwf ltac:(lia) Hba
                (not_expired_le _ _ _ HaT He)) as Hc. simpl in Hc.
  replace (if ok then Counts.TotalFailures (counts cb) else Counts.TotalFailures (counts cb) + 1)
    with (Counts.TotalFailures (counts cb) + (if ok then 0 else 1)) in * by (destruct ok; lia).
  assert (Hstep : forall ok', state (call tb ta ok' cb).1 = StateClosed /\
            readyToTrip (call tb ta ok' cb).1 = ReadyToTrip cfg /\
            Counts.wf (counts (call tb ta ok' cb).1) /\
            expiry (call tb ta ok' cb).1 = expiry cb /\
            timeout (call tb ta ok' cb).1 = timeout cb /\
            Counts.Requests (counts (call tb ta ok' cb).1) = Counts.Requests (counts cb) + 1 /\
            Counts.TotalFailures (counts (call tb ta ok' cb).1) =
              Counts.TotalFailures (counts cb) + (if ok' then 0 else 1) ->
          state (calls obs (call tb ta ok' cb).1) =
            if trips (CircuitConfig.FailureThreshold cfg) (Counts.Requests (counts cb) + 1)
                 (Counts.TotalFailures (counts cb) + (if ok' then 0 else 1)) obs.*2
            then StateOpen else StateClosed).
  { intros ok' (Hs' & Hr' & Hwf' & He' & Ht' & Hq & Hf').
    rewrite IH; rewrite ?Hq, ?Hf', ?Ht'; auto; try (destruct ok'; lia).
    unfold not_expired. by rewrite He'. }
  destruct ok; simpl in *.
  - exact (Hstep true Hc).
  - case_match; [|exact (Hstep false Hc)].
    destruct Hc as [Hs' He']. rewrite (calls_open obs _ _ Hs' He'); [done|].
    eapply Forall_impl; [exact Hw|]. intros [[??]?] ?. simpl in *. lia.
Qed.

(** The breaker the manager creates: closed, nothing counted, its window
    open until [now + Interval], with the gateway's predicate. *)
Lemma NewCircuitBreaker_gateway m name now :
  0 < CircuitConfig.Interval (CircuitBreakerManager.cfg m) ->
  0 < CircuitConfig.Timeout (CircuitBreakerManager.cfg m) ->
  let cb := NewCircuitBreaker (CircuitBreakerManager.settings m name) now in
  state cb = StateClosed /\ counts cb = Counts.zero /\
  readyToTrip cb = ReadyToTrip (CircuitBreakerManager.cfg m) /\
  expiry cb = Some (now + CircuitConfig.Interval (CircuitBreakerManager.cfg m)) /\
  timeout cb = CircuitConfig.Timeout (CircuitBreakerManager.cfg m).
Proof.
  intros HI HD. unfold NewCircuitBreaker, toNewGeneration. simpl.
  destruct (Z.leb_spec (CircuitConfig.Interval (CircuitBreakerManager.cfg m)) 0); [lia|].
  destruct (Z.leb_spec (CircuitConfig.Timeout (CircuitBreakerManager.cfg m)) 0); [lia|].
  split_and!; try done.
  by destruct (Z.eqb_spec (CircuitConfig.Interval (CircuitBreakerManager.cfg m)) 0); [lia|].
Qed.

(** C1: a breaker of the gateway trips exactly at the first failed
    request that brings the requests of its window to [FailureThreshold] or
    more with at least half of them failed, and not before: for a client
    whose requests follow one another within the window and the timeout of
    a breaker the manager has just created, the breaker is open after the
    requests iff the reference [trips] says so. *)
Theorem breaker_trips cfg name t0 T obs :
  0 < CircuitConfig.Interval cfg -> 0 < CircuitConfig.Timeout cfg ->
  Z.of_nat (length obs) <= uint32_max ->
  T <= t0 + CircuitConfig.Interval cfg -> T <= t0 + CircuitConfig.Timeout cfg ->
  within t0 T obs ->
  state (calls obs (CircuitBreakerManager.GetBreaker name t0
                      (CircuitBreakerManager.NewCircuitBreakerManager cfg)).2) =
    if trips (CircuitConfig.FailureThreshold cfg) 0 0 obs.*2 then StateOpen else StateClosed.
Proof.
  intros HI HD Hlen HTI HTD Hw.
  rewrite GetBreaker_fresh by apply lookup_empty. cbn [snd].
  set (m := CircuitBreakerManager.NewCircuitBreakerManager cfg).
  destruct (NewCircuitBreaker_gateway m name t0 HI HD) as (Hs & Hc & Hr & He & Ht).
  rewrite (calls_closed_trips cfg t0 T); rewrite ?Hc, ?Ht; try done; simpl; try lia.
  unfold not_expired. by rewrite He.
Qed.

Lemma breaker_trips_witness :
  state (calls [(0, 1, false); (1, 2, false); (2, 3, false); (3, 4, false); (4, 5, false)]
           (CircuitBreakerManager.GetBreaker "notifier" 0
              (CircuitBreakerManager.NewCircuitBreakerManager default_Circuit)).2) = StateOpen.
Proof.
  apply (breaker_trips default_Circuit "notifier" 0 5
           [(0, 1, false); (1, 2, false); (2, 3, false); (3, 4, false); (4, 5, false)]);
    try (vm_compute; first [reflexivity | discriminate]).
  unfold within. repeat constructor; simpl; lia.
Defined.

(** The predicate is consulted only when a request fails: three failures
    and then two successes bring the window to five requests with three
    failed, and the breaker stays closed. *)
Example breaker_closed_at_threshold :
  let cb := calls [(0, 1, false); (1, 2, false); (2, 3, false); (3, 4, true); (4, 5, true)]
              (CircuitBreakerManager.GetBreaker "notifier" 0
                 (CircuitBreakerManager.NewCircuitBreakerManager default_Circuit)).2 in
  state cb = StateClosed /\ ReadyToTrip default_Circuit (counts cb) = true.
Proof. by vm_compute. Qed.

End SequentialClient.

(** * Properties of the retry wrapper *)

Section RetryLemmas.
Context {W : Type} `{!Sleeper W} (ParseDuration : string -> option Duration).
Import RetryMiddleware.
Implicit Types (rm : RetryMiddleware) (next : Handler W) (c : Ctx) (w : W).

(** The world after [n] attempts, numbered from [attempt], of a handler
    that acts on the world as [g]: a back-off follows each attempt that is
    not the last one allowed. *)
Fixpoint attempts rm (maxAttempts : Z) (waitTime : Duration) (g : W -> W)
    (n : nat) (attempt : Z) w : W :=
  match n with
  | O => w
  | S n' =>
      attempts rm maxAttempts waitTime g n' (attempt + 1)
        (if attempt <? maxAttempts then Sleep (sleepTime rm waitTime attempt) (g w) else g w)
  end.

Lemma retry_loop_first rm maxAttempts waitTime next left attempt lastErr c w err c' w' :
  next c w = (Return err, c', w') -> Ctx.StatusCode c' < 500 ->
  retry_loop rm maxAttempts waitTime next (S left) attempt lastErr c w = (Return err, c', w').
Proof. intros Hn Hs. simpl. rewrite Hn. by destruct (Z.ltb_spec (Ctx.StatusCode c') 500); [|lia]. Qed.

(** The wrapper returns the first answer below 500 as it is: when the
    first attempt already succeeds nothing is retried and nothing is
    slept. *)
Theorem Retry_first_success rm next c w err c' w' :
  0 <= (retry_params ParseDuration rm c).1 ->
  next c w = (Return err, c', w') -> Ctx.StatusCode c' < 500 ->
  Middleware ParseDuration rm next c w = (Return err, c', w').
Proof.
  intros Hm Hn Hs. unfold Middleware. destruct (retry_params ParseDuration rm c) as [n d].
  simpl in Hm. replace (Z.to_nat (n + 1)) with (S (Z.to_nat n)) by lia.
  by apply retry_loop_first.
Qed.

(** With a negative number of attempts the loop body never runs: the
    rest of the chain is not called at all and the wrapper answers
    success with the context untouched. *)
Theorem Retry_negative_attempts rm next c w :
  (retry_params ParseDuration rm c).1 < 0 ->
  Middleware ParseDuration rm next c w = (Return None, c, w).
Proof.
  intros Hm. unfold Middleware. destruct (retry_params ParseDuration rm c) as [n d].
  simpl in Hm. by replace (Z.to_nat (n + 1)) with O by lia.
Qed.

(** Against a handler that always answers [status >= 500], the loop makes
    every attempt it has, sleeps between them and returns the last error. *)
Lemma retry_loop_exhausts rm maxAttempts waitTime next err (f : Ctx -> Ctx) (g : W -> W) :
  (forall c w, next c w = (Return err, f c, g w)) ->
  (forall c, 500 <= Ctx.StatusCode (f c)) ->
  forall left attempt lastErr c w,
  retry_loop rm maxAttempts waitTime next left attempt lastErr c w =
    (Return (match left with O => lastErr | S _ => err end), Nat.iter left f c,
     attempts rm maxAttempts waitTime g left attempt w).
Proof.
  intros Hn Hs. induction left as [|left IH]; intros attempt lastErr c w; [done|].
  cbn [retry_loop attempts]. rewrite Hn.
  destruct (Z.ltb_spec (Ctx.StatusCode (f c)) 500) as [Hlt|_]; [specialize (Hs c); lia|].
  rewrite IH, <- Nat.iter_succ_r. by destruct left.
Qed.

End RetryLemmas.

(** ** The back-off *)

Definition int64_max : Z := 9223372036854775807.

Lemma wrap64_small z : int64_min <= z <= int64_max -> wrap64 z = z.
Proof.
  unfold wrap64, int64_min, int64_max. intros. rewrite Z.mod_small; lia.
Qed.

(** The back-off never exceeds the cap. *)
Lemma sleepTime_le rm waitTime attempt :
  RetryMiddleware.sleepTime rm waitTime attempt <= RetryMiddleware.MaxWaitTime rm.
Proof. unfold RetryMiddleware.sleepTime. case_match; [lia|]. by apply Z.ltb_ge. Qed.

(** C37: the back-off before a retry is [waitTime * 2^attempt] capped at the
    maximum wait, as long as the product fits in 64 bits. *)
Theorem sleepTime_exact rm waitTime attempt :
  0 <= waitTime -> 0 <= attempt -> waitTime * 2 ^ attempt <= int64_max ->
  RetryMiddleware.sleepTime rm waitTime attempt =
    Z.min (RetryMiddleware.MaxWaitTime rm) (waitTime * 2 ^ attempt).
Proof.
  intros Hw Ha Hfit. unfold RetryMiddleware.sleepTime. rewrite Z.shiftl_1_l.
  pose proof (Z.pow_pos_nonneg 2 attempt ltac:(lia) Ha) as Hp.
  assert (wrap64 (waitTime * wrap64 (2 ^ attempt)) = waitTime * 2 ^ attempt) as ->.
  { destruct (Z.eq_dec waitTime 0) as [->|Hne]; [by rewrite !Z.mul_0_l|].
    rewrite (wrap64_small (2 ^ attempt)) by (unfold int64_min, int64_max in *; nia).
    apply wrap64_small. unfold int64_min, int64_max in *. nia. }
  destruct (Z.ltb_spec (RetryMiddleware.MaxWaitTime rm) (waitTime * 2 ^ attempt)); lia.
Qed.

Lemma sleepTime_exact_witness :
  RetryMiddleware.sleepTime (RetryMiddleware.NewRetryMiddleware 3 Second) Second 4 =
    Z.min (30 * Second) (Second * 2 ^ 4).
Proof.
  apply (sleepTime_exact (RetryMiddleware.NewRetryMiddleware 3 Second) Second 4);
    vm_compute; discriminate.
Defined.

(** Past that the product wraps: with a wait of a second the back-off
    before the 35th retry is negative, and the process does not sleep. *)
Example sleepTime_wraps :
  RetryMiddleware.sleepTime (RetryMiddleware.NewRetryMiddleware 40 Second) Second 33
    = 30 * Second /\
  RetryMiddleware.sleepTime (RetryMiddleware.NewRetryMiddleware 40 Second) Second 34
    = - 1266874889709551616 /\
  RetryMiddleware.sleepTime (RetryMiddleware.NewRetryMiddleware 40 Second) Second 64 = 0.
Proof. by vm_compute. Qed.

(** * A concrete world

    The manager, a clock and a count of the calls that reached the upstream:
    the smallest world the middleware runs in.  The scenarios of the design
    are evaluated in it. *)

Module Scenario.
Import CircuitBreakerManager.

Record World := mk {
  manager : CircuitBreakerManager;
  clock : Time;
  upstream_calls : Z;
}.

#[export] Instance World_lens : Lens World CircuitBreakerManager.
Proof.
  refine {| view := manager; update := fun m w => mk m (clock w) (upstream_calls w) |};
    [done | by intros [] | done].
Defined.

#[export] Instance World_clock : Clock World := {| Now := clock |}.

#[export] Instance World_sleeper : Sleeper World :=
  {| Sleep := fun d w => mk (manager w) (clock w + d) (upstream_calls w) |}.

Definition start (cfg : CircuitConfig) (now : Time) : World :=
  mk (NewCircuitBreakerManager cfg) now 0.

(** Time passes. *)
Definition tick (d : Duration) (w : World) : World :=
  mk (manager w) (clock w + d) (upstream_calls w).

(** An upstream that answers [status] after [latency]. *)
Definition upstream (status : Z) (latency : Duration) : Handler World := fun c w =>
  (Return None, Ctx.Status status c, mk (manager w) (clock w + latency) (upstream_calls w + 1)).

(** An upstream whose transport fails. *)
Definition unreachable (latency : Duration) : Handler World := fun c w =>
  (Return (Some (OtherError "dial tcp: connection refused")), c,
   mk (manager w) (clock w + latency) (upstream_calls w + 1)).

(** A request whose context names [service]. *)
Definition request_to (service : string) : Ctx :=
  Ctx.map_locals (Locals.set_service service)
    (Ctx.new (Request.mk "POST" "/api/v1/notifications" "" "gateway" "http" "10.0.0.1" ∅ "")).

(** The world after [n] requests through [h], one after the other. *)
Fixpoint requests (n : nat) (h : Handler World) (c : Ctx) (w : World) : World :=
  match n with
  | O => w
  | S n' => requests n' h c (h c w).2
  end.

Definition millisecond : Duration := 1000000.

(** Five requests to a notifier that answers 500, from midnight. *)
Definition tripped : World :=
  requests 5 (Middleware (upstream 500 millisecond)) (request_to "notifier") (start default_Circuit 0).

(** The breaker a world holds for [name]. *)
Definition breaker_of (name : string) (w : World) : CircuitBreaker :=
  default (CircuitBreaker.NewCircuitBreaker (settings (manager w) name) 0)
          (breakers (manager w) !! name).

End Scenario.

(** * The design's scenarios and the admission rules *)

Section Scenarios.
Import CircuitBreaker CircuitBreakerManager Scenario.

Lemma requests_wf n (h : Handler World) c :
  keeps_wf h -> forall w, wf (manager w) -> wf (manager (requests n h c w)).
Proof. intros Hh. induction n as [|n IH]; intros w Hw; [done|]. apply IH, (Hh c w Hw). Qed.

Lemma upstream_keeps_wf status latency : keeps_wf (upstream status latency).
Proof. by intros c w H. Qed.

Lemma default_Circuit_uint32 : is_uint32 (CircuitConfig.MaxRequests default_Circuit).
Proof. unfold is_uint32, uint32_max. simpl. lia. Qed.

Lemma Middleware_open_rejects_witness :
  Middleware (upstream 500 millisecond) (request_to "notifier") tripped =
    (Return None, Ctx.JSON (open_body "notifier") (Ctx.Status 503 (request_to "notifier")),
     tripped).
Proof.
  apply (Middleware_open_rejects _ _ tripped "notifier" (breaker_of "notifier" tripped)
           30005000000); [vm_compute; reflexivity ..|vm_compute; discriminate].
Defined.

Lemma Middleware_keeps_wf_witness : wf (manager tripped).
Proof.
  apply requests_wf.
  - apply (Middleware_keeps_wf (upstream 500 millisecond)), upstream_keeps_wf.
  - apply NewCircuitBreakerManager_wf, default_Circuit_uint32.
Defined.

Lemma Middleware_swallows_errors_witness :
  let out := (Middleware (unreachable millisecond) (request_to "notifier")
                (start default_Circuit 0)).1.1 in
  out = Return None \/ exists msg, out = Panic msg.
Proof.
  apply (Middleware_swallows_errors (unreachable millisecond) (request_to "notifier")
           (start default_Circuit 0)).
  vm_compute; reflexivity.
Defined.

Lemma Execute_recovery_witness :
  state (breaker_of "notifier"
    (Execute "notifier" (upstream 200 millisecond) (request_to "notifier")
       (tick (31 * Second) tripped)).2) = StateHalfOpen.
Proof.
  rewrite (Execute_recovery _ _ _ "notifier" (breaker_of "notifier" tripped) 30005000000);
    [reflexivity | vm_compute; reflexivity .. | vm_compute; discriminate].
Defined.

(** The trip of the design: five requests to a service that answers 500
    open its breaker, and a sixth within the timeout is answered 503 without
    a call to the service. *)
Example breaker_trip_scenario :
  state (breaker_of "notifier" tripped) = StateOpen /\ upstream_calls tripped = 5 /\
  let '(out, c, w) := Middleware (upstream 500 millisecond) (request_to "notifier") tripped in
  out = Return None /\ Ctx.StatusCode c = 503 /\ upstream_calls w = 5.
Proof. by vm_compute. Qed.

(** The recovery of the design: once the timeout has run out requests
    are admitted again; [MaxRequests] answers of 200 close the breaker,
    and a 500 after that does not reopen it. *)
Example breaker_recovery_scenario :
  let ok := Middleware (upstream 200 millisecond) in
  let ko := Middleware (upstream 500 millisecond) in
  let w4 := requests 4 ok (request_to "notifier") (tick (31 * Second) tripped) in
  let w5 := requests 1 ok (request_to "notifier") w4 in
  let w6 := requests 1 ko (request_to "notifier") w5 in
  state (breaker_of "notifier" w4) = StateHalfOpen /\
  state (breaker_of "notifier" w5) = StateClosed /\ upstream_calls w5 = 10 /\
  state (breaker_of "notifier" w6) = StateClosed /\ upstream_calls w6 = 11.
Proof. by vm_compute. Qed.

(** Durations are not parsed in the scenarios: no route is in the context. *)
Definition no_durations : string -> option Duration := fun _ => None.

Lemma Retry_first_success_witness :
  RetryMiddleware.Middleware no_durations
    (RetryMiddleware.NewRetryMiddleware 3 (100 * millisecond))
    (upstream 200 millisecond) (request_to "notifier") (start default_Circuit 0) =
  upstream 200 millisecond (request_to "notifier") (start default_Circuit 0).
Proof.
  apply (Retry_first_success no_durations);
    [vm_compute; discriminate | reflexivity | vm_compute; reflexivity].
Defined.

Lemma Retry_negative_attempts_witness :
  RetryMiddleware.Middleware no_durations
    (RetryMiddleware.NewRetryMiddleware (-1) (100 * millisecond))
    (upstream 200 millisecond) (request_to "notifier") (start default_Circuit 0) =
  (Return None, request_to "notifier", start default_Circuit 0).
Proof. apply (Retry_negative_attempts no_durations). vm_compute; reflexivity. Defined.

(** Three retries against a service that answers 500: four calls, with
    back-offs of 100, 200 and 400 ms between them and none after the last. *)
Example retry_scenario :
  let '(out, c, w) :=
    RetryMiddleware.Middleware no_durations
      (RetryMiddleware.NewRetryMiddleware 3 (100 * millisecond))
      (upstream 500 millisecond) (request_to "notifier") (start default_Circuit 0) in
  out = Return None /\ Ctx.StatusCode c = 500 /\ upstream_calls w = 4 /\
  clock w = 4 * millisecond + 700 * millisecond.
Proof. by vm_compute. Qed.

End Scenarios.
