(* ===== verification/RateLimit.v ===== *)
(** * Rate limiter

    Models src/internal/middleware/ratelimit.go: the token buckets of the
    in-process limiter ([LocalLimiter.allow], its sweeper), the script the
    limiter runs on the shared store ([Redis.script], [redisAllow]) with the
    fall-back to the local buckets when the store fails, the choice of the
    key and of the limits, and the middleware that sets the three
    [X-RateLimit-*] headers and answers 429.

    A [float64] token count is an exact rational kept reduced, so that equal
    counts are equal terms; Go's [int] is an unbounded integer; the clock is
    read once per request, where the source reads it in [allow] and again
    for [retry_after].  The goroutine [NewRateLimiter] starts is the value
    [Sweeper] it returns beside the limiter: [time.NewTicker] panics for an
    interval that is not positive ([NewTicker]), and a round of the sweeper
    ([cleanup_tick]) runs only on a sweeper that holds its ticker. *)

From stdpp Require Import base strings list gmap pretty.
From Stdlib Require Import ZArith QArith Qround Lia Lqa.
From S2P Require Import Prelude Config Context.

#[local] Open Scope string_scope.
#[local] Open Scope list_scope.
#[local] Open Scope Z_scope.

(** ** The local buckets *)

Module rateBucket.
Record t := mk {
  tokens : Q;
  lastCheck : Time;
}.
End rateBucket.
Abbreviation rateBucket := rateBucket.t.

(** [min] of the source, on [float64]. *)
Definition min (a b : Q) : Q := if Qltb a b then a else b.

(** [Duration.Seconds]. *)
Definition Seconds (d : Duration) : Q := inject_Z d / inject_Z Second.

(** What [allow] returns: permission, the tokens left, the reset time in
    epoch seconds. *)
Definition Verdict : Type := bool * Z * Z.

Definition granted (v : option Verdict) : bool :=
  match v with Some (true, _, _) => true | _ => false end.

(** Instants in order, none before [t0]. *)
Fixpoint ordered (t0 : Time) (times : list Time) : Prop :=
  match times with
  | [] => True
  | t :: ts => t0 <= t /\ ordered t ts
  end.

(** The last of the instants, [t0] when there is none. *)
Definition last_of (t0 : Time) (times : list Time) : Time := default t0 (last times).

(** [time.NewTicker]: the period of the ticker; [None] is the run-time panic
    for an interval that is not positive. *)
Definition NewTicker (d : Duration) : option Duration :=
  if 0 <? d then Some d else None.

(** Instants of a client that keeps to the rate: each comes at least the
    time one token takes after the one before, the first after [t0]. *)
Fixpoint paced (rps : Z) (t0 : Time) (times : list Time) : Prop :=
  match times with
  | [] => True
  | t :: ts => Second <= (t - t0) * rps /\ paced rps t ts
  end.

(** The instants of the requests of [key] among those of several keys. *)
Definition instants (key : string) (reqs : list (string * Time)) : list Time :=
  snd <$> filter (fun kt => kt.1 = key) reqs.

Module LocalLimiter.
Record t := mk {
  requests : gmap string rateBucket;
  cfg : RateLimitConfig;
}.

Definition put (key : string) (b : rateBucket) (ll : t) : t :=
  mk (<[key := b]> (requests ll)) (cfg ll).

(** [allow] at the instant [now]; [None] is the run-time panic of the
    integer division by a zero [rps] on the denial path, which happens after
    the bucket has been updated. *)
Definition allow (key : string) (rps burst : Z) (now : Time) (ll : t) : t * option Verdict :=
  match requests ll !! key with
  | None =>
      (put key (rateBucket.mk (inject_Z (burst - 1)) now) ll,
       Some (true, burst - 1, Unix (now + Second)))
  | Some bucket =>
      let elapsed := Seconds (now - rateBucket.lastCheck bucket) in
      let tokens := Qred (min (inject_Z burst)
                              (rateBucket.tokens bucket + elapsed * inject_Z rps)) in
      if Qle_bool 1 tokens then
        let tokens' := Qred (tokens - 1) in
        (put key (rateBucket.mk tokens' now) ll,
         Some (true, Qtrunc tokens', Unix (now + Second)))
      else
        (put key (rateBucket.mk tokens now) ll,
         match go_div Second rps with
         | Some d => Some (false, 0, Unix (now + d))
         | None => None
         end)
  end.

(** One round of [cleanup], at a tick of its ticker: the buckets last used
    before [now - interval] go. *)
Definition cleanup (interval : Duration) (now : Time) (ll : t) : t :=
  let threshold := now - interval in
  mk (filter (fun kb => ~ (rateBucket.lastCheck kb.2 < threshold)) (requests ll)) (cfg ll).

(** A bucket is sound at [now]: it holds no debt and was not used later. *)
Definition bucket_ok (now : Time) (b : rateBucket) : Prop :=
  (0 <= rateBucket.tokens b)%Q /\ rateBucket.lastCheck b <= now.

Definition wf (now : Time) (ll : t) : Prop :=
  forall key b, requests ll !! key = Some b -> bucket_ok now b.

(** The tokens a bucket holds at [now], refilled and capped: the
    algorithm of the design. *)
Definition refilled (rps burst : Z) (now : Time) (b : rateBucket) : Q :=
  min (inject_Z burst)
      (rateBucket.tokens b + Seconds (now - rateBucket.lastCheck b) * inject_Z rps).

(** The requests of one key at the instants [times], one after the other:
    how many are granted. *)
Fixpoint grants (key : string) (rps burst : Z) (times : list Time) (ll : t) : Z :=
  match times with
  | [] => 0
  | t :: ts =>
      (if granted (allow key rps burst t ll).2 then 1 else 0) +
      grants key rps burst ts (allow key rps burst t ll).1
  end.

(** The requests of several keys in the order in which they take the
    limiter's lock: how many of those of [key] are granted. *)
Fixpoint grants_among (key : string) (rps burst : Z) (reqs : list (string * Time)) (ll : t)
    : Z :=
  match reqs with
  | [] => 0
  | (k, t) :: reqs =>
      (if bool_decide (k = key) && granted (allow k rps burst t ll).2 then 1 else 0) +
      grants_among key rps burst reqs (allow k rps burst t ll).1
  end.

End LocalLimiter.
Abbreviation LocalLimiter := LocalLimiter.t.

(** ** The shared store *)

Module Redis.

(** The hash the script keeps under a key, with the instant the key
    expires. *)
Record entry := mk_entry {
  tokens : Z;
  last : Z;
  expireAt : Time;
}.

(** The store as the limiter sees it: its keys, whether a call reaches it,
    and the integer it replies for an infinite number. *)
Record t := mk {
  data : gmap string entry;
  up : bool;
  inf_reply : Z;
}.

(** [HMGET key tokens last] at the store's instant [instant]: an expired key is
    gone. *)
Definition HMGET (key : string) (instant : Time) (r : t) : option entry :=
  match data r !! key with
  | Some e => if expireAt e <? instant then None else Some e
  | None => None
  end.

(** The reset time the script replies: [now + 1 / rate] converted to an
    integer. *)
Definition reset_time (rate now : Z) (r : t) : Z :=
  if rate =? 0 then inf_reply r else Qtrunc (inject_Z now + 1 / inject_Z rate).

(** The script, run atomically at the store's instant [instant]; [now] is
    the caller's clock in whole seconds.  The reply is [allowed], the floor
    of the tokens and the reset time. *)
Definition script (key : string) (rate burst now : Z) (instant : Time) (r : t)
    : t * (Z * Z * Z) :=
  let window := 1 in
  let data_ := HMGET key instant r in
  let tokens := from_option tokens burst data_ in
  let last := from_option last now data_ in
  let elapsed := now - last in
  let tokens := Z.min burst (tokens + elapsed * rate) in
  let '(tokens, allowed) := if 1 <=? tokens then (tokens - 1, 1) else (tokens, 0) in
  (mk (<[key := mk_entry tokens now (instant + window * 2 * Second)]> (data r))
      (up r) (inf_reply r),
   (allowed, tokens, reset_time rate now r)).

(** No entry holds a debt or was written after the second [now]. *)
Definition wf (now : Z) (r : t) : Prop :=
  forall key e, data r !! key = Some e -> 0 <= tokens e /\ last e <= now.

End Redis.
Abbreviation Redis := Redis.t.

(** ** The limiter *)

Module RateLimiter.
Record t := mk {
  redis : option Redis;
  cfg : RateLimitConfig;
  local : LocalLimiter;
  useRedis : bool;
}.

(** The goroutine [NewRateLimiter] leaves behind: none when the limiter has
    a store; otherwise the sweeper of the local buckets, which holds its
    ticker or has panicked making it. *)
Inductive Sweeper :=
| NoSweeper
| Sweeping (interval : Duration)
| SweeperPanic.

(** The first statement of the goroutine [cleanup]. *)
Definition start_cleanup (interval : Duration) : Sweeper :=
  match NewTicker interval with
  | Some d => Sweeping d
  | None => SweeperPanic
  end.

(** [NewRateLimiter] returns the limiter; the second component is the
    goroutine it started. *)
Definition NewRateLimiter (cfg : RateLimitConfig) (redisClient : option Redis) : t * Sweeper :=
  let limiter := mk redisClient cfg (LocalLimiter.mk ∅ cfg) (negb (is_none redisClient)) in
  (limiter,
   if negb (useRedis limiter) then start_cleanup (RateLimitConfig.CleanupInterval cfg)
   else NoSweeper).

(** A tick of the sweeper's ticker: one round of the loop of [cleanup],
    when the goroutine runs. *)
Definition cleanup_tick (s : Sweeper) (now : Time) (rl : t) : t :=
  match s with
  | Sweeping interval =>
      mk (redis rl) (cfg rl) (LocalLimiter.cleanup interval now (local rl)) (useRedis rl)
  | NoSweeper | SweeperPanic => rl
  end.

Definition local_allow (key : string) (rps burst : Z) (now : Time) (rl : t) : t * option Verdict :=
  let '(ll, v) := LocalLimiter.allow key rps burst now (local rl) in
  (mk (redis rl) (cfg rl) ll (useRedis rl), v).

Definition redisAllow (key : string) (rps burst : Z) (now : Time) (rl : t) : t * option Verdict :=
  match redis rl with
  | Some r =>
      if Redis.up r then
        let '(r', (allowed, remaining, reset)) := Redis.script key rps burst (Unix now) now r in
        (mk (Some r') (cfg rl) (local rl) (useRedis rl), Some (allowed =? 1, remaining, reset))
      else local_allow key rps burst now rl
  | None => local_allow key rps burst now rl
  end.

Definition allow (key : string) (rps burst : Z) (now : Time) (rl : t) : t * option Verdict :=
  if useRedis rl then redisAllow key rps burst now rl
  else local_allow key rps burst now rl.

(** The buckets of both backends are sound at [now]. *)
Definition wf (now : Time) (rl : t) : Prop :=
  LocalLimiter.wf now (local rl) /\ from_option (Redis.wf (Unix now)) True (redis rl).

Definition createKey (c : Ctx) : string :=
  match Locals.user_id (Ctx.locals c) with
  | Some userID => "ratelimit:" +:+ userID +:+ ":" +:+ Ctx.Path c
  | None => "ratelimit:ip:" +:+ Ctx.IP c +:+ ":" +:+ Ctx.Path c
  end.

(** The limits of this request: the route's when the context holds a route
    with a rate-limit block, the configured ones otherwise. *)
Definition limits (rl : t) (c : Ctx) : Z * Z :=
  match Locals.route (Ctx.locals c) with
  | Some route =>
      match Route.RateLimit route with
      | Some l => (RouteLimit.RequestsPerSec l, RouteLimit.BurstSize l)
      | None => (RateLimitConfig.RequestsPerSec (cfg rl), RateLimitConfig.BurstSize (cfg rl))
      end
  | None => (RateLimitConfig.RequestsPerSec (cfg rl), RateLimitConfig.BurstSize (cfg rl))
  end.

Definition set_headers (rps remaining resetTime : Z) (c : Ctx) : Ctx :=
  Ctx.SetHeader "X-RateLimit-Reset" (itoa resetTime)
    (Ctx.SetHeader "X-RateLimit-Remaining" (itoa remaining)
       (Ctx.SetHeader "X-RateLimit-Limit" (itoa rps) c)).

Definition denied_body (retry_after : Z) : list (string * JSON) :=
  [("error", JString "rate_limit_exceeded");
   ("message", JString "Too many requests, please try again later");
   ("retry_after", JInt retry_after)].

Definition divide_by_zero : string := "runtime error: integer divide by zero".

Section Middleware.
Context {W : Type} `{!Lens W t} `{!Clock W}.

Definition Middleware : Stage W := fun next c w =>
  if negb (RateLimitConfig.Enabled (cfg (view w))) then next c w else
  let '(rps, burst) := limits (view w) c in
  let key := createKey c in
  let '(rl, verdict) := allow key rps burst (Now w) (view w) in
  let w' := update rl w in
  match verdict with
  | None => (Panic divide_by_zero, c, w')
  | Some (allowed, remaining, resetTime) =>
      let c' := set_headers rps remaining resetTime c in
      if negb allowed
      then (Return None,
            Ctx.JSON (denied_body (resetTime - Unix (Now w'))) (Ctx.Status 429 c'), w')
      else next c' w'
  end.

End Middleware.
End RateLimiter.
Abbreviation RateLimiter := RateLimiter.t.

(** * Properties of the local buckets *)

Section LocalLemmas.
Import LocalLimiter.
Implicit Types (ll : LocalLimiter) (key : string) (rps burst : Z) (now : Time) (b : rateBucket).

Lemma Seconds_nonneg d : 0 <= d -> (0 <= Seconds d)%Q.
Proof.
  intros Hd. unfold Seconds, Qdiv. apply Qmult_le_0_compat; [|done].
  unfold Qle; simpl. lia.
Qed.

Lemma Seconds_le d1 d2 : d1 <= d2 -> (Seconds d1 <= Seconds d2)%Q.
Proof.
  intros Hd. unfold Seconds, Qdiv. apply Qmult_le_compat_r; [|done].
  unfold Qle; simpl. lia.
Qed.

Lemma Seconds_sub (x y : Z) : (Seconds (x - y)%Z == Seconds x - Seconds y)%Q.
Proof. unfold Seconds. rewrite inject_Z_sub. by field. Qed.

Lemma min_le_l (x y : Q) : (min x y <= x)%Q.
Proof. unfold min. destruct (Qltb x y) eqn:E; gw_qbool; lra. Qed.

Lemma min_le_r (x y : Q) : (min x y <= y)%Q.
Proof. unfold min. destruct (Qltb x y) eqn:E; gw_qbool; lra. Qed.

Lemma min_glb (x y z : Q) : (z <= x)%Q -> (z <= y)%Q -> (z <= min x y)%Q.
Proof. unfold min. by destruct (Qltb x y). Qed.


Lemma refilled_le_burst rps burst now b : (refilled rps burst now b <= inject_Z burst)%Q.
Proof. apply min_le_l. Qed.

Lemma refilled_nonneg rps burst now b :
  0 <= rps -> 0 <= burst -> bucket_ok now b -> (0 <= refilled rps burst now b)%Q.
Proof.
  intros Hr Hb [Ht Hl]. apply min_glb; [unfold Qle; simpl; lia|].
  pose proof (Seconds_nonneg (now - rateBucket.lastCheck b) ltac:(lia)).
  assert (0 <= inject_Z rps)%Q by (unfold Qle; simpl; lia). nra.
Qed.

Lemma allow_fresh key rps burst now ll :
  requests ll !! key = None ->
  allow key rps burst now ll =
    (put key (rateBucket.mk (inject_Z (burst - 1)) now) ll,
     Some (true, burst - 1, Unix (now + Second))).
Proof. unfold allow. by intros ->. Qed.

Lemma allow_granted key rps burst now ll b :
  requests ll !! key = Some b -> (1 <= refilled rps burst now b)%Q ->
  allow key rps burst now ll =
    (put key (rateBucket.mk (Qred (Qred (refilled rps burst now b) - 1)) now) ll,
     Some (true, Qtrunc (Qred (Qred (refilled rps burst now b) - 1)), Unix (now + Second))).
Proof.
  unfold allow. intros -> H. fold (refilled rps burst now b).
  rewrite <- (Qred_correct (refilled rps burst now b)) in H.
  apply Qle_bool_iff in H. by rewrite H.
Qed.

Lemma allow_denied key rps burst now ll b :
  requests ll !! key = Some b -> (refilled rps burst now b < 1)%Q ->
  allow key rps burst now ll =
    (put key (rateBucket.mk (Qred (refilled rps burst now b)) now) ll,
     (fun d => (false, 0, Unix (now + d))) <$> go_div Second rps).
Proof.
  unfold allow. intros -> H. fold (refilled rps burst now b).
  rewrite <- (Qred_correct (refilled rps burst now b)) in H.
  apply Qle_bool_false in H. rewrite H. by destruct (go_div Second rps).
Qed.


Lemma LocalLimiter_wf_mono now now' ll : now <= now' -> wf now ll -> wf now' ll.
Proof. intros Hle Hwf key b Hl. destruct (Hwf key b Hl). split; [done|lia]. Qed.

Lemma put_wf now key b ll : bucket_ok now b -> wf now ll -> wf now (put key b ll).
Proof.
  intros Hb Hwf k b'. simpl. destruct (decide (key = k)) as [<-|Hne].
  - rewrite lookup_insert_eq. by intros [= <-].
  - rewrite lookup_insert_ne by done. apply Hwf.
Qed.

Lemma put_lookup key b ll : requests (put key b ll) !! key = Some b.
Proof. apply lookup_insert_eq. Qed.

Lemma put_lookup_ne key key' b ll :
  key <> key' -> requests (put key b ll) !! key' = requests ll !! key'.
Proof. intros. by apply lookup_insert_ne. Qed.

(** [allow] in one equation: the bucket is refilled and capped, a token is
    taken when there is one. *)
Lemma allow_existing key rps burst now ll b :
  requests ll !! key = Some b ->
  let r := Qred (refilled rps burst now b) in
  allow key rps burst now ll =
    if Qle_bool 1 r
    then (put key (rateBucket.mk (Qred (r - 1)) now) ll,
          Some (true, Qtrunc (Qred (r - 1)), Unix (now + Second)))
    else (put key (rateBucket.mk r now) ll,
          (fun d => (false, 0, Unix (now + d))) <$> go_div Second rps).
Proof.
  unfold allow. intros ->. fold (refilled rps burst now b). simpl.
  destruct (Qle_bool 1 _); [done|]. by destruct (go_div Second rps).
Qed.

Lemma allow_wf key rps burst now0 now ll :
  wf now0 ll -> now0 <= now -> 0 <= rps -> 1 <= burst ->
  wf now (allow key rps burst now ll).1.
Proof.
  intros Hwf Hle Hr Hb. apply (LocalLimiter_wf_mono _ _ _ Hle) in Hwf.
  destruct (requests ll !! key) as [b|] eqn:E.
  - pose proof (refilled_nonneg rps burst now b Hr ltac:(lia) (Hwf _ _ E)) as Hn.
    rewrite (allow_existing _ _ _ _ _ _ E). simpl.
    destruct (Qle_bool 1 _) eqn:Hq; gw_qbool; simpl; apply put_wf; try done;
      (split; simpl; [rewrite ?Qred_correct in *; lra | lia]).
  - rewrite (allow_fresh _ _ _ _ _ E). simpl. apply put_wf; [|done].
    split; simpl; [|lia]. unfold Qle; simpl; lia.
Qed.


Lemma last_of_cons t0 t ts : last_of t0 (t :: ts) = last_of t ts.
Proof. unfold last_of. rewrite last_cons. by destruct (last ts). Qed.

Lemma ordered_last t0 times : ordered t0 times -> t0 <= last_of t0 times.
Proof.
  revert t0. induction times as [|t ts IH]; intros t0; [done|].
  intros [Hle Ho]. rewrite last_of_cons. specialize (IH _ Ho). lia.
Qed.

Lemma grants_bound_from key rps burst times : forall ll b,
  0 <= rps -> 0 <= burst -> requests ll !! key = Some b ->
  (0 <= rateBucket.tokens b)%Q -> ordered (rateBucket.lastCheck b) times ->
  (inject_Z (grants key rps burst times ll) <=
   rateBucket.tokens b +
   Seconds (last_of (rateBucket.lastCheck b) times - rateBucket.lastCheck b)%Z * inject_Z rps)%Q.
Proof.
  induction times as [|t ts IH]; intros ll b Hr Hb Hl Ht Ho.
  - unfold last_of. cbn [grants last default]. rewrite Z.sub_diag.
    assert (H0 : (Seconds 0%Z == 0)%Q) by done. rewrite H0. change (inject_Z 0) with 0%Q. lra.
  - destruct Ho as [Hle Ho]. rewrite last_of_cons. cbn [grants].
    assert (Hok : bucket_ok t b) by done.
    pose proof (refilled_nonneg rps burst t b Hr Hb Hok) as Hn.
    pose proof (min_le_r (inject_Z burst)
      (rateBucket.tokens b + Seconds (t - rateBucket.lastCheck b) * inject_Z rps)) as Hm.
    fold (refilled rps burst t b) in Hm.
    rewrite (allow_existing _ _ _ _ _ _ Hl). cbv zeta.
    rewrite (Seconds_sub (last_of t ts)), (Seconds_sub t) in *.
    destruct (Qle_bool 1 _) eqn:Hq; gw_qbool; cbn [fst snd granted];
      rewrite ?Qred_correct in Hq;
      lazymatch goal with |- context [grants _ _ _ _ (put key ?b' ll)] =>
        specialize (IH _ b' Hr Hb (put_lookup key b' ll));
        cbn [rateBucket.tokens rateBucket.lastCheck] in IH;
        specialize (IH ltac:(rewrite ?Qred_correct; lra) Ho);
        set (n := grants _ _ _ _ _) in *;
        rewrite !Qred_correct, (Seconds_sub (last_of t ts)) in IH
      end.
    + rewrite inject_Z_plus. change (inject_Z 1) with 1%Q. lra.
    + assert (granted ((fun d => (false, 0, Unix (t + d))) <$> go_div Second rps) = false) as ->
        by (by destruct (go_div Second rps)).
      rewrite Z.add_0_l. lra.
Qed.


(** C2: the token-bucket bound: of the requests a key makes from its first one
    at [t1] on, at most [burst] plus [rps] per second elapsed are
    granted. *)
Theorem grants_bound key rps burst t1 times ll :
  requests ll !! key = None -> 0 <= rps -> 1 <= burst -> ordered t1 times ->
  (inject_Z (grants key rps burst (t1 :: times) ll) <=
   inject_Z burst + Seconds (last_of t1 times - t1)%Z * inject_Z rps)%Q.
Proof.
  intros Hl Hr Hb Ho. cbn [grants]. rewrite (allow_fresh _ _ _ _ _ Hl). cbn [fst snd granted].
  pose proof (grants_bound_from key rps burst times _ _ Hr ltac:(lia)
    (put_lookup key (rateBucket.mk (inject_Z (burst - 1)) t1) ll)) as H.
  cbn [rateBucket.tokens rateBucket.lastCheck] in H.
  specialize (H ltac:(apply inject_Z_nonneg; lia) Ho).
  set (n := grants _ _ _ _ _) in *. rewrite inject_Z_sub in H. rewrite inject_Z_plus.
  change (inject_Z 1) with 1%Q in *. lra.
Qed.

(** As long as the bucket holds a token for each of them, requests are
    granted whenever they come. *)
Lemma grants_all_from key rps burst times : forall ll b,
  0 <= rps -> requests ll !! key = Some b -> ordered (rateBucket.lastCheck b) times ->
  (inject_Z (Z.of_nat (length times)) <= rateBucket.tokens b)%Q ->
  Z.of_nat (length times) <= burst ->
  grants key rps burst times ll = Z.of_nat (length times).
Proof.
  induction times as [|t ts IH]; intros ll b Hr Hl Ho Ht Hb; [done|].
  destruct Ho as [Hle Ho]. cbn [grants]. cbn [length] in *. rewrite Nat2Z.inj_succ in *.
  unfold Z.succ in *. rewrite inject_Z_plus in Ht. change (inject_Z 1) with 1%Q in Ht.
  assert (Hn : (inject_Z (Z.of_nat (length ts)) + 1 <= refilled rps burst t b)%Q).
  { apply min_glb; [rewrite <- (inject_Z_plus _ 1), <- Zle_Qle; lia|].
    pose proof (Seconds_nonneg (t - rateBucket.lastCheck b) ltac:(lia)).
    assert (0 <= inject_Z rps)%Q by (by apply inject_Z_nonneg). nra. }
  assert (0 <= inject_Z (Z.of_nat (length ts)))%Q by (apply inject_Z_nonneg; lia).
  rewrite (allow_granted _ _ _ _ _ _ Hl) by lra. cbn [fst snd granted].
  rewrite (IH _ _ Hr (put_lookup key _ ll)); [lia|done| |lia].
  cbn [rateBucket.tokens]. rewrite !Qred_correct. lra.
Qed.

(** C17: a key's first [burst] requests are granted, however fast they come. *)
Theorem grants_burst key rps burst t1 times ll :
  requests ll !! key = None -> 0 <= rps -> ordered t1 times ->
  Z.of_nat (length (t1 :: times)) <= burst ->
  grants key rps burst (t1 :: times) ll = Z.of_nat (length (t1 :: times)).
Proof.
  intros Hl Hr Ho Hb. cbn [grants]. rewrite (allow_fresh _ _ _ _ _ Hl). cbn [fst snd granted].
  cbn [length] in *. rewrite Nat2Z.inj_succ in *.
  rewrite (grants_all_from _ _ _ _ _ _ Hr (put_lookup key _ ll)); [lia|done| |lia].
  cbn [rateBucket.tokens]. rewrite <- Zle_Qle. lia.
Qed.

(** A bucket without debt holds a token once the time one token takes has
    passed. *)
Lemma refilled_after_wait rps burst now b :
  (0 <= rateBucket.tokens b)%Q -> 1 <= burst ->
  Second <= (now - rateBucket.lastCheck b) * rps ->
  (1 <= refilled rps burst now b)%Q.
Proof.
  intros Ht Hb Hw. apply min_glb; [by apply inject_Z_pos|].
  assert (1 <= Seconds (now - rateBucket.lastCheck b)%Z * inject_Z rps)%Q; [|lra].
  unfold Seconds, Qdiv. rewrite <- Qmult_assoc, (Qmult_comm (/ _)), Qmult_assoc.
  apply Qle_shift_div_l; [done|]. rewrite Qmult_1_l, <- inject_Z_mult, <- Zle_Qle. lia.
Qed.

(** A bucket that has rested for the time one token takes grants the next
    request. *)
Theorem allow_after_wait key rps burst now ll b :
  requests ll !! key = Some b -> bucket_ok now b -> 1 <= burst -> 0 <= rps ->
  Second <= (now - rateBucket.lastCheck b) * rps ->
  granted (allow key rps burst now ll).2 = true.
Proof.
  intros Hl [Ht Hle] Hb Hr Hw. rewrite (allow_granted _ _ _ _ _ _ Hl); [done|].
  by apply refilled_after_wait.
Qed.

Lemma grants_paced_from key rps burst times : forall ll b,
  1 <= burst -> requests ll !! key = Some b -> (0 <= rateBucket.tokens b)%Q ->
  paced rps (rateBucket.lastCheck b) times ->
  grants key rps burst times ll = Z.of_nat (length times).
Proof.
  induction times as [|t ts IH]; intros ll b Hb Hl Ht Hp; [done|].
  destruct Hp as [Hw Hp]. cbn [grants length]. rewrite Nat2Z.inj_succ.
  pose proof (refilled_after_wait rps burst t b Ht Hb Hw) as Hr.
  rewrite (allow_granted _ _ _ _ _ _ Hl Hr). cbn [fst snd granted].
  rewrite (IH _ _ Hb (put_lookup key _ ll)); [lia| |done].
  cbn [rateBucket.tokens]. rewrite !Qred_correct. lra.
Qed.

(** C27: a client that keeps to the rate is never turned away: when each
    request of a key comes at least the time one token takes after the one
    before, every one of them is granted, however many they are and
    whatever the burst of at least one. *)
Theorem paced_always_granted key rps burst t1 times ll :
  requests ll !! key = None -> 1 <= burst -> paced rps t1 times ->
  grants key rps burst (t1 :: times) ll = Z.of_nat (length (t1 :: times)).
Proof.
  intros Hl Hb Hp. cbn [grants length]. rewrite (allow_fresh _ _ _ _ _ Hl), Nat2Z.inj_succ.
  cbn [fst snd granted].
  rewrite (grants_paced_from _ _ _ _ _ _ Hb (put_lookup key _ ll)); [lia| |done].
  cbn [rateBucket.tokens]. apply inject_Z_nonneg. lia.
Qed.

(** ** Several clients *)

(** [allow] looks at the bucket of its key only, and changes no other. *)
Lemma allow_lookup_ne key k rps burst now ll :
  k <> key -> requests (allow k rps burst now ll).1 !! key = requests ll !! key.
Proof.
  intros Hne. unfold allow. repeat case_match; simpl; by rewrite lookup_insert_ne.
Qed.

Lemma allow_same_bucket key rps burst now ll ll' :
  requests ll !! key = requests ll' !! key ->
  (allow key rps burst now ll).2 = (allow key rps burst now ll').2 /\
  requests (allow key rps burst now ll).1 !! key =
    requests (allow key rps burst now ll').1 !! key.
Proof.
  intros E. unfold allow. rewrite E. repeat case_match; simpl; by rewrite !lookup_insert_eq.
Qed.

Lemma grants_among_eq key rps burst reqs : forall ll ll',
  requests ll !! key = requests ll' !! key ->
  grants_among key rps burst reqs ll = grants key rps burst (instants key reqs) ll'.
Proof.
  induction reqs as [|[k t] reqs IH]; intros ll ll' E; [done|].
  cbn [grants_among]. unfold instants. rewrite filter_cons. simpl.
  destruct (decide (k = key)) as [->|Hne].
  - rewrite bool_decide_true by done. cbn [fmap list_fmap grants andb].
    destruct (allow_same_bucket key rps burst t ll ll' E) as [-> E']. f_equal.
    by apply IH.
  - rewrite bool_decide_false by done. simpl. apply IH. by rewrite allow_lookup_ne.
Qed.

(** C29: the clients of the local limiter do not see one another: however
    the requests of other keys are interleaved with those of a key, the
    requests of the key that are granted are as many as if it had been
    alone, so that no client can use up the tokens of another. *)
Theorem grants_isolated key rps burst reqs ll :
  grants_among key rps burst reqs ll = grants key rps burst (instants key reqs) ll.
Proof. by apply grants_among_eq. Qed.


(** ** The sweeper *)

Lemma cleanup_lookup interval now ll key b :
  requests (cleanup interval now ll) !! key = Some b <->
  requests ll !! key = Some b /\ now - interval <= rateBucket.lastCheck b.
Proof. unfold cleanup. simpl. rewrite map_lookup_filter_Some. simpl. intuition lia. Qed.

Lemma cleanup_stale interval now ll key b :
  requests ll !! key = Some b -> rateBucket.lastCheck b < now - interval ->
  requests (cleanup interval now ll) !! key = None.
Proof.
  intros Hl Hlt. apply eq_None_not_Some. intros [b' Hb'].
  apply cleanup_lookup in Hb' as [Hl' Hge]. simplify_eq. lia.
Qed.

Lemma cleanup_wf interval now t ll : wf t ll -> wf t (cleanup interval now ll).
Proof. intros Hwf key b Hl. apply cleanup_lookup in Hl as [Hl _]. by apply (Hwf key). Qed.

(** A bucket that rested longer than the sweeper's interval is full again
    when refilling over the interval fills a bucket. *)
Lemma refilled_full rps burst interval now b :
  bucket_ok now b -> 0 <= rps -> 0 <= interval ->
  rateBucket.lastCheck b < now - interval -> burst * Second <= interval * rps ->
  Qred (refilled rps burst now b) = inject_Z burst.
Proof.
  intros [Ht Hle] Hr Hi Hlt Hfull. rewrite <- Qred_inject_Z. apply Qred_complete.
  unfold refilled, min. destruct (Qltb _ _) eqn:E; [done|]. gw_qbool.
  apply Qle_antisym; [done|].
  assert (inject_Z burst <= Seconds (now - rateBucket.lastCheck b)%Z * inject_Z rps)%Q; [|lra].
  unfold Seconds, Qdiv. rewrite <- Qmult_assoc, (Qmult_comm (/ _)), Qmult_assoc.
  apply Qle_shift_div_l; [done|]. rewrite <- !inject_Z_mult, <- Zle_Qle. nia.
Qed.


(** C28: the sweeper cannot be observed when refilling over its interval
    fills a bucket, as with the default configuration: a key whose bucket
    it removed gets the verdict and the bucket it would have got. *)
Theorem cleanup_unobservable key rps burst interval now ll b :
  requests ll !! key = Some b -> bucket_ok now b ->
  0 <= rps -> 1 <= burst -> 0 <= interval -> burst * Second <= interval * rps ->
  rateBucket.lastCheck b < now - interval ->
  let swept := allow key rps burst now (cleanup interval now ll) in
  let kept := allow key rps burst now ll in
  swept.2 = kept.2 /\ requests swept.1 !! key = requests kept.1 !! key.
Proof.
  intros Hl Hok Hr Hb Hi Hfull Hlt. cbv zeta.
  rewrite (allow_fresh _ _ _ _ _ (cleanup_stale _ _ _ _ _ Hl Hlt)).
  rewrite (allow_existing _ _ _ _ _ _ Hl). cbv zeta.
  rewrite (refilled_full rps burst interval now b) by done.
  assert (Qle_bool 1 (inject_Z burst) = true) as ->.
  { apply Qle_bool_iff. by apply inject_Z_pos. }
  assert (Qred (inject_Z burst - 1) = inject_Z (burst - 1)) as ->.
  { rewrite <- (Qred_inject_Z (burst - 1)). apply Qred_complete. by rewrite inject_Z_sub. }
  cbn [fst snd]. by rewrite Qtrunc_inject_Z, !put_lookup.
Qed.

(** With a rate of zero a request that finds no token does not return:
    the division for its reset time panics, after the bucket was
    updated. *)
Theorem allow_zero_rate key burst now ll b :
  requests ll !! key = Some b -> (refilled 0 burst now b < 1)%Q ->
  allow key 0 burst now ll = (put key (rateBucket.mk (Qred (refilled 0 burst now b)) now) ll, None).
Proof. intros Hl Hlt. by rewrite (allow_denied _ _ _ _ _ _ Hl Hlt). Qed.

(** A denial takes nothing: the bucket keeps what it held, refilled. *)
Theorem allow_denied_monotone key rps burst now ll b :
  requests ll !! key = Some b -> bucket_ok now b -> 0 <= rps ->
  (rateBucket.tokens b <= inject_Z burst)%Q -> granted (allow key rps burst now ll).2 = false ->
  exists b', requests (allow key rps burst now ll).1 !! key = Some b' /\
    (rateBucket.tokens b <= rateBucket.tokens b' <= inject_Z burst)%Q.
Proof.
  intros Hl [Ht Hle] Hr Hb. rewrite (allow_existing _ _ _ _ _ _ Hl). cbv zeta.
  destruct (Qle_bool 1 _) eqn:E; [done|]. intros _. eexists. split; [apply put_lookup|].
  simpl. rewrite Qred_correct. split; [|apply refilled_le_burst].
  apply min_glb; [done|]. pose proof (Seconds_nonneg (now - rateBucket.lastCheck b) ltac:(lia)).
  pose proof (inject_Z_nonneg rps Hr). nra.
Qed.

End LocalLemmas.

(** * The shared store *)

Section RedisLemmas.
Import Redis.
Implicit Types (r : Redis) (key : string) (rate burst now : Z) (instant : Time).

Lemma HMGET_expired key instant r e :
  data r !! key = Some e -> expireAt e < instant -> HMGET key instant r = None.
Proof. unfold HMGET. intros -> H. by destruct (Z.ltb_spec (expireAt e) instant); [|lia]. Qed.

Lemma HMGET_live key instant r e :
  data r !! key = Some e -> instant <= expireAt e -> HMGET key instant r = Some e.
Proof. unfold HMGET. intros -> H. by destruct (Z.ltb_spec (expireAt e) instant); [lia|]. Qed.

(** On a key the store does not hold, or no longer holds, the script
    starts from a full bucket. *)
Lemma script_fresh key rate burst now instant r :
  HMGET key instant r = None -> 1 <= burst ->
  script key rate burst now instant r =
    (mk (<[key := mk_entry (burst - 1) now (instant + 2 * Second)]> (data r)) (up r) (inf_reply r),
     (1, burst - 1, reset_time rate now r)).
Proof.
  unfold script. intros -> Hb. simpl. rewrite Z.sub_diag, Z.mul_0_l, Z.add_0_r, Z.min_id.
  by destruct (Z.leb_spec 1 burst); [|lia].
Qed.

(** On a live key the script refills by whole seconds and caps. *)
Lemma script_live key rate burst now instant r e :
  HMGET key instant r = Some e ->
  let refilled := Z.min burst (tokens e + (now - last e) * rate) in
  script key rate burst now instant r =
    (mk (<[key := mk_entry (if 1 <=? refilled then refilled - 1 else refilled) now
                           (instant + 2 * Second)]> (data r)) (up r) (inf_reply r),
     (if 1 <=? refilled then 1 else 0, if 1 <=? refilled then refilled - 1 else refilled,
      reset_time rate now r)).
Proof. unfold script. intros ->. simpl. by destruct (1 <=? _). Qed.

(** The reset time replied for a positive rate: the second after [now] at
    one request per second, [now] itself at any higher rate. *)
Lemma reset_time_pos rate now r :
  1 <= rate -> 0 <= now -> reset_time rate now r = if rate =? 1 then now + 1 else now.
Proof.
  intros Hr Hn. unfold reset_time. destruct (Z.eqb_spec rate 0); [lia|].
  pose proof (inject_Z_nonneg now Hn) as Hn'.
  assert (0 < inject_Z rate)%Q as Hr' by (unfold Qlt; simpl; lia).
  assert (0 < 1 / inject_Z rate)%Q as Hi by (by apply Qlt_shift_div_l; lra).
  unfold Qtrunc. assert (Qle_bool 0 (inject_Z now + 1 / inject_Z rate) = true) as ->
    by (apply Qle_bool_iff; lra).
  destruct (Z.eqb_spec rate 1) as [->|Hne].
  - rewrite (Qfloor_comp _ (inject_Z (now + 1))); [apply Qfloor_Z|].
    rewrite inject_Z_plus. reflexivity.
  - apply Qfloor_unique; [lra|]. rewrite inject_Z_plus. change (inject_Z 1) with 1%Q.
    assert (1 / inject_Z rate < 1)%Q; [|lra].
    apply Qlt_shift_div_r; [done|]. rewrite Qmult_1_l. unfold Qlt; simpl; lia.
Qed.

Lemma script_wf key rate burst now instant r now0 :
  wf now0 r -> now0 <= now -> 0 <= rate -> 0 <= burst ->
  wf now (script key rate burst now instant r).1.
Proof.
  intros Hwf Hle Hr Hb.
  assert (0 <= from_option tokens burst (HMGET key instant r) /\
          from_option last now (HMGET key instant r) <= now) as [Ht Hl].
  { unfold HMGET. destruct (data r !! key) as [e|] eqn:E; simpl; [|lia].
    destruct (Hwf _ _ E). destruct (expireAt e <? instant); simpl; lia. }
  unfold script. cbv zeta. set (tk := Z.min _ _). assert (0 <= tk) by (unfold tk; nia).
  intros k e. destruct (Z.leb_spec 1 tk); cbn [fst data];
    (destruct (decide (key = k)) as [<-|Hne];
     [rewrite lookup_insert_eq; intros [= <-]; simpl; lia
     |rewrite lookup_insert_ne by done; intros He; destruct (Hwf _ _ He); lia]).
Qed.

End RedisLemmas.

(** * The limiter *)

Section LimiterLemmas.
Import RateLimiter.
Implicit Types (rl : RateLimiter) (key : string) (rps burst : Z) (now : Time).

Lemma allow_local key rps burst now rl :
  useRedis rl = false -> allow key rps burst now rl = local_allow key rps burst now rl.
Proof. unfold allow. by intros ->. Qed.

(** When the store cannot be reached the local buckets answer, whether
    the limiter was built with a store or without. *)
Theorem allow_fallback key rps burst now rl r :
  redis rl = Some r -> Redis.up r = false ->
  allow key rps burst now rl = local_allow key rps burst now rl.
Proof. unfold allow, redisAllow. intros -> ->. by destruct (useRedis rl). Qed.

Lemma allow_store key rps burst now rl r :
  useRedis rl = true -> redis rl = Some r -> Redis.up r = true ->
  allow key rps burst now rl =
    let '(r', (allowed, remaining, reset)) := Redis.script key rps burst (Unix now) now r in
    (mk (Some r') (cfg rl) (local rl) (useRedis rl), Some (allowed =? 1, remaining, reset)).
Proof. unfold allow, redisAllow. by intros -> -> ->. Qed.

Lemma local_allow_wf key rps burst now0 now rl :
  wf now0 rl -> now0 <= now -> 0 <= rps -> 1 <= burst ->
  wf now (local_allow key rps burst now rl).1.
Proof.
  intros [Hl Hr] Hle Hrps Hb. unfold local_allow.
  pose proof (allow_wf key rps burst now0 now _ Hl Hle Hrps Hb) as H.
  destruct (LocalLimiter.allow key rps burst now (local rl)) as [ll v]. split; [done|].
  simpl. destruct (redis rl) as [r|]; [|done]. simpl in *.
  intros k e He. destruct (Hr k e He). split; [done|]. pose proof (Unix_mono _ _ Hle). lia.
Qed.

Lemma NewRateLimiter_wf cfg client now :
  from_option (Redis.wf (Unix now)) True client -> wf now (NewRateLimiter cfg client).1.
Proof. intros H. split; [|done]. intros k b. simpl. by rewrite lookup_empty. Qed.

Lemma limiter_allow_wf key rps burst now0 now rl :
  wf now0 rl -> now0 <= now -> 0 <= rps -> 1 <= burst ->
  wf now (allow key rps burst now rl).1.
Proof.
  intros Hwf Hle Hrps Hb. unfold allow, redisAllow.
  destruct (useRedis rl); [|by apply (local_allow_wf _ _ _ now0)].
  destruct (redis rl) as [r|] eqn:Er; [|by apply (local_allow_wf _ _ _ now0)].
  destruct (Redis.up r); [|by apply (local_allow_wf _ _ _ now0)].
  destruct Hwf as [Hl Hr]. rewrite Er in Hr. simpl in Hr.
  pose proof (script_wf key rps burst (Unix now) now r _ Hr (Unix_mono _ _ Hle) Hrps
                ltac:(lia)) as H.
  destruct (Redis.script key rps burst (Unix now) now r) as [r' [[a m] t]].
  split; [|done]. by apply (LocalLimiter_wf_mono now0).
Qed.

(** A key neither backend has seen is granted by both, with the same
    tokens left. *)
Theorem backends_agree_fresh key rps burst now rl r :
  redis rl = Some r -> Redis.up r = true -> useRedis rl = true ->
  Redis.HMGET key now r = None -> LocalLimiter.requests (local rl) !! key = None ->
  1 <= burst ->
  (fun v => v.1) <$> (allow key rps burst now rl).2 = Some (true, burst - 1) /\
  (fun v => v.1) <$> (local_allow key rps burst now rl).2 = Some (true, burst - 1).
Proof.
  intros Hr Hup Hu Hs Hl Hb. split.
  - rewrite (allow_store _ _ _ _ _ r) by done. by rewrite script_fresh.
  - unfold local_allow. by rewrite allow_fresh.
Qed.

(** A key left alone until its entry expired finds a full bucket, whatever
    it held and whatever the rate. *)
Theorem store_idle_resets key rps burst now rl r e :
  useRedis rl = true -> redis rl = Some r -> Redis.up r = true ->
  Redis.data r !! key = Some e -> Redis.expireAt e < now -> 1 <= burst ->
  (allow key rps burst now rl).2 = Some (true, burst - 1, Redis.reset_time rps (Unix now) r).
Proof.
  intros Hu Hr Hup Hd He Hb. rewrite (allow_store _ _ _ _ _ r) by done.
  by rewrite script_fresh by eauto using HMGET_expired.
Qed.

(** The sweeper runs only for a limiter built without a store: the buckets
    the fall-back creates are never removed. *)
Lemma cleanup_tick_store cfg r now rl :
  cleanup_tick (NewRateLimiter cfg (Some r)).2 now rl = rl.
Proof. done. Qed.

(** Without a store the sweeper runs with the interval of the configuration
    when that is positive, and panics otherwise. *)
Lemma NewRateLimiter_sweeper cfg :
  (NewRateLimiter cfg None).2 =
    if 0 <? RateLimitConfig.CleanupInterval cfg
    then Sweeping (RateLimitConfig.CleanupInterval cfg) else SweeperPanic.
Proof. unfold NewRateLimiter, start_cleanup, NewTicker. simpl. by destruct (0 <? _). Qed.

(** A round of the sweeper keeps the buckets sound. *)
Lemma cleanup_tick_wf s now t rl : wf t rl -> wf t (cleanup_tick s now rl).
Proof. intros [Hl Hr]. destruct s; [done| |done]. split; [by apply cleanup_wf|done]. Qed.

End LimiterLemmas.

(** * The middleware *)

(** The three headers of the design on a response. *)
Definition rate_headers (rps remaining resetTime : Z) (c : Ctx) : Prop :=
  Ctx.GetRespHeader c "X-RateLimit-Limit" = itoa rps /\
  Ctx.GetRespHeader c "X-RateLimit-Remaining" = itoa remaining /\
  Ctx.GetRespHeader c "X-RateLimit-Reset" = itoa resetTime.

Section MiddlewareLemmas.
Context {W : Type} `{!Lens W RateLimiter} `{!Clock W} `{!ClockFrame W RateLimiter}.
Import RateLimiter.
Implicit Types (next : Handler W) (c : Ctx) (w : W) (rl : RateLimiter).

Lemma set_headers_rate_headers rps remaining resetTime c :
  rate_headers rps remaining resetTime (set_headers rps remaining resetTime c).
Proof.
  unfold rate_headers, set_headers. split_and!.
  - by rewrite !GetRespHeader_SetHeader_ne, GetRespHeader_SetHeader by done.
  - by rewrite GetRespHeader_SetHeader_ne, GetRespHeader_SetHeader by done.
  - by rewrite GetRespHeader_SetHeader.
Qed.

Lemma Middleware_disabled next c w :
  RateLimitConfig.Enabled (cfg (view w)) = false -> Middleware next c w = next c w.
Proof. unfold Middleware. by intros ->. Qed.

(** The middleware in one equation, given the limiter's verdict: the
    headers are set, then a granted request goes on and a denied one is
    answered 429; a panic of the limiter propagates. *)
Lemma Middleware_verdict next c w rl v :
  RateLimitConfig.Enabled (cfg (view w)) = true ->
  allow (createKey c) (limits (view w) c).1 (limits (view w) c).2 (Now w) (view w) = (rl, v) ->
  Middleware next c w =
    match v with
    | None => (Panic divide_by_zero, c, update rl w)
    | Some (allowed, remaining, resetTime) =>
        let c' := set_headers (limits (view w) c).1 remaining resetTime c in
        if allowed then next c' (update rl w)
        else (Return None,
              Ctx.JSON (denied_body (resetTime - Unix (Now w))) (Ctx.Status 429 c'),
              update rl w)
    end.
Proof.
  unfold Middleware. intros -> Ha. destruct (limits (view w) c) as [rps burst].
  simpl in *. rewrite Ha. destruct v as [[[a m] t]|]; [|done].
  rewrite Now_update. by destruct a.
Qed.

(** The limits the middleware may be given. *)
Definition limits_ok (rl : RateLimiter) (c : Ctx) : Prop :=
  0 <= (limits rl c).1 /\ 1 <= (limits rl c).2.

Definition sound (w : W) : Prop := wf (Now w) (view w).

Lemma Middleware_sound next c w :
  limits_ok (view w) c -> sound w -> (sound (update (allow (createKey c) (limits (view w) c).1
     (limits (view w) c).2 (Now w) (view w)).1 w)).
Proof.
  intros [Hr Hb] Hs. unfold sound. rewrite Now_update, view_update.
  by apply (limiter_allow_wf _ _ _ (Now w)).
Qed.

(** C14: the buckets of both backends stay sound through the middleware, when
    the rest of the chain keeps them so and the limits in force are a
    rate that is not negative and a burst of at least one. *)
Theorem Middleware_keeps_sound next c w :
  limits_ok (view w) c -> preserves sound next -> sound w -> sound (Middleware next c w).2.
Proof.
  intros Hl Hnext Hs.
  destruct (RateLimitConfig.Enabled (cfg (view w))) eqn:He;
    [|rewrite Middleware_disabled by done; by apply Hnext].
  pose proof (Middleware_sound next c w Hl Hs) as H.
  destruct (allow _ _ _ _ _) as [rl v] eqn:Ha. rewrite (Middleware_verdict next c w rl v He Ha).
  simpl in H. destruct v as [[[[] m] t]|]; simpl; auto.
Qed.

(** C5: a denied request is answered at once: 429 with the three headers and
    the body of the design, the rest of the chain not run. *)
Theorem Middleware_denied next c w rl remaining resetTime :
  RateLimitConfig.Enabled (cfg (view w)) = true ->
  allow (createKey c) (limits (view w) c).1 (limits (view w) c).2 (Now w) (view w) =
    (rl, Some (false, remaining, resetTime)) ->
  exists c', Middleware next c w = (Return None, c', update rl w) /\
    Ctx.StatusCode c' = 429 /\ rate_headers (limits (view w) c).1 remaining resetTime c' /\
    Response.Body (Ctx.response c') =
      Json (JObject (denied_body (resetTime - Unix (Now w)))).
Proof.
  intros He Ha. rewrite (Middleware_verdict next c w rl _ He Ha). eexists. split; [done|].
  split_and!; try done.
  destruct (set_headers_rate_headers (limits (view w) c).1 remaining resetTime c) as (?&?&?).
  unfold rate_headers. by rewrite !GetRespHeader_JSON, !GetRespHeader_Status by done.
Qed.

(** A granted request goes on with the three headers on its response. *)
Theorem Middleware_granted next c w rl remaining resetTime :
  RateLimitConfig.Enabled (cfg (view w)) = true ->
  allow (createKey c) (limits (view w) c).1 (limits (view w) c).2 (Now w) (view w) =
    (rl, Some (true, remaining, resetTime)) ->
  exists c', Middleware next c w = next c' (update rl w) /\
    rate_headers (limits (view w) c).1 remaining resetTime c' /\
    Ctx.request c' = Ctx.request c /\ Ctx.locals c' = Ctx.locals c.
Proof.
  intros He Ha. rewrite (Middleware_verdict next c w rl _ He Ha). eexists. split; [done|].
  split_and!; try done. apply set_headers_rate_headers.
Qed.

End MiddlewareLemmas.

(** * A concrete world *)

Module LimiterWorld.
Import RateLimiter.

Record World := mk {
  limiter : RateLimiter;
  clock : Time;
  served : Z;
}.

#[export] Instance World_lens : Lens World RateLimiter.
Proof.
  refine {| view := limiter; update := fun rl w => mk rl (clock w) (served w) |};
    [done | by intros [] | done].
Defined.

#[export] Instance World_clock : Clock World := {| Now := clock |}.

#[export] Instance World_frame : ClockFrame World RateLimiter.
Proof. by constructor. Qed.

Definition start (cfg : RateLimitConfig) (client : option Redis) : World :=
  mk (NewRateLimiter cfg client).1 0 0.

(** The upstream: it counts the request and answers 200. *)
Definition upstream : Handler World := fun c w =>
  (Return None, Ctx.Status 200 c, mk (limiter w) (clock w) (served w + 1)).

Definition get_users : Ctx :=
  Ctx.new (Request.mk "GET" "/api/v1/users" "" "gateway" "http" "10.0.0.1" ∅ "").

Definition millisecond : Duration := 1000000.

(** The statuses answered to the same request made at each of [times]. *)
Fixpoint statuses (times : list Time) (h : Handler World) (c : Ctx) (w : World)
    : list Z * World :=
  match times with
  | [] => ([], w)
  | t :: ts =>
      let '(_, c', w') := h c (mk (limiter w) t (served w)) in
      let '(l, w'') := statuses ts h c w' in
      (Ctx.StatusCode c' :: l, w'')
  end.

(** A burst of five at one request per second. *)
Definition five_per_burst : RateLimitConfig := RateLimitConfig.mk true 1 5 (60 * Second).

Definition six_in_100ms : list Time :=
  [0; 20 * millisecond; 40 * millisecond; 60 * millisecond; 80 * millisecond;
   100 * millisecond].

(** The world at the sixth request of the burst. *)
Definition at_sixth : World :=
  let w := (statuses (take 5 six_in_100ms) (Middleware upstream) get_users
              (start five_per_burst None)).2 in
  mk (limiter w) (100 * millisecond) (served w).

Definition empty_local : LocalLimiter := LocalLimiter.mk ∅ five_per_burst.

(** A bucket emptied at midnight. *)
Definition spent : LocalLimiter := LocalLimiter.put "k" (rateBucket.mk 0 0) empty_local.

(** A store that holds an entry written at midnight. *)
Definition store : Redis :=
  Redis.mk {[ "k" := Redis.mk_entry 0 0 (2 * Second) ]} true 0.

End LimiterWorld.

(** * The design's scenarios *)

Section Scenarios.
Import RateLimiter LimiterWorld.

Lemma grants_bound_witness :
  (inject_Z (LocalLimiter.grants "k" 1 5 six_in_100ms empty_local) <=
   inject_Z 5 + Seconds (last_of 0 (tail six_in_100ms) - 0)%Z * inject_Z 1)%Q.
Proof.
  apply (grants_bound "k" 1 5 0 (tail six_in_100ms) empty_local);
    [reflexivity | lia | lia | repeat split; vm_compute; discriminate].
Defined.

Lemma grants_burst_witness :
  LocalLimiter.grants "k" 1 5 (take 5 six_in_100ms) empty_local = 5.
Proof.
  apply (grants_burst "k" 1 5 0 (tail (take 5 six_in_100ms)) empty_local);
    [reflexivity | lia | repeat split; vm_compute; discriminate | vm_compute; discriminate].
Defined.

Lemma paced_always_granted_witness :
  LocalLimiter.grants "k" 2 1 [0; 500 * 1000000; Second; 2 * Second] empty_local = 4.
Proof.
  apply (paced_always_granted "k" 2 1 0 [500 * 1000000; Second; 2 * Second] empty_local);
    [reflexivity | lia | repeat split; vm_compute; discriminate].
Defined.

Lemma allow_after_wait_witness : granted (LocalLimiter.allow "k" 1 5 Second spent).2 = true.
Proof.
  apply (allow_after_wait "k" 1 5 Second spent (rateBucket.mk 0 0));
    [reflexivity | split; vm_compute; discriminate | lia | lia | vm_compute; discriminate].
Defined.

Lemma allow_zero_rate_witness :
  LocalLimiter.allow "k" 0 5 Second spent =
    (LocalLimiter.put "k" (rateBucket.mk (Qred (LocalLimiter.refilled 0 5 Second (rateBucket.mk 0 0))) Second) spent, None).
Proof. apply (allow_zero_rate "k" 5 Second spent (rateBucket.mk 0 0)); by vm_compute. Defined.

Lemma allow_denied_monotone_witness :
  exists b', LocalLimiter.requests (LocalLimiter.allow "k" 1 5 millisecond spent).1 !! "k" = Some b' /\
    (0 <= rateBucket.tokens b' <= inject_Z 5)%Q.
Proof.
  apply (allow_denied_monotone "k" 1 5 millisecond spent (rateBucket.mk 0 0));
    [reflexivity | split; vm_compute; discriminate | lia | vm_compute; discriminate
    | vm_compute; reflexivity].
Defined.

Lemma cleanup_unobservable_witness :
  (LocalLimiter.allow "k" 100 200 (61 * Second) (LocalLimiter.cleanup (60 * Second) (61 * Second) spent)).2 =
  (LocalLimiter.allow "k" 100 200 (61 * Second) spent).2 /\
  LocalLimiter.requests (LocalLimiter.allow "k" 100 200 (61 * Second) (LocalLimiter.cleanup (60 * Second) (61 * Second) spent)).1 !! "k" =
  LocalLimiter.requests (LocalLimiter.allow "k" 100 200 (61 * Second) spent).1 !! "k".
Proof.
  apply (cleanup_unobservable "k" 100 200 (60 * Second) (61 * Second) spent (rateBucket.mk 0 0));
    [reflexivity | split; vm_compute; discriminate | lia | lia | by vm_compute
    | by vm_compute | by vm_compute].
Defined.

Lemma Middleware_denied_witness :
  exists c', Middleware upstream get_users at_sixth =
      (Return None, c', update (allow (createKey get_users) 1 5 (100 * millisecond)
                                  (limiter at_sixth)).1 at_sixth) /\
    Ctx.StatusCode c' = 429 /\ rate_headers (limits (view at_sixth) get_users).1 0 1 c' /\
    Response.Body (Ctx.response c') =
      Json (JObject (denied_body (1 - Unix (Now at_sixth)))).
Proof.
  apply (Middleware_denied upstream get_users at_sixth
           (allow (createKey get_users) 1 5 (100 * millisecond) (limiter at_sixth)).1 0 1);
    vm_compute; reflexivity.
Defined.

Lemma Middleware_granted_witness :
  exists c', Middleware upstream get_users (start five_per_burst None) =
      upstream c' (update (allow (createKey get_users) 1 5 0
                             (limiter (start five_per_burst None))).1
                          (start five_per_burst None)) /\
    rate_headers (limits (view (start five_per_burst None)) get_users).1 4 1 c' /\
    Ctx.request c' = Ctx.request get_users /\ Ctx.locals c' = Ctx.locals get_users.
Proof.
  apply (Middleware_granted upstream get_users (start five_per_burst None)
           (allow (createKey get_users) 1 5 0 (limiter (start five_per_burst None))).1 4 1);
    vm_compute; reflexivity.
Defined.

Lemma upstream_sound : preserves sound upstream.
Proof. by intros c w H. Qed.

Lemma Middleware_keeps_sound_witness :
  sound (Middleware upstream get_users (start five_per_burst None)).2.
Proof.
  apply (Middleware_keeps_sound upstream get_users (start five_per_burst None)).
  - split; vm_compute; discriminate.
  - apply upstream_sound.
  - by apply NewRateLimiter_wf.
Defined.

Lemma backends_agree_fresh_witness :
  let rl := (NewRateLimiter five_per_burst (Some store)).1 in
  (fun v => v.1) <$> (allow "fresh" 1 5 Second rl).2 = Some (true, 4) /\
  (fun v => v.1) <$> (local_allow "fresh" 1 5 Second rl).2 = Some (true, 4).
Proof.
  apply (backends_agree_fresh "fresh" 1 5 Second (NewRateLimiter five_per_burst (Some store)).1
           store); first [reflexivity | lia].
Defined.

Lemma store_idle_resets_witness :
  (allow "k" 1 5 (3 * Second) (NewRateLimiter five_per_burst (Some store)).1).2 =
    Some (true, 4, Redis.reset_time 1 (Unix (3 * Second)) store).
Proof.
  apply (store_idle_resets "k" 1 5 (3 * Second) (NewRateLimiter five_per_burst (Some store)).1
           store (Redis.mk_entry 0 0 (2 * Second))); first [reflexivity | lia | by vm_compute].
Defined.

Lemma allow_fallback_witness :
  let rl := (NewRateLimiter five_per_burst (Some (Redis.mk ∅ false 0))).1 in
  allow "k" 1 5 0 rl = local_allow "k" 1 5 0 rl.
Proof.
  by apply (allow_fallback "k" 1 5 0
              (NewRateLimiter five_per_burst (Some (Redis.mk ∅ false 0))).1
              (Redis.mk ∅ false 0)).
Defined.

(** The rate-limit scenario of the design: a burst of five at one request
    per second, six requests within 100 ms; the first five reach the
    upstream, the sixth is answered 429 with no token left. *)
Example rate_limit_scenario :
  (statuses six_in_100ms (Middleware upstream) get_users (start five_per_burst None)).1 =
    [200; 200; 200; 200; 200; 429] /\
  let '(_, c, w) := Middleware upstream get_users at_sixth in
  Ctx.GetRespHeader c "X-RateLimit-Remaining" = "0" /\ served w = 5.
Proof. by vm_compute. Qed.

(** A key's first request is granted by the local buckets whatever the
    burst, and leaves a debt when the burst is zero; the store denies
    it. *)
Example first_request_zero_burst :
  LocalLimiter.allow "k" 100 0 Second empty_local =
    (LocalLimiter.put "k" (rateBucket.mk (-1) Second) empty_local, Some (true, -1, 2)) /\
  (Redis.script "k" 100 0 1 Second (Redis.mk ∅ true 0)).2 = (0, 0, 1).
Proof. by vm_compute. Qed.

End Scenarios.
