(* ===== verification/Common.v ===== *)
(** * Common middleware and logging

    Models the second half of src/internal/middleware/logging.go, the
    middleware every request goes through ([RequestID], [SecurityHeaders],
    [CORS], [ContentType], [RequestTimeout], [TransformHeaders], [Recover]),
    and its first half, the logger ([SimpleLogger], [RequestLogger],
    [ErrorLogger]).  A log line is kept as the structured entry it is built
    from; the random identifier and the output stream are what the world
    provides ([UUIDSource], [LogSink]). *)

From stdpp Require Import base strings list gmap pretty.
From Stdlib Require Import ZArith Lia.
From S2P Require Import Prelude Config Context.

#[local] Open Scope string_scope.
#[local] Open Scope list_scope.
#[local] Open Scope Z_scope.

(** [uuid.New().String()]. *)
Class UUIDSource (W : Type) := {
  NewUUID : W -> string * W;
}.

(** What the framework knows of a request beyond the model of its context:
    [c.Route().Path], the pattern of the route that was matched last, and
    the number of bytes of a body as it is serialised. *)
Class Framework := {
  RoutePath : Ctx -> string;
  BodySize : Body -> Z;
}.

(** ** Log entries *)

(** A value given to the logger. *)
Inductive Field :=
| FStr (s : string)
| FInt (n : Z).

#[export] Instance Field_eq_dec : EqDecision Field.
Proof. solve_decision. Defined.

Module LogEntry.
Record t := mk {
  level : string;
  time : Time;
  msg : string;
  fields : list (Field * Field);
}.
End LogEntry.
Abbreviation LogEntry := LogEntry.t.

(** The standard output the logger writes to. *)
Class LogSink (W : Type) := {
  emit : LogEntry -> W -> W;
}.

(** The loop [for i := 0; i < len(fields)-1; i += 2]: the fields two by two,
    one left over dropped. *)
Fixpoint pairs (fields : list Field) : list (Field * Field) :=
  match fields with
  | k :: v :: rest => (k, v) :: pairs rest
  | _ => []
  end.

(** The interface [Logger]. *)
Class Logger (L W : Type) := {
  Debug : L -> string -> list Field -> W -> W;
  Info : L -> string -> list Field -> W -> W;
  Warn : L -> string -> list Field -> W -> W;
  Error : L -> string -> list Field -> W -> W;
}.

Module SimpleLogger.
Record t := mk {
  level : string;
  format : string;
}.

Definition NewLogger (cfg : LoggingConfig) : t :=
  mk (LoggingConfig.Level cfg) (LoggingConfig.Format cfg).

(** The map [levels]; a name it does not hold reads as zero. *)
Definition levels (name : string) : Z :=
  if (name =? "debug")%string then 0
  else if (name =? "info")%string then 1
  else if (name =? "warn")%string then 2
  else if (name =? "error")%string then 3
  else 0.

Definition shouldLog (l : t) (lvl : string) : bool := levels (level l) <=? levels lvl.

Section Log.
Context {W : Type} `{!Clock W} `{!LogSink W}.

Definition log (l : t) (lvl msg : string) (fields : list Field) (w : W) : W :=
  emit (LogEntry.mk lvl (Now w) msg (pairs fields)) w.

Definition Debug (l : t) (msg : string) (fields : list Field) (w : W) : W :=
  if shouldLog l "debug" then log l "DEBUG" msg fields w else w.

Definition Info (l : t) (msg : string) (fields : list Field) (w : W) : W :=
  if shouldLog l "info" then log l "INFO" msg fields w else w.

Definition Warn (l : t) (msg : string) (fields : list Field) (w : W) : W :=
  if shouldLog l "warn" then log l "WARN" msg fields w else w.

Definition Error (l : t) (msg : string) (fields : list Field) (w : W) : W :=
  if shouldLog l "error" then log l "ERROR" msg fields w else w.

End Log.
End SimpleLogger.
Abbreviation SimpleLogger := SimpleLogger.t.

#[export] Instance SimpleLogger_Logger {W : Type} `{!Clock W} `{!LogSink W}
    : Logger SimpleLogger W :=
  {| Debug := SimpleLogger.Debug; Info := SimpleLogger.Info;
     Warn := SimpleLogger.Warn; Error := SimpleLogger.Error |}.

(** [err.Error()]. *)
Definition error_message (e : error) : string :=
  match e with
  | FiberError _ msg => msg
  | ErrOpenState => "circuit breaker is open"
  | ErrTooManyRequests => "too many requests"
  | OtherError msg => msg
  end.

(** What a local of type [string] reads as when it is not set. *)
Definition local_string (o : option string) : string := default "" o.

Section Logging.
Context {L W : Type} `{!Clock W} `{!Logger L W}.

(** [duration.Milliseconds()]. *)
Definition Milliseconds (d : Duration) : Z := Z.quot d 1000000.

Definition request_fields (c : Ctx) (status : Z) (duration : Duration) : list Field :=
  [FStr "method"; FStr (Ctx.Method c);
   FStr "path"; FStr (Ctx.Path c);
   FStr "status"; FInt status;
   FStr "duration_ms"; FInt (Milliseconds duration);
   FStr "ip"; FStr (Ctx.IP c);
   FStr "request_id"; FStr (local_string (Locals.request_id (Ctx.locals c)));
   FStr "user_id"; FStr (local_string (Locals.user_id (Ctx.locals c)));
   FStr "tenant_id"; FStr (local_string (Locals.tenant_id (Ctx.locals c)));
   FStr "service"; FStr (local_string (Locals.service (Ctx.locals c)));
   FStr "user_agent"; FStr (Ctx.Get c "User-Agent")].

(** The level of the entry: error from 500, warn from 400, info below. *)
Definition logFn (logger : L) (status : Z) : string -> list Field -> W -> W :=
  if 500 <=? status then Error logger
  else if 400 <=? status then Warn logger
  else Info logger.

Definition RequestLogger (logger : L) : Stage W := fun next c w =>
  let start := Now w in
  let '(out, c', w') := next c w in
  match out with
  | Panic msg => (Panic msg, c', w')
  | Return err =>
      let duration := Now w' - start in
      let status := Ctx.StatusCode c' in
      (Return err, c', logFn logger status "HTTP Request" (request_fields c' status duration) w')
  end.

Definition error_code (err : error) : Z :=
  match err with
  | FiberError code _ => code
  | _ => 500
  end.

Definition error_body (err : error) (requestID : string) : list (string * JSON) :=
  [("error", JString "error");
   ("message", JString (error_message err));
   ("request_id", JString requestID)].

(** The error handler of the application: it logs the error and answers
    with its code. *)
Definition ErrorLogger (logger : L) (c : Ctx) (err : error) (w : W) : Ctx * W :=
  let requestID := local_string (Locals.request_id (Ctx.locals c)) in
  let code := error_code err in
  let w' := Error logger "Request error"
              [FStr "error"; FStr (error_message err);
               FStr "status"; FInt code;
               FStr "path"; FStr (Ctx.Path c);
               FStr "method"; FStr (Ctx.Method c);
               FStr "request_id"; FStr requestID;
               FStr "ip"; FStr (Ctx.IP c)] w in
  (Ctx.JSON (error_body err requestID) (Ctx.Status code c), w').

End Logging.

(** An entry of the access log; no function of the package makes one. *)
Module AccessLog.
Record t := mk {
  Timestamp : Time;
  RequestID : string;
  Method : string;
  Path : string;
  Status : Z;
  Duration : Z;
  IP : string;
  UserAgent : string;
  UserID : string;
  TenantID : string;
  Service : string;
  RequestSize : Z;
  ResponseSize : Z;
  Error : string;
}.
End AccessLog.
Abbreviation AccessLog := AccessLog.t.

(** ** The middleware *)

Module HeaderTransform.
Record t := mk {
  AddHeaders : list (string * string);
  RemoveHeaders : list string;
  RenameHeaders : list (string * string);
}.
End HeaderTransform.
Abbreviation HeaderTransform := HeaderTransform.t.

Definition security_headers : list (string * string) :=
  [("X-Content-Type-Options", "nosniff");
   ("X-Frame-Options", "DENY");
   ("X-XSS-Protection", "1; mode=block");
   ("Referrer-Policy", "strict-origin-when-cross-origin");
   ("Content-Security-Policy", "default-src 'self'");
   ("Permissions-Policy", "geolocation=(), microphone=(), camera=()");
   ("Server", "")].

(** [c.Set] for each header of the list, in order. *)
Definition set_all (hs : list (string * string)) (c : Ctx) : Ctx :=
  foldl (fun c kv => Ctx.SetHeader kv.1 kv.2 c) c hs.

(** The test of [CORS] on the origin of the request. *)
Definition origin_allowed (allowedOrigins : list string) (origin : string) : bool :=
  negb (origin =? "")%string &&
  ((length allowedOrigins =? 0)%nat || bool_decide (origin ∈ allowedOrigins)
   || bool_decide ("*" ∈ allowedOrigins)).

Definition preflight_headers : list (string * string) :=
  [("Access-Control-Allow-Methods", "GET, POST, PUT, PATCH, DELETE, OPTIONS");
   ("Access-Control-Allow-Headers",
    "Origin, Content-Type, Accept, Authorization, X-Request-ID, X-Tenant-ID");
   ("Access-Control-Max-Age", "86400")].

Definition unsupported_body : list (string * JSON) :=
  [("error", JString "unsupported_media_type");
   ("message", JString "Content-Type header is required for request body")].

Definition recover_body (requestID : string) : list (string * JSON) :=
  [("error", JString "internal_server_error");
   ("message", JString "An unexpected error occurred");
   ("request_id", JString requestID)].

Definition has_body_method (method : string) : bool :=
  (method =? "POST")%string || (method =? "PUT")%string || (method =? "PATCH")%string.

Section Middleware.
Context {W : Type}.

Definition RequestID `{!UUIDSource W} : Stage W := fun next c w =>
  let requestID := Ctx.Get c "X-Request-ID" in
  let '(requestID, w) := if (requestID =? "")%string then NewUUID w else (requestID, w) in
  let c := Ctx.SetHeader "X-Request-ID" requestID c in
  let c := Ctx.map_locals (Locals.set_request_id requestID) c in
  next c w.

Definition SecurityHeaders : Stage W := fun next c w =>
  next (set_all security_headers c) w.

Definition CORS (allowedOrigins : list string) : Stage W := fun next c w =>
  let origin := Ctx.Get c "Origin" in
  let c :=
    if origin_allowed allowedOrigins origin
    then Ctx.SetHeader "Access-Control-Allow-Credentials" "true"
           (Ctx.SetHeader "Access-Control-Allow-Origin" origin c)
    else c in
  if (Ctx.Method c =? "OPTIONS")%string
  then (Return None, Ctx.SendStatus 204 (set_all preflight_headers c), w)
  else next c w.

Definition ContentType : Stage W := fun next c w =>
  let method := Ctx.Method c in
  if has_body_method method &&
     (Ctx.Get c "Content-Type" =? "")%string && (0 <? String.length (Ctx.Body c))%nat
  then (Return None, Ctx.JSON unsupported_body (Ctx.Status 415 c), w)
  else next c w.

Definition RequestTimeout (handler : Handler W) : Handler W := fun c w => handler c w.

Definition rename_header (c : Ctx) (kv : string * string) : Ctx :=
  let value := Ctx.Get c kv.1 in
  if negb (value =? "")%string
  then Ctx.DelReqHeader kv.1 (Ctx.SetReqHeader kv.2 value c)
  else c.

Definition TransformHeaders (transform : HeaderTransform) : Stage W := fun next c w =>
  let c := foldl (fun c kv => Ctx.SetReqHeader kv.1 kv.2 c) c
                 (HeaderTransform.AddHeaders transform) in
  let c := foldl (fun c k => Ctx.DelReqHeader k c) c (HeaderTransform.RemoveHeaders transform) in
  let c := foldl rename_header c (HeaderTransform.RenameHeaders transform) in
  next c w.

Definition Recover : Stage W := fun next c w =>
  let '(out, c', w') := next c w in
  match out with
  | Panic _ =>
      let requestID := local_string (Locals.request_id (Ctx.locals c')) in
      (Return None, Ctx.JSON (recover_body requestID) (Ctx.Status 500 c'), w')
  | Return err => (Return err, c', w')
  end.

End Middleware.

(** * Properties of the common middleware *)

Section MiddlewareLemmas.
Context {W : Type}.
Implicit Types (next : Handler W) (c : Ctx) (w : W).

Lemma Recover_returns next c w err c' w' :
  next c w = (Return err, c', w') -> Recover next c w = (Return err, c', w').
Proof. unfold Recover. by intros ->. Qed.

Lemma Recover_panics next c w msg c' w' :
  next c w = (Panic msg, c', w') ->
  Recover next c w =
    (Return None,
     Ctx.JSON (recover_body (local_string (Locals.request_id (Ctx.locals c')))) (Ctx.Status 500 c'),
     w').
Proof. unfold Recover. by intros ->. Qed.

(** C25: no panic passes the recovery stage: whatever the rest of the chain
    does, the stage returns; a panic becomes a 500 whose body carries the
    request id, and a return is handed on as it is. *)
Theorem Recover_catches next c w :
  exists err c' w', Recover next c w = (Return err, c', w') /\
    match (next c w).1.1 with
    | Panic _ => err = None /\ Ctx.StatusCode c' = 500 /\ w' = (next c w).2 /\
        Response.Body (Ctx.response c') =
          Json (JObject (recover_body
                  (local_string (Locals.request_id (Ctx.locals (next c w).1.2)))))
    | Return e => (Return err, c', w') = next c w
    end.
Proof.
  destruct (next c w) as [[[e|msg] c1] w1] eqn:E.
  - rewrite (Recover_returns _ _ _ _ _ _ E). by eexists _, _, _.
  - rewrite (Recover_panics _ _ _ _ _ _ E). by eexists _, _, _.
Qed.

(** The request body and a missing content type on a method that carries
    a body: the request is answered 415 and goes no further; any other
    request goes on untouched. *)
Theorem ContentType_spec next c w :
  ContentType next c w =
    if has_body_method (Ctx.Method c) && (Ctx.Get c "Content-Type" =? "")%string
       && negb (Ctx.Body c =? "")%string
    then (Return None, Ctx.JSON unsupported_body (Ctx.Status 415 c), w)
    else next c w.
Proof.
  unfold ContentType. replace (0 <? String.length (Ctx.Body c))%nat
    with (negb (Ctx.Body c =? "")%string); [done|]. by destruct (Ctx.Body c).
Qed.

Lemma set_all_cons k v hs c : set_all ((k, v) :: hs) c = set_all hs (Ctx.SetHeader k v c).
Proof. done. Qed.

Lemma set_all_request hs c : Ctx.request (set_all hs c) = Ctx.request c.
Proof. revert c. induction hs as [|[k v] hs IH]; intros c; [done|]. by rewrite set_all_cons, IH. Qed.

Lemma set_all_locals hs c : Ctx.locals (set_all hs c) = Ctx.locals c.
Proof. revert c. induction hs as [|[k v] hs IH]; intros c; [done|]. by rewrite set_all_cons, IH. Qed.

Lemma set_all_StatusCode hs c : Ctx.StatusCode (set_all hs c) = Ctx.StatusCode c.
Proof. revert c. induction hs as [|[k v] hs IH]; intros c; [done|]. by rewrite set_all_cons, IH. Qed.

(** A header that the list does not set keeps its value. *)
Lemma set_all_other hs c k :
  CanonicalHeaderKey k ∉ (CanonicalHeaderKey <$> hs.*1) ->
  Ctx.GetRespHeader (set_all hs c) k = Ctx.GetRespHeader c k.
Proof.
  revert c. induction hs as [|[k' v] hs IH]; intros c Hk; [done|].
  simpl in Hk. apply not_elem_of_cons in Hk as [Hne Hk].
  rewrite set_all_cons, IH by done. by apply GetRespHeader_SetHeader_ne.
Qed.

(** Headers whose names are distinct read back as they were set. *)
Lemma set_all_lookup hs c k v :
  NoDup (CanonicalHeaderKey <$> hs.*1) -> (k, v) ∈ hs ->
  Ctx.GetRespHeader (set_all hs c) k = v.
Proof.
  revert c. induction hs as [|[k' v'] hs IH]; intros c Hnd Hin; [set_solver|].
  rewrite set_all_cons. simpl in Hnd. apply NoDup_cons in Hnd as [Hk Hnd].
  apply elem_of_cons in Hin as [[= <- <-]|Hin]; [|by apply IH].
  by rewrite set_all_other, GetRespHeader_SetHeader.
Qed.

Lemma security_headers_distinct : NoDup (CanonicalHeaderKey <$> security_headers.*1).
Proof. by apply (bool_decide_unpack _); vm_compute. Qed.

Lemma preflight_headers_distinct : NoDup (CanonicalHeaderKey <$> preflight_headers.*1).
Proof. by apply (bool_decide_unpack _); vm_compute. Qed.

(** The security stage always goes on, with each of its seven headers on
    the response and the request as it was. *)
Theorem SecurityHeaders_sets next c w :
  exists c', SecurityHeaders next c w = next c' w /\
    (forall k v, (k, v) ∈ security_headers -> Ctx.GetRespHeader c' k = v) /\
    Ctx.request c' = Ctx.request c /\ Ctx.locals c' = Ctx.locals c.
Proof.
  eexists. split; [done|]. split_and!; [|apply set_all_request|apply set_all_locals].
  intros k v. apply set_all_lookup, security_headers_distinct.
Qed.

(** What the CORS stage does to the response before it answers or goes on. *)
Definition cors_headers (allowedOrigins : list string) (c : Ctx) : Ctx :=
  if origin_allowed allowedOrigins (Ctx.Get c "Origin")
  then Ctx.SetHeader "Access-Control-Allow-Credentials" "true"
         (Ctx.SetHeader "Access-Control-Allow-Origin" (Ctx.Get c "Origin") c)
  else c.

Lemma cors_headers_request origins c : Ctx.request (cors_headers origins c) = Ctx.request c.
Proof. unfold cors_headers. by destruct (origin_allowed _ _). Qed.

Lemma CORS_cases origins next c w :
  CORS origins next c w =
    if (Ctx.Method c =? "OPTIONS")%string
    then (Return None, Ctx.SendStatus 204 (set_all preflight_headers (cors_headers origins c)), w)
    else next (cors_headers origins c) w.
Proof.
  unfold CORS, cors_headers, Ctx.Method. by destruct (origin_allowed _ _).
Qed.

(** A preflight request is answered by the CORS stage itself: 204 with
    the three preflight headers, the rest of the chain not run and the
    world untouched, so that the answer depends on the request only. *)
Theorem CORS_preflight origins next c w :
  Ctx.Method c = "OPTIONS" ->
  exists c', CORS origins next c w = (Return None, c', w) /\
    Ctx.StatusCode c' = 204 /\
    (forall k v, (k, v) ∈ preflight_headers -> Ctx.GetRespHeader c' k = v) /\
    forall next' w', CORS origins next' c w' = (Return None, c', w').
Proof.
  intros Hm. eexists. rewrite CORS_cases, Hm. split; [done|]. split_and!.
  - unfold Ctx.SendStatus. by destruct (Response.Body _) as [[]|].
  - intros k v Hin. unfold Ctx.SendStatus.
    transitivity (Ctx.GetRespHeader (set_all preflight_headers (cors_headers origins c)) k);
      [by destruct (Response.Body _) as [[]|]|].
    by apply set_all_lookup, Hin; apply preflight_headers_distinct.
  - intros next' w'. by rewrite CORS_cases, Hm.
Qed.

(** An origin is echoed, with credentials allowed, exactly when it is not
    empty and the list is empty, holds it or holds the wildcard. *)
Theorem CORS_origin origins next c w :
  Ctx.Method c <> "OPTIONS" ->
  exists c', CORS origins next c w = next c' w /\ Ctx.request c' = Ctx.request c /\
    Ctx.locals c' = Ctx.locals c /\
    (origin_allowed origins (Ctx.Get c "Origin") = true ->
     Ctx.GetRespHeader c' "Access-Control-Allow-Origin" = Ctx.Get c "Origin" /\
     Ctx.GetRespHeader c' "Access-Control-Allow-Credentials" = "true") /\
    (origin_allowed origins (Ctx.Get c "Origin") = false -> c' = c).
Proof.
  intros Hm. eexists. rewrite CORS_cases. apply String.eqb_neq in Hm. rewrite Hm.
  split; [done|]. unfold cors_headers. destruct (origin_allowed _ _); split_and!; try done.
  intros _. by rewrite GetRespHeader_SetHeader_ne, !GetRespHeader_SetHeader.
Qed.

End MiddlewareLemmas.

Section RequestIDLemmas.
Context {W : Type} `{!UUIDSource W}.
Implicit Types (next : Handler W) (c : Ctx) (w : W).

(** The identifier of the request: the client's when it sent one, a new
    one otherwise. *)
Definition request_id_of c w : string * W :=
  if (Ctx.Get c "X-Request-ID" =? "")%string then NewUUID w else (Ctx.Get c "X-Request-ID", w).

(** The request-id stage always goes on; the identifier is on the
    response, in the locals, and is the client's when the client sent one;
    the request itself is not changed. *)
Theorem RequestID_spec next c w :
  exists c', RequestID next c w = next c' (request_id_of c w).2 /\
    Ctx.GetRespHeader c' "X-Request-ID" = (request_id_of c w).1 /\
    Locals.request_id (Ctx.locals c') = Some (request_id_of c w).1 /\
    Ctx.request c' = Ctx.request c /\
    (Ctx.Get c "X-Request-ID" <> "" -> request_id_of c w = (Ctx.Get c "X-Request-ID", w)).
Proof.
  unfold RequestID, request_id_of.
  destruct (String.eqb_spec (Ctx.Get c "X-Request-ID") "") as [->|Hne].
  - destruct (NewUUID w) as [id w']. eexists. split; [done|].
    split_and!; try done. apply GetRespHeader_SetHeader.
  - eexists. split; [done|]. split_and!; try done. apply GetRespHeader_SetHeader.
Qed.

End RequestIDLemmas.

(** * The logger *)

Section LoggerLemmas.
Context {L W : Type} `{!Clock W} `{!Logger L W}.
Implicit Types (next : Handler W) (c : Ctx) (w : W) (logger : L).

(** The logging stage is transparent: the outcome and the context of the
    rest of the chain are handed back as they are. *)
Lemma RequestLogger_transparent logger next c w :
  (RequestLogger logger next c w).1 = (next c w).1.
Proof. unfold RequestLogger. by destruct (next c w) as [[[e|msg] c'] w']. Qed.

(** A panic passes the logging stage without an entry. *)
Lemma RequestLogger_panic logger next c w msg c' w' :
  next c w = (Panic msg, c', w') -> RequestLogger logger next c w = (Panic msg, c', w').
Proof. unfold RequestLogger. by intros ->. Qed.

End LoggerLemmas.

(** * A concrete world *)

Module CommonWorld.

Record World := mk {
  clock : Time;
  log : list LogEntry;
  issued : nat;
}.

#[export] Instance World_clock : Clock World := {| Now := clock |}.

#[export] Instance World_sink : LogSink World :=
  {| emit := fun e w => mk (clock w) (log w ++ [e]) (issued w) |}.

#[export] Instance World_uuid : UUIDSource World :=
  {| NewUUID := fun w => ("uuid-" +:+ pretty (issued w), mk (clock w) (log w) (S (issued w))) |}.

Definition start : World := mk 0 [] 0.

(** A handler that answers [status] after [latency]. *)
Definition answer (status : Z) (latency : Duration) : Handler World := fun c w =>
  (Return None, Ctx.Status status c, mk (clock w + latency) (log w) (issued w)).

(** A handler that panics. *)
Definition crash : Handler World := fun c w => (Panic "nil pointer dereference", c, w).

Definition request (method path : string) (headers : list (string * string)) (body : string)
    : Ctx :=
  Ctx.new (Request.mk method path "" "gateway" "http" "10.0.0.1"
             (foldl (fun h kv => hset h kv.1 kv.2) ∅ headers) body).

End CommonWorld.

Section SimpleLoggerLemmas.
Import CommonWorld.
Implicit Types (next : Handler World) (c : Ctx) (w : World) (l : SimpleLogger).

(** The name of the level the stage logs a status at. *)
Definition status_level (status : Z) : string :=
  if 500 <=? status then "error" else if 400 <=? status then "warn" else "info".

Lemma logFn_SimpleLogger l status msg fields w :
  logFn l status msg fields w =
    if SimpleLogger.shouldLog l (status_level status)
    then emit (LogEntry.mk (ToUpper (status_level status)) (clock w) msg (pairs fields)) w
    else w.
Proof.
  unfold logFn, status_level. destruct (500 <=? status); [done|]. by destruct (400 <=? status).
Qed.

(** C26: the logging stage writes one entry per request that returns, at the
    level its status asks for, when the logger's threshold lets that level
    through, and none otherwise: error from 500, warn from 400, info
    below, with the time the rest of the chain took. *)
Theorem RequestLogger_entry l next c w err c' w' :
  next c w = (Return err, c', w') ->
  log (RequestLogger l next c w).2 =
    log w' ++
    if SimpleLogger.shouldLog l (status_level (Ctx.StatusCode c'))
    then [LogEntry.mk (ToUpper (status_level (Ctx.StatusCode c'))) (clock w') "HTTP Request"
            (pairs (request_fields c' (Ctx.StatusCode c') (clock w' - clock w)))]
    else [].
Proof.
  unfold RequestLogger. intros ->. cbn [snd]. rewrite logFn_SimpleLogger.
  destruct (SimpleLogger.shouldLog _ _); simpl; [done|]. by rewrite app_nil_r.
Qed.

Lemma RequestLogger_entry_witness :
  log (RequestLogger (SimpleLogger.mk "info" "json") (answer 503 2500000)
         (request "GET" "/api/v1/users" [] "") start).2 =
    log (answer 503 2500000 (request "GET" "/api/v1/users" [] "") start).2 ++
    [LogEntry.mk "ERROR" 2500000 "HTTP Request"
       (pairs (request_fields (Ctx.Status 503 (request "GET" "/api/v1/users" [] "")) 503 2500000))].
Proof.
  exact (RequestLogger_entry (SimpleLogger.mk "info" "json") (answer 503 2500000)
           (request "GET" "/api/v1/users" [] "") start None
           (Ctx.Status 503 (request "GET" "/api/v1/users" [] "")) (mk 2500000 [] 0) eq_refl).
Defined.

Lemma CORS_preflight_witness :
  let c := request "OPTIONS" "/api/v1/users" [("Origin", "https://app.example.com")] "" in
  exists c', CORS ["*"] (answer 200 0) c start = (Return None, c', start) /\
    Ctx.StatusCode c' = 204 /\
    (forall k v, (k, v) ∈ preflight_headers -> Ctx.GetRespHeader c' k = v) /\
    forall next' w', CORS ["*"] next' c w' = (Return None, c', w').
Proof.
  apply (CORS_preflight ["*"] (answer 200 0)
           (request "OPTIONS" "/api/v1/users" [("Origin", "https://app.example.com")] "") start).
  reflexivity.
Defined.

Lemma CORS_origin_witness :
  let c := request "GET" "/api/v1/users" [("Origin", "https://app.example.com")] "" in
  exists c', CORS ["*"] (answer 200 0) c start = answer 200 0 c' start /\
    Ctx.request c' = Ctx.request c /\ Ctx.locals c' = Ctx.locals c /\
    (origin_allowed ["*"] (Ctx.Get c "Origin") = true ->
     Ctx.GetRespHeader c' "Access-Control-Allow-Origin" = Ctx.Get c "Origin" /\
     Ctx.GetRespHeader c' "Access-Control-Allow-Credentials" = "true") /\
    (origin_allowed ["*"] (Ctx.Get c "Origin") = false -> c' = c).
Proof.
  apply (CORS_origin ["*"] (answer 200 0)
           (request "GET" "/api/v1/users" [("Origin", "https://app.example.com")] "") start).
  by vm_compute.
Defined.

(** A level name the logger does not know reads as the lowest: a logger
    configured with ["warning"] lets debug entries through. *)
Example shouldLog_unknown_level :
  SimpleLogger.shouldLog (SimpleLogger.mk "warning" "json") "debug" = true /\
  SimpleLogger.shouldLog (SimpleLogger.mk "warn" "json") "debug" = false.
Proof. done. Qed.

(** A panic below the recovery stage becomes a 500 that carries the
    request id, and the logging stage it passed wrote nothing. *)
Example recover_scenario :
  let c := request "GET" "/api/v1/users" [("X-Request-ID", "abc-123")] "" in
  let '(out, c', w') :=
    Recover (RequestID (RequestLogger (SimpleLogger.mk "info" "json") crash)) c start in
  out = Return None /\ Ctx.StatusCode c' = 500 /\
  Response.Body (Ctx.response c') = Json (JObject (recover_body "abc-123")) /\ log w' = [].
Proof. by vm_compute. Qed.

(** The renames of [TransformHeaders] are applied in the order in which Go
    ranges over the map, which is not specified: when the new name of one
    rename is the old name of another, the request that reaches the rest
    of the chain depends on it. *)
Example rename_order_matters :
  let c := request "GET" "/" [("X-Old", "1")] "" in
  let renamed renames :=
    (TransformHeaders (HeaderTransform.mk [] [] renames) (answer 200 0) c start).1.2 in
  Ctx.Get (renamed [("X-Old", "X-Mid"); ("X-Mid", "X-New")]) "X-New" = "1" /\
  Ctx.Get (renamed [("X-Mid", "X-New"); ("X-Old", "X-Mid")]) "X-New" = "" /\
  Ctx.Get (renamed [("X-Mid", "X-New"); ("X-Old", "X-Mid")]) "X-Mid" = "1".
Proof. by vm_compute. Qed.

End SimpleLoggerLemmas.
