(* ===== verification/Auth.v ===== *)
(** * Authenticator

    Models src/internal/middleware/auth.go: the bearer-token middleware
    [Auth] with its exemptions (skip prefixes, routes marked public, public
    paths), [validateToken], the role policy [RequireRoles], the tenant
    extractor and the construction of the public paths from the route table.
    Parsing a token and checking its signature is the JWT library's work: it
    is the interface [TokenParser], about which nothing is assumed. *)

From stdpp Require Import base strings list gmap.
From Stdlib Require Import ZArith Lia Ascii.
From S2P Require Import Prelude Config Context Common.

#[local] Open Scope string_scope.
#[local] Open Scope list_scope.
#[local] Open Scope Z_scope.

(** [jwt.ParseWithClaims] with the key function of the gateway, which
    accepts HMAC methods only: [None] when the library returns an error,
    otherwise the claims and the token's [Valid] flag. *)
Class TokenParser := {
  ParseWithClaims : string -> string -> Time -> option (Claims * bool);
}.

Module AuthConfig.
Record t := mk {
  JWTSecret : string;
  PublicPaths : gmap string (list string);
  HeaderName : string;
  TokenPrefix : string;
  ContextKey : string;
  SkipPrefixes : list string;
}.
End AuthConfig.
Abbreviation AuthConfig := AuthConfig.t.

Definition DefaultAuthConfig (secret : string) : AuthConfig :=
  AuthConfig.mk secret ∅ "Authorization" "Bearer " "user"
    ["/health"; "/ready"; "/live"; "/metrics"].

Definition unauthorized_body (message : string) : list (string * JSON) :=
  [("error", JString "unauthorized"); ("message", JString message)].

Definition forbidden_body : list (string * JSON) :=
  [("error", JString "forbidden"); ("message", JString "Insufficient permissions")].

Definition unauthorized (message : string) (c : Ctx) : Ctx :=
  Ctx.JSON (unauthorized_body message) (Ctx.Status 401 c).

Section Validate.
Context `{!TokenParser}.

Definition validateToken (tokenString secret : string) (now : Time) : Claims + error :=
  match ParseWithClaims tokenString secret now with
  | None => inr (FiberError 401 "Invalid token")
  | Some (claims, valid) =>
      if negb valid then inr (FiberError 401 "Invalid token claims")
      else
        match Claims.ExpiresAt claims with
        | Some e => if e <? now then inr (FiberError 401 "Token expired") else inl claims
        | None => inl claims
        end
  end.

End Validate.

(** The three exemptions of [Auth], in the order the code tries them. *)
Definition skipped (cfg : AuthConfig) (path : string) : bool :=
  existsb (fun prefix => HasPrefix path prefix) (AuthConfig.SkipPrefixes cfg).

Definition marked_public (c : Ctx) : bool :=
  match Locals.isPublic (Ctx.locals c) with
  | Some isPublic => isPublic
  | None => false
  end.

Definition public_path (cfg : AuthConfig) (path method : string) : bool :=
  match AuthConfig.PublicPaths cfg !! path with
  | Some methods => existsb (fun m => EqualFold m method) methods
  | None => false
  end.

(** The locals and the headers for the services downstream, from the
    claims of a valid token. *)
Definition store_claims (cfg : AuthConfig) (claims : Claims) (c : Ctx) : Ctx :=
  let c := if (AuthConfig.ContextKey cfg =? "user")%string
           then Ctx.map_locals (Locals.set_user claims) c else c in
  let c := Ctx.map_locals (Locals.set_user_id (Claims.UserID claims)) c in
  let c := Ctx.map_locals (Locals.set_tenant_id (Claims.TenantID claims)) c in
  let c := Ctx.SetReqHeader "X-User-ID" (Claims.UserID claims) c in
  let c := Ctx.SetReqHeader "X-Tenant-ID" (Claims.TenantID claims) c in
  let c := Ctx.SetReqHeader "X-User-Email" (Claims.Email claims) c in
  if (0 <? length (Claims.Roles claims))%nat
  then Ctx.SetReqHeader "X-User-Roles" (Join (Claims.Roles claims) ",") c
  else c.

Definition has_role (roles : list string) (claims : Claims) : bool :=
  existsb (fun requiredRole =>
             existsb (fun userRole => EqualFold requiredRole userRole) (Claims.Roles claims))
          roles.

(** The tenant of a request: the local set earlier, else the header, else
    the first label of a host of three labels or more. *)
Definition tenant_of (c : Ctx) : string :=
  let tenantID := default "" (Locals.tenant_id (Ctx.locals c)) in
  let tenantID := if (tenantID =? "")%string then Ctx.Get c "X-Tenant-ID" else tenantID in
  if (tenantID =? "")%string then
    let parts := Split (Ctx.Hostname c) "."%char in
    if (3 <=? length parts)%nat then nth 0 parts "" else tenantID
  else tenantID.

(** The public paths [NewAuthMiddleware] collects from the routes: the
    methods of each public route under its path, a later route replacing an
    earlier one with the same path. *)
Definition public_paths (routes : list Route) : gmap string (list string) :=
  foldl (fun paths route =>
           if Route.Public route
           then <[Route.Path route := Route.Methods route]> paths else paths)
        ∅ routes.

Section Middleware.
Context {W : Type} `{!Clock W} `{!TokenParser}.

Definition Auth (cfg : AuthConfig) : Stage W := fun next c w =>
  let path := Ctx.Path c in
  let method := Ctx.Method c in
  if skipped cfg path then next c w else
  if marked_public c then next c w else
  if public_path cfg path method then next c w else
  let authHeader := Ctx.Get c (AuthConfig.HeaderName cfg) in
  if (authHeader =? "")%string
  then (Return None, unauthorized "Missing authorization header" c, w) else
  let tokenString := TrimPrefix authHeader (AuthConfig.TokenPrefix cfg) in
  if (tokenString =? authHeader)%string
  then (Return None, unauthorized "Invalid authorization format" c, w) else
  match validateToken tokenString (AuthConfig.JWTSecret cfg) (Now w) with
  | inr err => (Return None, unauthorized (error_message err) c, w)
  | inl claims => next (store_claims cfg claims c) w
  end.

Definition RequireRoles (roles : list string) : Stage W := fun next c w =>
  match Locals.user (Ctx.locals c) with
  | None => (Return None, unauthorized "No user context found" c, w)
  | Some claims =>
      if has_role roles claims then next c w
      else (Return None, Ctx.JSON forbidden_body (Ctx.Status 403 c), w)
  end.

Definition TenantExtractor : Stage W := fun next c w =>
  let tenantID := tenant_of c in
  if negb (tenantID =? "")%string
  then next (Ctx.SetReqHeader "X-Tenant-ID" tenantID
               (Ctx.map_locals (Locals.set_tenant_id tenantID) c)) w
  else next c w.

Definition NewAuthMiddleware (secret : string) (routes : RouteConfig) : Stage W :=
  let authCfg := DefaultAuthConfig secret in
  Auth (AuthConfig.mk (AuthConfig.JWTSecret authCfg) (public_paths (RouteConfig.Routes routes))
          (AuthConfig.HeaderName authCfg) (AuthConfig.TokenPrefix authCfg)
          (AuthConfig.ContextKey authCfg) (AuthConfig.SkipPrefixes authCfg)).

End Middleware.

(** * Properties of the authenticator *)

(** A request is exempt from authentication. *)
Definition exempt (cfg : AuthConfig) (c : Ctx) : bool :=
  skipped cfg (Ctx.Path c) || marked_public c || public_path cfg (Ctx.Path c) (Ctx.Method c).

(** The token of a request: what follows the configured prefix in the
    configured header, when the header is there and starts with it. *)
Definition bearer (cfg : AuthConfig) (c : Ctx) : option string :=
  let authHeader := Ctx.Get c (AuthConfig.HeaderName cfg) in
  if (authHeader =? "")%string then None
  else if (TrimPrefix authHeader (AuthConfig.TokenPrefix cfg) =? authHeader)%string then None
  else Some (TrimPrefix authHeader (AuthConfig.TokenPrefix cfg)).

Section ClaimsLemmas.
Implicit Types (cfg : AuthConfig) (claims : Claims) (c : Ctx).

Lemma store_claims_response cfg claims c :
  Ctx.response (store_claims cfg claims c) = Ctx.response c.
Proof. unfold store_claims. by repeat case_match. Qed.

(** C22: the identity headers the services downstream read are those of the
    token, whatever the client sent under those names. *)
Theorem store_claims_headers cfg claims c :
  let c' := store_claims cfg claims c in
  Ctx.Get c' "X-User-ID" = Claims.UserID claims /\
  Ctx.Get c' "X-Tenant-ID" = Claims.TenantID claims /\
  Ctx.Get c' "X-User-Email" = Claims.Email claims /\
  (Claims.Roles claims <> [] -> Ctx.Get c' "X-User-Roles" = Join (Claims.Roles claims) ",") /\
  (Claims.Roles claims = [] -> Ctx.Get c' "X-User-Roles" = Ctx.Get c "X-User-Roles").
Proof.
  unfold store_claims. destruct (Claims.Roles claims) as [|r rs]; simpl;
    split_and!; try done;
    by rewrite ?Get_SetReqHeader_ne, ?Get_SetReqHeader, ?Get_map_locals by done;
       repeat case_match.
Qed.

Lemma store_claims_locals cfg claims c :
  let l := Ctx.locals (store_claims cfg claims c) in
  Locals.user_id l = Some (Claims.UserID claims) /\
  Locals.tenant_id l = Some (Claims.TenantID claims) /\
  (AuthConfig.ContextKey cfg = "user" -> Locals.user l = Some claims).
Proof.
  unfold store_claims. split_and!; try (by repeat case_match).
  intros ->. simpl. by case_match.
Qed.

End ClaimsLemmas.

Section AuthLemmas.
Context {W : Type} `{!Clock W} `{!TokenParser}.
Implicit Types (cfg : AuthConfig) (next : Handler W) (c : Ctx) (w : W).

(** [Auth] in one equation. *)
Lemma Auth_cases cfg next c w :
  Auth cfg next c w =
    if exempt cfg c then next c w
    else match bearer cfg c with
         | None =>
             (Return None,
              unauthorized (if (Ctx.Get c (AuthConfig.HeaderName cfg) =? "")%string
                            then "Missing authorization header"
                            else "Invalid authorization format") c, w)
         | Some tokenString =>
             match validateToken tokenString (AuthConfig.JWTSecret cfg) (Now w) with
             | inr err => (Return None, unauthorized (error_message err) c, w)
             | inl claims => next (store_claims cfg claims c) w
             end
         end.
Proof.
  unfold Auth, exempt, bearer.
  destruct (skipped cfg _); [done|]. destruct (marked_public c); [done|].
  destruct (public_path cfg _ _); [done|]. simpl.
  destruct (Ctx.Get c _ =? "")%string; [done|]. by destruct (TrimPrefix _ _ =? _)%string.
Qed.

(** C6: the rest of the chain is reached in two ways only: the request is
    exempt and goes on untouched, or it carries a token that validates and
    goes on with the token's claims in its locals and headers.  Every other
    request is answered 401 and the rest of the chain is not run. *)
Theorem Auth_guard cfg next c w :
  (exempt cfg c = true /\ Auth cfg next c w = next c w) \/
  (exempt cfg c = false /\ exists tokenString claims,
     bearer cfg c = Some tokenString /\
     validateToken tokenString (AuthConfig.JWTSecret cfg) (Now w) = inl claims /\
     Auth cfg next c w = next (store_claims cfg claims c) w) \/
  (exempt cfg c = false /\ exists c',
     Ctx.StatusCode c' = 401 /\ forall next', Auth cfg next' c w = (Return None, c', w)).
Proof.
  destruct (exempt cfg c) eqn:He; [left; by rewrite Auth_cases, He|right].
  destruct (bearer cfg c) as [tok|] eqn:Hb.
  - destruct (validateToken tok (AuthConfig.JWTSecret cfg) (Now w)) as [claims|err] eqn:Hv.
    + left. split; [done|]. exists tok, claims. by rewrite Auth_cases, He, Hb, Hv.
    + right. split; [done|]. eexists. split; [|intros n; by rewrite Auth_cases, He, Hb, Hv]. done.
  - right. split; [done|]. eexists. split; [|intros n; by rewrite Auth_cases, He, Hb]. done.
Qed.

(** A token is accepted only if the library parsed it, found it valid, and
    it has not expired. *)
Theorem validateToken_inl tokenString secret now claims :
  validateToken tokenString secret now = inl claims <->
  ParseWithClaims tokenString secret now = Some (claims, true) /\
  from_option (fun e => now <= e) True (Claims.ExpiresAt claims).
Proof.
  unfold validateToken. destruct (ParseWithClaims _ _ _) as [[cl []]|]; simpl;
    [|split; [done|by intros [[=] _]]..].
  destruct (Claims.ExpiresAt cl) as [e|] eqn:E; simpl.
  - destruct (Z.ltb_spec e now); split; try done.
    + intros [[= ->] H']. rewrite E in H'. simpl in H'. lia.
    + intros [= ->]. rewrite E. simpl. split; [done|lia].
    + by intros [[= ->] _].
  - split; [intros [= ->]; by rewrite E|by intros [[= ->] _]].
Qed.

Lemma RequireRoles_cases roles next c w :
  RequireRoles roles next c w =
    match Locals.user (Ctx.locals c) with
    | None => (Return None, unauthorized "No user context found" c, w)
    | Some claims =>
        if has_role roles claims then next c w
        else (Return None, Ctx.JSON forbidden_body (Ctx.Status 403 c), w)
    end.
Proof. done. Qed.

End AuthLemmas.

Section PolicyLemmas.
Context {W : Type} `{!Clock W} `{!TokenParser}.
Implicit Types (next : Handler W) (c : Ctx) (w : W) (claims : Claims).

Lemma has_role_spec roles claims :
  has_role roles claims = true <->
  exists r u, r ∈ roles /\ u ∈ Claims.Roles claims /\ EqualFold r u = true.
Proof.
  unfold has_role. rewrite existsb_exists. split.
  - intros (r & Hr & (u & Hu & He)%existsb_exists). exists r, u.
    by rewrite !list_elem_of_In.
  - intros (r & u & Hr & Hu & He). exists r. rewrite <- list_elem_of_In. split; [done|].
    apply existsb_exists. exists u. by rewrite <- list_elem_of_In.
Qed.

(** C23: the role policy lets a request through only when the context holds
    the claims of a user one of whose roles is, up to case, one of the
    required ones; without claims it answers 401 and without such a role
    403, the rest of the chain not run. *)
Theorem RequireRoles_guard roles next c w :
  (exists claims r u, Locals.user (Ctx.locals c) = Some claims /\ r ∈ roles /\
     u ∈ Claims.Roles claims /\ EqualFold r u = true /\
     RequireRoles roles next c w = next c w) \/
  (exists c', Ctx.StatusCode c' = match Locals.user (Ctx.locals c) with
                                  | Some _ => 403 | None => 401 end /\
     forall next', RequireRoles roles next' c w = (Return None, c', w)).
Proof.
  unfold RequireRoles. destruct (Locals.user (Ctx.locals c)) as [claims|]; [|right; eexists; split; [|intros; reflexivity]; reflexivity].
  destruct (has_role roles claims) eqn:Hr; [|right; eexists; split; [|intros; reflexivity]; reflexivity].
  left. apply has_role_spec in Hr as (r & u & ? & ? & ?). by exists claims, r, u.
Qed.

(** The tenant extractor always goes on; when it finds a tenant it puts
    it in the locals and in the header the services downstream read, and
    otherwise changes nothing. *)
Theorem TenantExtractor_spec next c w :
  exists c', TenantExtractor next c w = next c' w /\
    if (tenant_of c =? "")%string then c' = c
    else Locals.tenant_id (Ctx.locals c') = Some (tenant_of c) /\
         Ctx.Get c' "X-Tenant-ID" = tenant_of c /\ Ctx.response c' = Ctx.response c.
Proof.
  unfold TenantExtractor. destruct (tenant_of c =? "")%string; eexists; (split; [done|]);
    [done|]. split_and!; try done. apply Get_SetReqHeader.
Qed.

End PolicyLemmas.

Section TenantLemmas.
Implicit Types (c : Ctx).

(** The sources of the tenant, in their order of precedence. *)
Lemma tenant_of_local c t :
  Locals.tenant_id (Ctx.locals c) = Some t -> t <> "" -> tenant_of c = t.
Proof.
  unfold tenant_of. intros -> Ht. simpl. apply String.eqb_neq in Ht. by rewrite Ht, Ht.
Qed.

Lemma tenant_of_header c :
  default "" (Locals.tenant_id (Ctx.locals c)) = "" -> Ctx.Get c "X-Tenant-ID" <> "" ->
  tenant_of c = Ctx.Get c "X-Tenant-ID".
Proof.
  unfold tenant_of. intros -> Hh. simpl. apply String.eqb_neq in Hh. by rewrite Hh.
Qed.

Lemma tenant_of_host c :
  default "" (Locals.tenant_id (Ctx.locals c)) = "" -> Ctx.Get c "X-Tenant-ID" = "" ->
  tenant_of c =
    let parts := Split (Ctx.Hostname c) "."%char in
    if (3 <=? length parts)%nat then nth 0 parts "" else "".
Proof. unfold tenant_of. by intros -> ->. Qed.

Lemma public_paths_snoc routes route :
  public_paths (routes ++ [route]) =
    if Route.Public route
    then <[Route.Path route := Route.Methods route]> (public_paths routes)
    else public_paths routes.
Proof. unfold public_paths. by rewrite foldl_app. Qed.

(** Only the routes marked public open a path: every entry of the public
    paths is the path and the methods of a public route of the table. *)
Theorem public_paths_sound routes path methods :
  public_paths routes !! path = Some methods ->
  exists route, route ∈ routes /\ Route.Public route = true /\
    Route.Path route = path /\ Route.Methods route = methods.
Proof.
  induction routes as [|route routes IH] using rev_ind;
    [unfold public_paths; simpl; by rewrite lookup_empty|].
  rewrite public_paths_snoc. destruct (Route.Public route) eqn:Hp.
  - destruct (decide (Route.Path route = path)) as [<-|Hne].
    + rewrite lookup_insert_eq. intros [= <-]. exists route.
      split; [apply elem_of_app; right; by apply list_elem_of_singleton|done].
    + rewrite lookup_insert_ne by done. intros (r & Hin & Hr)%IH. exists r.
      split; [apply elem_of_app; by left|done].
  - intros (r & Hin & Hr)%IH. exists r. split; [apply elem_of_app; by left|done].
Qed.

End TenantLemmas.

(** * A concrete world *)

Module AuthWorld.
Import CommonWorld.

Definition alice : Claims :=
  Claims.mk "u-1" "acme" "alice@example.com" ["admin"; "billing"] (Some (3600 * Second)).

(** A parser that knows one token, signed with the secret ["s3cret"]. *)
#[export] Instance parser : TokenParser :=
  {| ParseWithClaims := fun tokenString secret now =>
       if (tokenString =? "token-of-alice")%string && (secret =? "s3cret")%string
       then Some (alice, true) else None |}.

Definition cfg : AuthConfig :=
  AuthConfig.mk "s3cret" (public_paths (RouteConfig.Routes DefaultRoutes)) "Authorization" "Bearer " "user"
    ["/health"; "/ready"; "/live"; "/metrics"].

Definition login : Ctx := request "POST" "/api/v1/auth/login" [] "{}".

Definition users_with (headers : list (string * string)) : Ctx :=
  request "GET" "/api/v1/users" headers "".

End AuthWorld.

Section Scenarios.
Import CommonWorld AuthWorld.

Lemma public_paths_sound_witness :
  exists route, route ∈ RouteConfig.Routes DefaultRoutes /\ Route.Public route = true /\
    Route.Path route = "/api/v1/auth/login" /\ Route.Methods route = ["POST"].
Proof. apply (public_paths_sound (RouteConfig.Routes DefaultRoutes) "/api/v1/auth/login" ["POST"]). by vm_compute. Defined.

(** The authentication scenario of the design: a login without a token
    goes on; a request for the users with a token that does not validate is
    answered 401; with the token of a user it goes on, carrying the user's
    identity in place of what the client claimed. *)
Example auth_scenario :
  Auth cfg (answer 200 0) login start = answer 200 0 login start /\
  (let '(out, c, w) := Auth cfg (answer 200 0) (users_with [("Authorization", "Bearer abc")])
                         start in
   out = Return None /\ Ctx.StatusCode c = 401 /\
   Response.Body (Ctx.response c) = Json (JObject (unauthorized_body "Invalid token"))) /\
  (let c := users_with [("Authorization", "Bearer token-of-alice"); ("X-User-ID", "root")] in
   Auth cfg (answer 200 0) c start = answer 200 0 (store_claims cfg alice c) start /\
   Ctx.Get (store_claims cfg alice c) "X-User-ID" = "u-1" /\
   Ctx.Get (store_claims cfg alice c) "X-User-Roles" = "admin,billing").
Proof. by vm_compute. Qed.

(** A token is refused once its expiry has passed. *)
Example auth_expired :
  let c := users_with [("Authorization", "Bearer token-of-alice")] in
  let '(out, c', w) := Auth cfg (answer 200 0) c (mk (3601 * Second) [] 0) in
  Response.Body (Ctx.response c') = Json (JObject (unauthorized_body "Token expired")).
Proof. by vm_compute. Qed.

(** Any path that begins with a skip prefix is exempt, and a host given as
    an address of four numbers names the tenant ["192"]. *)
Example auth_prefixes_and_hosts :
  exempt cfg (request "DELETE" "/healthcare/records" [] "") = true /\
  tenant_of (Ctx.new (Request.mk "GET" "/" "" "192.168.1.10" "http" "10.0.0.1" ∅ "")) = "192" /\
  tenant_of (Ctx.new (Request.mk "GET" "/" "" "Acme.example.com" "http" "10.0.0.1" ∅ ""))
    = "acme".
Proof. by vm_compute. Qed.

End Scenarios.
