(* ===== verification/Proxy.v ===== *)
(** * Service registry, reverse proxy and health prober

    Models the proxy package (src/unnamed/part_001): the registry of
    upstream services [ServiceProxy] with its health flags, [Forward], which
    builds the upstream request, sends it and copies the answer,
    [HealthCheck] and the round of probes of [StartHealthChecks], and
    [isHopByHopHeader].  The network is the interface [Upstream]: what a
    service answers to a request, or how the call fails, is given by the
    world and nothing is assumed about it. *)

From stdpp Require Import base strings list gmap.
From Stdlib Require Import ZArith Lia.
From S2P Require Import Prelude Config Context.

#[local] Open Scope string_scope.
#[local] Open Scope list_scope.
#[local] Open Scope Z_scope.

(** ** The registry *)

(** The settings of a service's HTTP client. *)
Module Client.
Record t := mk {
  MaxConnsPerHost : Z;
  MaxIdleConnDuration : Duration;
  ReadTimeout : Duration;
  WriteTimeout : Duration;
}.
End Client.
Abbreviation Client := Client.t.

Module ServiceClient.
Record t := mk {
  Name : string;
  URL : string;
  Client : Client;
  HealthPath : string;
  Healthy : bool;
  LastCheck : option Time;
}.

Definition with_health (healthy : bool) (now : Time) (svc : t) : t :=
  mk (Name svc) (URL svc) (Client svc) (HealthPath svc) healthy (Some now).
End ServiceClient.
Abbreviation ServiceClient := ServiceClient.t.

(** ** The network *)

Module UpstreamRequest.
Record t := mk {
  URI : string;
  Method : string;
  Header : Headers;
  Body : string;
}.
End UpstreamRequest.
Abbreviation UpstreamRequest := UpstreamRequest.t.

Module UpstreamResponse.
Record t := mk {
  StatusCode : Z;
  Header : Headers;
  Body : string;
}.
End UpstreamResponse.
Abbreviation UpstreamResponse := UpstreamResponse.t.

(** [Client.Do] and, with a timeout, [Client.DoTimeout]: the response, or
    the message of the error. *)
Class Upstream (W : Type) := {
  Do : ServiceClient -> UpstreamRequest -> option Duration -> W ->
       (UpstreamResponse + string) * W;
}.

(** ** Hop-by-hop headers *)

Definition hopByHopHeaders : list string :=
  ["Connection"; "Keep-Alive"; "Proxy-Authenticate"; "Proxy-Authorization";
   "Te"; "Trailers"; "Transfer-Encoding"; "Upgrade"].

Definition isHopByHopHeader (header : string) : bool :=
  bool_decide (CanonicalHeaderKey header ∈ hopByHopHeaders).

(** The headers [VisitAll] hands on: all but the hop-by-hop ones. *)
Definition forwardable (h : Headers) : Headers :=
  filter (fun kv => isHopByHopHeader kv.1 = false) h.

Module ServiceProxy.
Record t := mk {
  services : gmap string ServiceClient;
}.

Definition client_of (cfg : ServiceConfig) : Client :=
  Client.mk (ServiceConfig.MaxConnsPerHost cfg) (30 * Second)
            (ServiceConfig.Timeout cfg) (ServiceConfig.Timeout cfg).

Definition NewServiceProxy (cfg : ServicesConfig) : t :=
  let auth := ServiceClient.mk "auth" (ServiceConfig.URL (ServicesConfig.Auth cfg))
                (client_of (ServicesConfig.Auth cfg))
                (ServiceConfig.HealthPath (ServicesConfig.Auth cfg)) true None in
  let notifier := ServiceClient.mk "notifier" (ServiceConfig.URL (ServicesConfig.Notifier cfg))
                    (client_of (ServicesConfig.Notifier cfg))
                    (ServiceConfig.HealthPath (ServicesConfig.Notifier cfg)) true None in
  mk (<["notifier" := notifier]> (<["auth" := auth]> ∅)).

Definition GetService (p : t) (name : string) : option ServiceClient :=
  services p !! name.

Definition setServiceHealth (name : string) (healthy : bool) (now : Time) (p : t) : t :=
  match services p !! name with
  | Some svc => mk (<[name := ServiceClient.with_health healthy now svc]> (services p))
  | None => p
  end.

Definition GetServicesHealth (p : t) : gmap string bool :=
  ServiceClient.Healthy <$> services p.

(** The path sent upstream. *)
Definition target_path (path stripPrefix : string) : string :=
  if negb (stripPrefix =? "")%string then
    let path := TrimPrefix path stripPrefix in
    if (path =? "")%string then "/" else path
  else path.

Definition target_url (svc : ServiceClient) (c : Ctx) (stripPrefix : string) : string :=
  let queryString := Request.QueryString (Ctx.request c) in
  let targetURL := ServiceClient.URL svc +:+ target_path (Ctx.Path c) stripPrefix in
  if negb (queryString =? "")%string then targetURL +:+ "?" +:+ queryString else targetURL.

(** The request [Forward] sends: the client's method and body, its headers
    but the hop-by-hop ones, and the forwarding headers. *)
Definition upstream_request (svc : ServiceClient) (c : Ctx) (stripPrefix : string)
    : UpstreamRequest :=
  let h := forwardable (Request.Header (Ctx.request c)) in
  let h := hset h "X-Forwarded-For" (Ctx.IP c) in
  let h := hset h "X-Forwarded-Host" (Request.Host (Ctx.request c)) in
  let h := hset h "X-Forwarded-Proto" (Request.Protocol (Ctx.request c)) in
  let h := hset h "X-Real-IP" (Ctx.IP c) in
  let h := hset h "X-Request-ID" (Ctx.GetRespHeader c "X-Request-ID") in
  UpstreamRequest.mk (target_url svc c stripPrefix) (Ctx.Method c) h (Ctx.Body c).

(** The response handed to the client: the headers of the upstream but the
    hop-by-hop ones over those already set, its status and its body. *)
Definition copy_response (resp : UpstreamResponse) (c : Ctx) : Ctx :=
  let headers := forwardable (UpstreamResponse.Header resp) ∪ Response.Header (Ctx.response c) in
  let c := Ctx.with_response (Response.mk (Ctx.StatusCode c) headers
                                (Response.Body (Ctx.response c))) c in
  Ctx.Send (UpstreamResponse.Body resp) (Ctx.Status (UpstreamResponse.StatusCode resp) c).

Definition not_found_body (serviceName : string) : list (string * JSON) :=
  [("error", JString ("service " +:+ serviceName +:+ " not found"))].

Definition unavailable_body (serviceName : string) : list (string * JSON) :=
  [("error", JString ("service " +:+ serviceName +:+ " is unavailable"))].

Definition failed_body (details : string) : list (string * JSON) :=
  [("error", JString "upstream request failed"); ("details", JString details)].

Section Forward.
Context {W : Type} `{!Lens W t} `{!Clock W} `{!Upstream W}.

Definition Forward (serviceName stripPrefix : string) : Handler W := fun c w =>
  match GetService (view w) serviceName with
  | None => (Return None, Ctx.JSON (not_found_body serviceName) (Ctx.Status 502 c), w)
  | Some svc =>
      if negb (ServiceClient.Healthy svc)
      then (Return None, Ctx.JSON (unavailable_body serviceName) (Ctx.Status 503 c), w)
      else
        match Do svc (upstream_request svc c stripPrefix) None w with
        | (inr err, w') =>
            (Return None, Ctx.JSON (failed_body err) (Ctx.Status 502 c), w')
        | (inl resp, w') => (Return None, copy_response resp c, w')
        end
  end.

(** The probe of [HealthCheck]. *)
Definition health_request (svc : ServiceClient) : UpstreamRequest :=
  UpstreamRequest.mk (ServiceClient.URL svc +:+ ServiceClient.HealthPath svc) "GET" ∅ "".

Definition HealthCheck (serviceName : string) (w : W) : bool * W :=
  match GetService (view w) serviceName with
  | None => (false, w)
  | Some svc =>
      match Do svc (health_request svc) (Some (5 * Second)) w with
      | (inr _, w') =>
          (false, update (setServiceHealth serviceName false (Now w') (view w')) w')
      | (inl resp, w') =>
          let healthy := (200 <=? UpstreamResponse.StatusCode resp) &&
                         (UpstreamResponse.StatusCode resp <? 300) in
          (healthy, update (setServiceHealth serviceName healthy (Now w') (view w')) w')
      end
  end.

(** [Close]: the clients need no cleanup. *)
Definition Close (p : t) : option error := None.

(** One tick of the ticker of [StartHealthChecks]: every service of the
    registry is probed, one after the other. *)
Definition health_round (w : W) : W :=
  foldl (fun w name => (HealthCheck name w).2) w (elements (dom (services (view w)))).

End Forward.
End ServiceProxy.
Abbreviation ServiceProxy := ServiceProxy.t.

(** * Properties of the registry and the proxy *)

Section HopByHop.
Import ServiceProxy.
Implicit Types (h : Headers) (k : string) (c : Ctx) (svc : ServiceClient).

Lemma isHopByHopHeader_canonical k :
  isHopByHopHeader (CanonicalHeaderKey k) = isHopByHopHeader k.
Proof. unfold isHopByHopHeader. by rewrite CanonicalHeaderKey_idem. Qed.

Lemma forwardable_hop h k : isHopByHopHeader k = true -> hget (forwardable h) k = "".
Proof.
  intros Hk. unfold hget, forwardable. rewrite map_lookup_filter_None_2; [done|].
  right. intros v _. simpl. by rewrite isHopByHopHeader_canonical, Hk.
Qed.

Lemma forwardable_other h k : isHopByHopHeader k = false -> hget (forwardable h) k = hget h k.
Proof.
  intros Hk. unfold hget, forwardable. destruct (h !! CanonicalHeaderKey k) as [v|] eqn:E.
  - rewrite (map_lookup_filter_Some_2 _ _ _ v); [done..|].
    simpl. by rewrite isHopByHopHeader_canonical.
  - rewrite map_lookup_filter_None_2; [done|]. by left.
Qed.

(** A hop-by-hop header is none of the forwarding headers. *)
Lemma hop_not_forwarding k k' :
  isHopByHopHeader k = true -> isHopByHopHeader k' = false ->
  CanonicalHeaderKey k' <> CanonicalHeaderKey k.
Proof. unfold isHopByHopHeader. intros Hk Hk' E. rewrite E in Hk'. congruence. Qed.

(** C8: hop-by-hop isolation, towards the service: the request sent upstream
    carries none of the hop-by-hop headers, whatever the client sent. *)
Theorem upstream_request_hop_by_hop svc c stripPrefix k :
  isHopByHopHeader k = true ->
  hget (UpstreamRequest.Header (upstream_request svc c stripPrefix)) k = "".
Proof.
  intros Hk. unfold upstream_request. cbn [UpstreamRequest.Header].
  rewrite !hget_hset_ne by (by apply (hop_not_forwarding k)).
  by apply forwardable_hop.
Qed.

(** The other headers of the client reach the service, but for the five
    forwarding headers, which the proxy sets itself. *)
Lemma upstream_request_header svc c stripPrefix k :
  isHopByHopHeader k = false ->
  CanonicalHeaderKey k ∉ CanonicalHeaderKey <$>
    ["X-Forwarded-For"; "X-Forwarded-Host"; "X-Forwarded-Proto"; "X-Real-IP"; "X-Request-ID"] ->
  hget (UpstreamRequest.Header (upstream_request svc c stripPrefix)) k = Ctx.Get c k.
Proof.
  intros Hk Hn. unfold upstream_request. cbn [UpstreamRequest.Header].
  rewrite !hget_hset_ne; [by apply forwardable_other|..];
    intros E; apply Hn; rewrite <- E; set_solver.
Qed.

Lemma upstream_request_forwarding svc c stripPrefix :
  let h := UpstreamRequest.Header (upstream_request svc c stripPrefix) in
  hget h "X-Forwarded-For" = Ctx.IP c /\ hget h "X-Real-IP" = Ctx.IP c /\
  hget h "X-Forwarded-Host" = Request.Host (Ctx.request c) /\
  hget h "X-Forwarded-Proto" = Request.Protocol (Ctx.request c) /\
  hget h "X-Request-ID" = Ctx.GetRespHeader c "X-Request-ID".
Proof.
  unfold upstream_request. cbn [UpstreamRequest.Header].
  split_and!; by rewrite ?hget_hset_ne, ?hget_hset by done.
Qed.

Lemma copy_response_header resp c k :
  Ctx.GetRespHeader (copy_response resp c) k =
    default (Ctx.GetRespHeader c k)
      (forwardable (UpstreamResponse.Header resp) !! CanonicalHeaderKey k).
Proof.
  unfold copy_response, Ctx.GetRespHeader, hget. simpl. rewrite lookup_union.
  destruct (forwardable _ !! _) as [v|]; simpl; [by destruct (_ !! _)|].
  by destruct (Response.Header (Ctx.response c) !! CanonicalHeaderKey k).
Qed.

(** C38: hop-by-hop isolation, towards the client: no hop-by-hop header of the
    service's answer reaches the response. *)
Theorem copy_response_hop_by_hop resp c k :
  isHopByHopHeader k = true ->
  Ctx.GetRespHeader (copy_response resp c) k = Ctx.GetRespHeader c k.
Proof.
  intros Hk. rewrite copy_response_header.
  unfold forwardable. rewrite map_lookup_filter_None_2; [done|].
  right. intros v _. simpl. by rewrite isHopByHopHeader_canonical, Hk.
Qed.

(** Any other header the service sets replaces what the stages before
    had put on the response. *)
Lemma copy_response_overrides resp c k v :
  isHopByHopHeader k = false -> UpstreamResponse.Header resp !! CanonicalHeaderKey k = Some v ->
  Ctx.GetRespHeader (copy_response resp c) k = v.
Proof.
  intros Hk Hv. rewrite copy_response_header. unfold forwardable.
  rewrite (map_lookup_filter_Some_2 _ _ _ v); [done..|].
  simpl. by rewrite isHopByHopHeader_canonical.
Qed.

Lemma copy_response_status resp c :
  Ctx.StatusCode (copy_response resp c) = UpstreamResponse.StatusCode resp /\
  Response.Body (Ctx.response (copy_response resp c)) = Raw (UpstreamResponse.Body resp).
Proof. done. Qed.

End HopByHop.

Section Paths.
Import ServiceProxy.

(** Stripping the prefix of a route: what follows the prefix is sent, the
    root when nothing follows; a path that does not start with the prefix
    is sent whole. *)
Lemma target_path_strip prefix rest :
  prefix <> "" ->
  target_path (prefix +:+ rest) prefix = if (rest =? "")%string then "/" else rest.
Proof.
  intros Hp. unfold target_path. apply String.eqb_neq in Hp. rewrite Hp. simpl.
  by rewrite TrimPrefix_app.
Qed.

Lemma target_path_keep path : target_path path "" = path.
Proof. done. Qed.

End Paths.

Section ForwardLemmas.
Context {W : Type} `{!Lens W ServiceProxy} `{!Clock W} `{!Upstream W}.
Import ServiceProxy.
Implicit Types (c : Ctx) (w : W) (svc : ServiceClient) (name : string).

(** C20: a request for a service the registry does not hold is answered 502
    and one for a service marked unhealthy 503, in both cases without a call
    to any service. *)
Theorem Forward_refuses name stripPrefix c w :
  from_option ServiceClient.Healthy false (GetService (view w) name) = false ->
  exists c', Forward name stripPrefix c w = (Return None, c', w) /\
    Ctx.StatusCode c' = match GetService (view w) name with Some _ => 503 | None => 502 end.
Proof.
  unfold Forward. destruct (GetService (view w) name) as [svc|]; simpl;
    [intros ->|intros _]; by eexists.
Qed.

(** A request for a healthy service is sent to it, built by
    [upstream_request]; its answer is copied to the client with its status
    and body, and a failure of the call is answered 502. *)
Theorem Forward_sends name stripPrefix c w svc :
  GetService (view w) name = Some svc -> ServiceClient.Healthy svc = true ->
  Forward name stripPrefix c w =
    match Do svc (upstream_request svc c stripPrefix) None w with
    | (inl resp, w') => (Return None, copy_response resp c, w')
    | (inr err, w') => (Return None, Ctx.JSON (failed_body err) (Ctx.Status 502 c), w')
    end.
Proof. unfold Forward. intros -> ->. simpl. by destruct (Do _ _ _ _) as [[resp|err] w']. Qed.

Lemma setServiceHealth_lookup name healthy now p name' :
  services (setServiceHealth name healthy now p) !! name' =
    if decide (name = name')
    then ServiceClient.with_health healthy now <$> services p !! name'
    else services p !! name'.
Proof.
  unfold setServiceHealth. destruct (services p !! name) as [svc|] eqn:E; simpl.
  - case_decide as Hn; [subst; by rewrite lookup_insert_eq, E|by rewrite lookup_insert_ne].
  - case_decide as Hn; [subst; by rewrite E|done].
Qed.

(** A probe never adds or removes a service. *)
Lemma setServiceHealth_dom name healthy now p :
  dom (services (setServiceHealth name healthy now p)) = dom (services p).
Proof.
  apply set_eq. intros n. rewrite !elem_of_dom, setServiceHealth_lookup.
  case_decide; [|done]. by rewrite fmap_is_Some.
Qed.

Lemma GetServicesHealth_set name healthy now p svc :
  services p !! name = Some svc ->
  GetServicesHealth (setServiceHealth name healthy now p) = <[name := healthy]> (GetServicesHealth p).
Proof.
  intros Hs. unfold GetServicesHealth, setServiceHealth. rewrite Hs. simpl.
  by rewrite fmap_insert.
Qed.

(** The verdict of a probe. *)
Definition verdict (r : UpstreamResponse + string) : bool :=
  match r with
  | inl resp => (200 <=? UpstreamResponse.StatusCode resp) && (UpstreamResponse.StatusCode resp <? 300)
  | inr _ => false
  end.

Lemma HealthCheck_cases name w :
  HealthCheck name w =
    match GetService (view w) name with
    | None => (false, w)
    | Some svc =>
        let '(r, w') := Do svc (health_request svc) (Some (5 * Second)) w in
        (verdict r, update (setServiceHealth name (verdict r) (Now w') (view w')) w')
    end.
Proof.
  unfold HealthCheck. destruct (GetService (view w) name) as [svc|]; [|done].
  by destruct (Do _ _ _ _) as [[resp|err] w'].
Qed.

(** C15: a probe marks a service healthy exactly when it answers with a status
    from 200 to 299; a failed call is a failure verdict; the verdict is
    written to the registry, and no other service's flag changes. *)
Theorem HealthCheck_spec name w svc r w' :
  GetService (view w) name = Some svc ->
  Do svc (health_request svc) (Some (5 * Second)) w = (r, w') ->
  let '(healthy, w'') := HealthCheck name w in
  healthy = verdict r /\
  (forall name', GetServicesHealth (view w'') !! name' =
     if decide (name = name') then (fun _ => healthy) <$> services (view w') !! name'
     else GetServicesHealth (view w') !! name').
Proof.
  intros Hs Hd. rewrite HealthCheck_cases, Hs, Hd. split; [done|]. intros name'.
  rewrite view_update. unfold GetServicesHealth. rewrite !lookup_fmap, setServiceHealth_lookup.
  case_decide; [|done]. by destruct (services (view w') !! name').
Qed.

End ForwardLemmas.

(** * A concrete world *)

Module ProxyWorld.
Import ServiceProxy.

(** The registry, a clock, what each service answers, and the requests the
    services received. *)
Record World := mk {
  proxy : ServiceProxy;
  clock : Time;
  answers : string -> UpstreamResponse + string;
  received : list (string * UpstreamRequest);
}.

#[export] Instance World_lens : Lens World ServiceProxy.
Proof.
  refine {| view := proxy; update := fun p w => mk p (clock w) (answers w) (received w) |};
    [done | by intros [] | done].
Defined.

#[export] Instance World_clock : Clock World := {| Now := clock |}.

#[export] Instance World_upstream : Upstream World :=
  {| Do := fun svc req timeout w =>
       (answers w (ServiceClient.Name svc),
        mk (proxy w) (clock w) (answers w) (received w ++ [(ServiceClient.Name svc, req)])) |}.

Definition headers (l : list (string * string)) : Headers :=
  foldl (fun h kv => hset h kv.1 kv.2) ∅ l.

(** The auth service answers 200 and names itself; the notifier cannot be
    reached. *)
Definition auth_up (name : string) : UpstreamResponse + string :=
  if (name =? "auth")%string
  then inl (UpstreamResponse.mk 200
              (headers [("Content-Type", "application/json"); ("Connection", "close");
                        ("Server", "nginx"); ("X-Request-ID", "upstream-7")])
              "{}")
  else inr "dial tcp: connection refused".

Definition start : World := mk (NewServiceProxy default_Services) 0 auth_up [].

Definition me : Ctx :=
  Ctx.SetHeader "Server" ""
    (Ctx.SetHeader "X-Request-ID" "abc-123"
       (Ctx.new (Request.mk "GET" "/api/v1/auth/me" "x=1" "gateway.example.com" "https"
                   "203.0.113.9"
                   (headers [("Connection", "keep-alive"); ("Accept", "*/*");
                             ("X-Real-IP", "10.9.9.9")]) ""))).

End ProxyWorld.

Section Scenarios.
Import ServiceProxy ProxyWorld.

Lemma upstream_request_hop_by_hop_witness :
  hget (UpstreamRequest.Header
          (upstream_request (default (ServiceClient.mk "" "" (Client.mk 0 0 0 0) "" true None)
                               (GetService (proxy start) "auth")) me "/api/v1/auth"))
       "connection" = "".
Proof. apply upstream_request_hop_by_hop. reflexivity. Defined.

Lemma copy_response_hop_by_hop_witness :
  Ctx.GetRespHeader (Forward "auth" "/api/v1/auth" me start).1.2 "Connection" =
  Ctx.GetRespHeader me "Connection".
Proof.
  exact (copy_response_hop_by_hop
           (UpstreamResponse.mk 200
              (headers [("Content-Type", "application/json"); ("Connection", "close");
                        ("Server", "nginx"); ("X-Request-ID", "upstream-7")]) "{}")
           me "Connection" eq_refl).
Defined.

Lemma Forward_refuses_witness :
  exists c', Forward "billing" "" me start = (Return None, c', start) /\
    Ctx.StatusCode c' = match GetService (view start) "billing" with
                        | Some _ => 503 | None => 502 end.
Proof. apply (Forward_refuses "billing" "" me start). reflexivity. Defined.

Lemma Forward_sends_witness :
  Forward "notifier" "" me start =
    match Do (default (ServiceClient.mk "" "" (Client.mk 0 0 0 0) "" true None)
                (GetService (proxy start) "notifier"))
             (upstream_request (default (ServiceClient.mk "" "" (Client.mk 0 0 0 0) "" true None)
                                  (GetService (proxy start) "notifier")) me "") None start with
    | (inl resp, w') => (Return None, copy_response resp me, w')
    | (inr err, w') => (Return None, Ctx.JSON (failed_body err) (Ctx.Status 502 me), w')
    end.
Proof. apply (Forward_sends "notifier" "" me start); reflexivity. Defined.

Lemma HealthCheck_spec_witness :
  let '(healthy, w'') := HealthCheck "notifier" start in
  healthy = false /\ GetServicesHealth (view w'') !! "notifier" = Some false /\
  GetServicesHealth (view w'') !! "auth" = Some true.
Proof.
  pose proof (HealthCheck_spec "notifier" start _ _ _ eq_refl eq_refl) as H.
  destruct (HealthCheck "notifier" start) as [healthy w'']. destruct H as [-> H].
  split; [done|]. split; [by rewrite (H "notifier")|by rewrite (H "auth")].
Defined.

(** The prefix-strip scenario of the design: the request for
    [/api/v1/auth/me?x=1] on a route that strips [/api/v1/auth] reaches the
    auth service as [/me?x=1], with the address of the client in
    [X-Real-IP] whatever the client sent there, and without the client's
    [Connection] header. *)
Example strip_scenario :
  let w := (Forward "auth" "/api/v1/auth" me start).2 in
  exists req, received w = [("auth", req)] /\
    UpstreamRequest.URI req = "http://localhost:5000/me?x=1" /\
    UpstreamRequest.Method req = "GET" /\
    hget (UpstreamRequest.Header req) "X-Real-IP" = "203.0.113.9" /\
    hget (UpstreamRequest.Header req) "X-Request-ID" = "abc-123" /\
    hget (UpstreamRequest.Header req) "Accept" = "*/*" /\
    hget (UpstreamRequest.Header req) "Connection" = "".
Proof. eexists. by vm_compute. Qed.

(** What the service sets on its answer replaces what the gateway had put
    on the response: its own request id and its server name reach the
    client. *)
Example response_headers_overridden :
  let c := (Forward "auth" "/api/v1/auth" me start).1.2 in
  Ctx.GetRespHeader me "X-Request-ID" = "abc-123" /\
  Ctx.GetRespHeader c "X-Request-ID" = "upstream-7" /\ Ctx.GetRespHeader c "Server" = "nginx".
Proof. by vm_compute. Qed.

(** The header of the standard is [Trailer]: it is not in the list, and is
    forwarded. *)
Example trailer_is_forwarded :
  isHopByHopHeader "Trailer" = false /\ isHopByHopHeader "trailers" = true /\
  isHopByHopHeader "TE" = true.
Proof. by vm_compute. Qed.

End Scenarios.
