(* ===== verification/Router.v ===== *)
(** * Route table and router

    Models the router package (src/unnamed/part_002): the look-ups of the
    route table ([matchesPath], [containsMethod], [GetRouteForPath],
    [IsPublicRoute]), the registration of the routes with the web framework
    ([setupRoute], [SetupRoutes]) and the handler of a route
    ([createProxyHandler]), which records the route in the context and hands
    the request to the proxy.  How the framework finds the handler of a
    request among those registered is [dispatch]: the first registration, in
    order, whose method is the request's and whose pattern matches its path,
    with the framework's defaults (paths compared without case, a trailing
    slash ignored). *)

From stdpp Require Import base strings list gmap.
From Stdlib Require Import ZArith Lia Ascii.
From S2P Require Import Prelude Config Context Proxy.

#[local] Open Scope string_scope.
#[local] Open Scope list_scope.
#[local] Open Scope Z_scope.

(** ** Look-ups *)

Definition matchesPath (requestPath routePath : string) : bool :=
  if (requestPath =? routePath)%string then true
  else if HasPrefix requestPath routePath then
    let remaining := TrimPrefix requestPath routePath in
    (remaining =? "")%string || HasPrefix remaining "/"
  else false.

Definition containsMethod (methods : list string) (method : string) : bool :=
  existsb (fun m => EqualFold m method) methods.

Definition GetRouteForPath (routes : RouteConfig) (path method : string) : option Route :=
  find (fun route => matchesPath path (Route.Path route) &&
                     containsMethod (Route.Methods route) method)
       (RouteConfig.Routes routes).

Definition IsPublicRoute (routes : RouteConfig) (path method : string) : bool :=
  match GetRouteForPath routes path method with
  | Some route => Route.Public route
  | None => false
  end.

(** ** Registration *)

(** A handler registered with the framework for a method and a pattern. *)
Module Registration.
Record t := mk {
  method : string;
  pattern : string;
  route : Route;
}.
End Registration.
Abbreviation Registration := Registration.t.

(** The methods [setupRoute] knows. *)
Definition registrable (method : string) : bool :=
  bool_decide (ToUpper method ∈ ["GET"; "POST"; "PUT"; "DELETE"; "PATCH"; "OPTIONS"]).

Definition route_pattern (route : Route) : string :=
  if HasSuffix (Route.Path route) "*" then Route.Path route else Route.Path route +:+ "/*".

(** The registrations of one route: for each of its methods the pattern,
    then the path itself; none for the routes of the gateway. *)
(** [app.Get], [app.Post], ...: one registration for the method; [app.Get]
    registers the handler for [HEAD] as well, and first. *)
Definition register (method pattern : string) (route : Route) : list Registration :=
  if (method =? "GET")%string
  then [Registration.mk "HEAD" pattern route; Registration.mk "GET" pattern route]
  else [Registration.mk method pattern route].

Definition setupRoute (route : Route) : list Registration :=
  if (Route.Service route =? "gateway")%string then []
  else
    flat_map (fun method =>
                if registrable method
                then register (ToUpper method) (route_pattern route) route ++
                     register (ToUpper method) (Route.Path route) route
                else [])
             (Route.Methods route).

Definition SetupRoutes (routes : RouteConfig) : list Registration :=
  flat_map setupRoute (RouteConfig.Routes routes).

(** ** Matching by the framework *)

(** A path without its trailing slash, the root apart. *)
Definition trim_slash (path : string) : string :=
  if (1 <? String.length path)%nat && HasSuffix path "/"
  then String.substring 0 (String.length path - 1) path else path.

(** Whether a pattern of the two shapes [setupRoute] registers matches a
    path: [p/*] matches [p] and whatever starts with [p/]; a pattern without
    a star matches its own path. *)
Definition pattern_matches (pattern path : string) : bool :=
  let path := ToLower path in
  let pattern := ToLower pattern in
  if HasSuffix pattern "/*" then
    let prefix := String.substring 0 (String.length pattern - 1) pattern in
    HasPrefix path prefix || (trim_slash path =? trim_slash prefix)%string
  else (trim_slash path =? trim_slash pattern)%string.

Definition dispatch (registered : list Registration) (method path : string) : option Route :=
  Registration.route <$>
    find (fun r => (Registration.method r =? method)%string &&
                   pattern_matches (Registration.pattern r) path) registered.

Definition not_found_body (path : string) : list (string * JSON) :=
  [("error", JString "not_found");
   ("message", JString "The requested resource was not found");
   ("path", JString path)].

Section Handlers.
Context {W : Type} `{!Lens W ServiceProxy} `{!Clock W} `{!Upstream W}.

Definition createProxyHandler (route : Route) : Handler W := fun c w =>
  let c := Ctx.map_locals (Locals.set_route route) c in
  let c := Ctx.map_locals (Locals.set_isPublic (Route.Public route)) c in
  let c := Ctx.map_locals (Locals.set_service (Route.Service route)) c in
  let stripPrefix := if Route.StripPrefix route then Route.Path route else "" in
  ServiceProxy.Forward (Route.Service route) stripPrefix c w.

(** The catch-all registered after the routes. *)
Definition catch_all : Handler W := fun c w =>
  (Return None, Ctx.JSON (not_found_body (Ctx.Path c)) (Ctx.Status 404 c), w).

(** The routes and the catch-all, as the framework runs them. *)
Definition routed (routes : RouteConfig) : Handler W := fun c w =>
  match dispatch (SetupRoutes routes) (Ctx.Method c) (Ctx.Path c) with
  | Some route => createProxyHandler route c w
  | None => catch_all c w
  end.

End Handlers.

(** * Properties of the route table *)

Section Lookups.
Implicit Types (routes : RouteConfig) (route : Route) (path method : string).

(** A route matches a path when the path is the route's, or continues it
    after a slash. *)
Theorem matchesPath_spec path routePath :
  matchesPath path routePath = true <->
  path = routePath \/ exists rest, path = routePath +:+ "/" +:+ rest.
Proof.
  unfold matchesPath. destruct (String.eqb_spec path routePath) as [->|Hne].
  { split; [by left|done]. }
  destruct (HasPrefix path routePath) eqn:Hp.
  - apply HasPrefix_spec in Hp as [r ->]. rewrite TrimPrefix_app.
    destruct r as [|a r].
    + rewrite string_app_nil_r in Hne. done.
    + replace (String a r =? "")%string with false by done. rewrite orb_false_l.
      rewrite HasPrefix_cons. destruct (ascii_dec "/" a) as [<-|Ha].
      * rewrite HasPrefix_nil. split; [|done]. right. by exists r.
      * split; [done|]. intros [E|[rest E]]; [done|].
        apply string_app_inv_head in E. change ("/" +:+ rest) with (String "/" rest) in E.
        by simplify_eq.
  - split; [done|]. intros [E|[rest ->]]; [done|]. by rewrite HasPrefix_app in Hp.
Qed.

Lemma containsMethod_spec methods method :
  containsMethod methods method = true <-> exists m, m ∈ methods /\ EqualFold m method = true.
Proof.
  unfold containsMethod. rewrite existsb_exists.
  split; intros (m & Hm & He); exists m; by rewrite ?list_elem_of_In in *.
Qed.

(** What the design asks of a route for it to serve a request: the path of
    the request is the route's or continues it after a slash, and the route
    lists the method of the request, up to the case of its letters. *)
Definition Serves path method route : Prop :=
  (path = Route.Path route \/ exists rest, path = Route.Path route +:+ "/" +:+ rest) /\
  exists m, m ∈ Route.Methods route /\ ToUpper m = ToUpper method.

(** The test of the look-ups decides it. *)
Lemma Serves_test path method route :
  matchesPath path (Route.Path route) && containsMethod (Route.Methods route) method = true
  <-> Serves path method route.
Proof.
  rewrite andb_true_iff, matchesPath_spec, containsMethod_spec. unfold Serves.
  by setoid_rewrite EqualFold_ToUpper.
Qed.

(** [find] returns the first element that passes the test. *)
Lemma find_first {A} (p : A -> bool) (l : list A) (x : A) :
  find p l = Some x <->
  exists before after, l = before ++ x :: after /\ p x = true /\
    Forall (fun y => p y = false) before.
Proof.
  induction l as [|y l IH]; simpl.
  { split; [done|]. by intros ([] & ? & ? & _). }
  destruct (p y) eqn:Hy.
  - split.
    + intros [= ->]. by exists [], l.
    + intros ([|y' before] & after & E & Hx & Hb); simplify_eq/=; [done|].
      apply Forall_cons in Hb as [Hb _]. congruence.
  - rewrite IH. split.
    + intros (before & after & -> & Hx & Hb). exists (y :: before), after. by repeat constructor.
    + intros ([|y' before] & after & E & Hx & Hb); simplify_eq/=; [congruence|].
      apply Forall_cons in Hb as [_ Hb]. by exists before, after.
Qed.

(** C9: the table resolves a request to the first route, in declared order,
    that serves it: the route found has a path that is the request's or
    that the request's continues after a slash and lists the method up to
    case, and no route before it in the table does. *)
Theorem GetRouteForPath_first routes path method route :
  GetRouteForPath routes path method = Some route <->
  exists before after, RouteConfig.Routes routes = before ++ route :: after /\
    Serves path method route /\ Forall (fun r => ~ Serves path method r) before.
Proof.
  unfold GetRouteForPath. rewrite find_first.
  do 2 (apply exist_proper; intros ?). rewrite Serves_test.
  do 2 (apply and_iff_compat_l). apply Forall_proper; [|done]. intros r.
  by rewrite <- Serves_test, not_true_iff_false.
Qed.

(** No route is found exactly when no route of the table serves the
    request. *)
Lemma GetRouteForPath_None routes path method :
  GetRouteForPath routes path method = None <->
  Forall (fun r => ~ Serves path method r) (RouteConfig.Routes routes).
Proof.
  unfold GetRouteForPath. induction (RouteConfig.Routes routes) as [|r rs IH]; simpl; [done|].
  rewrite Forall_cons, <- Serves_test, not_true_iff_false.
  destruct (_ && _); [split; [done|by intros []]|]. rewrite IH. tauto.
Qed.

End Lookups.

Section Registrations.
Implicit Types (routes : RouteConfig) (route : Route) (path method : string).

Lemma register_route method pattern route r :
  r ∈ register method pattern route ->
  Registration.route r = route /\
  (Registration.method r = method \/ (Registration.method r = "HEAD" /\ method = "GET")).
Proof.
  unfold register. destruct (String.eqb_spec method "GET") as [->|_];
    rewrite ?elem_of_cons, ?elem_of_nil; intros H; destruct_or!; subst; simpl; auto.
Qed.

Lemma setupRoute_route route r :
  r ∈ setupRoute route ->
  Registration.route r = route /\ Route.Service route <> "gateway" /\
  exists m, m ∈ Route.Methods route /\
    (Registration.method r = ToUpper m \/
     (Registration.method r = "HEAD" /\ ToUpper m = "GET")).
Proof.
  unfold setupRoute. destruct (String.eqb_spec (Route.Service route) "gateway");
    [by intros ?%elem_of_nil|].
  rewrite list_elem_of_In, in_flat_map. intros (m & Hm & Hr). apply list_elem_of_In in Hm.
  destruct (registrable m); [|done].
  apply list_elem_of_In, elem_of_app in Hr as [Hr|Hr];
    apply register_route in Hr as [-> Hr]; split_and!; eauto.
Qed.

(** C24: the framework hands a request only to a route of the table that is
    not one of the gateway's own and that lists the request's method, or
    lists [GET] when the request is a [HEAD]. *)
Theorem dispatch_sound routes method path route :
  dispatch (SetupRoutes routes) method path = Some route ->
  route ∈ RouteConfig.Routes routes /\ Route.Service route <> "gateway" /\
  exists m, m ∈ Route.Methods route /\
    (method = ToUpper m \/ (method = "HEAD" /\ ToUpper m = "GET")).
Proof.
  unfold dispatch, SetupRoutes. intros H. apply fmap_Some in H as (r & Hf & ->).
  apply find_some in Hf as [Hin Hm]. apply andb_true_iff in Hm as [Hm _].
  apply String.eqb_eq in Hm. apply in_flat_map in Hin as (rt & Hrt & Hr).
  apply list_elem_of_In, setupRoute_route in Hr as (-> & Hg & m & Hmm & Hru).
  split_and!; [by apply list_elem_of_In|done|]. exists m. split; [done|]. by rewrite <- Hm.
Qed.

End Registrations.

Section HandlerLemmas.
Context {W : Type} `{!Lens W ServiceProxy} `{!Clock W} `{!Upstream W}.
Implicit Types (c : Ctx) (w : W) (route : Route).

(** The handler of a route records the route, whether it is public and
    its service in the context, and hands the request to the proxy: whole,
    or less the route's path when the route strips its prefix. *)
Theorem createProxyHandler_spec route c w :
  exists c', createProxyHandler route c w =
      ServiceProxy.Forward (Route.Service route)
        (if Route.StripPrefix route then Route.Path route else "") c' w /\
    Locals.route (Ctx.locals c') = Some route /\
    Locals.isPublic (Ctx.locals c') = Some (Route.Public route) /\
    Locals.service (Ctx.locals c') = Some (Route.Service route) /\
    Ctx.request c' = Ctx.request c /\ Ctx.response c' = Ctx.response c.
Proof. by eexists. Qed.

(** A request that no registration matches is answered 404. *)
Lemma routed_not_found routes c w :
  dispatch (SetupRoutes routes) (Ctx.Method c) (Ctx.Path c) = None ->
  routed routes c w = (Return None, Ctx.JSON (Router.not_found_body (Ctx.Path c)) (Ctx.Status 404 c), w).
Proof. unfold routed. by intros ->. Qed.

End HandlerLemmas.

Section Scenarios.
Import ProxyWorld.

Lemma dispatch_sound_witness :
  let route := route_lit "/api/v1/users" "auth" ["GET"; "POST"; "PUT"; "DELETE"; "PATCH"]
                 false true None in
  route ∈ RouteConfig.Routes DefaultRoutes /\ Route.Service route <> "gateway" /\
  exists m, m ∈ Route.Methods route /\
    ("GET" = ToUpper m \/ ("GET" = "HEAD" /\ ToUpper m = "GET")).
Proof.
  apply (dispatch_sound DefaultRoutes "GET" "/api/v1/users/42"). by vm_compute.
Defined.

Lemma GetRouteForPath_first_witness :
  exists before after, RouteConfig.Routes DefaultRoutes =
      before ++ route_lit "/api/v1/notifications" "notifier" ["GET"; "POST"; "PUT"; "DELETE"]
                  false true None :: after /\
    Serves "/api/v1/notifications/7" "post"
      (route_lit "/api/v1/notifications" "notifier" ["GET"; "POST"; "PUT"; "DELETE"]
         false true None) /\
    Forall (fun r => ~ Serves "/api/v1/notifications/7" "post" r) before.
Proof.
  apply (GetRouteForPath_first DefaultRoutes "/api/v1/notifications/7" "post"). by vm_compute.
Defined.

(** In the default table the route of the whole auth service comes before
    the routes of its public endpoints and serves their paths too: the
    table resolves a login to the first, which is not public and has no
    limits of its own, and so does the framework. *)
Example login_is_shadowed :
  Route.Path <$> GetRouteForPath DefaultRoutes "/api/v1/auth/login" "POST" = Some "/api/v1/auth" /\
  IsPublicRoute DefaultRoutes "/api/v1/auth/login" "POST" = false /\
  Route.Path <$> dispatch (SetupRoutes DefaultRoutes) "POST" "/api/v1/auth/login"
    = Some "/api/v1/auth".
Proof. by vm_compute. Qed.

(** The routes of the gateway itself are in the table but not registered
    by the router, and a path that continues a route's name without a slash
    is not the route's. *)
Example routes_scenario :
  dispatch (SetupRoutes DefaultRoutes) "GET" "/health" = None /\
  GetRouteForPath DefaultRoutes "/api/v1/usersX" "GET" = None /\
  Route.Path <$> dispatch (SetupRoutes DefaultRoutes) "GET" "/API/v1/Users/" = Some "/api/v1/users" /\
  GetRouteForPath DefaultRoutes "/API/v1/Users/" "GET" = None /\
  Route.Path <$> dispatch (SetupRoutes DefaultRoutes) "HEAD" "/api/v1/users" = Some "/api/v1/users" /\
  GetRouteForPath DefaultRoutes "/api/v1/users" "HEAD" = None.
Proof. by vm_compute. Qed.

End Scenarios.
