(* ===== verification/Health.v ===== *)
(** * Health endpoints

    Models src/internal/handler/health.go: the handlers of [/health],
    [/ready], [/live] and [/health/services].  Readiness reads the health
    flags the prober keeps in the registry.  Time stamps and durations are
    printed by the standard library ([TimeFormat]); the memory figures of
    [/health/services] come from the run-time system ([MemStats]). *)

From stdpp Require Import base strings list gmap.
From Stdlib Require Import ZArith Lia.
From S2P Require Import Prelude Config Context Proxy.

#[local] Open Scope string_scope.
#[local] Open Scope list_scope.
#[local] Open Scope Z_scope.

(** [Time.Format(time.RFC3339)] and [Duration.String]. *)
Class TimeFormat := {
  RFC3339 : Time -> string;
  DurationString : Duration -> string;
}.

(** [runtime.ReadMemStats]: the bytes allocated, allocated in total and
    obtained from the system, and the number of collections. *)
Module MemStats.
Record t := mk {
  Alloc : Z;
  TotalAlloc : Z;
  Sys : Z;
  NumGC : Z;
}.
End MemStats.
Abbreviation MemStats := MemStats.t.

Class Runtime (W : Type) := {
  ReadMemStats : W -> MemStats;
}.

Definition bToMb (b : Z) : Z := b / 1024 / 1024.

Definition getMemoryStats (m : MemStats) : list (string * JSON) :=
  [("alloc_mb", JInt (bToMb (MemStats.Alloc m)));
   ("total_alloc_mb", JInt (bToMb (MemStats.TotalAlloc m)));
   ("sys_mb", JInt (bToMb (MemStats.Sys m)));
   ("num_gc", JInt (MemStats.NumGC m))].

(** The loop of [Ready]: no service of the map is unhealthy. *)
Definition allHealthy (services : gmap string bool) : bool :=
  forallb (fun kv => kv.2) (map_to_list services).

Definition services_json (services : gmap string bool) : JSON :=
  JObject ((fun kv => (kv.1, JBool kv.2)) <$> map_to_list services).

Definition service_detail (healthy : bool) : JSON :=
  JObject [("status", JString (if healthy then "healthy" else "unhealthy"));
           ("healthy", JBool healthy)].

Definition details_json (services : gmap string bool) : JSON :=
  JObject ((fun kv => (kv.1, service_detail kv.2)) <$> map_to_list services).

Module HealthHandler.
Section Handlers.
Context {W : Type} `{!Lens W ServiceProxy} `{!Clock W} `{!TimeFormat} `{!Runtime W}.

(** [startTime], the instant the process started. *)
Context (startTime : Time).

Definition Health : Handler W := fun c w =>
  (Return None,
   Ctx.JSON [("status", JString "healthy");
             ("timestamp", JString (RFC3339 (Now w)));
             ("uptime", JString (DurationString (Now w - startTime)));
             ("version", JString "1.0.0")] c, w).

Definition Ready : Handler W := fun c w =>
  let services := ServiceProxy.GetServicesHealth (view w) in
  let '(status, readyStatus) :=
    if negb (allHealthy services) then (503, "not_ready") else (200, "ready") in
  (Return None,
   Ctx.JSON [("status", JString readyStatus);
             ("timestamp", JString (RFC3339 (Now w)));
             ("services", services_json services)] (Ctx.Status status c), w).

Definition Live : Handler W := fun c w =>
  (Return None,
   Ctx.JSON [("status", JString "alive"); ("timestamp", JString (RFC3339 (Now w)))] c, w).

Definition ServicesHealth : Handler W := fun c w =>
  let services := ServiceProxy.GetServicesHealth (view w) in
  (Return None,
   Ctx.JSON [("timestamp", JString (RFC3339 (Now w)));
             ("services", details_json services);
             ("memory", JObject (getMemoryStats (ReadMemStats w)))] c, w).

(** [RegisterRoutes]: the four endpoints, all for [GET]. *)
Definition RegisterRoutes : list (string * string * Handler W) :=
  [("GET", "/health", Health); ("GET", "/ready", Ready); ("GET", "/live", Live);
   ("GET", "/health/services", ServicesHealth)].

End Handlers.
End HealthHandler.

(** * Properties *)

Lemma forallb_false {A} (f : A -> bool) (l : list A) :
  forallb f l = false <-> exists x, x ∈ l /\ f x = false.
Proof.
  induction l as [|a l IH]; simpl; [split; [done|by intros (? & ?%elem_of_nil & _)]|].
  rewrite andb_false_iff, IH. split.
  - intros [Ha|(x & Hx & Hf)]; [exists a|exists x]; split; try done; by constructor.
  - intros (x & [->|Hx]%elem_of_cons & Hf); [by left|right; by exists x].
Qed.

Lemma allHealthy_false (services : gmap string bool) :
  allHealthy services = false <-> exists name, services !! name = Some false.
Proof.
  unfold allHealthy. rewrite forallb_false. split.
  - intros ([name b] & Hin%elem_of_map_to_list & Hf). simpl in Hf. subst b. by exists name.
  - intros (name & Hn). exists (name, false). by rewrite elem_of_map_to_list.
Qed.

Section ReadyLemmas.
Context {W : Type} `{!Lens W ServiceProxy} `{!Clock W} `{!TimeFormat} `{!Runtime W}.
Implicit Types (c : Ctx) (w : W).

(** C16: readiness reflects liveness: [/ready] answers 503 exactly when some
    service of the registry is marked unhealthy and 200 otherwise, and
    changes nothing. *)
Theorem Ready_spec c w :
  exists c', HealthHandler.Ready c w = (Return None, c', w) /\
    (Ctx.StatusCode c' = 503 \/ Ctx.StatusCode c' = 200) /\
    (Ctx.StatusCode c' = 503 <->
     exists name svc, ServiceProxy.services (view w) !! name = Some svc /\
                      ServiceClient.Healthy svc = false).
Proof.
  unfold HealthHandler.Ready.
  assert (Hiff : allHealthy (ServiceProxy.GetServicesHealth (view w)) = false <->
                 exists name svc, ServiceProxy.services (view w) !! name = Some svc /\
                                  ServiceClient.Healthy svc = false).
  { rewrite allHealthy_false. unfold ServiceProxy.GetServicesHealth. split.
    - intros (name & Hn). rewrite lookup_fmap in Hn.
      destruct (ServiceProxy.services (view w) !! name) as [svc|] eqn:Es; [|done].
      exists name, svc. split; [done|]. by simplify_eq/=.
    - intros (name & svc & Hs & Hh). exists name. by rewrite lookup_fmap, Hs, <- Hh. }
  destruct (allHealthy (ServiceProxy.GetServicesHealth (view w))) eqn:E; simpl;
    eexists; (split; [done|]); rewrite StatusCode_JSON, StatusCode_Status.
  - split; [by right|]. split; [done|]. intros Hx. by apply Hiff in Hx.
  - split; [by left|]. split; [intros _; by apply Hiff|done].
Qed.

End ReadyLemmas.
