(* ===== verification/Metrics.v ===== *)
(** * Metrics

    Models src/unnamed/part_000, the metrics package of the middleware: the
    metric vectors it declares, the stage [Metrics] and
    [UpdateCircuitBreakerMetric].  The registry of the metrics library is a
    record of finite maps from a metric's name and label values to its
    value; a histogram is kept as the list of the values observed. *)

From stdpp Require Import base strings list gmap.
From Stdlib Require Import ZArith QArith Lia.
From S2P Require Import Prelude Config Context RateLimit Common.

#[local] Open Scope string_scope.
#[local] Open Scope list_scope.
#[local] Open Scope Z_scope.

(** ** The registry *)

Module Registry.

Definition Key : Type := string * list string.

Record t := mk {
  counters : gmap Key Z;
  gauges : gmap Key Z;
  histograms : gmap Key (list Q);
}.

Definition empty : t := mk ∅ ∅ ∅.

Definition counter (name : string) (labels : list string) (r : t) : Z :=
  default 0 (counters r !! (name, labels)).

Definition gauge (name : string) (labels : list string) (r : t) : Z :=
  default 0 (gauges r !! (name, labels)).

Definition observed (name : string) (labels : list string) (r : t) : list Q :=
  default [] (histograms r !! (name, labels)).

(** [WithLabelValues(labels...).Inc()] on a counter. *)
Definition Inc (name : string) (labels : list string) (r : t) : t :=
  mk (<[(name, labels) := counter name labels r + 1]> (counters r)) (gauges r) (histograms r).

(** [Inc], [Dec] and [Set] on a gauge. *)
Definition Add (name : string) (labels : list string) (d : Z) (r : t) : t :=
  mk (counters r) (<[(name, labels) := gauge name labels r + d]> (gauges r)) (histograms r).

Definition Set_ (name : string) (labels : list string) (v : Z) (r : t) : t :=
  mk (counters r) (<[(name, labels) := v]> (gauges r)) (histograms r).

(** [WithLabelValues(labels...).Observe(v)] on a histogram; the value is
    kept in lowest terms. *)
Definition Observe (name : string) (labels : list string) (v : Q) (r : t) : t :=
  mk (counters r) (gauges r)
     (<[(name, labels) := observed name labels r ++ [Qred v]]> (histograms r)).

End Registry.
Abbreviation Registry := Registry.t.

(** ** The metrics of the gateway *)

Definition httpRequestsTotal : string := "gateway_http_requests_total".
Definition httpRequestDuration : string := "gateway_http_request_duration_seconds".
Definition httpRequestSize : string := "gateway_http_request_size_bytes".
Definition httpResponseSize : string := "gateway_http_response_size_bytes".
Definition activeConnections : string := "gateway_active_connections".
Definition circuitBreakerState : string := "gateway_circuit_breaker_state".
Definition rateLimitExceeded : string := "gateway_rate_limit_exceeded_total".
Definition upstreamErrors : string := "gateway_upstream_errors_total".
Definition upstreamLatency : string := "gateway_upstream_latency_seconds".

(** ** The stage *)

(** The service a request is counted under: the local [service], read
    before the rest of the chain runs. *)
Definition service_label (c : Ctx) : string :=
  match Locals.service (Ctx.locals c) with
  | Some svc => if (svc =? "")%string then "gateway" else svc
  | None => "gateway"
  end.

Section Metrics.
Context {W : Type} `{!Lens W Registry} `{!Clock W} `{!Framework}.

(** The path a request is counted under. *)
Definition path_label (c : Ctx) : string :=
  let path := RoutePath c in
  if (path =? "")%string then Ctx.Path c else path.

(** The error counters: a status of 500 or more is counted as [5xx]; the
    second test is made only below 500. *)
Definition record_errors (serviceName : string) (statusCode : Z) (r : Registry) : Registry :=
  if 500 <=? statusCode then Registry.Inc upstreamErrors [serviceName; "5xx"] r
  else if (statusCode =? 502) || (statusCode =? 503)
       then Registry.Inc upstreamErrors [serviceName; "upstream_unavailable"] r
       else r.

(** What the stage records once the rest of the chain has returned. *)
Definition record (serviceName : string) (duration : Q) (c : Ctx) (r : Registry) : Registry :=
  let status := itoa (Ctx.StatusCode c) in
  let method := Ctx.Method c in
  let path := path_label c in
  let r := Registry.Inc httpRequestsTotal [method; path; serviceName; status] r in
  let r := Registry.Observe httpRequestDuration [method; path; serviceName] duration r in
  let r := Registry.Observe httpRequestSize [method; path]
             (inject_Z (Z.of_nat (String.length (Ctx.Body c)))) r in
  let r := Registry.Observe httpResponseSize [method; path]
             (inject_Z (BodySize (Response.Body (Ctx.response c)))) r in
  let r := Registry.Add activeConnections [] (-1) r in
  let r := if Ctx.StatusCode c =? 429 then Registry.Inc rateLimitExceeded [path] r else r in
  let r := record_errors serviceName (Ctx.StatusCode c) r in
  Registry.Observe upstreamLatency [serviceName] duration r.

Definition Metrics : Stage W := fun next c w =>
  let start := Now w in
  let w0 := update (Registry.Add activeConnections [] 1 (view w)) w in
  let serviceName := service_label c in
  let '(out, c', w') := next c w0 in
  match out with
  | Panic msg => (Panic msg, c', w')
  | Return err =>
      let duration := Seconds (Now w' - start) in
      (Return err, c', update (record serviceName duration c' (view w')) w')
  end.

(** [UpdateCircuitBreakerMetric]. *)
Definition UpdateCircuitBreakerMetric (service : string) (state : Z) (w : W) : W :=
  update (Registry.Set_ circuitBreakerState [service] state (view w)) w.

(** [GetMetricsHandler]: it only goes on. *)
Definition GetMetricsHandler : Stage W := fun next c w => next c w.

End Metrics.

(** * Properties of the registry *)

Section RegistryLemmas.
Import Registry.
Implicit Types (r : Registry) (name : string) (labels : list string).

Lemma counter_Inc name labels name' labels' r :
  counter name labels (Inc name' labels' r) =
    counter name labels r + if decide ((name, labels) = (name', labels')) then 1 else 0.
Proof.
  unfold counter, Inc. simpl. case_decide as E.
  - rewrite E, lookup_insert_eq. simpl. by unfold counter.
  - rewrite lookup_insert_ne by done. lia.
Qed.

Lemma counter_Add name labels name' labels' d r :
  counter name labels (Add name' labels' d r) = counter name labels r.
Proof. done. Qed.

Lemma counter_Observe name labels name' labels' v r :
  counter name labels (Observe name' labels' v r) = counter name labels r.
Proof. done. Qed.

Lemma gauge_Add name labels name' labels' d r :
  gauge name labels (Add name' labels' d r) =
    gauge name labels r + if decide ((name, labels) = (name', labels')) then d else 0.
Proof.
  unfold gauge, Add. simpl. case_decide as E.
  - rewrite E, lookup_insert_eq. simpl. by unfold gauge.
  - rewrite lookup_insert_ne by done. lia.
Qed.

Lemma gauge_Inc name labels name' labels' r :
  gauge name labels (Inc name' labels' r) = gauge name labels r.
Proof. done. Qed.

Lemma gauge_Observe name labels name' labels' v r :
  gauge name labels (Observe name' labels' v r) = gauge name labels r.
Proof. done. Qed.

End RegistryLemmas.

#[export] Hint Rewrite counter_Inc counter_Add counter_Observe gauge_Add gauge_Inc
  gauge_Observe : gw_rw.

(** * Properties of the stage *)

Section MetricsLemmas.
Context {W : Type} `{!Lens W Registry} `{!Clock W} `{!Framework}.
Import Registry.
Implicit Types (next : Handler W) (c : Ctx) (w : W) (r : Registry).

(** A handler that leaves the registry alone. *)
Definition quiet next : Prop := forall c w, view (next c w).2 = view w.

(** The counters after [record], one by one. *)
Lemma counter_record name labels svc d c r :
  counter name labels (record svc d c r) =
    counter name labels r +
    (if decide ((name, labels) =
                (httpRequestsTotal,
                 [Ctx.Method c; path_label c; svc; itoa (Ctx.StatusCode c)])) then 1 else 0) +
    (if decide ((name, labels) = (rateLimitExceeded, [path_label c]) /\ Ctx.StatusCode c = 429)
     then 1 else 0) +
    (if decide ((name, labels) = (upstreamErrors, [svc; "5xx"]) /\ 500 <= Ctx.StatusCode c)
     then 1 else 0).
Proof.
  unfold record, record_errors.
  destruct (Z.eqb_spec (Ctx.StatusCode c) 429), (Z.leb_spec 500 (Ctx.StatusCode c)),
    (Z.eqb_spec (Ctx.StatusCode c) 502), (Z.eqb_spec (Ctx.StatusCode c) 503);
    simpl; autorewrite with gw_rw; repeat case_decide;
    first [lia | exfalso; intuition (congruence || lia)].
Qed.

Lemma gauge_record name labels svc d c r :
  gauge name labels (record svc d c r) =
    gauge name labels r + if decide ((name, labels) = (activeConnections, [])) then -1 else 0.
Proof.
  unfold record, record_errors.
  destruct (Ctx.StatusCode c =? 429), (500 <=? Ctx.StatusCode c),
    ((Ctx.StatusCode c =? 502) || (Ctx.StatusCode c =? 503));
    simpl; autorewrite with gw_rw; done.
Qed.

(** What the stage adds to a counter: nothing when the rest of the chain
    panics, else what [record] adds for the context the chain left and the
    service read from the context the stage was given. *)
Definition counted name (labels : list string) (svc : string) (out : Outcome) c : Z :=
  match out with
  | Panic _ => 0
  | Return _ =>
      (if decide ((name, labels) =
                  (httpRequestsTotal,
                   [Ctx.Method c; path_label c; svc; itoa (Ctx.StatusCode c)])) then 1 else 0) +
      (if decide ((name, labels) = (rateLimitExceeded, [path_label c]) /\
                  Ctx.StatusCode c = 429) then 1 else 0) +
      (if decide ((name, labels) = (upstreamErrors, [svc; "5xx"]) /\
                  500 <= Ctx.StatusCode c) then 1 else 0)
  end.

Lemma counter_Metrics next c w name labels :
  quiet next ->
  counter name labels (view (Metrics next c w).2) =
    counter name labels (view w) +
    counted name labels (service_label c) (Metrics next c w).1.1 (Metrics next c w).1.2.
Proof.
  intros Hq. unfold Metrics.
  pose proof (Hq c (update (Add activeConnections [] 1 (view w)) w)) as Hv.
  destruct (next c _) as [[[err|msg] c'] w']; simpl in *; rewrite ?view_update in *.
  - rewrite counter_record, Hv, counter_Add. lia.
  - rewrite Hv, counter_Add. lia.
Qed.

(** What the stage does to a gauge: only the gauge of active connections
    changes, and only when the rest of the chain panics. *)
Lemma gauge_Metrics next c w name labels :
  quiet next ->
  gauge name labels (view (Metrics next c w).2) =
    gauge name labels (view w) +
    if decide ((name, labels) = (activeConnections, []))
    then match (Metrics next c w).1.1 with Panic _ => 1 | Return _ => 0 end
    else 0.
Proof.
  intros Hq. unfold Metrics.
  pose proof (Hq c (update (Add activeConnections [] 1 (view w)) w)) as Hv.
  destruct (next c _) as [[[err|msg] c'] w']; simpl in *; rewrite ?view_update in *;
    rewrite ?gauge_record, Hv, gauge_Add; case_decide; lia.
Qed.

(** C33: the gauge of active connections is raised before the rest of the
    chain runs and lowered after it returned: a request that ends in a
    panic leaves it one higher for good. *)
Theorem Metrics_active_connections next c w :
  quiet next ->
  gauge activeConnections [] (view (Metrics next c w).2) =
    gauge activeConnections [] (view w) +
    match (Metrics next c w).1.1 with Panic _ => 1 | Return _ => 0 end.
Proof. intros Hq. by rewrite gauge_Metrics, decide_True. Qed.

(** C39: A request that returns is counted once in the requests total,
    under the method, path and status its context has after the chain and
    the service its context had before it; a request that panics is not
    counted. *)
Theorem Metrics_counts_request next c w err c' w' :
  quiet next ->
  Metrics next c w = (Return err, c', w') ->
  counter httpRequestsTotal
    [Ctx.Method c'; path_label c'; service_label c; itoa (Ctx.StatusCode c')] (view w') =
  counter httpRequestsTotal
    [Ctx.Method c'; path_label c'; service_label c; itoa (Ctx.StatusCode c')] (view w) + 1.
Proof.
  intros Hq E. pose proof (counter_Metrics next c w httpRequestsTotal
    [Ctx.Method c'; path_label c'; service_label c; itoa (Ctx.StatusCode c')] Hq) as Hc.
  rewrite E in Hc. simpl in Hc. rewrite Hc, decide_True by done. lia.
Qed.

(** The counter of upstream errors labelled [upstream_unavailable] is
    never raised: its branch is taken only for a status below 500 that is
    502 or 503. *)
Theorem Metrics_upstream_unavailable next c w svc :
  quiet next ->
  counter upstreamErrors [svc; "upstream_unavailable"] (view (Metrics next c w).2) =
  counter upstreamErrors [svc; "upstream_unavailable"] (view w).
Proof.
  intros Hq. rewrite (counter_Metrics next c w) by done. unfold counted.
  destruct ((Metrics next c w).1.1); simpl; [|lia].
  rewrite ?decide_False by (first [intros [=] | intros [[=] _]]). lia.
Qed.

End MetricsLemmas.

(** * A concrete world *)

Module MetricsWorld.

Record World := mk {
  registry : Registry;
  clock : Time;
}.

#[export] Instance World_registry : Lens World Registry.
Proof.
  refine {| view := registry; update := fun r w => mk r (clock w) |};
    [done | by intros [] | done].
Defined.

#[export] Instance World_clock : Clock World := {| Now := clock |}.

(** The framework of this world: every request was matched by the route
    [/api/v1/users/*], and a JSON body counts two bytes. *)
#[export] Instance World_framework : Framework :=
  {| RoutePath := fun _ => "/api/v1/users/*";
     BodySize := fun b => match b with Raw s => Z.of_nat (String.length s) | Json _ => 2 end |}.

Definition start : World := mk Registry.empty 0.

(** A handler that answers [status] after [latency]. *)
Definition answer (status : Z) (latency : Duration) : Handler World := fun c w =>
  (Return None, Ctx.Status status c, mk (registry w) (clock w + latency)).

(** A handler that panics. *)
Definition crash : Handler World := fun c w => (Panic "nil pointer dereference", c, w).

Definition get_users : Ctx :=
  Ctx.new (Request.mk "GET" "/api/v1/users/42" "" "gateway" "http" "10.0.0.1" ∅ "").

End MetricsWorld.

Section Scenarios.
Import Registry MetricsWorld.

Lemma answer_quiet status latency : quiet (answer status latency).
Proof. done. Qed.

Lemma crash_quiet : quiet crash.
Proof. done. Qed.

Lemma Metrics_active_connections_witness :
  gauge activeConnections [] (view (Metrics crash get_users start).2) =
    gauge activeConnections [] (view start) +
    match (Metrics crash get_users start).1.1 with Panic _ => 1 | Return _ => 0 end.
Proof. apply (Metrics_active_connections crash get_users start crash_quiet). Defined.

Lemma Metrics_counts_request_witness :
  counter httpRequestsTotal ["GET"; "/api/v1/users/*"; "gateway"; "200"]
    (view (Metrics (answer 200 Second) get_users start).2) =
  counter httpRequestsTotal ["GET"; "/api/v1/users/*"; "gateway"; "200"] (view start) + 1.
Proof.
  exact (Metrics_counts_request (answer 200 Second) get_users start None
           (Ctx.Status 200 get_users) (Metrics (answer 200 Second) get_users start).2
           (answer_quiet 200 Second) eq_refl).
Defined.

Lemma Metrics_upstream_unavailable_witness :
  counter upstreamErrors ["notifier"; "upstream_unavailable"]
    (view (Metrics (answer 503 Second) get_users start).2) =
  counter upstreamErrors ["notifier"; "upstream_unavailable"] (view start).
Proof.
  apply (Metrics_upstream_unavailable (answer 503 Second) get_users start "notifier"
           (answer_quiet 503 Second)).
Defined.

(** A request answered 503 after a second: it is counted in the total and
    as a [5xx] error of the service [gateway], its duration of one second
    is observed, and the gauge is back at zero; two requests that panic
    leave the gauge at two and count nothing. *)
Example metrics_scenario :
  let r := view (Metrics (answer 503 Second) get_users start).2 in
  counter httpRequestsTotal ["GET"; "/api/v1/users/*"; "gateway"; "503"] r = 1 /\
  counter upstreamErrors ["gateway"; "5xx"] r = 1 /\
  counter upstreamErrors ["gateway"; "upstream_unavailable"] r = 0 /\
  observed upstreamLatency ["gateway"] r = [1%Q] /\
  gauge activeConnections [] r = 0 /\
  let w2 := (Metrics crash get_users (Metrics crash get_users start).2).2 in
  gauge activeConnections [] (view w2) = 2 /\ counters (view w2) = ∅.
Proof. by vm_compute. Qed.

End Scenarios.
