(* ===== verification/Tracing.v ===== *)
(** * Tracing

    Models the stage of src/internal/middleware/tracing.go: [Tracing] with
    the two carriers through which the propagator reads and writes headers,
    and [GetSpanFromContext].  The tracing library is modelled as far as the
    stage uses it: a tracer is the map of the spans it started, a span has a
    name, the identifiers of its trace and of its parent, attributes, a
    status, recorded errors and whether it has ended; the propagator reads
    and writes the [traceparent] header.  The tracer also holds the two
    globals [InitTracer] sets, the provider and the propagators: without a
    provider [Start] gives a span that records nothing, without the
    [TraceContext] propagator no header is read or written.  Identifiers
    are strings issued from a counter; every span of a provider is
    recorded, whatever its sampling rate, and the exporter is the class
    [OTLP]. *)

From stdpp Require Import base strings list gmap pretty.
From Stdlib Require Import ZArith QArith Lia Ascii.
From S2P Require Import Prelude Config Context Common.

#[local] Open Scope string_scope.
#[local] Open Scope list_scope.
#[local] Open Scope Z_scope.

(** ** The tracing library *)

Module SpanContext.
Record t := mk {
  TraceID : string;
  SpanID : string;
}.
End SpanContext.
Abbreviation SpanContext := SpanContext.t.

#[export] Instance SpanContext_eq_dec : EqDecision SpanContext.
Proof. solve_decision. Defined.

(** [codes.Unset], [codes.Error], [codes.Ok]. *)
Inductive Code := Unset | Error_ | Ok_.

#[export] Instance Code_eq_dec : EqDecision Code.
Proof. solve_decision. Defined.

Module Span.
Record t := mk {
  Name : string;
  Context : SpanContext;
  Parent : option string;
  Attributes : list (string * Field);
  Status : Code * string;
  Errors : list string;
  Ended : bool;
}.
End Span.
Abbreviation Span := Span.t.

(** What [sdktrace.NewTracerProvider] is given: the exporter's endpoint,
    the attributes of the resource, the rate of the sampler. *)
Module TracerProvider.
Record t := mk {
  Endpoint : string;
  Insecure : bool;
  Resource : list (string * string);
  SampleRate : Q;
}.
End TracerProvider.
Abbreviation TracerProvider := TracerProvider.t.

(** [propagation.TraceContext], [propagation.Baggage]. *)
Inductive Propagator := TraceContext | Baggage.

#[export] Instance Propagator_eq_dec : EqDecision Propagator.
Proof. solve_decision. Defined.

Module Tracer.
Record t := mk {
  provider : option TracerProvider;
  propagators : list Propagator;
  spans : gmap string Span;
  issued : nat;
}.

(** Before [InitTracer]: no provider, no propagator. *)
Definition empty : t := mk None [] ∅ 0.

(** A change to a span that is recording; an ended span ignores it. *)
Definition on_span (id : string) (f : Span -> Span) (tr : t) : t :=
  mk (provider tr) (propagators tr)
     (alter (fun s => if Span.Ended s then s else f s) id (spans tr)) (issued tr).

(** [tracer.Start]: a new span, in the trace of [parent] when there is one
    and in a new trace otherwise; without a provider, a span that records
    nothing and has no context. *)
Definition Start (name : string) (parent : option SpanContext) (tr : t) : string * t :=
  match provider tr with
  | None => ("", tr)
  | Some _ =>
      let id := "span" +:+ pretty (issued tr) in
      let trace := match parent with
                   | Some p => SpanContext.TraceID p
                   | None => "trace" +:+ pretty (issued tr)
                   end in
      let span := Span.mk name (SpanContext.mk trace id) (SpanContext.SpanID <$> parent)
                    [] (Unset, "") [] false in
      (id, mk (provider tr) (propagators tr) (<[id := span]> (spans tr)) (S (issued tr)))
  end.

Definition SetAttributes (id : string) (attrs : list (string * Field)) : t -> t :=
  on_span id (fun s => Span.mk (Span.Name s) (Span.Context s) (Span.Parent s)
                         (Span.Attributes s ++ attrs) (Span.Status s) (Span.Errors s) false).

Definition SetStatus (id : string) (code : Code) (description : string) : t -> t :=
  on_span id (fun s => Span.mk (Span.Name s) (Span.Context s) (Span.Parent s)
                         (Span.Attributes s) (code, description) (Span.Errors s) false).

Definition RecordError (id : string) (err : error) : t -> t :=
  on_span id (fun s => Span.mk (Span.Name s) (Span.Context s) (Span.Parent s)
                         (Span.Attributes s) (Span.Status s)
                         (Span.Errors s ++ [error_message err]) false).

Definition End_ (id : string) : t -> t :=
  on_span id (fun s => Span.mk (Span.Name s) (Span.Context s) (Span.Parent s)
                         (Span.Attributes s) (Span.Status s) (Span.Errors s) true).

Definition context_of (id : string) (tr : t) : option SpanContext :=
  Span.Context <$> spans tr !! id.

End Tracer.
Abbreviation Tracer := Tracer.t.

(** ** The propagator *)

(** The value of the [traceparent] header for a span context. *)
Definition traceparent (sc : SpanContext) : string :=
  "00-" +:+ SpanContext.TraceID sc +:+ "-" +:+ SpanContext.SpanID sc +:+ "-01".

(** The span context a [traceparent] value names, if it is one. *)
Definition parse_traceparent (v : string) : option SpanContext :=
  match Split v "-"%char with
  | [version; trace; span; flags] =>
      if (version =? "00")%string && negb (trace =? "")%string && negb (span =? "")%string
      then Some (SpanContext.mk trace span) else None
  | _ => None
  end.

(** [Extract] through a carrier's [Get], [Inject] through its [Set], for
    the propagators that are installed: only [TraceContext] carries the
    span context. *)
Definition Extract (installed : list Propagator) (get : string -> string)
    : option SpanContext :=
  if bool_decide (TraceContext ∈ installed) then parse_traceparent (get "traceparent")
  else None.

Definition Inject {C : Type} (installed : list Propagator) (sc : option SpanContext)
    (set : string -> string -> C -> C) (carrier : C) : C :=
  if bool_decide (TraceContext ∈ installed) then
    match sc with
    | Some sc => set "traceparent" (traceparent sc) carrier
    | None => carrier
    end
  else carrier.

(** ** The carriers *)

(** [fiberHeaderCarrier]: it reads the request's headers and writes the
    response's. *)
Module fiberHeaderCarrier.
Definition Get (c : Ctx) (key : string) : string := Ctx.Get c key.
Definition Set_ (key value : string) (c : Ctx) : Ctx := Ctx.SetHeader key value c.
Definition Keys (c : Ctx) : list string := (map_to_list (Request.Header (Ctx.request c))).*1.
End fiberHeaderCarrier.

(** [fiberRequestCarrier]: it reads and writes the request's headers. *)
Module fiberRequestCarrier.
Definition Get (c : Ctx) (key : string) : string := Ctx.Get c key.
Definition Set_ (key value : string) (c : Ctx) : Ctx := Ctx.SetReqHeader key value c.
Definition Keys (c : Ctx) : list string := (map_to_list (Request.Header (Ctx.request c))).*1.
End fiberRequestCarrier.

(** ** Setting up and shutting down the library *)

(** What can fail: making the exporter for an endpoint, making the
    resource, and flushing the spans to the exporter at shutdown. *)
Class OTLP := {
  exporter_New : string -> option error;
  resource_New : list (string * string) -> option error;
  exporter_Shutdown : TracerProvider -> option error;
}.

(** The function [InitTracer] returns: one that does nothing, or the
    provider's [Shutdown]. *)
Inductive ShutdownFunc := shutdown_nothing | provider_Shutdown.

#[export] Instance ShutdownFunc_eq_dec : EqDecision ShutdownFunc.
Proof. solve_decision. Defined.

Section InitTracer.
Context `{!OTLP}.

Definition InitTracer (cfg : TracingConfig) (tr : Tracer)
    : (option ShutdownFunc * option error) * Tracer :=
  if negb (TracingConfig.Enabled cfg) then ((Some shutdown_nothing, None), tr)
  else
    match exporter_New (TracingConfig.Endpoint cfg) with
    | Some err => ((None, Some err), tr)
    | None =>
        let attributes := [("service.name", TracingConfig.ServiceName cfg);
                           ("service.version", "1.0.0")] in
        match resource_New attributes with
        | Some err => ((None, Some err), tr)
        | None =>
            let tracerProvider :=
              TracerProvider.mk (TracingConfig.Endpoint cfg) true attributes
                (TracingConfig.SampleRate cfg) in
            ((Some provider_Shutdown, None),
             Tracer.mk (Some tracerProvider) [TraceContext; Baggage]
               (Tracer.spans tr) (Tracer.issued tr))
        end
    end.

(** Calling what [InitTracer] returned: the provider flushes and stops
    recording. *)
Definition shutdown (f : ShutdownFunc) (tr : Tracer) : option error * Tracer :=
  match f, Tracer.provider tr with
  | provider_Shutdown, Some p =>
      (exporter_Shutdown p,
       Tracer.mk None (Tracer.propagators tr) (Tracer.spans tr) (Tracer.issued tr))
  | _, _ => (None, tr)
  end.

End InitTracer.

(** [CreateSpan]: a span below the one of the context. *)
Definition CreateSpan (parent : option SpanContext) (name : string) (tr : Tracer)
    : string * Tracer :=
  Tracer.Start name parent tr.

(** ** The stage *)

(** [c.OriginalURL()]. *)
Definition OriginalURL (c : Ctx) : string :=
  let q := Request.QueryString (Ctx.request c) in
  if (q =? "")%string then Ctx.Path c else Ctx.Path c +:+ "?" +:+ q.

(** An attribute for a local that is set. *)
Definition local_attribute (key : string) (v : option string) : list (string * Field) :=
  match v with
  | Some s => [(key, FStr s)]
  | None => []
  end.

(** The attributes the stage sets before the rest of the chain runs. *)
Definition request_attributes `{!Framework} (c : Ctx) : list (string * Field) :=
  [("http.method", FStr (Ctx.Method c));
   ("http.route", FStr (RoutePath c));
   ("http.url", FStr (OriginalURL c));
   ("http.user_agent", FStr (Ctx.Get c "User-Agent"));
   ("http.client_ip", FStr (Ctx.IP c))] ++
  local_attribute "request.id" (Locals.request_id (Ctx.locals c)) ++
  local_attribute "tenant.id" (Locals.tenant_id (Ctx.locals c)) ++
  local_attribute "user.id" (Locals.user_id (Ctx.locals c)) ++
  local_attribute "upstream.service" (Locals.service (Ctx.locals c)).

(** The attributes it sets after it. *)
Definition response_attributes `{!Framework} (c : Ctx) (duration : Duration)
    : list (string * Field) :=
  [("http.status_code", FInt (Ctx.StatusCode c));
   ("http.response_content_length", FInt (BodySize (Response.Body (Ctx.response c))));
   ("http.duration_ms", FInt (Milliseconds duration))].

Section Tracing.
Context {W : Type} `{!Lens W Tracer} `{!Clock W} `{!Framework}.

(** What the stage does to the span once the rest of the chain has
    returned [err]. *)
Definition finish (span : string) (c : Ctx) (duration : Duration) (err : option error)
    (t : Tracer) : Tracer :=
  let t := Tracer.SetAttributes span (response_attributes c duration) t in
  let t := if 400 <=? Ctx.StatusCode c then Tracer.SetStatus span Error_ "HTTP error" t
           else Tracer.SetStatus span Ok_ "" t in
  match err with
  | Some e => Tracer.RecordError span e t
  | None => t
  end.

(** The context the rest of the chain is given: the span in the locals and
    its context in the request's headers. *)
Definition traced (installed : list Propagator) (span : string) (sc : option SpanContext)
    (c : Ctx) : Ctx :=
  Inject installed sc fiberRequestCarrier.Set_ (Ctx.map_locals (Locals.set_span span) c).

(** The span the stage starts for a request, with the attributes of the
    request, and the tracer that holds it. *)
Definition started (c : Ctx) (t : Tracer) : string * Tracer :=
  let parent := Extract (Tracer.propagators t) (fiberHeaderCarrier.Get c) in
  let spanName := Ctx.Method c +:+ " " +:+ Ctx.Path c in
  let '(span, t) := Tracer.Start spanName parent t in
  (span, Tracer.SetAttributes span (request_attributes c) t).

(** The end of the stage, given what the rest of the chain did: the span
    is ended whether the chain returned or panicked. *)
Definition closing (span : string) (start : Time) (r : Outcome * Ctx * W)
    : Outcome * Ctx * W :=
  let '(out, c', w') := r in
  match out with
  | Panic msg => (Panic msg, c', update (Tracer.End_ span (view w')) w')
  | Return err =>
      let duration := Now w' - start in
      (Return err, c',
       update (Tracer.End_ span (finish span c' duration err (view w'))) w')
  end.

Definition Tracing (serviceName : string) : Stage W := fun next c w =>
  let '(span, t) := started c (view w) in
  let c1 := traced (Tracer.propagators t) span (Tracer.context_of span t) c in
  let w1 := update t w in
  closing span (Now w1) (next c1 w1).

(** [GetSpanFromContext]. *)
Definition GetSpanFromContext (c : Ctx) : option string := Locals.span (Ctx.locals c).

End Tracing.

(** * Properties of the propagator *)

(** The string has no byte [sep]. *)
Fixpoint free (sep : ascii) (s : string) : bool :=
  match s with
  | EmptyString => true
  | String c s' => negb (Ascii.eqb c sep) && free sep s'
  end.

Section SplitLemmas.
Implicit Types (sep : ascii) (s a b cur : string).

Lemma rev_app_app a b s : String.rev_app a b +:+ s = String.rev_app a (b +:+ s).
Proof.
  revert b. induction a as [|x a IH]; intros b; simpl; [done|].
  by rewrite IH, string_app_cons.
Qed.

Lemma rev_cons_app c cur s : String.rev (String c cur) +:+ s = String.rev cur +:+ String c s.
Proof.
  unfold String.rev. simpl. rewrite !rev_app_app. by rewrite string_app_cons, !string_app_nil_l.
Qed.

Lemma split_go_free sep s cur : free sep s = true -> split_go sep cur s = [String.rev cur +:+ s].
Proof.
  revert cur. induction s as [|c s IH]; intros cur Hf; simpl in *.
  - by rewrite string_app_nil_r.
  - apply andb_true_iff in Hf as [Hc Hs]. apply negb_true_iff in Hc. rewrite Hc.
    by rewrite IH, rev_cons_app.
Qed.

Lemma split_go_piece sep a b cur :
  free sep a = true ->
  split_go sep cur (a +:+ String sep b) = (String.rev cur +:+ a) :: split_go sep "" b.
Proof.
  revert cur. induction a as [|c a IH]; intros cur Hf.
  - rewrite string_app_nil_l, string_app_nil_r. simpl. by rewrite Ascii.eqb_refl.
  - simpl in Hf. apply andb_true_iff in Hf as [Hc Ha]. apply negb_true_iff in Hc.
    rewrite string_app_cons. simpl. rewrite Hc. by rewrite IH, rev_cons_app.
Qed.

Lemma Split_piece sep a b :
  free sep a = true -> Split (a +:+ String sep b) sep = a :: Split b sep.
Proof. intros. unfold Split. rewrite split_go_piece by done. by rewrite string_app_nil_l. Qed.

Lemma Split_free sep s : free sep s = true -> Split s sep = [s].
Proof. intros. unfold Split. rewrite split_go_free by done. by rewrite string_app_nil_l. Qed.

End SplitLemmas.

(** Identifiers the library issues: not empty and without a dash. *)
Definition identifier (s : string) : Prop := s <> "" /\ free "-"%char s = true.

Definition valid (sc : SpanContext) : Prop :=
  identifier (SpanContext.TraceID sc) /\ identifier (SpanContext.SpanID sc).

Lemma parse_traceparent_inv sc : valid sc -> parse_traceparent (traceparent sc) = Some sc.
Proof.
  intros [[Ht Hft] [Hs Hfs]]. destruct sc as [trace span]; simpl in *.
  unfold parse_traceparent, traceparent. cbn [SpanContext.TraceID SpanContext.SpanID].
  change ("00-" +:+ trace +:+ "-" +:+ span +:+ "-01")
    with ("00" +:+ String "-" (trace +:+ String "-" (span +:+ String "-" "01"))).
  rewrite !Split_piece, Split_free by done.
  apply String.eqb_neq in Ht, Hs. simpl. by rewrite Ht, Hs.
Qed.

(** * Properties of the stage *)

Section TracingLemmas.
Context {W : Type} `{!Lens W Tracer} `{!Clock W} `{!Framework}.
Import Tracer.
Implicit Types (next : Handler W) (c : Ctx) (w : W) (t : Tracer) (id : string).

(** A handler that leaves the tracer alone. *)
Definition silent next : Prop := forall c w, view (next c w).2 = view w.

(** The tracer after a successful [InitTracer]: it has a provider, and the
    propagator of trace contexts is installed. *)
Definition installed t : Prop := is_Some (provider t) /\ TraceContext ∈ propagators t.

(** No span goes by the name of the span that records nothing. *)
Definition unnamed t : Prop := spans t !! "" = None.

Lemma lookup_on_span id f t :
  spans (on_span id f t) !! id = (fun s => if Span.Ended s then s else f s) <$> spans t !! id.
Proof. unfold on_span. simpl. by rewrite lookup_alter_eq. Qed.

Lemma on_span_missing id f t : spans t !! id = None -> on_span id f t = t.
Proof.
  intros E. destruct t as [p ps sp n]. unfold on_span. simpl in *. f_equal.
  apply alter_id. intros s Hs. by rewrite E in Hs.
Qed.

(** The identifier and the trace of the span a request gets. *)
Definition span_id t : string := "span" +:+ pretty (issued t).

(** The context the caller sent. *)
Definition remote c : option SpanContext := parse_traceparent (Ctx.Get c "traceparent").

Definition trace_id c t : string :=
  match remote c with
  | Some p => SpanContext.TraceID p
  | None => "trace" +:+ pretty (issued t)
  end.

(** The context the rest of the chain is given by an installed tracer. *)
Definition traced_with (sc : SpanContext) c : Ctx :=
  Ctx.SetReqHeader "traceparent" (traceparent sc)
    (Ctx.map_locals (Locals.set_span (SpanContext.SpanID sc)) c).

Lemma Extract_installed t get :
  installed t -> Extract (propagators t) get = parse_traceparent (get "traceparent").
Proof. intros [_ Hp]. unfold Extract. by rewrite bool_decide_true. Qed.

Lemma started_span c t :
  installed t ->
  (started c t).1 = span_id t /\
  provider (started c t).2 = provider t /\
  propagators (started c t).2 = propagators t /\
  spans (started c t).2 !! span_id t =
    Some (Span.mk (Ctx.Method c +:+ " " +:+ Ctx.Path c)
            (SpanContext.mk (trace_id c t) (span_id t))
            (SpanContext.SpanID <$> remote c)
            (request_attributes c) (Unset, "") [] false).
Proof.
  intros Hi. unfold started. rewrite (Extract_installed _ _ Hi).
  destruct Hi as [[p Hp] _]. unfold Start, SetAttributes, trace_id, span_id, remote.
  rewrite Hp. simpl. split_and!; try done.
  by rewrite lookup_alter_eq, lookup_insert_eq.
Qed.

Lemma Tracing_eq name next c w :
  installed (view w) ->
  let sc := SpanContext.mk (trace_id c (view w)) (span_id (view w)) in
  Tracing name next c w =
    closing (span_id (view w)) (Now (update (started c (view w)).2 w))
      (next (traced_with sc c) (update (started c (view w)).2 w)).
Proof.
  intros Hi sc. unfold Tracing.
  destruct (started_span c (view w) Hi) as (E & _ & Hps & Hl).
  destruct (started c (view w)) as [span t]; simpl in *. subst span.
  unfold traced, Inject, context_of. rewrite Hl, Hps. simpl.
  by rewrite bool_decide_true by apply Hi.
Qed.

(** The stage runs the rest of the chain with a span of its own: the
    span's identifier is in the locals, and the request carries a
    [traceparent] header that names the span and the trace of the incoming
    request when it came with a valid [traceparent], a new trace
    otherwise; the response is untouched. *)
Theorem Tracing_propagates name next c w :
  installed (view w) ->
  let sc := SpanContext.mk (trace_id c (view w)) (span_id (view w)) in
  let c1 := traced_with sc c in
  Tracing name next c w =
    closing (span_id (view w)) (Now (update (started c (view w)).2 w))
      (next c1 (update (started c (view w)).2 w)) /\
  Locals.span (Ctx.locals c1) = Some (span_id (view w)) /\
  Ctx.Get c1 "traceparent" = traceparent sc /\
  Ctx.response c1 = Ctx.response c.
Proof.
  intros Hi sc c1. split_and!; [by apply Tracing_eq|done| |done]. apply Get_SetReqHeader.
Qed.

(** What the stage leaves of the span of a request. *)
Definition ended_span c t (out : Outcome) (c' : Ctx) (duration : Duration) : Span :=
  Span.mk (Ctx.Method c +:+ " " +:+ Ctx.Path c)
    (SpanContext.mk (trace_id c t) (span_id t))
    (SpanContext.SpanID <$> remote c)
    (request_attributes c ++
     match out with Return _ => response_attributes c' duration | Panic _ => [] end)
    match out with
    | Return _ => if 400 <=? Ctx.StatusCode c' then (Error_, "HTTP error") else (Ok_, "")
    | Panic _ => (Unset, "")
    end
    match out with Return (Some e) => [error_message e] | _ => [] end
    true.

Lemma closing_span c t start out c' w' :
  installed t -> view w' = (started c t).2 ->
  spans (view (closing (span_id t) start (out, c', w')).2) !! span_id t =
    Some (ended_span c t out c' (Now w' - start)).
Proof.
  intros Hi Hv. destruct (started_span c t Hi) as (_ & _ & _ & Hl). rewrite <- Hv in Hl.
  unfold closing, finish, End_, SetStatus, SetAttributes, RecordError, ended_span.
  destruct out as [[e|]|msg]; simpl; rewrite view_update;
    destruct (400 <=? Ctx.StatusCode c'); rewrite !lookup_on_span, Hl; simpl;
    by rewrite ?app_nil_r.
Qed.

(** C30: the span of a request is ended when the stage is left, whether the
    rest of the chain returned or panicked; it has the request's
    attributes, and after a return the response's, the status [Error] for a
    response status of 400 or more and [Ok] below, and the error the chain
    returned. *)
Theorem Tracing_ends_span name next c w :
  installed (view w) -> silent next ->
  let r := Tracing name next c w in
  exists duration,
    spans (view r.2) !! span_id (view w) =
      Some (ended_span c (view w) r.1.1 r.1.2 duration).
Proof.
  intros Hi Hs r. subst r. rewrite Tracing_eq by done. cbv zeta.
  set (w1 := update (started c (view w)).2 w) in *.
  set (c1 := traced_with _ c).
  pose proof (Hs c1 w1) as Hv.
  destruct (next c1 w1) as [[out c'] w']. simpl in Hv. exists (Now w' - Now w1).
  rewrite (closing_span c (view w) (Now w1) out c' w')
    by (try done; rewrite Hv; unfold w1; by rewrite view_update).
  unfold closing. by destruct out.
Qed.

(** Without a provider the spans of the stage record nothing. *)
Lemma finish_unnamed c duration err t : unnamed t -> End_ "" (finish "" c duration err t) = t.
Proof.
  intros Hu. unfold finish, End_, SetAttributes, SetStatus, RecordError.
  repeat case_match; by rewrite !(on_span_missing "" _ t Hu).
Qed.

(** C32: when the tracer was not initialised (tracing enabled, but
    [InitTracer] failed) the stage changes nothing but the local [span]:
    no header is read or written and no span is recorded. *)
Theorem Tracing_without_provider name next c w :
  provider (view w) = None -> unnamed (view w) ->
  let c1 := Ctx.map_locals (Locals.set_span "") c in
  unnamed (view (next c1 w).2) ->
  Tracing name next c w = next c1 w.
Proof.
  intros Hp Hu c1. unfold Tracing, started, CreateSpan, Start. rewrite Hp.
  unfold SetAttributes. rewrite (on_span_missing "" _ _ Hu), update_view.
  unfold context_of. rewrite Hu. simpl.
  replace (traced _ "" None c) with c1 by (unfold traced, Inject; by case_match).
  destruct (next c1 w) as [[out c'] w']. simpl. intros Hu'.
  destruct out; rewrite ?finish_unnamed by done; unfold End_;
    rewrite ?(on_span_missing "" _ _ Hu'); by rewrite update_view.
Qed.

(** C35: what the stage writes on a request, a stage that reads it finds:
    the trace context injected through the request carrier is the one
    extracted through it. *)
Theorem traceparent_roundtrip ps sc c :
  TraceContext ∈ ps -> valid sc ->
  Extract ps (fiberRequestCarrier.Get (Inject ps (Some sc) fiberRequestCarrier.Set_ c)) = Some sc.
Proof.
  intros Hp Hv. unfold Extract, Inject, fiberRequestCarrier.Get, fiberRequestCarrier.Set_.
  rewrite bool_decide_true by done. rewrite Get_SetReqHeader. by apply parse_traceparent_inv.
Qed.

End TracingLemmas.

(** * Properties of the set-up *)

Section InitLemmas.
Context `{!OTLP}.
Import Tracer.

(** C31: [InitTracer] returns a shutdown function or an error, never both
    and never neither.  With tracing disabled, or when the exporter or the
    resource cannot be made, the tracer is left as it was; otherwise it is
    installed, with the endpoint, the service name and the sampling rate of
    the configuration. *)
Theorem InitTracer_spec cfg t :
  let r := InitTracer cfg t in
  (is_Some r.1.1 <-> r.1.2 = None) /\
  (r.1.1 = Some provider_Shutdown ->
     installed r.2 /\
     provider r.2 =
       Some (TracerProvider.mk (TracingConfig.Endpoint cfg) true
               [("service.name", TracingConfig.ServiceName cfg); ("service.version", "1.0.0")]
               (TracingConfig.SampleRate cfg))) /\
  (r.1.1 <> Some provider_Shutdown -> r.2 = t) /\
  spans r.2 = spans t.
Proof.
  unfold InitTracer, installed. repeat case_match; simpl; split_and!; try done.
  intros _. split_and!; [by eauto | set_solver | done].
Qed.

Lemma InitTracer_disabled cfg t :
  TracingConfig.Enabled cfg = false -> InitTracer cfg t = ((Some shutdown_nothing, None), t).
Proof. unfold InitTracer. by intros ->. Qed.

(** After its shutdown a provider records nothing. *)
Lemma shutdown_provider f t : provider (shutdown f t).2 = None \/ (shutdown f t).2 = t.
Proof. unfold shutdown. repeat case_match; auto. Qed.

End InitLemmas.

(** * A concrete world *)

Module TracingWorld.

Record World := mk {
  tracer : Tracer;
  clock : Time;
}.

#[export] Instance World_tracer : Lens World Tracer.
Proof.
  refine {| view := tracer; update := fun t w => mk t (clock w) |};
    [done | by intros [] | done].
Defined.

#[export] Instance World_clock : Clock World := {| Now := clock |}.

(** The framework of this world: a stage installed for every path is
    matched by the route [/], and a JSON body counts two bytes. *)
#[export] Instance World_framework : Framework :=
  {| RoutePath := fun _ => "/";
     BodySize := fun b => match b with Raw s => Z.of_nat (String.length s) | Json _ => 2 end |}.

(** An exporter that can be made for every endpoint but the empty one. *)
#[export] Instance World_otlp : OTLP :=
  {| exporter_New := fun endpoint =>
       if (endpoint =? "")%string then Some (OtherError "invalid endpoint") else None;
     resource_New := fun _ => None;
     exporter_Shutdown := fun _ => None |}.

Definition tracing : TracingConfig :=
  TracingConfig.mk true "minisource-gateway" "http://localhost:4318" 1.

(** The world after [InitTracer]. *)
Definition start : World := mk (InitTracer tracing Tracer.empty).2 0.

(** The world when [InitTracer] has failed. *)
Definition dark : World :=
  mk (InitTracer (TracingConfig.mk true "minisource-gateway" "" 1) Tracer.empty).2 0.

(** A handler that answers [status] after [latency]. *)
Definition answer (status : Z) (latency : Duration) : Handler World := fun c w =>
  (Return None, Ctx.Status status c, mk (tracer w) (clock w + latency)).

(** A handler that panics. *)
Definition crash : Handler World := fun c w => (Panic "nil pointer dereference", c, w).

(** A handler that answers with the [traceparent] header it was given. *)
Definition echo : Handler World := fun c w =>
  (Return None, Ctx.Send (Ctx.Get c "traceparent") c, w).

Definition get_users (headers : list (string * string)) : Ctx :=
  Ctx.new (Request.mk "GET" "/api/v1/users" "page=2" "gateway" "http" "10.0.0.1"
             (foldl (fun h kv => hset h kv.1 kv.2) ∅ headers) "").

End TracingWorld.

Section Scenarios.
Import Tracer TracingWorld.

Lemma crash_silent : silent crash.
Proof. done. Qed.

Lemma start_installed : installed (view start).
Proof. split; [by eexists | vm_compute; set_solver]. Qed.

Lemma Tracing_ends_span_witness :
  exists duration,
    spans (view (Tracing "gateway" crash (get_users []) start).2) !! span_id (view start) =
      Some (ended_span (get_users []) (view start)
              (Tracing "gateway" crash (get_users []) start).1.1
              (Tracing "gateway" crash (get_users []) start).1.2 duration).
Proof.
  apply (Tracing_ends_span "gateway" crash (get_users []) start start_installed crash_silent).
Defined.

Lemma Tracing_without_provider_witness :
  Tracing "gateway" echo (get_users [("traceparent", "00-abc-def-01")]) dark =
    echo (Ctx.map_locals (Locals.set_span "") (get_users [("traceparent", "00-abc-def-01")])) dark.
Proof. by apply (Tracing_without_provider "gateway" echo _ dark). Defined.

Lemma traceparent_roundtrip_witness :
  Extract [TraceContext; Baggage]
    (fiberRequestCarrier.Get
       (Inject [TraceContext; Baggage] (Some (SpanContext.mk "trace7" "span3"))
          fiberRequestCarrier.Set_ (get_users []))) = Some (SpanContext.mk "trace7" "span3").
Proof.
  apply (traceparent_roundtrip _ (SpanContext.mk "trace7" "span3") (get_users []));
    [set_solver | by repeat split].
Defined.

Lemma InitTracer_spec_witness :
  installed (InitTracer tracing Tracer.empty).2 /\
  (InitTracer (TracingConfig.mk true "minisource-gateway" "" 1) Tracer.empty).2 = Tracer.empty.
Proof.
  destruct (InitTracer_spec tracing Tracer.empty) as (_ & H1 & _).
  destruct (InitTracer_spec (TracingConfig.mk true "minisource-gateway" "" 1) Tracer.empty)
    as (_ & _ & H2 & _).
  split; [by apply H1 | by apply H2].
Defined.

(** A request that comes with a trace context goes on in that trace, under
    a span of the gateway whose parent is the caller's span; one that
    comes with a malformed header starts a new trace.  The span of a
    request answered 404 after two milliseconds is ended with the status
    [Error]. *)
Example tracing_scenario :
  (Tracing "gateway" echo (get_users [("traceparent", "00-abc-def-01")]) start).1.2
    = Ctx.Send "00-abc-span0-01"
        (traced_with (SpanContext.mk "abc" "span0")
           (get_users [("traceparent", "00-abc-def-01")])) /\
  Response.Body (Ctx.response
    (Tracing "gateway" echo (get_users [("traceparent", "abc")]) start).1.2)
    = Raw "00-trace0-span0-01" /\
  exists s, spans (view (Tracing "gateway" (answer 404 2000000)
                           (get_users [("traceparent", "00-abc-def-01")]) start).2) !! "span0"
              = Some s /\
    Span.Ended s = true /\ Span.Parent s = Some "def" /\
    Span.Status s = (Error_, "HTTP error") /\
    ("http.url", FStr "/api/v1/users?page=2") ∈ Span.Attributes s /\
    ("http.duration_ms", FInt 2) ∈ Span.Attributes s.
Proof.
  split; [by vm_compute|]. split; [by vm_compute|]. eexists.
  split; [vm_compute; reflexivity|]. split_and!; try done; vm_compute; set_solver.
Qed.

(** When the exporter cannot be made the gateway goes on without traces:
    the caller's trace context reaches the rest of the chain as it came,
    and nothing is recorded. *)
Example dark_scenario :
  let r := Tracing "gateway" echo (get_users [("traceparent", "00-abc-def-01")]) dark in
  Response.Body (Ctx.response r.1.2) = Raw "00-abc-def-01" /\
  GetSpanFromContext r.1.2 = Some "" /\
  spans (view r.2) = ∅.
Proof. by vm_compute. Qed.

End Scenarios.
