(* ===== verification/Pipeline.v ===== *)
(** * The pipeline

    Models the wiring of the gateway in its main package
    (src/tests/integration/gateway_test.go, lines 157 to 362, which carry
    [main.go]): [setupMiddleware], that is the stages in their order, the
    endpoints registered after them, the router's routes and its catch-all,
    and the application's error handler.  The recovery stage of the pipeline
    is the web framework's own, which turns a panic into an error for the
    error handler.  The handler of [/metrics] is the metrics library's and
    is a parameter. *)

From stdpp Require Import base strings list gmap pretty.
From Stdlib Require Import ZArith QArith Lia.
From S2P Require Import Prelude Config Context Breaker Circuit RateLimit Common Auth Proxy.
From S2P Require Import Router Health Metrics Tracing.

#[local] Open Scope string_scope.
#[local] Open Scope list_scope.
#[local] Open Scope Z_scope.

Section Pipeline.
Context {W : Type}
  `{!Lens W CircuitBreakerManager} `{!Lens W RateLimiter} `{!Lens W ServiceProxy}
  `{!Lens W Registry} `{!Lens W Tracer}
  `{!Clock W} `{!UUIDSource W} `{!LogSink W} `{!Upstream W} `{!TokenParser}
  `{!TimeFormat} `{!Runtime W} `{!Framework}.

(** The handler of [/metrics]. *)
Context (metricsHandler : Handler W).

(** The recovery stage of the framework: a panic of the rest of the chain
    is returned as an error. *)
Definition fiber_recover : Stage W := fun next c w =>
  let '(out, c', w') := next c w in
  match out with
  | Panic msg => (Return (Some (OtherError msg)), c', w')
  | Return err => (Return err, c', w')
  end.

(** The stages before the circuit breaker's, in their order. *)
Definition front (tracingEnabled : bool) (tracingName jwtSecret : string) (routes : RouteConfig)
    (logger : SimpleLogger) : list (Stage W) :=
  [fiber_recover; RequestID; SecurityHeaders; CORS ["*"]] ++
  (if tracingEnabled then [Tracing tracingName] else []) ++
  [Metrics; RequestLogger logger; ContentType; TenantExtractor;
   NewAuthMiddleware jwtSecret routes; RateLimiter.Middleware].

Definition setupMiddleware (tracingEnabled : bool) (tracingName jwtSecret : string) (routes : RouteConfig)
    (logger : SimpleLogger) : list (Stage W) :=
  front tracingEnabled tracingName jwtSecret routes logger ++ [CircuitBreakerManager.Middleware].

(** The handler of [/circuit-breakers]. *)
Definition circuit_breakers : Handler W := fun c w =>
  let '(m, states) := CircuitBreakerManager.GetAllStates (Now w) (view w) in
  (Return None,
   Ctx.JSON [("states", JObject (map_to_list (JString <$> states)))] c, update m w).

(** The endpoints registered between the stages and the routes. *)
Definition endpoints (startTime : Time) : list (string * string * Handler W) :=
  HealthHandler.RegisterRoutes startTime ++
  [("GET", "/metrics", metricsHandler); ("GET", "/circuit-breakers", circuit_breakers)].

(** A handler registered for [GET] answers [HEAD] too. *)
Definition method_matches (registered method : string) : bool :=
  (registered =? method)%string || ((registered =? "GET")%string && (method =? "HEAD")%string).

Definition find_endpoint (startTime : Time) (method path : string) : option (Handler W) :=
  snd <$> find (fun e => method_matches e.1.1 method && pattern_matches e.1.2 path)
               (endpoints startTime).

(** What the framework runs after the stages: the first endpoint that
    matches, else the routes and their catch-all. *)
Definition app_handler (startTime : Time) (routes : RouteConfig) : Handler W := fun c w =>
  match find_endpoint startTime (Ctx.Method c) (Ctx.Path c) with
  | Some h => h c w
  | None => routed routes c w
  end.

Definition pipeline (tracingEnabled : bool) (tracingName jwtSecret : string) (routes : RouteConfig)
    (logger : SimpleLogger) (startTime : Time) : Handler W :=
  chain (setupMiddleware tracingEnabled tracingName jwtSecret routes logger) (app_handler startTime routes).

(** The application: the pipeline, then the error handler on the error it
    returns; [None] is a panic that nothing caught, which ends the
    process. *)
Definition serve (tracingEnabled : bool) (tracingName jwtSecret : string) (routes : RouteConfig)
    (logger : SimpleLogger) (startTime : Time) (c : Ctx) (w : W) : option (Ctx * W) :=
  let '(out, c', w') := pipeline tracingEnabled tracingName jwtSecret routes logger startTime c w in
  match out with
  | Return None => Some (c', w')
  | Return (Some err) => Some (ErrorLogger logger c' err w')
  | Panic _ => None
  end.

End Pipeline.

(** * What the stages know of the route

    The route, whether it is public and its service are put in the context
    by the handler of the route, which runs after every stage.  A context
    in which they are not set is [unrouted]; a stage is [blind] when, given
    such a context, it runs the rest of the chain on such contexts only. *)

Definition unrouted (c : Ctx) : Prop :=
  Locals.route (Ctx.locals c) = None /\ Locals.isPublic (Ctx.locals c) = None /\
  Locals.service (Ctx.locals c) = None.

Section Blind.
Context {W : Type}.
Implicit Types (m : Stage W) (next : Handler W) (c : Ctx) (w : W).

Definition blind m : Prop :=
  forall next next' c w, unrouted c ->
    (forall c' w', unrouted c' -> next c' w' = next' c' w') -> m next c w = m next' c w.

Lemma blind_chain (ms : list (Stage W)) : Forall blind ms -> blind (fun next => chain ms next).
Proof.
  induction 1 as [|m ms Hm _ IH]; intros next next' c w Hc Hn; [by apply Hn|].
  simpl. apply Hm; [done|]. intros c' w' Hc'. by apply IH.
Qed.

Lemma unrouted_new r : unrouted (Ctx.new r).
Proof. done. Qed.

Lemma unrouted_locals c c' : Ctx.locals c' = Ctx.locals c -> unrouted c -> unrouted c'.
Proof. unfold unrouted. by intros ->. Qed.

Lemma unrouted_set_request_id c id :
  unrouted c -> unrouted (Ctx.map_locals (Locals.set_request_id id) c).
Proof. done. Qed.

Lemma unrouted_set_tenant_id c id :
  unrouted c -> unrouted (Ctx.map_locals (Locals.set_tenant_id id) c).
Proof. done. Qed.

Lemma unrouted_store_claims cfg claims c : unrouted c -> unrouted (store_claims cfg claims c).
Proof. unfold store_claims. by repeat case_match. Qed.

End Blind.

Section Stages.
Context {W : Type}
  `{!Lens W CircuitBreakerManager} `{!Lens W RateLimiter} `{!Lens W ServiceProxy}
  `{!Lens W Registry} `{!Lens W Tracer}
  `{!Clock W} `{!UUIDSource W} `{!LogSink W} `{!Upstream W} `{!TokenParser} `{!Framework}.
Implicit Types (next : Handler W) (c : Ctx) (w : W).

Lemma blind_fiber_recover : blind (@fiber_recover W).
Proof. intros next next' c w Hc Hn. unfold fiber_recover. by rewrite (Hn c w Hc). Qed.

Lemma blind_RequestID : blind (@RequestID W _).
Proof.
  intros next next' c w Hc Hn. unfold RequestID.
  destruct (Ctx.Get c "X-Request-ID" =? "")%string; [destruct (NewUUID w)|]; by apply Hn.
Qed.

Lemma blind_SecurityHeaders : blind (@SecurityHeaders W).
Proof.
  intros next next' c w Hc Hn. apply Hn.
  by apply (unrouted_locals c), Hc; apply set_all_locals.
Qed.

Lemma blind_CORS origins : blind (@CORS W origins).
Proof.
  intros next next' c w Hc Hn. rewrite !CORS_cases.
  destruct (Ctx.Method c =? "OPTIONS")%string; [done|]. apply Hn.
  unfold cors_headers. by destruct (origin_allowed _ _).
Qed.

Lemma blind_RequestLogger (logger : SimpleLogger) : blind (RequestLogger (W := W) logger).
Proof. intros next next' c w Hc Hn. unfold RequestLogger. by rewrite (Hn c w Hc). Qed.

Lemma blind_ContentType : blind (@ContentType W).
Proof.
  intros next next' c w Hc Hn. rewrite !ContentType_spec. case_match; [done|by apply Hn].
Qed.

Lemma blind_TenantExtractor : blind (@TenantExtractor W).
Proof.
  intros next next' c w Hc Hn. unfold TenantExtractor. case_match; by apply Hn.
Qed.

Lemma blind_Auth cfg : blind (Auth (W := W) cfg).
Proof.
  intros next next' c w Hc Hn. rewrite !Auth_cases.
  repeat case_match; try done; apply Hn; [done|by apply unrouted_store_claims].
Qed.

Lemma blind_RateLimiter : blind (RateLimiter.Middleware (W := W)).
Proof.
  intros next next' c w Hc Hn. unfold RateLimiter.Middleware.
  repeat case_match; try done; by apply Hn.
Qed.

Lemma blind_Metrics : blind (Metrics (W := W)).
Proof. intros next next' c w Hc Hn. unfold Metrics. by rewrite (Hn c _ Hc). Qed.

Lemma unrouted_traced ps span sc c : unrouted c -> unrouted (traced ps span sc c).
Proof. unfold traced, Inject. case_match; by destruct sc. Qed.

Lemma blind_Tracing name : blind (Tracing (W := W) name).
Proof.
  intros next next' c w Hc Hn. unfold Tracing. destruct (started c (view w)) as [span t].
  by rewrite (Hn _ _ (unrouted_traced _ span _ c Hc)).
Qed.

(** Given an unrouted context the metrics stage counts the request under
    the service [gateway]. *)
Lemma service_label_unrouted c : unrouted c -> service_label c = "gateway".
Proof. intros (_ & _ & Hs). unfold service_label. by rewrite Hs. Qed.

(** Given an unrouted context the breaker's stage steps aside. *)
Lemma breaker_unrouted next c w :
  unrouted c -> CircuitBreakerManager.Middleware next c w = next c w.
Proof.
  intros (_ & _ & Hs). apply Middleware_stepped_aside.
  unfold CircuitBreakerManager.bypass. rewrite Hs. apply orb_true_r.
Qed.

(** Given an unrouted context the limits are the configured ones. *)
Theorem limits_unrouted (rl : RateLimiter) c :
  unrouted c ->
  RateLimiter.limits rl c =
    (RateLimitConfig.RequestsPerSec (RateLimiter.cfg rl),
     RateLimitConfig.BurstSize (RateLimiter.cfg rl)).
Proof. intros (Hr & _). unfold RateLimiter.limits. by rewrite Hr. Qed.

End Stages.

(** * The wired pipeline *)

Section Wired.
Context {W : Type}
  `{!Lens W CircuitBreakerManager} `{!Lens W RateLimiter} `{!Lens W ServiceProxy}
  `{!Lens W Registry} `{!Lens W Tracer}
  `{!Clock W} `{!UUIDSource W} `{!LogSink W} `{!Upstream W} `{!TokenParser}
  `{!TimeFormat} `{!Runtime W} `{!Framework}.
Context (metricsHandler : Handler W).
Implicit Types (c : Ctx) (w : W) (routes : RouteConfig) (logger : SimpleLogger).

Lemma front_blind tracingEnabled tracingName jwtSecret routes logger :
  Forall blind (front tracingEnabled tracingName jwtSecret routes logger).
Proof.
  unfold front. repeat first [apply Forall_app; split | apply Forall_cons; split];
    try apply Forall_nil;
    eauto using blind_fiber_recover, blind_RequestID, blind_SecurityHeaders, blind_CORS,
      blind_RequestLogger, blind_ContentType, blind_TenantExtractor, blind_Auth,
      blind_RateLimiter, blind_Metrics.
  destruct tracingEnabled; auto using blind_Tracing.
Qed.

(** C3: in the pipeline as [setupMiddleware] orders it, the circuit
    breaker's stage does nothing for a request that arrives: the service of
    the route is put in the context by the route's handler, which runs after
    it, so the stage finds no service and steps aside.  The pipeline is the
    chain of the stages before it. *)
Theorem breaker_stage_idle tracingEnabled tracingName jwtSecret routes logger startTime c w :
  unrouted c ->
  pipeline metricsHandler tracingEnabled tracingName jwtSecret routes logger startTime c w =
  chain (front tracingEnabled tracingName jwtSecret routes logger)
        (app_handler metricsHandler startTime routes) c w.
Proof.
  intros Hc. unfold pipeline, setupMiddleware. rewrite chain_app.
  apply (blind_chain _ (front_blind _ _ _ _ _)); [done|].
  intros c' w' Hc'. rewrite chain_cons, chain_nil. by apply breaker_unrouted.
Qed.

(** The pipeline starts with the recovery stage: it does not panic. *)
Lemma pipeline_no_panic tracingEnabled tracingName jwtSecret routes logger startTime c w msg :
  (pipeline metricsHandler tracingEnabled tracingName jwtSecret routes logger startTime
     c w).1.1 <> Panic msg.
Proof.
  unfold pipeline, setupMiddleware, front. rewrite <- !app_comm_cons, chain_cons.
  unfold fiber_recover at 1. destruct (chain _ _ c w) as [[[|] ?] ?]; simpl; congruence.
Qed.

(** C10: the application answers every request: a panic of a stage or of a
    handler is caught by the first stage and reaches the error handler as
    an error. *)
Theorem serve_total tracingEnabled tracingName jwtSecret routes logger startTime c w :
  is_Some (serve metricsHandler tracingEnabled tracingName jwtSecret routes logger
             startTime c w).
Proof.
  unfold serve.
  pose proof (pipeline_no_panic tracingEnabled tracingName jwtSecret routes logger startTime c w) as Hp.
  destruct (pipeline _ _ _ _ _ _ _ c w) as [[[[?|]|msg] ?] ?]; [done..|].
  by destruct (Hp msg).
Qed.

End Wired.

(** * A gateway

    A world with every component of the gateway: the components the stages
    share (the manager of the breakers, the limiter, the registry of
    services, the metrics, the tracer), a clock, the log, the request ids
    issued, what each service answers and what the services received. *)

Module Gateway.

Record World := mk {
  manager : CircuitBreakerManager;
  limiter : RateLimiter;
  proxy : ServiceProxy;
  registry : Registry;
  tracer : Tracer;
  clock : Time;
  log : list LogEntry;
  issued : nat;
  answers : string -> UpstreamResponse + string;
  received : list (string * UpstreamRequest);
}.

#[export] Instance World_manager : Lens World CircuitBreakerManager.
Proof.
  refine {| view := manager;
            update := fun m w =>
              mk m (limiter w) (proxy w) (registry w) (tracer w) (clock w) (log w)
                 (issued w) (answers w) (received w) |};
    [done | by intros [] | done].
Defined.

#[export] Instance World_limiter : Lens World RateLimiter.
Proof.
  refine {| view := limiter;
            update := fun l w =>
              mk (manager w) l (proxy w) (registry w) (tracer w) (clock w) (log w)
                 (issued w) (answers w) (received w) |};
    [done | by intros [] | done].
Defined.

#[export] Instance World_proxy : Lens World ServiceProxy.
Proof.
  refine {| view := proxy;
            update := fun p w =>
              mk (manager w) (limiter w) p (registry w) (tracer w) (clock w) (log w)
                 (issued w) (answers w) (received w) |};
    [done | by intros [] | done].
Defined.

#[export] Instance World_registry : Lens World Registry.
Proof.
  refine {| view := registry;
            update := fun r w =>
              mk (manager w) (limiter w) (proxy w) r (tracer w) (clock w) (log w)
                 (issued w) (answers w) (received w) |};
    [done | by intros [] | done].
Defined.

#[export] Instance World_tracer : Lens World Tracer.
Proof.
  refine {| view := tracer;
            update := fun t w =>
              mk (manager w) (limiter w) (proxy w) (registry w) t (clock w) (log w)
                 (issued w) (answers w) (received w) |};
    [done | by intros [] | done].
Defined.

#[export] Instance World_clock : Clock World := {| Now := clock |}.

#[export] Instance World_sink : LogSink World :=
  {| emit := fun e w =>
       mk (manager w) (limiter w) (proxy w) (registry w) (tracer w) (clock w) (log w ++
          [e]) (issued w) (answers w) (received w) |}.

#[export] Instance World_uuid : UUIDSource World :=
  {| NewUUID := fun w =>
       ("uuid-" +:+ pretty (issued w),
        mk (manager w) (limiter w) (proxy w) (registry w) (tracer w) (clock w) (log w)
           (S (issued w)) (answers w) (received w)) |}.

#[export] Instance World_upstream : Upstream World :=
  {| Do := fun svc req timeout w =>
       (answers w (ServiceClient.Name svc),
        mk (manager w) (limiter w) (proxy w) (registry w) (tracer w) (clock w) (log w)
           (issued w) (answers w) (received w ++ [(ServiceClient.Name svc, req)])) |}.

#[export] Instance World_runtime : Runtime World :=
  {| ReadMemStats := fun _ => MemStats.mk 0 0 0 0 |}.

(** The framework of this world: a request that reached the handler of a
    route was matched by the route's pattern, any other by the route [/] of
    the stages; a JSON body counts two bytes. *)
#[export] Instance World_framework : Framework :=
  {| RoutePath := fun c => match Locals.route (Ctx.locals c) with
                           | Some route => route_pattern route
                           | None => "/"
                           end;
     BodySize := fun b => match b with Raw s => Z.of_nat (String.length s) | Json _ => 2 end |}.

(** The parser knows the token of one user, signed with ["s3cret"]. *)
#[export] Instance World_parser : TokenParser := AuthWorld.parser.

#[export] Instance decimal_times : TimeFormat :=
  {| RFC3339 := fun t => pretty t; DurationString := fun d => pretty d +:+ "ns" |}.

(** The exporter of traces can always be made. *)
#[export] Instance World_otlp : OTLP :=
  {| exporter_New := fun _ => None; resource_New := fun _ => None;
     exporter_Shutdown := fun _ => None |}.

Definition default_Tracing : TracingConfig :=
  TracingConfig.mk true "minisource-gateway" "http://localhost:4318" 1.

(** The gateway as [main] boots it with the defaults, no Redis, and the
    rate limits [rl]. *)
Definition boot (rl : RateLimitConfig) (answers : string -> UpstreamResponse + string)
    : World :=
  mk (CircuitBreakerManager.NewCircuitBreakerManager default_Circuit)
     (RateLimiter.NewRateLimiter rl None).1 (ServiceProxy.NewServiceProxy default_Services)
     Registry.empty (InitTracer default_Tracing Tracer.empty).2 0 [] 0 answers [].

Definition no_metrics : Handler World := fun c w => (Return None, c, w).

Definition logger : SimpleLogger := SimpleLogger.mk "info" "json".

(** The gateway with tracing on. *)
Definition gateway : Handler World :=
  pipeline no_metrics true "gateway" "s3cret" DefaultRoutes logger 0.

Definition app (c : Ctx) (w : World) : option (Ctx * World) :=
  serve no_metrics true "gateway" "s3cret" DefaultRoutes logger 0 c w.

(** The statuses of the answers to the requests [cs], one after the other,
    and the world after them. *)
Fixpoint run (cs : list Ctx) (w : World) : list Z * World :=
  match cs with
  | [] => ([], w)
  | c :: cs =>
      match app c w with
      | Some (c', w') => let '(l, w'') := run cs w' in (Ctx.StatusCode c' :: l, w'')
      | None => ([], w)
      end
  end.

(** Both services answer 200. *)
Definition all_up (name : string) : UpstreamResponse + string :=
  inl (UpstreamResponse.mk 200 ∅ "{}").

(** Both services answer 500. *)
Definition failing (name : string) : UpstreamResponse + string :=
  inl (UpstreamResponse.mk 500 ∅ "{}").

(** No service can be reached. *)
Definition down (name : string) : UpstreamResponse + string :=
  inr "dial tcp: connection refused".

Definition request (method path : string) (headers : list (string * string)) (body : string)
    : Ctx :=
  Ctx.new (Request.mk method path "" "gateway" "http" "10.0.0.1"
             (foldl (fun h kv => hset h kv.1 kv.2) ∅ headers) body).

Definition as_alice : list (string * string) := [("Authorization", "Bearer token-of-alice")].

Definition notify : Ctx :=
  request "POST" "/api/v1/notifications"
    (("Content-Type", "application/json") :: as_alice) "{}".

End Gateway.

Section Scenarios.
Import Gateway.

Definition users (method : string) : Ctx := request method "/api/v1/users" as_alice "".

Lemma breaker_stage_idle_witness :
  gateway notify (boot default_RateLimit failing) =
  chain (front true "gateway" "s3cret" DefaultRoutes logger)
        (app_handler no_metrics 0 DefaultRoutes) notify (boot default_RateLimit failing).
Proof.
  exact (breaker_stage_idle no_metrics true "gateway" "s3cret" DefaultRoutes logger 0 notify
           (boot default_RateLimit failing) (unrouted_new _)).
Defined.

Lemma limits_unrouted_witness :
  RateLimiter.limits (RateLimiter.NewRateLimiter default_RateLimit None).1 notify = (100, 200).
Proof. exact (limits_unrouted _ notify (unrouted_new _)). Defined.

(** Seven requests to a notifier that answers 500 to each: all seven reach
    it, and the manager has made no breaker.  The breaker of the design
    would have opened after the fifth and answered the next ones 503. *)
Example breaker_idle_scenario :
  let r := run (replicate 7 notify) (boot default_RateLimit failing) in
  r.1 = replicate 7 500 /\ length (received r.2) = 7%nat /\
  CircuitBreakerManager.breakers (manager r.2) = ∅.
Proof. by vm_compute. Qed.

(** A request without a request id gets one, which reaches the service
    with the identity of the token, and the access log. *)
Example request_id_scenario :
  let r := run [users "GET"] (boot default_RateLimit all_up) in
  r.1 = [200] /\
  exists req entry, received r.2 = [("auth", req)] /\ log r.2 = [entry] /\
    UpstreamRequest.URI req = "http://localhost:5000/api/v1/users" /\
    hget (UpstreamRequest.Header req) "X-Request-ID" = "uuid-0" /\
    hget (UpstreamRequest.Header req) "X-User-ID" = "u-1" /\
    hget (UpstreamRequest.Header req) "X-Tenant-ID" = "acme" /\
    LogEntry.level entry = "INFO" /\
    (FStr "request_id", FStr "uuid-0") ∈ LogEntry.fields entry /\
    (FStr "service", FStr "auth") ∈ LogEntry.fields entry.
Proof.
  split; [by vm_compute|]. do 2 eexists.
  split_and!; try (vm_compute; reflexivity); vm_compute; set_solver.
Qed.

(** Readiness follows the probes: before the first round the services count
    as healthy; after a round that reached none of them [/ready] answers 503
    and a request for the notifier is answered 503 without being sent. *)
Example ready_scenario :
  let ready := request "GET" "/ready" [] "" in
  (run [ready] (boot default_RateLimit down)).1 = [200] /\
  let r := run [ready; notify] (ServiceProxy.health_round (boot default_RateLimit down)) in
  r.1 = [503; 503] /\
  Forall (fun x => UpstreamRequest.URI x.2 ∈
            ["http://localhost:5000/api/health"; "http://localhost:5001/api/health"])
         (received r.2).
Proof. split; [by vm_compute|]. split; [by vm_compute|]. vm_compute. repeat constructor. Qed.

(** The states of the breakers are served to authenticated requests only;
    the probes' endpoints need no token. *)
Example circuit_breakers_scenario :
  (run [request "GET" "/circuit-breakers" [] ""; request "GET" "/circuit-breakers" as_alice "";
        request "GET" "/ready" [] ""; request "GET" "/live" [] "";
        request "GET" "/health" [] ""]
       (boot default_RateLimit all_up)).1 = [401; 200; 200; 200; 200].
Proof. by vm_compute. Qed.

(** With a rate of zero the second request of a client is denied, the
    computation of [Retry-After] divides by zero, the recovery stage turns
    the panic into an error and the client is answered 500; the access log
    has no line for it, the error log has one. *)
Example zero_rate_scenario :
  let r := run [users "GET"; users "GET"]
             (boot (RateLimitConfig.mk true 0 1 (60 * Second)) all_up) in
  r.1 = [200; 500] /\ length (received r.2) = 1%nat /\
  (LogEntry.level <$> log r.2) = ["INFO"; "ERROR"] /\
  exists entry, last (log r.2) = Some entry /\
    (FStr "error", FStr "runtime error: integer divide by zero") ∈ LogEntry.fields entry.
Proof.
  split_and!; try by vm_compute. eexists. split; [vm_compute; reflexivity|].
  vm_compute. set_solver.
Qed.

(** A [HEAD] request is served by a route registered for [GET], although
    the route table has no route for it. *)
Example head_scenario :
  let r := run [users "HEAD"] (boot default_RateLimit all_up) in
  r.1 = [200] /\ (UpstreamRequest.Method ∘ snd <$> received r.2) = ["HEAD"] /\
  GetRouteForPath DefaultRoutes "/api/v1/users" "HEAD" = None.
Proof. by vm_compute. Qed.

(** The route of the login has limits of its own, 10 a second with a burst
    of 20; the limiter runs before the route is known and applies the
    global ones. *)
Example route_limits_scenario :
  let login := request "POST" "/api/v1/auth/login" [("Content-Type", "application/json")] "{}" in
  route_lit "/api/v1/auth/login" "auth" ["POST"] true true (Some (RouteLimit.mk 10 20))
    ∈ RouteConfig.Routes DefaultRoutes /\
  (fun r => (Ctx.StatusCode r.1, Ctx.GetRespHeader r.1 "X-RateLimit-Limit",
             Ctx.GetRespHeader r.1 "X-RateLimit-Remaining"))
    <$> app login (boot default_RateLimit all_up) = Some (200, "100", "199").
Proof. split; [unfold DefaultRoutes; simpl; set_solver|by vm_compute]. Qed.

(** Two preflight requests with the same headers and no request id get
    answers that differ by the request id the gateway made for each; no
    token is asked of them and no service is called. *)
Example preflight_scenario :
  let options := request "OPTIONS" "/api/v1/users" [("Origin", "https://app.example.com")] "" in
  let answer w :=
    (fun r => (Ctx.StatusCode r.1, Ctx.GetRespHeader r.1 "Access-Control-Allow-Origin",
               Ctx.GetRespHeader r.1 "X-Request-ID", received r.2)) <$> app options w in
  answer (boot default_RateLimit all_up) = Some (204, "https://app.example.com", "uuid-0", []) /\
  (app options (boot default_RateLimit all_up) ≫= fun r => answer r.2)
    = Some (204, "https://app.example.com", "uuid-1", []).
Proof. by vm_compute. Qed.

(** The metrics and the tracer after seven requests to a notifier that
    answers 500: the requests and the upstream errors are counted under
    the service [gateway], which the stage read before the route was known,
    and none under [notifier]; every request got a span, all ended, and
    the notifier received the trace context of the span of each. *)
Example observability_scenario :
  let w := (run (replicate 7 notify) (boot default_RateLimit failing)).2 in
  Registry.counter httpRequestsTotal ["POST"; "/api/v1/notifications/*"; "gateway"; "500"]
    (registry w) = 7 /\
  Registry.counter upstreamErrors ["gateway"; "5xx"] (registry w) = 7 /\
  Registry.counter upstreamErrors ["notifier"; "5xx"] (registry w) = 0 /\
  Registry.gauge activeConnections [] (registry w) = 0 /\
  size (Tracer.spans (tracer w)) = 7%nat /\
  map_Forall (fun _ s => Span.Ended s = true) (Tracer.spans (tracer w)) /\
  (fun x => hget (UpstreamRequest.Header x.2) "traceparent") <$> take 2 (received w)
    = ["00-trace0-span0-01"; "00-trace1-span1-01"].
Proof.
  split_and!; try by vm_compute.
  apply map_Forall_to_list. vm_compute. repeat constructor.
Qed.

(** A request that panics below the metrics stage leaves the gauge of
    active connections one higher. *)
Example gauge_leak_scenario :
  let w := (run [users "GET"; users "GET"]
              (boot (RateLimitConfig.mk true 0 1 (60 * Second)) all_up)).2 in
  Registry.gauge activeConnections [] (registry w) = 1.
Proof. by vm_compute. Qed.

(** The span of an authenticated request to the notifier has the request
    id among its attributes, but neither the user, the tenant nor the
    service: the stage reads them before the stages that set them run. *)
Example span_attributes_scenario :
  let w := (run [notify] (boot default_RateLimit all_up)).2 in
  (fun s => (Span.Attributes s).*1) <$> Tracer.spans (tracer w) !! "span0" =
    Some ["http.method"; "http.route"; "http.url"; "http.user_agent"; "http.client_ip";
          "request.id"; "http.status_code"; "http.response_content_length";
          "http.duration_ms"].
Proof. by vm_compute. Qed.

End Scenarios.
