(* ===== verification/Traces.v ===== *)
(** * Interleaved requests on a breaker

    Requests of many clients reach a breaker through its lock in some
    order: a trace of admissions, completions and state queries
    ([Breaker.event]).  This file bounds what a breaker of the manager
    admits while half-open, whatever the trace: the probes of one half-open
    generation are never more than the configured budget. *)

From stdpp Require Import base strings list gmap.
From Stdlib Require Import ZArith Lia.
From S2P Require Import Prelude Config Context Breaker Circuit.

#[local] Open Scope string_scope.
#[local] Open Scope list_scope.
#[local] Open Scope Z_scope.

(** The admissions of a trace that were probes of generation [g]. *)
Definition probes (g : Z) (adm : list (Z * State)) : Z :=
  Z.of_nat (length (filter (fun a => a = (g, StateHalfOpen)) adm)).

(** The probes a breaker can still admit in generation [g]: what is left
    of the budget in the current generation when it is half-open, the whole
    budget in a generation to come, none in a generation that is over. *)
Definition budget (cb : CircuitBreaker) (g : Z) : Z :=
  if g <? CircuitBreaker.generation cb then 0
  else if g =? CircuitBreaker.generation cb then
    match CircuitBreaker.state cb with
    | StateHalfOpen => CircuitBreaker.maxRequests cb - Counts.Requests (CircuitBreaker.counts cb)
    | _ => 0
    end
  else CircuitBreaker.maxRequests cb.

(** * The budget never grows *)

Section Budget.
Import CircuitBreaker.
Implicit Types (cb : CircuitBreaker) (now : Time) (g : Z) (ev : event).

Lemma probes_nil g : probes g [] = 0.
Proof. done. Qed.

Lemma probes_app g adm1 adm2 : probes g (adm1 ++ adm2) = probes g adm1 + probes g adm2.
Proof. unfold probes. rewrite filter_app, length_app. lia. Qed.

Lemma probes_one g g' s :
  probes g [(g', s)] = if decide ((g', s) = (g, StateHalfOpen)) then 1 else 0.
Proof. unfold probes. rewrite filter_cons, filter_nil. by case_decide. Qed.

Lemma budget_nonneg cb g : wf cb -> 0 <= budget cb g.
Proof.
  intros (_ & ? & _ & _ & _ & Hs). unfold budget.
  repeat case_match; lia.
Qed.

(** A step that keeps the generation keeps the state and takes no request
    back; a step to a later generation starts from no request. *)
Definition later (cb cb' : CircuitBreaker) : Prop :=
  maxRequests cb' = maxRequests cb /\
  ((generation cb' = generation cb /\ state cb' = state cb /\
    Counts.Requests (counts cb) <= Counts.Requests (counts cb')) \/
   generation cb < generation cb').

Lemma budget_later cb cb' g : wf cb -> wf cb' -> later cb cb' -> budget cb' g <= budget cb g.
Proof.
  intros Hwf Hwf' [Hm [(Hg & Hs & Hr)|Hg]].
  - unfold budget. rewrite Hg, Hs, Hm. repeat case_match; lia.
  - pose proof (budget_nonneg cb g Hwf). destruct Hwf' as ((Hr & _) & ? & _ & _ & _ & Hs').
    unfold is_uint32 in Hr. unfold budget in *.
    destruct (Z.ltb_spec g (generation cb')); [done|].
    destruct (Z.ltb_spec g (generation cb)); [lia|].
    destruct (Z.eqb_spec g (generation cb)); [lia|].
    rewrite Hm. repeat case_match; lia.
Qed.

Lemma later_refl cb : later cb cb.
Proof. split; [done|left]. split_and!; [done|done|lia]. Qed.

Lemma later_toNewGeneration now cb : later cb (toNewGeneration now cb).
Proof. split; [done|right]. rewrite toNewGeneration_generation. lia. Qed.

Lemma later_setState s now cb : later cb (setState s now cb).
Proof.
  unfold setState. case_decide; [apply later_refl|].
  split; [done|right]. rewrite toNewGeneration_generation. simpl. lia.
Qed.

Lemma later_currentState now cb : later cb (currentState now cb).
Proof.
  unfold currentState.
  repeat case_match; auto using later_refl, later_toNewGeneration, later_setState.
Qed.

Lemma later_with_counts c cb :
  Counts.Requests (counts cb) <= Counts.Requests c -> later cb (with_counts c cb).
Proof. intros. split; [done|left]. by split_and!. Qed.

Lemma later_trans cb1 cb2 cb3 : later cb1 cb2 -> later cb2 cb3 -> later cb1 cb3.
Proof.
  intros [Hm [(Hg & Hs & Hr)|Hg]] [Hm' [(Hg' & Hs' & Hr')|Hg']];
    (split; [congruence|]); [left; split_and!; [congruence|congruence|lia]|right; lia..].
Qed.

Lemma later_onSuccess s now cb : later cb (onSuccess s now cb).
Proof.
  unfold onSuccess. destruct s; [| |apply later_refl].
  - apply later_with_counts. simpl. lia.
  - set (cb' := with_counts _ cb). assert (later cb cb') by (apply later_with_counts; simpl; lia).
    case_match; [|done]. eapply later_trans; [done|apply later_setState].
Qed.

Lemma later_onFailure s now cb : later cb (onFailure s now cb).
Proof.
  unfold onFailure. destruct s; [|apply later_setState|apply later_refl].
  set (cb' := with_counts _ cb). assert (later cb cb') by (apply later_with_counts; simpl; lia).
  case_match; [|done]. eapply later_trans; [done|apply later_setState].
Qed.

Lemma later_afterRequest g ok now cb : later cb (afterRequest g ok now cb).
Proof.
  unfold afterRequest. pose proof (later_currentState now cb).
  case_decide; [|done]. destruct ok; eapply later_trans; eauto using later_onSuccess, later_onFailure.
Qed.

End Budget.

(** * The probes of a trace *)

Section Probes.
Import CircuitBreaker.
Implicit Types (cb : CircuitBreaker) (now : Time) (g : Z) (ev : event) (evs : list event).

Lemma admissions_cons ev evs cb :
  admissions (ev :: evs) cb = admissions [ev] cb ++ admissions evs (step ev cb).
Proof. simpl. by rewrite app_nil_r. Qed.

Lemma budget_with_counts_closed c cb g :
  state cb <> StateHalfOpen -> budget (with_counts c cb) g = budget cb g.
Proof. unfold budget. simpl. by destruct (state cb). Qed.

(** An admission takes its probe from the budget. *)
Lemma admit_budget now cb g :
  wf cb -> probes g (admissions [EvBefore now] cb) + budget (step (EvBefore now) cb) g
           <= budget cb g.
Proof.
  intros Hwf. pose proof (currentState_wf now cb Hwf) as Hwf'.
  pose proof (budget_later cb _ g Hwf Hwf' (later_currentState now cb)) as Hle.
  simpl. unfold beforeRequest. set (cb' := currentState now cb) in *.
  destruct Hwf' as ((Hr & _) & Hm & _ & _ & _ & Hs). unfold is_uint32 in Hr.
  destruct (state cb') eqn:Es; simpl.
  - rewrite probes_one, decide_False, budget_with_counts_closed by congruence. lia.
  - destruct (Z.leb_spec (maxRequests cb') (Counts.Requests (counts cb'))); simpl;
      [rewrite probes_nil; lia|].
    rewrite probes_one. unfold budget in *. simpl. rewrite Es in *.
    unfold wrap32. rewrite Z.mod_small by (unfold uint32_max in *; lia).
    case_decide; simplify_eq; [rewrite Z.ltb_irrefl, Z.eqb_refl in *; lia|].
    destruct (Z.ltb_spec g (generation cb')); [lia|].
    destruct (Z.eqb_spec g (generation cb')); [congruence|lia].
  - rewrite probes_nil. lia.
Qed.

Lemma step_budget ev cb g :
  wf cb -> probes g (admissions [ev] cb) + budget (step ev cb) g <= budget cb g.
Proof.
  intros Hwf. destruct ev as [now|g' ok now|now]; [by apply admit_budget| |]; simpl.
  - rewrite probes_nil.
    pose proof (budget_later cb _ g Hwf (afterRequest_wf g' ok now cb Hwf)
                  (later_afterRequest g' ok now cb)). lia.
  - rewrite probes_nil.
    pose proof (budget_later cb _ g Hwf (currentState_wf now cb Hwf)
                  (later_currentState now cb)). lia.
Qed.

(** The probes of generation [g] in a trace stay within the budget the
    breaker had for it at the start. *)
Lemma probes_budget evs cb g : wf cb -> probes g (admissions evs cb) <= budget cb g.
Proof.
  revert cb. induction evs as [|ev evs IH]; intros cb Hwf; [by apply budget_nonneg|].
  rewrite admissions_cons, probes_app.
  pose proof (IH _ (step_wf ev cb Hwf)). pose proof (step_budget ev cb g Hwf). lia.
Qed.

Lemma budget_le cb g : wf cb -> budget cb g <= maxRequests cb.
Proof.
  intros ((Hr & _) & ? & _). unfold is_uint32 in Hr. unfold budget.
  repeat case_match; lia.
Qed.

End Probes.

(** * A breaker of the manager *)

Section Manager.
Import CircuitBreaker CircuitBreakerManager.
Implicit Types (m : CircuitBreakerManager) (name : string) (evs : list event).

(** The probe budget of the breakers of a manager: the configured one, and
    one when none is configured. *)
Definition probe_budget (cfg : CircuitConfig) : Z :=
  if CircuitConfig.MaxRequests cfg =? 0 then 1 else CircuitConfig.MaxRequests cfg.

Lemma GetBreaker_maxRequests name now m :
  CircuitBreakerManager.wf m -> maxRequests (GetBreaker name now m).2 = probe_budget (cfg m).
Proof.
  intros Hwf. destruct (breakers m !! name) as [cb|] eqn:E.
  - rewrite (GetBreaker_existing _ _ _ _ E). simpl.
    destruct Hwf as [_ Hwf]. by destruct (Hwf _ _ E) as (_ & _ & -> & _).
  - by rewrite (GetBreaker_fresh _ _ _ E).
Qed.

(** C12: whatever the order in which the requests of concurrent clients
    reach the breaker of a service (admissions, completions and state
    queries, at any instants), the requests admitted as probes of one
    half-open generation are never more than the configured
    [MaxRequests] (one when it is zero). *)
Theorem half_open_probes_bounded m name now evs g :
  CircuitBreakerManager.wf m ->
  probes g (admissions evs (GetBreaker name now m).2) <= probe_budget (cfg m).
Proof.
  intros Hwf. rewrite <- (GetBreaker_maxRequests name now m Hwf).
  destruct (GetBreaker_keeps_wf name now m Hwf) as [_ Hw].
  destruct (Hw _ _ (GetBreaker_lookup name now m)) as [Hcb _].
  etrans; [by apply probes_budget|by apply budget_le].
Qed.

End Manager.

(** * A trace *)

Section Scenarios.
Import CircuitBreaker CircuitBreakerManager.

(** Five requests to the notifier that fail one after the other, then,
    after the timeout, seven clients at once. *)
Definition rush : list event :=
  concat (replicate 5 [EvBefore Second; EvAfter 1 false (2 * Second)]) ++
  replicate 7 (EvBefore (40 * Second)).

Lemma half_open_probes_bounded_witness :
  probes 3 (admissions rush
              (GetBreaker "notifier" 0 (NewCircuitBreakerManager default_Circuit)).2) <= 5.
Proof.
  apply (half_open_probes_bounded (NewCircuitBreakerManager default_Circuit) "notifier" 0 rush 3).
  apply NewCircuitBreakerManager_wf. unfold is_uint32, uint32_max. simpl. lia.
Defined.

(** The bound is reached: of the seven, five are admitted as probes of the
    third generation and two are turned away; the failures before them were
    admitted by the closed breaker. *)
Example rush_scenario :
  let cb := (GetBreaker "notifier" 0 (NewCircuitBreakerManager default_Circuit)).2 in
  admissions rush cb = replicate 5 (1, StateClosed) ++ replicate 5 (3, StateHalfOpen) /\
  probes 3 (admissions rush cb) = 5 /\
  state (run rush cb) = StateHalfOpen /\ generation (run rush cb) = 3.
Proof. by vm_compute. Qed.

End Scenarios.
