(* ===== verification/BreakerSpec.v ===== *)
(** * The breaker of the design, and the gateway's breaker as its implementation

    [Spec] is the state machine of the design for one service, as a client
    that sends its requests one after the other sees it: a window of
    requests and failures while closed, an instant until which requests are
    turned away while open, a run of successful probes while half-open.
    The breaker the manager makes (the library's object with generations,
    five counters and an expiry) implements it: [abs] maps its state to the
    machine's, and every request takes both to the same state with the same
    verdict ([call_refines], [calls_refine]). *)

From stdpp Require Import base strings list gmap.
From Stdlib Require Import ZArith Lia.
From S2P Require Import Prelude Config Context Breaker Circuit Traces.

#[local] Open Scope string_scope.
#[local] Open Scope list_scope.
#[local] Open Scope Z_scope.

Module Spec.

Inductive state :=
| Closed (requests failures : Z) (windowEnd : Time)
| Open (until : Time)
| HalfOpen (successes : Z).

#[export] Instance state_eq_dec : EqDecision state.
Proof. solve_decision. Defined.

(** The window has [requests] requests, [failures] of them failed: the
    threshold is reached and at least half failed. *)
Definition trips (cfg : CircuitConfig) (requests failures : Z) : bool :=
  (CircuitConfig.FailureThreshold cfg <=? requests) && (requests <=? 2 * failures).

(** What the passing of time has done when a request arrives at [now]: a
    window that is over is replaced by a new one, a pause that is over ends
    in the half-open state. *)
Definition arrive (cfg : CircuitConfig) (now : Time) (s : state) : state :=
  match s with
  | Closed _ _ windowEnd =>
      if windowEnd <? now then Closed 0 0 (now + CircuitConfig.Interval cfg) else s
  | Open until => if until <? now then HalfOpen 0 else s
  | HalfOpen _ => s
  end.

(** The end, at [now], of a request that was admitted in state [s]. *)
Definition complete (cfg : CircuitConfig) (now : Time) (ok : bool) (s : state) : state :=
  match s with
  | Closed requests failures windowEnd =>
      if windowEnd <? now then Closed 0 0 (now + CircuitConfig.Interval cfg)
      else if ok then Closed (requests + 1) failures windowEnd
      else if trips cfg (requests + 1) (failures + 1)
           then Open (now + CircuitConfig.Timeout cfg)
           else Closed (requests + 1) (failures + 1) windowEnd
  | HalfOpen successes =>
      if ok then
        if probe_budget cfg <=? successes + 1
        then Closed 0 0 (now + CircuitConfig.Interval cfg)
        else HalfOpen (successes + 1)
      else Open (now + CircuitConfig.Timeout cfg)
  | Open _ => s
  end.

(** A request that arrives at [tb] and, when admitted, ends at [ta]: the
    state after it and whether it was admitted. *)
Definition call (cfg : CircuitConfig) (tb ta : Time) (ok : bool) (s : state) : state * bool :=
  match arrive cfg tb s with
  | Open until => (Open until, false)
  | s' => (complete cfg ta ok s', true)
  end.

(** The requests of a sequential client: the state after them and the
    verdicts, in order. *)
Fixpoint run (cfg : CircuitConfig) (obs : list (Time * Time * bool)) (s : state)
    : state * list bool :=
  match obs with
  | [] => (s, [])
  | o :: obs' =>
      let '(s', admitted) := call cfg o.1.1 o.1.2 o.2 s in
      let '(s'', verdicts) := run cfg obs' s' in
      (s'', admitted :: verdicts)
  end.

End Spec.

(** ** The abstraction *)

(** The state of the design a breaker stands for. *)
Definition abs (cb : CircuitBreaker) : Spec.state :=
  match CircuitBreaker.state cb with
  | StateClosed =>
      Spec.Closed (Counts.Requests (CircuitBreaker.counts cb))
                  (Counts.TotalFailures (CircuitBreaker.counts cb))
                  (default 0 (CircuitBreaker.expiry cb))
  | StateOpen => Spec.Open (default 0 (CircuitBreaker.expiry cb))
  | StateHalfOpen => Spec.HalfOpen (Counts.ConsecutiveSuccesses (CircuitBreaker.counts cb))
  end.

(** What holds of a breaker between the requests of a sequential client:
    closed, the failures are among the requests counted; half-open, every
    probe so far succeeded and the budget is not used up. *)
Definition sequential (cb : CircuitBreaker) : Prop :=
  match CircuitBreaker.state cb with
  | StateClosed =>
      Counts.TotalFailures (CircuitBreaker.counts cb) <= Counts.Requests (CircuitBreaker.counts cb)
  | StateHalfOpen =>
      Counts.Requests (CircuitBreaker.counts cb) =
        Counts.ConsecutiveSuccesses (CircuitBreaker.counts cb) /\
      Counts.Requests (CircuitBreaker.counts cb) < CircuitBreaker.maxRequests cb
  | StateOpen => True
  end.

(** The breaker has the parameters the manager gives from [cfg]. *)
Definition configured (cfg : CircuitConfig) (cb : CircuitBreaker) : Prop :=
  CircuitBreaker.readyToTrip cb = ReadyToTrip cfg /\
  CircuitBreaker.interval cb = CircuitConfig.Interval cfg /\
  CircuitBreaker.timeout cb = CircuitConfig.Timeout cfg /\
  CircuitBreaker.maxRequests cb = probe_budget cfg.

(** The verdicts of the breaker for the requests of a sequential client. *)
Fixpoint verdicts (obs : list (Time * Time * bool)) (cb : CircuitBreaker) : list bool :=
  match obs with
  | [] => []
  | o :: obs' =>
      let '(cb', err) := call o.1.1 o.1.2 o.2 cb in is_none err :: verdicts obs' cb'
  end.

(** * The refinement *)

Section Refinement.
Import CircuitBreaker.
Context (cfg : CircuitConfig) (Interval_pos : 0 < CircuitConfig.Interval cfg).
Implicit Types (cb : CircuitBreaker) (tb ta now : Time) (ok : bool).

(** Nothing is pending at [now]: looking at the state changes nothing. *)
Definition settled now cb : Prop := currentState now cb = cb.

Lemma wf_closed_expiry cb :
  wf cb -> configured cfg cb -> state cb = StateClosed -> is_Some (expiry cb).
Proof.
  intros (_ & _ & _ & _ & _ & Hs) (_ & Hi & _) Hc. rewrite Hc in Hs.
  destruct (expiry cb); [done|]. destruct Hs as [Hs _]. specialize (Hs eq_refl). lia.
Qed.

Lemma currentState_settled now cb : wf cb -> settled now (currentState now cb).
Proof.
  intros Hwf. pose proof (currentState_wf now cb Hwf) as (_ & _ & _ & _ & _ & Hs').
  destruct Hwf as (_ & _ & Hi & _ & _ & Hs).
  apply currentState_not_expired.
  - destruct (state (currentState now cb)); [by left|by left|by right].
  - clear Hs'. destruct cb as [n mr iv tm rt st g c ex].
    unfold not_expired, currentState, setState, toNewGeneration in *. simpl in *.
    destruct st, ex as [e|]; simpl; try done; try (by destruct Hs);
      destruct (Z.ltb_spec e now); simpl; try lia; destruct (Z.eqb_spec iv 0); simpl; lia.
Qed.

Lemma call_currentState tb ta ok cb :
  wf cb -> call tb ta ok cb = call tb ta ok (currentState tb cb).
Proof.
  intros Hwf. pose proof (currentState_settled tb cb Hwf) as E. unfold settled in E.
  unfold call, beforeRequest. cbv zeta. by rewrite !E.
Qed.

(** Arrival: what looking at the state at [now] does is what the passing
    of time does in the design. *)
Lemma currentState_arrive now cb :
  wf cb -> configured cfg cb -> sequential cb ->
  abs (currentState now cb) = Spec.arrive cfg now (abs cb) /\
  sequential (currentState now cb) /\
  Counts.Requests (counts (currentState now cb)) <= Counts.Requests (counts cb).
Proof.
  intros Hwf Hc Hq. destruct cb as [n mr iv tm rt st g c ex].
  unfold wf, configured, sequential, abs, currentState, setState, toNewGeneration,
    is_uint32, Counts.wf in *; simpl in *.
  destruct Hwf as ((Hr & _) & Hm & _ & _ & _ & Hs), Hc as (_ & Hi & _ & _).
  unfold is_uint32 in Hr. destruct st, ex as [e|]; simpl in *;
    try (destruct (Z.ltb_spec e now); simpl); try (destruct (Z.eqb_spec iv 0); simpl);
    rewrite ?Hi; try (split_and!; first [done|lia]).
  all: try (destruct Hs as [Hs _]; specialize (Hs eq_refl); lia).
  all: by destruct Hs.
Qed.

(** What a request that was admitted leaves: the state of the design after
    its completion, a breaker that is again as between requests, and at
    most one request more in the counter. *)
Definition completes tb ta ok cb : Prop :=
  (call tb ta ok cb).2 = None /\
  abs (call tb ta ok cb).1 = Spec.complete cfg ta ok (abs cb) /\
  sequential (call tb ta ok cb).1 /\
  Counts.Requests (counts (call tb ta ok cb).1) <= Counts.Requests (counts cb) + 1.

Lemma complete_closed tb ta ok cb e :
  wf cb -> configured cfg cb -> sequential cb ->
  state cb = StateClosed -> expiry cb = Some e -> tb <= e -> tb <= ta ->
  Counts.Requests (counts cb) < uint32_max -> completes tb ta ok cb.
Proof.
  intros Hwf Hc Hq Hs He Hle Hta Hr.
  destruct cb as [n mr iv tm rt st g c ex]; simpl in *; subst st ex.
  destruct Hc as (Hrt & Hi & Ht & Hm); simpl in *. subst rt iv tm.
  destruct Hwf as (Hcw & _). simpl in *. pose proof Hcw as ((Hr0 & _) & _ & (Hf0 & _) & _).
  unfold sequential in Hq; simpl in Hq.
  unfold completes, call, beforeRequest, afterRequest, currentState; simpl.
  destruct (Z.ltb_spec e tb); [lia|]. simpl.
  unfold abs, sequential, Spec.complete, Spec.trips. simpl.
  destruct (Z.ltb_spec e ta); simpl.
  - rewrite decide_False by lia. simpl.
    destruct (Z.eqb_spec (CircuitConfig.Interval cfg) 0); [lia|]. simpl.
    split_and!; first [done|lia].
  - rewrite decide_True by done. destruct ok; simpl.
    { rewrite (wrap32_succ_small (Counts.Requests c)) by lia. split_and!; first [done|lia]. }
    rewrite (ReadyToTrip_onFailure cfg (Counts.onRequest c))
      by (simpl; auto using Counts_onRequest_wf; lia).
    simpl. rewrite (wrap32_succ_small (Counts.Requests c)) by lia.
    destruct (_ && _); simpl; [split_and!; first [done|lia]|].
    rewrite (wrap32_succ_small (Counts.TotalFailures c)),
      !(wrap32_succ_small (Counts.Requests c)) by lia.
    split_and!; first [done|lia].
Qed.

Lemma complete_halfopen tb ta ok cb :
  wf cb -> configured cfg cb -> sequential cb -> state cb = StateHalfOpen ->
  completes tb ta ok cb.
Proof.
  intros Hwf Hc Hq Hs.
  destruct cb as [n mr iv tm rt st g c ex]; simpl in *; subst st.
  destruct Hc as (Hrt & Hi & Ht & Hm); simpl in *. subst rt iv tm.
  destruct Hwf as (((Hr0 & _) & _) & Hmr & _). simpl in *.
  unfold sequential in Hq; simpl in Hq. destruct Hq as [Hq Hlt].
  unfold completes, call, beforeRequest, afterRequest, currentState; simpl.
  destruct (Z.leb_spec mr (Counts.Requests c)); [lia|]. simpl.
  rewrite decide_True by done. unfold abs, sequential, Spec.complete. simpl.
  destruct ok; simpl; [|split_and!; first [done|lia]].
  rewrite <- Hq, <- Hm, !(wrap32_succ_small (Counts.Requests c)) by lia.
  destruct (Z.leb_spec mr (Counts.Requests c + 1)); simpl.
  - destruct (Z.eqb_spec (CircuitConfig.Interval cfg) 0); [lia|]. simpl.
    split_and!; first [done|lia].
  - rewrite <- ?Hq, ?(wrap32_succ_small (Counts.Requests c)) by lia.
    split_and!; first [done|lia].
Qed.

(** A breaker that is open at [tb] turns the request away and does not
    change. *)
Lemma call_open tb ta ok cb e :
  state cb = StateOpen -> expiry cb = Some e -> tb <= e ->
  call tb ta ok cb = (cb, Some ErrOpenState).
Proof. intros Hs He Hle. unfold call. by rewrite (beforeRequest_open tb cb e). Qed.

Lemma settled_not_expired tb cb e :
  state cb <> StateHalfOpen -> expiry cb = Some e -> settled tb cb -> tb <= e.
Proof.
  unfold settled, currentState. intros Hs He E. rewrite He in E.
  destruct (Z.ltb_spec e tb); [|done]. apply (f_equal generation) in E.
  destruct (state cb) eqn:Es; [|done|].
  - rewrite toNewGeneration_generation in E. lia.
  - rewrite setState_changed in E by congruence. lia.
Qed.

Lemma configured_params cb cb' : same_params cb cb' -> configured cfg cb -> configured cfg cb'.
Proof. intros (_ & Hm & Hi & Ht & Hr) (? & ? & ? & ?). unfold configured. by rewrite <- Hm, <- Hi, <- Ht, <- Hr. Qed.

(** One request refines the design's: same state after it, same verdict. *)
Definition refines_call tb ta ok cb : Prop :=
  Spec.call cfg tb ta ok (abs cb) = (abs (call tb ta ok cb).1, is_none (call tb ta ok cb).2) /\
  sequential (call tb ta ok cb).1 /\
  Counts.Requests (counts (call tb ta ok cb).1) <= Counts.Requests (counts cb) + 1.

Lemma completes_refines tb ta ok cb :
  state cb <> StateOpen -> Spec.arrive cfg tb (abs cb) = abs cb ->
  completes tb ta ok cb -> refines_call tb ta ok cb.
Proof.
  intros Hs Ha (He & Hc & Hq & Hr). unfold refines_call, Spec.call.
  rewrite Ha, He, Hc. split; [|done]. unfold abs in *. by destruct (state cb).
Qed.

Lemma call_settled tb ta ok cb :
  wf cb -> configured cfg cb -> sequential cb -> settled tb cb -> tb <= ta ->
  Counts.Requests (counts cb) < uint32_max -> refines_call tb ta ok cb.
Proof.
  intros Hwf Hc Hq Hst Hle Hr.
  destruct (currentState_arrive tb cb Hwf Hc Hq) as (Ha & _). rewrite Hst in Ha.
  destruct (state cb) eqn:Es.
  - destruct (wf_closed_expiry cb Hwf Hc Es) as [e He].
    apply completes_refines; [congruence|done|].
    apply (complete_closed tb ta ok cb e); try done.
    apply (settled_not_expired tb cb e); [congruence|done..].
  - apply completes_refines; [congruence|done|]. by apply complete_halfopen.
  - destruct Hwf as (_ & _ & _ & _ & _ & Hs). rewrite Es in Hs. destruct Hs as [e He].
    assert (tb <= e) by (apply (settled_not_expired tb cb e); [congruence|done..]).
    unfold refines_call, Spec.call. rewrite <- Ha, (call_open tb ta ok cb e) by done.
    unfold abs, sequential. simpl. rewrite !Es. split_and!; [done|done|lia].
Qed.

Lemma call_refines tb ta ok cb :
  wf cb -> configured cfg cb -> sequential cb -> tb <= ta ->
  Counts.Requests (counts cb) < uint32_max -> refines_call tb ta ok cb.
Proof.
  intros Hwf Hc Hq Hle Hr.
  destruct (currentState_arrive tb cb Hwf Hc Hq) as (Ha & Hq' & Hr').
  pose proof (currentState_settled tb cb Hwf) as Hst.
  pose proof (currentState_wf tb cb Hwf) as Hwf'.
  pose proof (configured_params _ _ (currentState_params tb cb) Hc) as Hc'.
  destruct (call_settled tb ta ok _ Hwf' Hc' Hq' Hst Hle ltac:(lia)) as (Hs & Hq'' & Hr'').
  destruct (currentState_arrive tb _ Hwf' Hc' Hq') as (Ha' & _). rewrite Hst in Ha'.
  unfold refines_call. rewrite (call_currentState tb ta ok cb Hwf).
  split_and!; [|done|lia]. rewrite <- Hs. unfold Spec.call. by rewrite <- Ha', Ha.
Qed.

Lemma call_wf tb ta ok cb : wf cb -> wf (call tb ta ok cb).1.
Proof.
  intros Hwf. unfold call. pose proof (beforeRequest_wf tb cb Hwf).
  destruct (beforeRequest tb cb) as [cb' [g|e]]; simpl in *; auto using afterRequest_wf.
Qed.

Lemma call_params tb ta ok cb : same_params cb (call tb ta ok cb).1.
Proof.
  unfold call. pose proof (beforeRequest_params tb cb).
  destruct (beforeRequest tb cb) as [cb' [g|e]]; simpl in *; [|done].
  etrans; [done|apply afterRequest_params].
Qed.

(** The requests of a sequential client, as long as the 32-bit counter of
    requests cannot wrap: the breaker goes through the states of the design
    and gives its verdicts. *)
Lemma calls_refine obs cb :
  wf cb -> configured cfg cb -> sequential cb ->
  Forall (fun o => o.1.1 <= o.1.2) obs ->
  Counts.Requests (counts cb) + Z.of_nat (length obs) <= uint32_max ->
  Spec.run cfg obs (abs cb) = (abs (calls obs cb), verdicts obs cb).
Proof.
  intros Hwf Hc Hq Hobs. revert cb Hwf Hc Hq.
  induction Hobs as [|[[tb ta] ok] obs Ho _ IH]; intros cb Hwf Hc Hq Hlen; [done|].
  rewrite length_cons, Nat2Z.inj_succ in Hlen. simpl in Ho.
  destruct (call_refines tb ta ok cb Hwf Hc Hq Ho ltac:(lia)) as (Hs & Hq' & Hr).
  pose proof (call_wf tb ta ok cb Hwf) as Hwf'.
  pose proof (configured_params _ _ (call_params tb ta ok cb) Hc) as Hc'.
  rewrite calls_cons. cbn [Spec.run verdicts fst snd]. rewrite Hs.
  destruct (call tb ta ok cb) as [cb' err]; simpl in *.
  by rewrite (IH cb' Hwf' Hc' Hq' ltac:(lia)).
Qed.

End Refinement.

(** * A breaker of the manager *)

Section Manager.
Import CircuitBreaker CircuitBreakerManager.
Implicit Types (m : CircuitBreakerManager) (name : string) (obs : list (Time * Time * bool)).

Lemma GetBreaker_fresh_configured name now m :
  0 < CircuitConfig.Interval (cfg m) -> 0 < CircuitConfig.Timeout (cfg m) ->
  breakers m !! name = None ->
  let cb := (GetBreaker name now m).2 in
  configured (cfg m) cb /\ sequential cb /\
  abs cb = Spec.Closed 0 0 (now + CircuitConfig.Interval (cfg m)).
Proof.
  intros Hi Ht Hn. rewrite (GetBreaker_fresh _ _ _ Hn). simpl.
  unfold configured, sequential, abs, NewCircuitBreaker, toNewGeneration, settings. simpl.
  destruct (Z.leb_spec (CircuitConfig.Interval (cfg m)) 0); [lia|].
  destruct (Z.leb_spec (CircuitConfig.Timeout (cfg m)) 0); [lia|]. simpl.
  destruct (Z.eqb_spec (CircuitConfig.Interval (cfg m)) 0); [lia|]. simpl.
  split_and!; done.
Qed.

(** C11: the breaker the manager makes for a service implements the state
    machine of the design.  For the requests of a client that sends them
    one after the other (each admitted at [tb] and completed at [ta]), the
    breaker goes through the states of [Spec] from the closed state with an
    empty window, and turns away exactly the requests the design turns
    away. *)
Theorem breaker_refines m name now obs :
  CircuitBreakerManager.wf m ->
  0 < CircuitConfig.Interval (cfg m) -> 0 < CircuitConfig.Timeout (cfg m) ->
  breakers m !! name = None ->
  Forall (fun o => o.1.1 <= o.1.2) obs -> Z.of_nat (length obs) <= uint32_max ->
  let cb := (GetBreaker name now m).2 in
  Spec.run (cfg m) obs (Spec.Closed 0 0 (now + CircuitConfig.Interval (cfg m))) =
    (abs (calls obs cb), verdicts obs cb).
Proof.
  intros Hwf Hi Ht Hn Hobs Hlen cb.
  destruct (GetBreaker_fresh_configured name now m Hi Ht Hn) as (Hc & Hq & <-).
  destruct (GetBreaker_keeps_wf name now m Hwf) as [_ Hw].
  destruct (Hw _ _ (GetBreaker_lookup name now m)) as [Hcb _].
  apply calls_refine; try done. subst cb. rewrite (GetBreaker_fresh _ _ _ Hn).
  unfold NewCircuitBreaker, toNewGeneration. simpl. exact Hlen.
Qed.

End Manager.

(** * The scenarios of the design *)

Section Scenarios.
Import CircuitBreaker CircuitBreakerManager.

(** Five failures, a request during the pause, and after the pause five
    probes that succeed and one more failure. *)
Definition story : list (Time * Time * bool) :=
  [(1, 2, false); (3, 4, false); (5, 6, false); (7, 8, false); (9, 10, false)] ++
  [(11 * Second, 11 * Second, true)] ++
  replicate 5 (40 * Second, 41 * Second, true) ++
  [(42 * Second, 43 * Second, false)].

Lemma breaker_refines_witness :
  Spec.run default_Circuit story (Spec.Closed 0 0 (0 + 60 * Second)) =
    (abs (calls story (GetBreaker "notifier" 0 (NewCircuitBreakerManager default_Circuit)).2),
     verdicts story (GetBreaker "notifier" 0 (NewCircuitBreakerManager default_Circuit)).2).
Proof.
  apply (breaker_refines (NewCircuitBreakerManager default_Circuit) "notifier" 0 story).
  - apply NewCircuitBreakerManager_wf. unfold is_uint32, uint32_max. simpl. lia.
  - reflexivity.
  - reflexivity.
  - reflexivity.
  - unfold story. simpl. repeat (constructor; [vm_compute; discriminate|]). constructor.
  - unfold uint32_max. simpl. lia.
Defined.

(** Scenarios S3 and S4 of the design on the machine: the fifth failure
    opens the breaker, the request during the pause is turned away, the
    five probes after it close the breaker, and the failure that follows
    does not open it again. *)
Example spec_scenario :
  Spec.run default_Circuit story (Spec.Closed 0 0 (60 * Second)) =
    (Spec.Closed 1 1 (101 * Second),
     [true; true; true; true; true; false; true; true; true; true; true; true]).
Proof. by vm_compute. Qed.

End Scenarios.
