(* ===== verification/Environment.v ===== *)
(** * Loading the configuration

    Models [Load] and its helpers ([getEnv], [getEnvInt], [getEnvBool],
    [getEnvFloat], [getDuration], [getEnvSlice]) of config.go and
    [LoadRoutes] of routes.go (both carried in src/Dockerfile).  The
    process environment is a finite map from names to values, and
    [os.Getenv] gives the empty string for a name that is not set; the file
    system is a function from paths to contents.  [strconv.Atoi] and
    [strconv.ParseBool] are written out; parsing of floats, of durations
    and of YAML is left to the classes [Strconv] and [YAML]. *)

From stdpp Require Import base strings list gmap pretty.
From Stdlib Require Import ZArith QArith Lia Ascii.
From S2P Require Import Prelude Config Context.

#[local] Open Scope string_scope.
#[local] Open Scope list_scope.
#[local] Open Scope Z_scope.

(** ** The environment *)

Abbreviation Environ := (gmap string string).

(** [os.Getenv]. *)
Definition Getenv (env : Environ) (key : string) : string := default "" (env !! key).

(** [godotenv.Load]: the variables of the file [.env], when there is one,
    are set unless the environment has them already. *)
Definition godotenv_Load (dotenv : option Environ) (env : Environ) : Environ :=
  match dotenv with
  | Some vars => env ∪ vars
  | None => env
  end.

(** ** The conversions of [strconv] *)

Definition int_min : Z := -9223372036854775808.
Definition int_max : Z := 9223372036854775807.

Definition is_int (z : Z) : Prop := int_min <= z <= int_max.

Definition digit (a : ascii) : option Z :=
  let n := Z.of_nat (nat_of_ascii a) in
  if (48 <=? n) && (n <=? 57) then Some (n - 48) else None.

(** The number written by the decimal digits of [s], after [acc]. *)
Fixpoint digits (acc : Z) (s : string) : option Z :=
  match s with
  | EmptyString => Some acc
  | String a s' =>
      match digit a with
      | Some d => digits (10 * acc + d) s'
      | None => None
      end
  end.

(** [strconv.Atoi]: an optional sign and at least one decimal digit; a
    number that does not fit in an [int] is an error. *)
Definition Atoi (s : string) : option Z :=
  let '(neg, body) :=
    match s with
    | String "-" r => (true, r)
    | String "+" r => (false, r)
    | _ => (false, s)
    end in
  if (body =? "")%string then None
  else match digits 0 body with
       | Some v =>
           let v := if neg : bool then - v else v in
           if (int_min <=? v) && (v <=? int_max) then Some v else None
       | None => None
       end.

(** [strconv.ParseBool]. *)
Definition ParseBool (s : string) : option bool :=
  if bool_decide (s ∈ ["1"; "t"; "T"; "TRUE"; "true"; "True"]) then Some true
  else if bool_decide (s ∈ ["0"; "f"; "F"; "FALSE"; "false"; "False"]) then Some false
  else None.

(** [strconv.ParseFloat] and [time.ParseDuration]. *)
Class Strconv := {
  ParseFloat : string -> option Q;
  ParseDuration : string -> option Duration;
}.

Definition Minute : Duration := 60 * Second.
Definition Hour : Duration := 60 * Minute.

(** ** The helpers of [Load] *)

Section Load.
Context `{!Strconv}.

Definition getEnv (env : Environ) (key defaultValue : string) : string :=
  let value := Getenv env key in
  if negb (value =? "")%string then value else defaultValue.

Definition getEnvInt (env : Environ) (key : string) (defaultValue : Z) : Z :=
  let value := Getenv env key in
  if negb (value =? "")%string then
    match Atoi value with
    | Some intValue => intValue
    | None => defaultValue
    end
  else defaultValue.

Definition getEnvBool (env : Environ) (key : string) (defaultValue : bool) : bool :=
  let value := Getenv env key in
  if negb (value =? "")%string then
    match ParseBool value with
    | Some boolValue => boolValue
    | None => defaultValue
    end
  else defaultValue.

Definition getEnvFloat (env : Environ) (key : string) (defaultValue : Q) : Q :=
  let value := Getenv env key in
  if negb (value =? "")%string then
    match ParseFloat value with
    | Some floatValue => floatValue
    | None => defaultValue
    end
  else defaultValue.

Definition getDuration (env : Environ) (key : string) (defaultValue : Duration) : Duration :=
  let value := Getenv env key in
  if negb (value =? "")%string then
    match ParseDuration value with
    | Some duration => duration
    | None => defaultValue
    end
  else defaultValue.

Definition getEnvSlice (env : Environ) (key : string) (defaultValue : list string)
    : list string :=
  let value := Getenv env key in
  if negb (value =? "")%string then Split value ","%char else defaultValue.

(** ** [Load] *)

Definition Load (dotenv : option Environ) (environ : Environ) : Configuration * option error :=
  let env := godotenv_Load dotenv environ in
  (Configuration.mk
     (ServerConfig.mk
        (getEnv env "SERVER_PORT" "8080")
        (getEnv env "SERVER_HOST" "0.0.0.0")
        (getDuration env "SERVER_READ_TIMEOUT" (30 * Second))
        (getDuration env "SERVER_WRITE_TIMEOUT" (30 * Second))
        (getDuration env "SERVER_IDLE_TIMEOUT" (120 * Second))
        (getDuration env "SERVER_SHUTDOWN_TIMEOUT" (30 * Second))
        (getEnvSlice env "TRUSTED_PROXIES" ["127.0.0.1"]))
     (ServicesConfig.mk
        (ServiceConfig.mk
           (getEnv env "AUTH_SERVICE_URL" "http://localhost:5000")
           (getDuration env "AUTH_SERVICE_TIMEOUT" (30 * Second))
           (getEnvInt env "AUTH_MAX_IDLE_CONNS" 100)
           (getEnvInt env "AUTH_MAX_CONNS_PER_HOST" 100)
           (getEnv env "AUTH_HEALTH_PATH" "/api/health"))
        (ServiceConfig.mk
           (getEnv env "NOTIFIER_SERVICE_URL" "http://localhost:5001")
           (getDuration env "NOTIFIER_SERVICE_TIMEOUT" (30 * Second))
           (getEnvInt env "NOTIFIER_MAX_IDLE_CONNS" 100)
           (getEnvInt env "NOTIFIER_MAX_CONNS_PER_HOST" 100)
           (getEnv env "NOTIFIER_HEALTH_PATH" "/api/health")))
     (RedisConfig.mk
        (getEnv env "REDIS_HOST" "localhost")
        (getEnv env "REDIS_PORT" "6379")
        (getEnv env "REDIS_PASSWORD" "")
        (getEnvInt env "REDIS_DB" 0))
     (JWTConfig.mk
        (getEnv env "JWT_SECRET" "your-secret-key")
        (getDuration env "JWT_ACCESS_EXPIRES" (15 * Minute))
        (getDuration env "JWT_REFRESH_EXPIRES" (7 * 24 * Hour)))
     (RateLimitConfig.mk
        (getEnvBool env "RATE_LIMIT_ENABLED" true)
        (getEnvInt env "RATE_LIMIT_RPS" 100)
        (getEnvInt env "RATE_LIMIT_BURST" 200)
        (getDuration env "RATE_LIMIT_CLEANUP" (1 * Minute)))
     (CircuitConfig.mk
        (getEnvBool env "CIRCUIT_ENABLED" true)
        (wrap32 (getEnvInt env "CIRCUIT_MAX_REQUESTS" 5))
        (getDuration env "CIRCUIT_INTERVAL" (60 * Second))
        (getDuration env "CIRCUIT_TIMEOUT" (30 * Second))
        (wrap32 (getEnvInt env "CIRCUIT_FAILURE_THRESHOLD" 5)))
     (TracingConfig.mk
        (getEnvBool env "TRACING_ENABLED" true)
        (getEnv env "SERVICE_NAME" "minisource-gateway")
        (getEnv env "OTEL_EXPORTER_OTLP_ENDPOINT" "http://localhost:4318")
        (getEnvFloat env "TRACING_SAMPLE_RATE" 1))
     (LoggingConfig.mk
        (getEnv env "LOG_LEVEL" "info")
        (getEnv env "LOG_FORMAT" "json")),
   None).

End Load.

(** ** [LoadRoutes] *)

(** [yaml.Unmarshal] into a [RouteConfig]. *)
Class YAML := {
  Unmarshal : string -> RouteConfig + error;
}.

(** The file system: the contents of the file at a path, if it can be
    read. *)
Definition Files : Type := string -> option string.

(** [LoadRoutes] returns a table or an error, never both. *)
Definition LoadRoutes `{!YAML} (fs : Files) (path : string) : RouteConfig + error :=
  match fs path with
  | None => inl DefaultRoutes
  | Some data =>
      match Unmarshal data with
      | inr err => inr err
      | inl config => inl config
      end
  end.

(** ** Reading back an integer *)

Section Atoi.
#[local] Open Scope N_scope.

Lemma digit_pretty_N_char x : x < 10 -> digit (pretty_N_char x) = Some (Z.of_N x).
Proof.
  intros Hx.
  assert (x = 0 \/ x = 1 \/ x = 2 \/ x = 3 \/ x = 4 \/ x = 5 \/ x = 6 \/ x = 7 \/ x = 8 \/ x = 9)
    as H by lia.
  by repeat (destruct H as [->|H]; [done|]); subst.
Qed.

(** The digits of [x] are read as [x], after which reading goes on. *)
Lemma digits_pretty_N_go x s :
  digits 0 (pretty_N_go x s) = digits (Z.of_N x) s.
Proof.
  revert s. induction (N.lt_wf_0 x) as [x _ IH]; intros s.
  destruct (decide (x = 0)) as [->|Hx]; [done|].
  rewrite pretty_N_go_step by lia.
  rewrite IH by (apply N.div_lt; lia). cbn [digits].
  rewrite digit_pretty_N_char by (apply N.mod_lt; lia). f_equal.
  rewrite (N.div_mod x 10) at 3 by lia. lia.
Qed.

(** A number that is not zero is written with a digit first. *)
Lemma pretty_N_go_head x s :
  0 < x -> exists a r, pretty_N_go x s = String a r /\ is_Some (digit a).
Proof.
  revert s. induction (N.lt_wf_0 x) as [x _ IH]; intros s Hx.
  rewrite pretty_N_go_step by done.
  destruct (decide (x `div` 10 = 0)) as [->|Hd].
  - eexists _, _. split; [done|]. rewrite digit_pretty_N_char by (apply N.mod_lt; lia). eauto.
  - apply IH; [apply N.div_lt; lia | by apply N.neq_0_lt_0].
Qed.

End Atoi.

(** [Atoi] on a string that begins with a digit. *)
Lemma Atoi_unsigned a r :
  is_Some (digit a) ->
  Atoi (String a r) =
    match digits 0 (String a r) with
    | Some v => if (int_min <=? v) && (v <=? int_max) then Some v else None
    | None => None
    end.
Proof.
  intros [d Hd]. unfold Atoi.
  destruct a as [[] [] [] [] [] [] [] []]; try discriminate Hd; reflexivity.
Qed.

Lemma Atoi_pretty_pos p :
  Atoi (pretty (N.pos p)) =
    if (int_min <=? Z.pos p) && (Z.pos p <=? int_max) then Some (Z.pos p) else None.
Proof.
  unfold pretty, pretty_N. rewrite decide_False by done.
  destruct (pretty_N_go_head (N.pos p) "") as (a & r & E & Ha); [done|].
  rewrite E, (Atoi_unsigned _ _ Ha), <- E, digits_pretty_N_go. done.
Qed.

Lemma Atoi_itoa z : is_int z -> Atoi (itoa z) = Some z.
Proof.
  unfold is_int, itoa, pretty, pretty_Z. intros Hz. destruct z as [|p|p]; [done|..].
  - change (pretty p) with (pretty (N.pos p)). rewrite Atoi_pretty_pos.
    by rewrite andb_true_intro by (split; apply Z.leb_le; lia).
  - change (pretty p) with (pretty (N.pos p)).
    unfold pretty, pretty_N. rewrite decide_False by done.
    destruct (pretty_N_go_head (N.pos p) "") as (a & r & E & Ha); [done|].
    change ("-" +:+ ?s) with (String "-" s). unfold Atoi. rewrite E at 1. cbn [String.eqb].
    destruct (Ascii.eqb_spec a a); [|done].  
    rewrite digits_pretty_N_go. cbn [digits].
    by rewrite andb_true_intro by (split; apply Z.leb_le; lia).
Qed.

Lemma getEnvInt_itoa `{!Strconv} env key defaultValue n :
  is_int n -> env !! key = Some (itoa n) -> getEnvInt env key defaultValue = n.
Proof.
  intros Hn E. pose proof (Atoi_itoa n Hn) as Ha.
  unfold getEnvInt, Getenv. rewrite E. cbn [default from_option id].
  destruct (String.eqb_spec (itoa n) "") as [E0|_]; [by rewrite E0 in Ha|].
  cbn [negb]. by rewrite Ha.
Qed.

(** ** What [Load] gives *)

Section LoadLemmas.
Context `{!Strconv}.
Implicit Types (env : Environ) (key : string).

Lemma Getenv_unset env key : env !! key = None -> Getenv env key = "".
Proof. unfold Getenv. by intros ->. Qed.

Lemma getEnv_unset env key d : env !! key = None -> getEnv env key d = d.
Proof. unfold getEnv. intros E. by rewrite (Getenv_unset _ _ E). Qed.

Lemma getEnvInt_unset env key d : env !! key = None -> getEnvInt env key d = d.
Proof. unfold getEnvInt. intros E. by rewrite (Getenv_unset _ _ E). Qed.

(** A value that is not a decimal integer is passed over in silence. *)
Lemma getEnvInt_invalid env key d :
  Atoi (Getenv env key) = None -> getEnvInt env key d = d.
Proof. unfold getEnvInt. intros ->. by case_match. Qed.

Lemma getEnvBool_invalid env key d :
  ParseBool (Getenv env key) = None -> getEnvBool env key d = d.
Proof. unfold getEnvBool. intros ->. by case_match. Qed.

Lemma getDuration_invalid env key d :
  ParseDuration (Getenv env key) = None -> getDuration env key d = d.
Proof. unfold getDuration. intros ->. by case_match. Qed.

(** The environment of the process takes precedence over the file, also
    for a variable it sets to the empty string. *)
Lemma Getenv_godotenv vars env key :
  Getenv (godotenv_Load (Some vars) env) key =
    match env !! key with
    | Some v => v
    | None => Getenv vars key
    end.
Proof.
  unfold Getenv, godotenv_Load. rewrite lookup_union.
  destruct (env !! key), (vars !! key); done.
Qed.

End LoadLemmas.

Section LoadTheorems.
Context `{!Strconv}.

(** With nothing set in the environment and no [.env] file, [Load]
    gives the documented defaults, whatever the parsers of floats and
    durations do. *)
Theorem Load_defaults :
  let cfg := (Load None ∅).1 in
  Configuration.RateLimit cfg = default_RateLimit /\
  Configuration.Circuit cfg = default_Circuit /\
  Configuration.Services cfg = default_Services /\
  Configuration.Server cfg =
    ServerConfig.mk "8080" "0.0.0.0" (30 * Second) (30 * Second) (120 * Second) (30 * Second)
      ["127.0.0.1"] /\
  Configuration.Redis cfg = RedisConfig.mk "localhost" "6379" "" 0 /\
  Configuration.Tracing cfg =
    TracingConfig.mk true "minisource-gateway" "http://localhost:4318" 1 /\
  Configuration.Logging cfg = LoggingConfig.mk "info" "json".
Proof. by repeat split. Qed.

(** [Load] has no way to fail, and what it converts to [uint32] is one. *)
Lemma Load_ok dotenv environ : (Load dotenv environ).2 = None.
Proof. done. Qed.

Lemma Load_MaxRequests dotenv environ :
  is_uint32 (CircuitConfig.MaxRequests (Configuration.Circuit (Load dotenv environ).1)).
Proof. apply wrap32_range. Qed.

(** C36: the threshold of the breaker is the variable
    CIRCUIT_FAILURE_THRESHOLD when that holds a number between 0 and
    2^32 - 1 in decimal. *)
Theorem Load_threshold environ n :
  is_uint32 n -> environ !! "CIRCUIT_FAILURE_THRESHOLD" = Some (itoa n) ->
  CircuitConfig.FailureThreshold (Configuration.Circuit (Load None environ).1) = n.
Proof.
  intros Hn E. simpl. rewrite (getEnvInt_itoa _ _ _ n); [by apply wrap32_small| |done].
  unfold is_uint32, uint32_max, is_int, int_min, int_max in *. lia.
Qed.

End LoadTheorems.

(** ** [LoadRoutes] *)

Section Routes.
Context `{!YAML}.

(** [LoadRoutes] gives the default table when the file cannot be read,
    fails when it cannot be parsed, and gives the parsed table otherwise. *)
Lemma LoadRoutes_missing fs path : fs path = None -> LoadRoutes fs path = inl DefaultRoutes.
Proof. unfold LoadRoutes. by intros ->. Qed.

Lemma LoadRoutes_read fs path data :
  fs path = Some data -> LoadRoutes fs path = Unmarshal data.
Proof. unfold LoadRoutes. intros ->. by destruct (Unmarshal data). Qed.

End Routes.

(** ** Scenarios *)

Module EnvWorld.

(** The number at the head of a string and what follows it. *)
Fixpoint number (acc : Z) (s : string) : Z * string :=
  match s with
  | EmptyString => (acc, "")
  | String a s' =>
      match digit a with
      | Some d => number (10 * acc + d) s'
      | None => (acc, s)
      end
  end.

(** The durations the scenarios use: a whole number and one unit. *)
Definition simple_duration (s : string) : option Duration :=
  match s with
  | String a _ =>
      if digit a is Some _ then
        let '(n, unit) := number 0 s in
        if (unit =? "ms")%string then Some (n * 1000000)
        else if (unit =? "s")%string then Some (n * Second)
        else if (unit =? "m")%string then Some (n * Minute)
        else if (unit =? "h")%string then Some (n * Hour)
        else None
      else None
  | EmptyString => None
  end.

(** The floats they use: digits, with or without a fraction. *)
Definition simple_float (s : string) : option Q :=
  match Split s "."%char with
  | [i] => inject_Z <$> Atoi i
  | [i; f] =>
      match Atoi i, digits 0 f with
      | Some whole, Some part =>
          Some (Qred (inject_Z whole + inject_Z part / inject_Z (10 ^ Z.of_nat (String.length f))))
      | _, _ => None
      end
  | _ => None
  end.

#[export] Instance World_strconv : Strconv :=
  {| ParseFloat := simple_float; ParseDuration := simple_duration |}.

Definition production : Environ :=
  {[ "SERVER_PORT" := "9090"; "CIRCUIT_INTERVAL" := "2m"; "CIRCUIT_MAX_REQUESTS" := "3";
     "RATE_LIMIT_RPS" := "50"; "TRACING_SAMPLE_RATE" := "0.25"; "TRACING_ENABLED" := "F";
     "TRUSTED_PROXIES" := "10.0.0.1,10.0.0.2" ]}.

End EnvWorld.

Section Scenarios.
Import EnvWorld.

Lemma Load_threshold_witness :
  CircuitConfig.FailureThreshold
    (Configuration.Circuit (Load None {[ "CIRCUIT_FAILURE_THRESHOLD" := "10" ]}).1) = 10.
Proof. apply (Load_threshold _ 10); [by vm_compute | done]. Defined.

(** A deployment's variables are read. *)
Example load_scenario :
  let cfg := (Load None production).1 in
  ServerConfig.Port (Configuration.Server cfg) = "9090" /\
  ServerConfig.TrustedProxies (Configuration.Server cfg) = ["10.0.0.1"; "10.0.0.2"] /\
  Configuration.Circuit cfg = CircuitConfig.mk true 3 (120 * Second) (30 * Second) 5 /\
  RateLimitConfig.RequestsPerSec (Configuration.RateLimit cfg) = 50 /\
  Configuration.Tracing cfg =
    TracingConfig.mk false "minisource-gateway" "http://localhost:4318" (1 # 4).
Proof. by vm_compute. Qed.

(** Values that do not parse are passed over in silence, and integers
    outside 32 bits wrap: a threshold of -1 is the largest one, with which
    the breaker cannot trip, and 2^32 is 0. *)
Example load_wraps :
  let threshold v :=
    CircuitConfig.FailureThreshold
      (Configuration.Circuit (Load None {[ "CIRCUIT_FAILURE_THRESHOLD" := v ]}).1) in
  threshold "-1" = 4294967295 /\ threshold "4294967296" = 0 /\
  threshold "five" = 5 /\ threshold " 7" = 5 /\ threshold "1e3" = 5 /\
  threshold "99999999999999999999" = 5.
Proof. by vm_compute. Qed.

(** Nothing is required of the environment: without JWT_SECRET the
    gateway starts with the secret written in the code, and the services
    are looked for at ports 5000 and 5001. *)
Example load_without_secret :
  let r := Load None ∅ in
  r.2 = None /\
  JWTConfig.Secret (Configuration.JWT r.1) = "your-secret-key" /\
  ServiceConfig.URL (ServicesConfig.Auth (Configuration.Services r.1)) = "http://localhost:5000" /\
  ServiceConfig.URL (ServicesConfig.Notifier (Configuration.Services r.1))
    = "http://localhost:5001".
Proof. by vm_compute. Qed.

(** A variable the environment sets to the empty string hides the value
    of the [.env] file and the default is used; proxies are split at commas
    without trimming. *)
Example load_dotenv :
  let file : Environ := {[ "LOG_LEVEL" := "debug"; "SERVER_HOST" := "127.0.0.1" ]} in
  let cfg := (Load (Some file) {[ "LOG_LEVEL" := ""; "TRUSTED_PROXIES" := "10.0.0.1, 10.0.0.2" ]}).1 in
  LoggingConfig.Level (Configuration.Logging cfg) = "info" /\
  ServerConfig.Host (Configuration.Server cfg) = "127.0.0.1" /\
  ServerConfig.TrustedProxies (Configuration.Server cfg) = ["10.0.0.1"; " 10.0.0.2"].
Proof. by vm_compute. Qed.

End Scenarios.
