(* ===== verification/Frame.v ===== *)
(** * Frames: what a stage leaves alone

    The stages and handlers of the pipeline act on the world through the
    state of their own component and through the environment (the sink of
    the log, the source of request ids, the upstream services).  A property
    of the world that none of these disturbs is carried through a stage by
    whatever the rest of the chain does to it: [lifts].  Composed along
    [setupMiddleware] this gives the invariants of the whole pipeline, and
    what one component sees of a request that went through the others.
    The same frames show that a round of probes leaves the same health
    flags in whatever order it takes the services ([probe_all]). *)

From stdpp Require Import base strings list gmap.
From Stdlib Require Import ZArith QArith Lia.
From S2P Require Import Prelude Config Context Breaker Circuit RateLimit Common Auth Proxy.
From S2P Require Import Router Health Metrics Tracing Pipeline.

#[local] Open Scope string_scope.
#[local] Open Scope list_scope.
#[local] Open Scope Z_scope.

(** ** Carrying a property through a stage *)

Section Lifts.
Context {W : Type}.
Implicit Types (P : W -> Prop) (m : Stage W) (h next : Handler W).

(** The stage preserves [P] when the rest of the chain does. *)
Definition lifts P m : Prop := forall next, preserves P next -> preserves P (m next).

(** No change of the component [S] disturbs [P]. *)
Definition ignores (S : Type) `{!Lens W S} P : Prop :=
  forall (s : S) w, P w -> P (update s w).

Lemma lifts_chain P (ms : list (Stage W)) h :
  Forall (lifts P) ms -> preserves P h -> preserves P (chain ms h).
Proof. apply preserves_chain. Qed.

(** The same for a family of properties: what the rest of the chain
    preserves at every index, the stage preserves at every index.  A stage
    that moves the world from one property of the family to another and
    back is of this kind. *)
Definition preserves_all {A} (P : A -> W -> Prop) h : Prop := forall a, preserves (P a) h.

Definition lifts_all {A} (P : A -> W -> Prop) m : Prop :=
  forall next, preserves_all P next -> preserves_all P (m next).

Lemma lifts_pointwise {A} (P : A -> W -> Prop) m : (forall a, lifts (P a) m) -> lifts_all P m.
Proof. intros Hm next Hn a. by apply Hm. Qed.

Lemma lifts_all_chain {A} (P : A -> W -> Prop) (ms : list (Stage W)) h :
  Forall (lifts_all P) ms -> preserves_all P h -> preserves_all P (chain ms h).
Proof. induction 1; simpl; auto. Qed.

End Lifts.

(** Components that are apart: a change of [T] is not seen through the
    lens of [S]. *)
Class Apart (W S T : Type) `{!Lens W S} `{!Lens W T} : Prop :=
  apart : forall (t : T) (w : W), view (S := S) (update t w) = view w.

(** A component out of reach of the environment: logging, drawing a
    request id and calling a service leave its state alone. *)
Class Sheltered (W S : Type) `{!Lens W S} `{!UUIDSource W} `{!LogSink W} `{!Upstream W}
    : Prop := {
  view_emit : forall e (w : W), view (S := S) (emit e w) = view w;
  view_NewUUID : forall w : W, view (S := S) (NewUUID w).2 = view w;
  view_Do : forall svc req t (w : W), view (S := S) (Do svc req t w).2 = view w;
}.

(** ** The stages *)

Section Stages.
Context {W : Type}
  `{!Lens W CircuitBreakerManager} `{!Lens W RateLimiter} `{!Lens W ServiceProxy}
  `{!Lens W Registry} `{!Lens W Tracer}
  `{!Clock W} `{!UUIDSource W} `{!LogSink W} `{!Upstream W} `{!TokenParser}
  `{!TimeFormat} `{!Runtime W} `{!Framework}.
Implicit Types (P : W -> Prop) (next : Handler W) (c : Ctx) (w : W).

(** The environment does not disturb [P]. *)
Record steady P : Prop := {
  steady_emit : forall e w, P w -> P (emit e w);
  steady_NewUUID : forall w, P w -> P (NewUUID w).2;
  steady_Do : forall svc req t w, P w -> P (Do svc req t w).2;
}.

Lemma lifts_fiber_recover P : lifts P fiber_recover.
Proof.
  intros next Hn c w Hw. unfold fiber_recover. specialize (Hn c w Hw).
  destruct (next c w) as [[[] ?] ?]; done.
Qed.

Lemma lifts_RequestID P : steady P -> lifts P RequestID.
Proof.
  intros Hs next Hn c w Hw. unfold RequestID.
  pose proof (steady_NewUUID _ Hs w Hw). destruct (NewUUID w) as [id w'].
  destruct (_ =? _)%string; by apply Hn.
Qed.

Lemma lifts_SecurityHeaders P : lifts P SecurityHeaders.
Proof. intros next Hn c w Hw. by apply Hn. Qed.

Lemma lifts_CORS P origins : lifts P (CORS origins).
Proof. intros next Hn c w Hw. unfold CORS. repeat case_match; simpl; auto. Qed.

Lemma lifts_ContentType P : lifts P ContentType.
Proof. intros next Hn c w Hw. unfold ContentType. repeat case_match; simpl; auto. Qed.

Lemma lifts_TenantExtractor P : lifts P TenantExtractor.
Proof. intros next Hn c w Hw. unfold TenantExtractor. repeat case_match; simpl; auto. Qed.

Lemma lifts_Auth P cfg : lifts P (Auth cfg).
Proof. intros next Hn c w Hw. unfold Auth. repeat case_match; simpl; auto. Qed.

Lemma lifts_NewAuthMiddleware P secret routes : lifts P (NewAuthMiddleware secret routes).
Proof. apply lifts_Auth. Qed.

(** The logger writes to the sink only. *)
Lemma steady_Info P (logger : SimpleLogger) msg fields w :
  steady P -> P w -> P (SimpleLogger.Info logger msg fields w).
Proof.
  intros Hs Hw. unfold SimpleLogger.Info, SimpleLogger.log.
  case_match; [by apply (steady_emit _ Hs) | done].
Qed.

Lemma steady_Warn P (logger : SimpleLogger) msg fields w :
  steady P -> P w -> P (SimpleLogger.Warn logger msg fields w).
Proof.
  intros Hs Hw. unfold SimpleLogger.Warn, SimpleLogger.log.
  case_match; [by apply (steady_emit _ Hs) | done].
Qed.

Lemma steady_Error P (logger : SimpleLogger) msg fields w :
  steady P -> P w -> P (SimpleLogger.Error logger msg fields w).
Proof.
  intros Hs Hw. unfold SimpleLogger.Error, SimpleLogger.log.
  case_match; [by apply (steady_emit _ Hs) | done].
Qed.

Lemma steady_logFn P (logger : SimpleLogger) status msg fields w :
  steady P -> P w -> P (logFn logger status msg fields w).
Proof.
  intros Hs Hw. unfold logFn.
  repeat case_match; simpl;
    first [by apply steady_Error | by apply steady_Warn | by apply steady_Info].
Qed.

Lemma lifts_RequestLogger P (logger : SimpleLogger) : steady P -> lifts P (RequestLogger logger).
Proof.
  intros Hs next Hn c w Hw. unfold RequestLogger. specialize (Hn c w Hw).
  destruct (next c w) as [[[] ?] ?]; simpl in *; [by apply steady_logFn | done].
Qed.

Lemma steady_ErrorLogger P (logger : SimpleLogger) c err w :
  steady P -> P w -> P (ErrorLogger logger c err w).2.
Proof.
  intros Hs Hw. unfold ErrorLogger. simpl. by apply steady_Error.
Qed.

(** The stages with a state of their own. *)
Lemma lifts_Metrics P : ignores Registry P -> lifts P Metrics.
Proof.
  intros Hi next Hn c w Hw. unfold Metrics.
  specialize (Hn c _ (Hi (Registry.Add activeConnections [] 1 (view w)) w Hw)).
  destruct (next c _) as [[[] ?] ?]; simpl in *; auto.
Qed.

Lemma lifts_Tracing P name : ignores Tracer P -> lifts P (Tracing name).
Proof.
  intros Hi next Hn c w Hw. unfold Tracing. destruct (started c (view w)) as [span t].
  specialize (Hn (traced (Tracer.propagators t) span (Tracer.context_of span t) c) _ (Hi t w Hw)).
  unfold closing. destruct (next _ _) as [[[] ?] ?]; simpl in *; auto.
Qed.

Lemma lifts_RateLimiter P : ignores RateLimiter P -> lifts P RateLimiter.Middleware.
Proof.
  intros Hi next Hn c w Hw. unfold RateLimiter.Middleware.
  repeat case_match; simpl; auto.
Qed.

Lemma lifts_Execute P name : ignores CircuitBreakerManager P ->
  lifts P (CircuitBreakerManager.Execute name).
Proof.
  intros Hi next Hn c w Hw. unfold CircuitBreakerManager.Execute.
  destruct (CircuitBreakerManager.GetBreaker _ _ _) as [m1 cb].
  destruct (CircuitBreaker.beforeRequest _ _) as [cb1 [g|err]]; [|by apply Hi].
  unfold CircuitBreakerManager.completed.
  match goal with |- context [next c ?w1] =>
    pose proof (Hn c w1 (Hi _ w Hw)) as Hw1; destruct (next c w1) as [[[] ?] ?] end;
    by apply Hi.
Qed.

Lemma lifts_Breaker P :
  ignores CircuitBreakerManager P -> lifts P CircuitBreakerManager.Middleware.
Proof.
  intros Hi next Hn c w Hw. unfold CircuitBreakerManager.Middleware.
  repeat case_match; try by apply Hn.
  all: unfold CircuitBreakerManager.guarded;
    pose proof (lifts_Execute P s Hi next Hn c w Hw) as He;
    destruct (CircuitBreakerManager.Execute s next c w) as [[[] ?] ?]; done.
Qed.

(** ** The handlers below the stages *)

Lemma preserves_Forward P service stripPrefix :
  steady P -> preserves P (ServiceProxy.Forward service stripPrefix).
Proof.
  intros Hs c w Hw. unfold ServiceProxy.Forward. repeat case_match; simpl; try done.
  all: match goal with E : Do ?svc ?req ?t ?w0 = _ |- _ =>
         pose proof (steady_Do _ Hs svc req t w0 Hw) as Hd; by rewrite E in Hd end.
Qed.

Lemma preserves_routed P routes : steady P -> preserves P (routed routes).
Proof.
  intros Hs c w Hw. unfold routed, createProxyHandler, catch_all.
  case_match; [by apply preserves_Forward | done].
Qed.

Lemma preserves_circuit_breakers P :
  ignores CircuitBreakerManager P -> preserves P circuit_breakers.
Proof.
  intros Hi c w Hw. unfold circuit_breakers.
  destruct (CircuitBreakerManager.GetAllStates _ _) as [m states]. by apply Hi.
Qed.

(** The endpoints of the health handler only read. *)
Lemma preserves_health P startTime e :
  e ∈ HealthHandler.RegisterRoutes (W := W) startTime -> preserves P e.2.
Proof.
  unfold HealthHandler.RegisterRoutes. rewrite !elem_of_cons, elem_of_nil.
  intros [->|[->|[->|[->|[]]]]] c w Hw; simpl; try done.
  unfold HealthHandler.Ready. by case_match.
Qed.

(** ** The background tasks *)

Lemma steady_HealthCheck P name w :
  steady P -> ignores ServiceProxy P -> P w -> P (ServiceProxy.HealthCheck name w).2.
Proof.
  intros Hs Hi Hw. unfold ServiceProxy.HealthCheck. case_match; [|done].
  match goal with |- context [Do ?svc ?req ?t w] =>
    pose proof (steady_Do _ Hs svc req t w Hw) as Hd; destruct (Do svc req t w) as [[?|?] ?] end;
    by apply Hi.
Qed.

Lemma steady_health_round P w :
  steady P -> ignores ServiceProxy P -> P w -> P (ServiceProxy.health_round w).
Proof.
  intros Hs Hi. unfold ServiceProxy.health_round.
  generalize (elements (dom (ServiceProxy.services (view w)))). intros names. revert w.
  induction names as [|name names IH]; intros w Hw; [done|].
  simpl. by apply IH, steady_HealthCheck.
Qed.

Section App.
Context (metricsHandler : Handler W) {A : Type} (P : A -> W -> Prop).
Hypothesis metrics_preserves : preserves_all P metricsHandler.
Hypothesis breakers_preserves : preserves_all P circuit_breakers.
Hypothesis P_steady : forall a, steady (P a).

Lemma preserves_endpoint startTime method path h :
  find_endpoint metricsHandler startTime method path = Some h -> preserves_all P h.
Proof.
  unfold find_endpoint, endpoints. intros Hf a.
  destruct (find _ _) as [e|] eqn:E; [|done]. injection Hf as <-.
  apply find_some in E as [Hin _]. apply list_elem_of_In in Hin.
  apply elem_of_app in Hin as [Hin|Hin]; [by eapply preserves_health|].
  apply elem_of_cons in Hin as [->|Hin]; [apply metrics_preserves|].
  apply list_elem_of_singleton in Hin as ->. apply breakers_preserves.
Qed.

Lemma preserves_app_handler startTime routes :
  preserves_all P (app_handler metricsHandler startTime routes).
Proof.
  intros a c w Hw. unfold app_handler.
  destruct (find_endpoint _ _ _ _) as [h|] eqn:E.
  - by apply (preserves_endpoint _ _ _ _ E).
  - by apply preserves_routed.
Qed.

(** The stages between the metrics stage and the handlers. *)
Definition inner (jwtSecret : string) (routes : RouteConfig) (logger : SimpleLogger)
    : list (Stage W) :=
  [RequestLogger logger; ContentType; TenantExtractor; NewAuthMiddleware jwtSecret routes;
   RateLimiter.Middleware; CircuitBreakerManager.Middleware].

(** The stages before it. *)
Definition outer (tracingEnabled : bool) (tracingName : string) : list (Stage W) :=
  [fiber_recover; RequestID; SecurityHeaders; CORS ["*"]] ++
  (if tracingEnabled then [Tracing tracingName] else []).

Lemma pipeline_split tracingEnabled tracingName jwtSecret routes logger startTime :
  pipeline metricsHandler tracingEnabled tracingName jwtSecret routes logger startTime =
  chain (outer tracingEnabled tracingName)
    (Metrics (chain (inner jwtSecret routes logger)
                (app_handler metricsHandler startTime routes))).
Proof.
  unfold pipeline, setupMiddleware, front, outer, inner.
  rewrite <- !app_assoc, !chain_app. by destruct tracingEnabled.
Qed.

Lemma preserves_inner jwtSecret routes logger startTime :
  lifts_all P RateLimiter.Middleware -> lifts_all P CircuitBreakerManager.Middleware ->
  preserves_all P (chain (inner jwtSecret routes logger)
                     (app_handler metricsHandler startTime routes)).
Proof.
  intros Hr Hb. apply lifts_all_chain; [|apply preserves_app_handler].
  repeat constructor; try done; apply lifts_pointwise; intros a;
    auto using lifts_RequestLogger, lifts_ContentType, lifts_TenantExtractor,
      lifts_NewAuthMiddleware.
Qed.

Lemma lifts_outer tracingEnabled tracingName :
  lifts_all P (Tracing tracingName) -> Forall (lifts_all P) (outer tracingEnabled tracingName).
Proof.
  intros Ht. apply Forall_app. split.
  - repeat constructor; apply lifts_pointwise; intros a;
      auto using lifts_fiber_recover, lifts_RequestID, lifts_SecurityHeaders, lifts_CORS.
  - destruct tracingEnabled; repeat constructor; done.
Qed.

(** The whole pipeline carries [P] when the four stages with a state of
    their own do. *)
Lemma preserves_pipeline tracingEnabled tracingName jwtSecret routes logger startTime :
  lifts_all P (Tracing tracingName) -> lifts_all P Metrics ->
  lifts_all P RateLimiter.Middleware -> lifts_all P CircuitBreakerManager.Middleware ->
  preserves_all P (pipeline metricsHandler tracingEnabled tracingName jwtSecret routes logger
                     startTime).
Proof.
  intros Ht Hm Hr Hb. rewrite pipeline_split.
  apply lifts_all_chain; [by apply lifts_outer|]. by apply Hm, preserves_inner.
Qed.

(** And so does the application, with its error handler. *)
Lemma preserves_serve tracingEnabled tracingName jwtSecret routes logger startTime c w r a :
  lifts_all P (Tracing tracingName) -> lifts_all P Metrics ->
  lifts_all P RateLimiter.Middleware -> lifts_all P CircuitBreakerManager.Middleware ->
  P a w ->
  serve metricsHandler tracingEnabled tracingName jwtSecret routes logger startTime c w
    = Some r ->
  P a r.2.
Proof.
  intros Ht Hm Hr Hb Hw. unfold serve.
  pose proof (preserves_pipeline tracingEnabled tracingName jwtSecret routes logger startTime
                Ht Hm Hr Hb a c w Hw) as Hp.
  destruct (pipeline _ _ _ _ _ _ _ c w) as [[[[err|]|] c'] w']; intros [= <-];
    [by apply steady_ErrorLogger | done].
Qed.

End App.

End Stages.

(** ** Properties of one component's state *)

Section Views.
Context {W S : Type} `{!Lens W S} `{!UUIDSource W} `{!LogSink W} `{!Upstream W}.

Lemma steady_view `{!Sheltered W S} (Q : S -> Prop) : steady (fun w => Q (view w)).
Proof. split; intros; by rewrite ?view_emit, ?view_NewUUID, ?view_Do. Qed.

Lemma ignores_view {T : Type} `{!Lens W T} `{!Apart W S T} (Q : S -> Prop) :
  ignores T (fun w : W => Q (view w)).
Proof. intros t w Hw. by rewrite apart. Qed.

End Views.

(** * The round of probes, in any order *)

Section Prober.
Context {W : Type} `{!Lens W ServiceProxy} `{!Clock W} `{!UUIDSource W} `{!LogSink W}
  `{!Upstream W} `{!Sheltered W ServiceProxy}.
Import ServiceProxy.
Implicit Types (w : W) (names : list string) (name : string).

(** The round of probes in the order [names]: the source ranges over a Go
    map, whose order is not specified. *)
Definition probe_all names w : W := foldl (fun w name => (HealthCheck name w).2) w names.

(** The services answer the same request the same way whenever it
    comes. *)
Definition answering (answers : string -> UpstreamRequest -> UpstreamResponse + string) w
    : Prop :=
  forall svc req timeout, (Do svc req timeout w).1 = answers (ServiceClient.Name svc) req.

(** What a probe of [svc] finds. *)
Definition probed answers (svc : ServiceClient) : bool :=
  verdict (answers (ServiceClient.Name svc) (health_request svc)).

Lemma health_round_probe_all w :
  health_round w = probe_all (elements (dom (services (view w)))) w.
Proof. done. Qed.

Section Answers.
Context (answers : string -> UpstreamRequest -> UpstreamResponse + string).
Context (Hs : steady (answering answers)) (Hi : ignores ServiceProxy (answering answers)).

(** The registry after one probe: the flag of the service is what the probe
    found, at some instant. *)
Lemma HealthCheck_services name w name' :
  answering answers w ->
  exists now,
    services (view (HealthCheck name w).2) !! name' =
      if decide (name = name')
      then (fun svc => ServiceClient.with_health (probed answers svc) now svc)
             <$> services (view w) !! name'
      else services (view w) !! name'.
Proof.
  intros Ha. rewrite HealthCheck_cases. unfold GetService.
  destruct (services (view w) !! name) as [svc|] eqn:E.
  - pose proof (Ha svc (health_request svc) (Some (5 * Second))) as Hr.
    pose proof (view_Do (S := ServiceProxy) svc (health_request svc) (Some (5 * Second)) w) as Hv.
    destruct (Do _ _ _ _) as [r w']. simpl in *. subst r. exists (Now w').
    rewrite view_update, setServiceHealth_lookup, Hv.
    case_decide as Hn; [subst name'; by rewrite E|done].
  - exists 0. case_decide as Hn; [subst name'; by rewrite E|done].
Qed.

(** The flags after the probes of [names], in any order: those of the
    services probed are what the probes found, the others are as before. *)
Lemma probe_all_flags names : forall w name,
  answering answers w ->
  GetServicesHealth (view (probe_all names w)) !! name =
    (fun svc => if decide (name ∈ names) then probed answers svc
                else ServiceClient.Healthy svc) <$> services (view w) !! name.
Proof.
  induction names as [|n names IH]; intros w name Ha.
  { unfold GetServicesHealth. simpl. by rewrite lookup_fmap. }
  change (probe_all (n :: names) w) with (probe_all names (HealthCheck n w).2).
  rewrite IH by (by apply steady_HealthCheck).
  destruct (HealthCheck_services n w name Ha) as [now ->].
  destruct (decide (n = name)) as [->|Hne].
  - rewrite <- option_fmap_compose. apply option_fmap_ext. intros svc. simpl.
    rewrite (decide_True (P := name ∈ name :: names)) by set_solver. by case_decide.
  - apply option_fmap_ext. intros svc. destruct (decide (name ∈ names)) as [Hin|Hin].
    + by rewrite decide_True by (rewrite elem_of_cons; by right).
    + rewrite decide_False; [done|]. rewrite elem_of_cons. by intros [?|?].
Qed.

End Answers.

(** C21: the order of the probes of a round does not matter: when the
    services answer a probe the same way whenever it comes, the flags after
    a round in any order of the services are those after the round in the
    order of the model, and each is what the probe of its service found. *)
Theorem probe_all_any_order answers names w :
  steady (answering answers) -> ignores ServiceProxy (answering answers) ->
  answering answers w -> names ≡ₚ elements (dom (services (view w))) ->
  GetServicesHealth (view (probe_all names w)) = GetServicesHealth (view (health_round w)) /\
  GetServicesHealth (view (health_round w)) = probed answers <$> services (view w).
Proof.
  intros Hs Hi Ha Hp.
  assert (forall names', names' ≡ₚ elements (dom (services (view w))) ->
    GetServicesHealth (view (probe_all names' w)) = probed answers <$> services (view w)) as H.
  { intros names' Hp'. apply map_eq. intros name.
    rewrite (probe_all_flags answers Hs Hi) by done. rewrite lookup_fmap.
    destruct (services (view w) !! name) as [svc|] eqn:E; [simpl|done].
    rewrite decide_True; [done|]. rewrite Hp', elem_of_elements, elem_of_dom. eauto. }
  rewrite health_round_probe_all, !H; done.
Qed.

End Prober.

(** * Invariants of the application

    The components are apart from one another and out of reach of the
    environment; the handler of [/metrics], which belongs to the metrics
    library, is assumed to leave the component at hand alone. *)

Section Application.
Context {W : Type}
  `{!Lens W CircuitBreakerManager} `{!Lens W RateLimiter} `{!Lens W ServiceProxy}
  `{!Lens W Registry} `{!Lens W Tracer}
  `{!Clock W} `{!UUIDSource W} `{!LogSink W} `{!Upstream W} `{!TokenParser}
  `{!TimeFormat} `{!Runtime W} `{!Framework}.
Context (metricsHandler : Handler W).
Implicit Types (c : Ctx) (w : W) (logger : SimpleLogger) (routes : RouteConfig).

(** *** The manager of the breakers *)

Section Manager.
Context `{!Sheltered W CircuitBreakerManager}
  `{!Apart W CircuitBreakerManager RateLimiter} `{!Apart W CircuitBreakerManager Registry}
  `{!Apart W CircuitBreakerManager Tracer}.

Definition manager_wf w : Prop := CircuitBreakerManager.wf (view w).

Lemma circuit_breakers_wf : preserves manager_wf circuit_breakers.
Proof.
  intros c w Hw. unfold circuit_breakers, manager_wf.
  pose proof (GetAllStates_wf (Now w) _ Hw) as Hg.
  destruct (CircuitBreakerManager.GetAllStates _ _) as [m states]. simpl.
  by rewrite view_update.
Qed.

(** Every request the application serves leaves the manager of the
    breakers well formed: no stage, endpoint or route handler of the
    pipeline breaks a breaker or changes its parameters. *)
Lemma serve_keeps_wf tracingEnabled tracingName jwtSecret routes logger startTime c w r :
  preserves manager_wf metricsHandler -> manager_wf w ->
  serve metricsHandler tracingEnabled tracingName jwtSecret routes logger startTime c w
    = Some r ->
  manager_wf r.2.
Proof.
  intros Hm Hw.
  apply (preserves_serve metricsHandler (fun _ : unit => manager_wf)); try done;
    try (apply lifts_pointwise; intros _).
  - by intros _.
  - intros _. apply circuit_breakers_wf.
  - intros _. apply (steady_view CircuitBreakerManager.wf).
  - apply lifts_Tracing, (ignores_view CircuitBreakerManager.wf).
  - apply lifts_Metrics, (ignores_view CircuitBreakerManager.wf).
  - apply lifts_RateLimiter, (ignores_view CircuitBreakerManager.wf).
  - intros next. apply Middleware_keeps_wf.
Qed.

End Manager.

(** *** The registry of metrics *)

Section Metrics.
Context `{!Sheltered W Registry}
  `{!Apart W Registry RateLimiter} `{!Apart W Registry CircuitBreakerManager}
  `{!Apart W Registry Tracer}.
Import Registry.

Lemma quiet_preserves (h : Handler W) (Q : Registry -> Prop) :
  quiet h -> preserves (fun w => Q (view w)) h.
Proof. intros Hq c w Hw. by rewrite Hq. Qed.

(** The stages below the metrics stage leave the registry alone, as the
    theorems on the stage assume of the rest of the chain. *)
Lemma continuation_quiet jwtSecret routes logger startTime :
  quiet metricsHandler ->
  quiet (chain (inner jwtSecret routes logger) (app_handler metricsHandler startTime routes)).
Proof.
  intros Hq c w.
  apply (preserves_inner metricsHandler (fun r w => view w = r)); try done;
    try (apply lifts_pointwise; intros r).
  - intros r. by apply (quiet_preserves _ (fun r' => r' = r)).
  - intros r. apply preserves_circuit_breakers, (ignores_view (fun r' => r' = r)).
  - intros r. apply (steady_view (fun r' => r' = r)).
  - apply lifts_RateLimiter, (ignores_view (fun r' => r' = r)).
  - apply lifts_Breaker, (ignores_view (fun r' => r' = r)).
Qed.

(** A counter the metrics stage never raises is carried through it. *)
Lemma lifts_Metrics_uncounted name labels n :
  (forall svc out c, counted name labels svc out c = 0) ->
  lifts (fun w => counter name labels (view w) = n) Metrics.
Proof.
  intros Hz next Hn c w Hw. unfold Metrics.
  match goal with |- context [next c ?w1] =>
    assert (counter name labels (view w1) = n) as Hw1 by (by rewrite view_update);
    specialize (Hn c w1 Hw1); destruct (next c w1) as [[[err|msg] c'] w'] end;
    simpl in *; [|done].
  rewrite view_update, counter_record, Hn.
  pose proof (Hz (service_label c) (Return err) c') as Hc. simpl in Hc. lia.
Qed.

(** No request the application serves is counted as an upstream error
    of the kind [upstream_unavailable]. *)
Theorem serve_upstream_unavailable
    tracingEnabled tracingName jwtSecret routes logger startTime svc c w r :
  quiet metricsHandler ->
  serve metricsHandler tracingEnabled tracingName jwtSecret routes logger startTime c w
    = Some r ->
  counter upstreamErrors [svc; "upstream_unavailable"] (view r.2) =
  counter upstreamErrors [svc; "upstream_unavailable"] (view w).
Proof.
  intros Hq.
  set (P := fun n (w : W) => counter upstreamErrors [svc; "upstream_unavailable"] (view w) = n).
  apply (preserves_serve metricsHandler P); try done;
    try (apply lifts_pointwise; intros n); unfold P.
  - intros n. by apply (quiet_preserves _ (fun r => counter _ _ r = n)).
  - intros n. apply preserves_circuit_breakers, (ignores_view (fun r => counter _ _ r = n)).
  - intros n. apply (steady_view (fun r => counter _ _ r = n)).
  - apply lifts_Tracing, (ignores_view (fun r => counter _ _ r = n)).
  - apply lifts_Metrics_uncounted. intros s [] c0; simpl; [|done].
    rewrite ?decide_False by (first [intros [=] | intros [[=] _]]). lia.
  - apply lifts_RateLimiter, (ignores_view (fun r => counter _ _ r = n)).
  - apply lifts_Breaker, (ignores_view (fun r => counter _ _ r = n)).
Qed.

(** The gauge of active connections is raised and lowered around the
    rest of the chain: whatever bounds it from below is carried over. *)
Lemma lifts_Metrics_gauge :
  lifts_all (fun n w => n <= gauge activeConnections [] (view w)) Metrics.
Proof.
  intros next Hn n c w Hw. unfold Metrics.
  match goal with |- context [next c ?w1] =>
    assert (n + 1 <= gauge activeConnections [] (view w1)) as Hw1
      by (rewrite view_update, gauge_Add, decide_True by done; lia);
    specialize (Hn (n + 1) c w1 Hw1); destruct (next c w1) as [[[err|msg] c'] w'] end;
    simpl in *; [|lia].
  rewrite view_update, gauge_record, decide_True by done. lia.
Qed.

(** The gauge of active connections never falls: after any request
    the application serves it is at least what it was before, so it is
    never negative and a connection counted by mistake is never given
    back. *)
Theorem serve_connections_monotone
    tracingEnabled tracingName jwtSecret routes logger startTime c w r :
  quiet metricsHandler ->
  serve metricsHandler tracingEnabled tracingName jwtSecret routes logger startTime c w
    = Some r ->
  gauge activeConnections [] (view w) <= gauge activeConnections [] (view r.2).
Proof.
  intros Hq.
  set (P := fun n (w : W) => n <= gauge activeConnections [] (view w)).
  apply (preserves_serve metricsHandler P); try done; try apply lifts_Metrics_gauge;
    try (apply lifts_pointwise; intros n); unfold P; try lia.
  - intros n. by apply (quiet_preserves _ (fun r => n <= gauge _ _ r)).
  - intros n. apply preserves_circuit_breakers, (ignores_view (fun r => n <= gauge _ _ r)).
  - intros n. apply (steady_view (fun r => n <= gauge _ _ r)).
  - apply lifts_Tracing, (ignores_view (fun r => n <= gauge _ _ r)).
  - apply lifts_RateLimiter, (ignores_view (fun r => n <= gauge _ _ r)).
  - apply lifts_Breaker, (ignores_view (fun r => n <= gauge _ _ r)).
Qed.

End Metrics.

(** *** The tracer *)

Section Spans.
Import Tracer.
Implicit Types (t : Tracer) (id : string).

Lemma lookup_on_span_ne id id' f t :
  id <> id' -> spans (on_span id' f t) !! id = spans t !! id.
Proof. intros Hne. unfold on_span. simpl. by rewrite lookup_alter_ne. Qed.

Lemma started_other c t id :
  id <> (started c t).1 -> spans (started c t).2 !! id = spans t !! id.
Proof.
  unfold started, Start, SetAttributes. destruct (provider t); simpl; intros Hne.
  - by rewrite lookup_alter_ne, lookup_insert_ne.
  - by rewrite lookup_alter_ne.
Qed.

Lemma finish_other span c d err t id :
  id <> span -> spans (finish span c d err t) !! id = spans t !! id.
Proof.
  intros Hne. unfold finish, SetStatus, SetAttributes, RecordError.
  repeat case_match; by rewrite !lookup_on_span_ne.
Qed.

Lemma End_ended id t s : spans (End_ id t) !! id = Some s -> Span.Ended s = true.
Proof.
  unfold End_. rewrite lookup_on_span. destruct (spans t !! id) as [s0|]; [|done].
  simpl. intros [= <-]. by case_match.
Qed.

Lemma End_other id id' t : id <> id' -> spans (End_ id' t) !! id = spans t !! id.
Proof. apply lookup_on_span_ne. Qed.

End Spans.

Section Tracer.
Context `{!Sheltered W Tracer}
  `{!Apart W Tracer RateLimiter} `{!Apart W Tracer CircuitBreakerManager}
  `{!Apart W Tracer Registry}.
Import Tracer.

(** Every span but those of [open] has ended. *)
Definition spans_ended (open : gset string) (t : Tracer) : Prop :=
  forall id s, spans t !! id = Some s -> id ∉ open -> Span.Ended s = true.

Lemma lifts_Tracing_ended name :
  lifts_all (fun open w => spans_ended open (view w)) (Tracing name).
Proof.
  intros next Hn open c w Hw. unfold Tracing.
  pose proof (started_other c (view w)) as Ho.
  destruct (started c (view w)) as [span t]. simpl in Ho.
  match goal with |- context [next ?c1 ?w1] =>
    assert (spans_ended (open ∪ {[span]}) (view w1)) as Hw1;
    [|specialize (Hn _ c1 w1 Hw1); destruct (next c1 w1) as [[out c'] w']] end.
  { rewrite view_update. intros id s Hl Hid. apply (Hw id); [|set_solver].
    rewrite <- Ho; [done|set_solver]. }
  simpl in Hn. assert (forall t', (forall id, id <> span -> spans t' !! id = spans (view w') !! id) ->
    spans_ended open (End_ span t')) as He.
  { intros t' Ht id s Hl Hid. destruct (decide (id = span)) as [->|Hne].
    - by eapply End_ended.
    - rewrite End_other, Ht in Hl by done. apply (Hn id); [done|].
      set_unfold. tauto. }
  unfold closing. destruct out; simpl; rewrite view_update; apply He; [|done].
  intros id Hne. by apply finish_other.
Qed.

(** C18: the application leaves no span open: when every span of the
    tracer has ended before a request, every span has ended after it,
    the one the tracing stage started for the request included, whether
    the request was answered, refused or ended in a panic. *)
Theorem serve_ends_spans tracingEnabled tracingName jwtSecret routes logger startTime c w r :
  silent metricsHandler -> spans_ended ∅ (view w) ->
  serve metricsHandler tracingEnabled tracingName jwtSecret routes logger startTime c w
    = Some r ->
  spans_ended ∅ (view r.2).
Proof.
  intros Hq.
  set (P := fun open (w : W) => spans_ended open (view w)).
  apply (preserves_serve metricsHandler P); try done; try apply lifts_Tracing_ended;
    try (apply lifts_pointwise; intros open); unfold P.
  - intros open c0 w0 Hw0. simpl. by rewrite Hq.
  - intros open. apply preserves_circuit_breakers, (ignores_view (spans_ended open)).
  - intros open. apply (steady_view (spans_ended open)).
  - apply lifts_Metrics, (ignores_view (spans_ended open)).
  - apply lifts_RateLimiter, (ignores_view (spans_ended open)).
  - apply lifts_Breaker, (ignores_view (spans_ended open)).
Qed.

End Tracer.

End Application.

(** * The gateway's world

    In the world of [Pipeline.Gateway] each component is a field of the
    record, the log, the request ids and the upstream services are fields
    of their own: the components are apart and sheltered. *)

Module GatewayFrame.
Import Gateway.

#[export] Instance manager_sheltered : Sheltered World CircuitBreakerManager.
Proof. by split. Qed.
#[export] Instance limiter_sheltered : Sheltered World RateLimiter.
Proof. by split. Qed.
#[export] Instance proxy_sheltered : Sheltered World ServiceProxy.
Proof. by split. Qed.
#[export] Instance registry_sheltered : Sheltered World Registry.
Proof. by split. Qed.
#[export] Instance tracer_sheltered : Sheltered World Tracer.
Proof. by split. Qed.

#[export] Instance manager_limiter : Apart World CircuitBreakerManager RateLimiter.
Proof. done. Qed.
#[export] Instance manager_proxy : Apart World CircuitBreakerManager ServiceProxy.
Proof. done. Qed.
#[export] Instance manager_registry : Apart World CircuitBreakerManager Registry.
Proof. done. Qed.
#[export] Instance manager_tracer : Apart World CircuitBreakerManager Tracer.
Proof. done. Qed.
#[export] Instance limiter_manager : Apart World RateLimiter CircuitBreakerManager.
Proof. done. Qed.
#[export] Instance limiter_proxy : Apart World RateLimiter ServiceProxy.
Proof. done. Qed.
#[export] Instance limiter_registry : Apart World RateLimiter Registry.
Proof. done. Qed.
#[export] Instance limiter_tracer : Apart World RateLimiter Tracer.
Proof. done. Qed.
#[export] Instance proxy_manager : Apart World ServiceProxy CircuitBreakerManager.
Proof. done. Qed.
#[export] Instance proxy_limiter : Apart World ServiceProxy RateLimiter.
Proof. done. Qed.
#[export] Instance proxy_registry : Apart World ServiceProxy Registry.
Proof. done. Qed.
#[export] Instance proxy_tracer : Apart World ServiceProxy Tracer.
Proof. done. Qed.
#[export] Instance registry_manager : Apart World Registry CircuitBreakerManager.
Proof. done. Qed.
#[export] Instance registry_limiter : Apart World Registry RateLimiter.
Proof. done. Qed.
#[export] Instance registry_proxy : Apart World Registry ServiceProxy.
Proof. done. Qed.
#[export] Instance registry_tracer : Apart World Registry Tracer.
Proof. done. Qed.
#[export] Instance tracer_manager : Apart World Tracer CircuitBreakerManager.
Proof. done. Qed.
#[export] Instance tracer_limiter : Apart World Tracer RateLimiter.
Proof. done. Qed.
#[export] Instance tracer_proxy : Apart World Tracer ServiceProxy.
Proof. done. Qed.
#[export] Instance tracer_registry : Apart World Tracer Registry.
Proof. done. Qed.

End GatewayFrame.

Section Scenarios.
Import Gateway GatewayFrame.

(** The world after a request, or the world before it had the request
    ended the process. *)
Definition after (c : Ctx) (w : World) : World := from_option snd w (app c w).

Definition failing_notifier : World := boot default_RateLimit failing.

Lemma boot_wf rl answers : manager_wf (boot rl answers).
Proof. apply NewCircuitBreakerManager_wf. by vm_compute. Qed.

Lemma no_metrics_wf : preserves manager_wf no_metrics.
Proof. by intros c w Hw. Qed.

Lemma no_metrics_quiet : quiet no_metrics.
Proof. done. Qed.

Lemma no_metrics_silent : silent no_metrics.
Proof. done. Qed.

Lemma boot_ended rl answers : spans_ended ∅ (view (boot rl answers)).
Proof.
  intros id s Hl. change ((∅ : gmap string Span) !! id = Some s) in Hl.
  by rewrite lookup_empty in Hl.
Qed.

Lemma serve_upstream_unavailable_witness :
  Registry.counter upstreamErrors ["gateway"; "upstream_unavailable"]
    (view (after notify failing_notifier)) = 0.
Proof.
  unfold after. destruct (app notify failing_notifier) as [r|] eqn:E; [|reflexivity].
  exact (serve_upstream_unavailable no_metrics true "gateway" "s3cret" DefaultRoutes
           logger 0 "gateway" notify failing_notifier r no_metrics_quiet E).
Defined.

Lemma serve_connections_monotone_witness :
  0 <= Registry.gauge activeConnections [] (view (after notify failing_notifier)).
Proof.
  unfold after. destruct (app notify failing_notifier) as [r|] eqn:E; [|reflexivity].
  exact (serve_connections_monotone no_metrics true "gateway" "s3cret" DefaultRoutes
           logger 0 notify failing_notifier r no_metrics_quiet E).
Defined.

Lemma serve_ends_spans_witness : spans_ended ∅ (view (after notify failing_notifier)).
Proof.
  unfold after. destruct (app notify failing_notifier) as [r|] eqn:E; [|apply boot_ended].
  exact (serve_ends_spans no_metrics true "gateway" "s3cret" DefaultRoutes logger 0 notify
           failing_notifier r no_metrics_silent (boot_ended _ _) E).
Defined.

(** In the gateway's world a service answers as the world says. *)
Definition told (w : World) (name : string) (req : UpstreamRequest)
    : UpstreamResponse + string :=
  answers w name.

Lemma told_steady w0 : steady (answering (told w0)).
Proof.
  split; [intros e w Hw|intros w Hw|intros svc0 req0 t0 w Hw];
    intros svc req timeout; apply (Hw svc req timeout).
Qed.

Lemma told_ignores w0 : ignores ServiceProxy (answering (told w0)).
Proof. intros p w Hw svc req timeout. apply (Hw svc req timeout). Qed.

Lemma probe_all_any_order_witness :
  let w := failing_notifier in
  ServiceProxy.GetServicesHealth (view (probe_all ["notifier"; "auth"] w)) =
    ServiceProxy.GetServicesHealth (view (ServiceProxy.health_round w)) /\
  ServiceProxy.GetServicesHealth (view (ServiceProxy.health_round w)) =
    probed (told w) <$> ServiceProxy.services (view w).
Proof.
  apply (probe_all_any_order (told failing_notifier) ["notifier"; "auth"] failing_notifier
           (told_steady _) (told_ignores _)); [done|].
  vm_compute. apply perm_swap || reflexivity.
Defined.

(** Three requests to a notifier that fails: each is counted as a
    [5xx] error under the label [gateway], none as [upstream_unavailable],
    no connection is left counted and three spans are recorded, all
    ended. *)
Example frames_scenario :
  let w := (run [notify; notify; notify] failing_notifier).2 in
  Registry.counter upstreamErrors ["gateway"; "5xx"] (view w) = 3 /\
  Registry.counter upstreamErrors ["gateway"; "upstream_unavailable"] (view w) = 0 /\
  Registry.gauge activeConnections [] (view w) = 0 /\
  size (Tracer.spans (tracer w)) = 3%nat.
Proof. by vm_compute. Qed.

End Scenarios.
