(* ===== verification/Main.v ===== *)
(** * The process

    Models [main] of the main package (carried in
    src/tests/integration/gateway_test.go, lines 181 to 312): the boot of
    the gateway from the environment, the files and the shared store it is
    given, and its life afterwards as a sequence of events: requests, the
    ticks of the two background tasks (the prober of the services and the
    sweeper of the local buckets), a failure of the listener, the signal
    that stops the process.  A request is served in one step; [log.Printf]
    and [log.Fatalf] write to the class [StdLog].  The goroutine that
    sweeps the local buckets panics when its interval is not positive,
    which ends the process with code 2: the model takes the panic at the
    point where [NewRateLimiter] starts the goroutine. *)

From stdpp Require Import base strings list gmap.
From Stdlib Require Import ZArith QArith Lia.
From S2P Require Import Prelude Config Context Breaker Circuit RateLimit Common Auth Proxy.
From S2P Require Import Router Health Metrics Tracing Pipeline Environment Frame.

#[local] Open Scope string_scope.
#[local] Open Scope list_scope.
#[local] Open Scope Z_scope.

(** The standard logger of Go. *)
Class StdLog (W : Type) := {
  log_Printf : string -> W -> W;
}.

(** What the operating system gives the process: the variables of the
    environment and of the file [.env], the files, and the store at the
    address of the configuration. *)
Module Host.
Record t := mk {
  dotenv : option Environ;
  environ : Environ;
  files : Files;
  store : Redis;
}.
End Host.
Abbreviation Host := Host.t.

(** What [main] holds once it has booted, with the goroutine of the rate
    limiter. *)
Module Booted.
Record t := mk {
  cfg : Configuration;
  routes : RouteConfig;
  logger : SimpleLogger;
  shutdownTracer : option ShutdownFunc;
  redisClient : option Redis;
  sweeper : RateLimiter.Sweeper;
  startTime : Time;
}.
End Booted.
Abbreviation Booted := Booted.t.

(** What happens to a process that listens. *)
Inductive Event :=
| Request (c : Ctx)
| HealthTick
| CleanupTick
| ListenError (err : error)
| Signal (drain close : option error).

(** The error of a [Ping] that does not reach the store. *)
Definition ping_error : error := OtherError "dial tcp: connect: connection refused".

Section Program.
Context {W : Type}
  `{!Lens W CircuitBreakerManager} `{!Lens W RateLimiter} `{!Lens W ServiceProxy}
  `{!Lens W Registry} `{!Lens W Tracer}
  `{!Clock W} `{!UUIDSource W} `{!LogSink W} `{!Upstream W} `{!TokenParser}
  `{!TimeFormat} `{!Runtime W} `{!Framework}
  `{!Strconv} `{!YAML} `{!OTLP} `{!StdLog W}.

(** The handler of [/metrics], [promhttp.Handler()]. *)
Context (metricsHandler : Handler W).

(** A process is running, with what it has served so far, or has exited
    with a code. *)
Inductive Process :=
| Running (g : Booted) (served : list Ctx) (w : W)
| Exited (code : Z) (served : list Ctx) (w : W).

Definition world (p : Process) : W :=
  match p with Running _ _ w | Exited _ _ w => w end.

Definition served (p : Process) : list Ctx :=
  match p with Running _ l _ | Exited _ l _ => l end.

(** The exit code of a process that has exited. *)
Definition code (p : Process) : option Z :=
  match p with Running _ _ _ => None | Exited code _ _ => Some code end.

(** ** The boot *)

(** The routes: those of the file, the default ones when it cannot be
    parsed. *)
Definition load_routes (fs : Files) (w : W) : RouteConfig * W :=
  match LoadRoutes fs "config/routes.yaml" with
  | inr err => (DefaultRoutes, log_Printf ("Using default routes: " +:+ error_message err) w)
  | inl routes => (routes, w)
  end.

(** The tracer: a failure is logged and the boot goes on. *)
Definition init_tracer (cfg : TracingConfig) (w : W) : option ShutdownFunc * W :=
  let '((shutdownTracer, err), t) := InitTracer cfg (view w) in
  let w := update t w in
  match err with
  | Some e =>
      (shutdownTracer, log_Printf ("Failed to initialize tracer: " +:+ error_message e) w)
  | None => (shutdownTracer, w)
  end.

(** The client of the shared store: none when no host is configured or
    the store does not answer the ping. *)
Definition connect_redis (cfg : RedisConfig) (logger : SimpleLogger) (store : Redis) (w : W)
    : option Redis * W :=
  if negb (RedisConfig.Host cfg =? "")%string then
    if negb (Redis.up store) then
      (None, SimpleLogger.Warn logger "Redis connection failed, using in-memory rate limiter"
               [FStr "error"; FStr (error_message ping_error)] w)
    else (Some store, SimpleLogger.Info logger "Connected to Redis" [] w)
  else (None, w).

Definition address (cfg : ServerConfig) : string :=
  ServerConfig.Host cfg +:+ ":" +:+ ServerConfig.Port cfg.

(** [main] up to the point where it waits for a signal; the process is
    gone before that when the sweeper of the local buckets panics. *)
Definition startup (h : Host) (w : W) : Process :=
  let startTime := Now w in
  match Load (Host.dotenv h) (Host.environ h) with
  | (_, Some err) =>
      Exited 1 [] (log_Printf ("Failed to load config: " +:+ error_message err) w)
  | (cfg, None) =>
      let '(routes, w) := load_routes (Host.files h) w in
      let logger := SimpleLogger.NewLogger (Configuration.Logging cfg) in
      let w := SimpleLogger.Info logger "Starting Minisource API Gateway" [] w in
      let '(shutdownTracer, w) := init_tracer (Configuration.Tracing cfg) w in
      let '(redisClient, w) := connect_redis (Configuration.Redis cfg) logger (Host.store h) w in
      let w := update (ServiceProxy.NewServiceProxy (Configuration.Services cfg)) w in
      let w := update (CircuitBreakerManager.NewCircuitBreakerManager
                         (Configuration.Circuit cfg)) w in
      let '(rateLimiter, sweeper) :=
        RateLimiter.NewRateLimiter (Configuration.RateLimit cfg) redisClient in
      let w := update rateLimiter w in
      match sweeper with
      | RateLimiter.SweeperPanic => Exited 2 [] w
      | RateLimiter.NoSweeper | RateLimiter.Sweeping _ =>
          let w := SimpleLogger.Info logger "Gateway listening"
                     [FStr "address"; FStr (address (Configuration.Server cfg))] w in
          Running (Booted.mk cfg routes logger shutdownTracer redisClient sweeper startTime)
            [] w
      end
  end.

(** ** The application *)

(** The application [main] builds: the stages of [setupMiddleware], the
    endpoints and the routes, with the error handler. *)
Definition handle (g : Booted) (c : Ctx) (w : W) : option (Ctx * W) :=
  serve metricsHandler
    (TracingConfig.Enabled (Configuration.Tracing (Booted.cfg g)))
    (TracingConfig.ServiceName (Configuration.Tracing (Booted.cfg g)))
    (JWTConfig.Secret (Configuration.JWT (Booted.cfg g)))
    (Booted.routes g) (Booted.logger g) (Booted.startTime g) c w.

(** ** The shutdown *)

Definition report (logger : SimpleLogger) (msg : string) (err : option error) (w : W) : W :=
  match err with
  | Some e => SimpleLogger.Error logger msg [FStr "error"; FStr (error_message e)] w
  | None => w
  end.

(** What [main] does after the signal: the server is shut down, the
    proxy, the client of the store and the tracer are closed, each failure
    is logged. *)
Definition stop (g : Booted) (drain close : option error) (w : W) : W :=
  let logger := Booted.logger g in
  let w := SimpleLogger.Info logger "Shutting down gateway..." [] w in
  let w := report logger "Server forced to shutdown" drain w in
  let w := report logger "Failed to close proxy" (ServiceProxy.Close (view w)) w in
  let w := match Booted.redisClient g with
           | Some _ => report logger "Failed to close Redis" close w
           | None => w
           end in
  let w := match Booted.shutdownTracer g with
           | Some f =>
               let '(err, t) := shutdown f (view w) in
               report logger "Failed to shutdown tracer" err (update t w)
           | None => w
           end in
  SimpleLogger.Info logger "Gateway stopped" [] w.

(** ** The life of the process *)

Definition on_event (p : Process) (e : Event) : Process :=
  match p with
  | Exited _ _ _ => p
  | Running g l w =>
      match e with
      | Request c =>
          match handle g c w with
          | Some (c', w') => Running g (l ++ [c']) w'
          | None => Exited 2 l w
          end
      | HealthTick => Running g l (ServiceProxy.health_round w)
      | CleanupTick =>
          Running g l (update (RateLimiter.cleanup_tick (Booted.sweeper g) (Now w) (view w)) w)
      | ListenError err =>
          Exited 1 l (log_Printf ("Failed to start server: " +:+ error_message err) w)
      | Signal drain close => Exited 0 l (stop g drain close w)
      end
  end.

Definition run_events (p : Process) (events : list Event) : Process := foldl on_event p events.

Definition main (h : Host) (events : list Event) (w : W) : Process :=
  run_events (startup h w) events.

(** The processes [main] can be in. *)
Inductive reachable (h : Host) (w : W) : Process -> Prop :=
| reachable_startup : reachable h w (startup h w)
| reachable_on_event p e : reachable h w p -> reachable h w (on_event p e).

End Program.

Arguments Process W : clear implicits.

(** The component is out of reach of the standard logger. *)
Class Unprinted (W S : Type) `{!Lens W S} `{!StdLog W} : Prop :=
  view_log_Printf : forall msg (w : W), view (S := S) (log_Printf msg w) = view w.

(** * The states a process reaches *)

Section Life.
Context {W : Type}
  `{!Lens W CircuitBreakerManager} `{!Lens W RateLimiter} `{!Lens W ServiceProxy}
  `{!Lens W Registry} `{!Lens W Tracer}
  `{!Clock W} `{!UUIDSource W} `{!LogSink W} `{!Upstream W} `{!TokenParser}
  `{!TimeFormat} `{!Runtime W} `{!Framework}
  `{!Strconv} `{!YAML} `{!OTLP} `{!StdLog W}.
Context (metricsHandler : Handler W).
Implicit Types (p : Process W) (g : Booted) (w : W) (h : Host) (events : list Event).

#[local] Abbreviation on_event := (on_event metricsHandler).
#[local] Abbreviation run_events := (run_events metricsHandler).
#[local] Abbreviation main := (main metricsHandler).
#[local] Abbreviation handle := (handle metricsHandler).
#[local] Abbreviation reachable := (reachable metricsHandler).

Lemma run_events_Exited code l w events : run_events (Exited code l w) events = Exited code l w.
Proof. by induction events. Qed.

Lemma run_events_cons p e events : run_events p (e :: events) = run_events (on_event p e) events.
Proof. done. Qed.

Lemma run_events_app p events events' :
  run_events p (events ++ events') = run_events (run_events p events) events'.
Proof. apply foldl_app. Qed.

Lemma main_reachable h events w : reachable h w (main h events w).
Proof.
  unfold main. induction events as [|e events IH] using rev_ind; [constructor|].
  rewrite run_events_app. by constructor.
Qed.

(** No request ends the process: a panic is recovered by the first
    stage. *)
Lemma handle_total g c w : is_Some (handle g c w).
Proof.
  unfold handle, serve.
  match goal with |- context [pipeline ?m ?a ?b ?s ?r ?l ?t c w] =>
    pose proof (pipeline_no_panic m a b s r l t c w) as Hp;
    destruct (pipeline m a b s r l t c w) as [[[[?|]|msg] ?] ?] end; [done..|].
  by destruct (Hp msg).
Qed.

End Life.

(** * What the boot leaves, and what the process keeps *)

Section Invariants.
Context {W : Type}
  `{!Lens W CircuitBreakerManager} `{!Lens W RateLimiter} `{!Lens W ServiceProxy}
  `{!Lens W Registry} `{!Lens W Tracer}
  `{!Clock W} `{!UUIDSource W} `{!LogSink W} `{!Upstream W} `{!TokenParser}
  `{!TimeFormat} `{!Runtime W} `{!Framework}
  `{!Strconv} `{!YAML} `{!OTLP} `{!StdLog W}.
Context (metricsHandler : Handler W).
Implicit Types (p : Process W) (g : Booted) (w : W) (h : Host) (events : list Event).

#[local] Abbreviation on_event := (on_event metricsHandler).
#[local] Abbreviation main := (main metricsHandler).
#[local] Abbreviation handle := (handle metricsHandler).
#[local] Abbreviation reachable := (reachable metricsHandler).

(** The configuration and the client of the store a boot arrives at. *)
Definition loaded h : Configuration := (Load (Host.dotenv h) (Host.environ h)).1.

Definition client h : option Redis :=
  if negb (RedisConfig.Host (Configuration.Redis (loaded h)) =? "")%string
     && Redis.up (Host.store h)
  then Some (Host.store h) else None.

(** The goroutine of the limiter a boot arrives at. *)
Definition sweeper h : RateLimiter.Sweeper :=
  (RateLimiter.NewRateLimiter (Configuration.RateLimit (loaded h)) (client h)).2.

(** The world of a boot once [main] has made the components. *)
Definition made h w : W :=
  let cfg := loaded h in
  let logger := SimpleLogger.NewLogger (Configuration.Logging cfg) in
  let w1 := (load_routes (Host.files h) w).2 in
  let w2 := SimpleLogger.Info logger "Starting Minisource API Gateway" [] w1 in
  let w3 := (init_tracer (Configuration.Tracing cfg) w2).2 in
  let w4 := (connect_redis (Configuration.Redis cfg) logger (Host.store h) w3).2 in
  let w5 := update (ServiceProxy.NewServiceProxy (Configuration.Services cfg)) w4 in
  let w6 := update (CircuitBreakerManager.NewCircuitBreakerManager
                      (Configuration.Circuit cfg)) w5 in
  update (RateLimiter.NewRateLimiter (Configuration.RateLimit cfg) (client h)).1 w6.

(** What [main] holds when the boot gets as far as listening. *)
Definition booted h w : Booted :=
  let cfg := loaded h in
  let logger := SimpleLogger.NewLogger (Configuration.Logging cfg) in
  let w1 := (load_routes (Host.files h) w).2 in
  let w2 := SimpleLogger.Info logger "Starting Minisource API Gateway" [] w1 in
  Booted.mk cfg (load_routes (Host.files h) w).1 logger
    (init_tracer (Configuration.Tracing cfg) w2).1 (client h) (sweeper h) (Now w).

Lemma connect_redis_client h logger w :
  (connect_redis (Configuration.Redis (loaded h)) logger (Host.store h) w).1 = client h.
Proof.
  unfold connect_redis, client.
  by destruct (negb (_ =? _)%string), (Redis.up (Host.store h)).
Qed.

Lemma connect_redis_eq h logger w :
  connect_redis (Configuration.Redis (loaded h)) logger (Host.store h) w =
    (client h, (connect_redis (Configuration.Redis (loaded h)) logger (Host.store h) w).2).
Proof. rewrite <- (connect_redis_client h logger w). by destruct (connect_redis _ _ _ _). Qed.

(** [startup] in two cases: the sweeper panics and the process dies, or
    the gateway listens.  The configuration never fails to load. *)
Lemma startup_eq h w :
  startup h w =
    match sweeper h with
    | RateLimiter.SweeperPanic => Exited 2 [] (made h w)
    | RateLimiter.NoSweeper | RateLimiter.Sweeping _ =>
        Running (booted h w) []
          (SimpleLogger.Info (Booted.logger (booted h w)) "Gateway listening"
             [FStr "address"; FStr (address (Configuration.Server (loaded h)))] (made h w))
    end.
Proof.
  unfold startup, made, booted, sweeper.
  pose proof (Load_ok (Host.dotenv h) (Host.environ h)) as Hok.
  pose proof (connect_redis_eq h) as Hc. unfold loaded in *.
  destruct (Load _ _) as [cfg err]. simpl in Hok, Hc. subst err. simpl.
  destruct (load_routes _ _) as [routes w1]. simpl.
  destruct (init_tracer _ _) as [f w3]. simpl. rewrite Hc.
  by destruct (if negb _ then _ else _).
Qed.

(** A property of the world that every event keeps holds as long as the
    process lives, and after. *)
Lemma reachable_world (P : W -> Prop) h w :
  P (world (startup h w)) ->
  (forall g c w r, P w -> handle g c w = Some r -> P r.2) ->
  (forall w, P w -> P (ServiceProxy.health_round w)) ->
  (forall s w, P w -> P (update (RateLimiter.cleanup_tick s (Now w) (view w)) w)) ->
  (forall msg w, P w -> P (log_Printf msg w)) ->
  (forall g drain close w, P w -> P (stop g drain close w)) ->
  forall p, reachable h w p -> P (world p).
Proof.
  intros Hs Hh Hr Hc Hl Hd p Hp. induction Hp as [|p e _ IH]; [done|].
  destruct p as [g l w'|]; [|done]. destruct e; simpl in *; auto.
  destruct (handle g c w') as [[c' w'']|] eqn:E; [|done]. apply (Hh _ _ _ _ IH E).
Qed.

Section Component.
Context {S : Type} `{!Lens W S} `{!Sheltered W S} `{!Unprinted W S}.
Implicit Types (logger : SimpleLogger).

Lemma view_Info logger msg fields w :
  view (S := S) (SimpleLogger.Info logger msg fields w) = view w.
Proof.
  by apply (steady_Info (fun w' => view (S := S) w' = view w));
    [apply (steady_view (fun s : S => s = view w))|].
Qed.

Lemma view_Warn logger msg fields w :
  view (S := S) (SimpleLogger.Warn logger msg fields w) = view w.
Proof.
  by apply (steady_Warn (fun w' => view (S := S) w' = view w));
    [apply (steady_view (fun s : S => s = view w))|].
Qed.

Lemma view_report logger msg err w : view (S := S) (report logger msg err w) = view w.
Proof.
  destruct err; [|done].
  by apply (steady_Error (fun w' => view (S := S) w' = view w));
    [apply (steady_view (fun s : S => s = view w))|].
Qed.

Lemma view_load_routes fs w : view (S := S) (load_routes fs w).2 = view w.
Proof. unfold load_routes. case_match; [done|apply view_log_Printf]. Qed.

Lemma view_connect_redis cfg logger store w :
  view (S := S) (connect_redis cfg logger store w).2 = view w.
Proof.
  unfold connect_redis. repeat case_match; simpl; by rewrite ?view_Warn, ?view_Info.
Qed.

Lemma view_init_tracer `{!Apart W S Tracer} cfg w : view (S := S) (init_tracer cfg w).2 = view w.
Proof.
  unfold init_tracer. destruct (InitTracer cfg (view w)) as [[f [e|]] t]; simpl;
    by rewrite ?view_log_Printf, apart.
Qed.

(** The shutdown touches the tracer only. *)
Lemma view_stop `{!Apart W S Tracer} g drain close w :
  view (S := S) (stop g drain close w) = view w.
Proof.
  unfold stop. rewrite view_Info.
  assert (forall w', view (S := S) w' = view w ->
    view (S := S) match Booted.shutdownTracer g with
      | Some f => let '(err, t) := shutdown f (view w') in
                  report (Booted.logger g) "Failed to shutdown tracer" err (update t w')
      | None => w' end = view w) as Ht.
  { intros w' Hw'. destruct (Booted.shutdownTracer g) as [f|]; [|done].
    destruct (shutdown f (view w')) as [err t]. by rewrite view_report, apart. }
  apply Ht. destruct (Booted.redisClient g); by rewrite ?view_report, view_Info.
Qed.

(** What the boot does to a component it does not set. *)
Lemma view_booting `{!Apart W S Tracer} h logger w :
  let w1 := (load_routes (Host.files h) w).2 in
  let w2 := SimpleLogger.Info logger "Starting Minisource API Gateway" [] w1 in
  let w3 := (init_tracer (Configuration.Tracing (loaded h)) w2).2 in
  view (S := S)
    (connect_redis (Configuration.Redis (loaded h)) logger (Host.store h) w3).2 = view w.
Proof. simpl. by rewrite view_connect_redis, view_init_tracer, view_Info, view_load_routes. Qed.

(** The last line of the boot's log changes no component. *)
Lemma view_startup h w : view (S := S) (world (startup h w)) = view (made h w).
Proof. rewrite startup_eq. destruct (sweeper h); simpl; by rewrite ?view_Info. Qed.

End Component.

Section Manager.
Context `{!Sheltered W CircuitBreakerManager} `{!Unprinted W CircuitBreakerManager}
  `{!Apart W CircuitBreakerManager RateLimiter} `{!Apart W CircuitBreakerManager Registry}
  `{!Apart W CircuitBreakerManager Tracer} `{!Apart W CircuitBreakerManager ServiceProxy}.

(** The boot leaves a manager without breakers, with the settings of the
    configuration. *)
Lemma startup_manager h w :
  view (world (startup h w)) =
    CircuitBreakerManager.NewCircuitBreakerManager (Configuration.Circuit (loaded h)).
Proof. rewrite view_startup. unfold made. simpl. by rewrite apart, view_update. Qed.

(** C13: the manager of the breakers is well formed as long as the process
    lives, whatever the environment, the files, the store and the events:
    the boot creates it from settings that [Load] keeps within 32 bits,
    and no request, round of probes, sweep of the buckets or part of the
    shutdown breaks a breaker or changes its parameters. *)
Theorem main_keeps_wf h events w :
  preserves manager_wf metricsHandler -> manager_wf (world (main h events w)).
Proof.
  intros Hm. apply (reachable_world manager_wf h w); [..|apply main_reachable];
    unfold manager_wf.
  - rewrite startup_manager. apply NewCircuitBreakerManager_wf, Load_MaxRequests.
  - intros g c w0 r Hw. by apply serve_keeps_wf.
  - intros w0. apply (steady_health_round (fun w => CircuitBreakerManager.wf (view w)));
      [apply (steady_view CircuitBreakerManager.wf)
      |apply (ignores_view CircuitBreakerManager.wf)].
  - intros s w0. by rewrite apart.
  - intros msg w0. by rewrite view_log_Printf.
  - intros g drain close w0. by rewrite view_stop.
Qed.

End Manager.

Section Counters.
Context `{!Sheltered W Registry} `{!Unprinted W Registry}
  `{!Apart W Registry RateLimiter} `{!Apart W Registry CircuitBreakerManager}
  `{!Apart W Registry Tracer} `{!Apart W Registry ServiceProxy}.
Import Registry.

(** The boot does not touch the registry of the metrics. *)
Lemma startup_registry h w : view (S := Registry) (world (startup h w)) = view w.
Proof. rewrite view_startup. unfold made. simpl. rewrite !apart. apply view_booting. Qed.

(** C34: the counter of upstream errors labelled [upstream_unavailable] never
    moves, for any service label and for the whole life of the process:
    in the metrics stage its branch follows the test for statuses of 500
    and above, and nothing else in the gateway counts it. *)
Theorem main_upstream_unavailable h events w svc :
  quiet metricsHandler ->
  counter upstreamErrors [svc; "upstream_unavailable"] (view (world (main h events w))) =
  counter upstreamErrors [svc; "upstream_unavailable"] (view w).
Proof.
  intros Hq. set (Q := fun r : Registry =>
    counter upstreamErrors [svc; "upstream_unavailable"] r =
    counter upstreamErrors [svc; "upstream_unavailable"] (view w)).
  apply (reachable_world (fun w' => Q (view w')) h w); [..|apply main_reachable]; unfold Q.
  - by rewrite startup_registry.
  - intros g c w0 r Hw E. rewrite <- Hw.
    exact (serve_upstream_unavailable metricsHandler _ _ _ _ _ _ svc c w0 r Hq E).
  - intros w0. apply (steady_health_round (fun w' => Q (view w')));
      [apply (steady_view Q)|apply (ignores_view Q)].
  - intros s w0. by rewrite apart.
  - intros msg w0. by rewrite view_log_Printf.
  - intros g drain close w0. by rewrite view_stop.
Qed.

End Counters.

Section Limiter.
Context `{!Sheltered W RateLimiter} `{!Unprinted W RateLimiter}.

(** The boot leaves a limiter without buckets that counts in the store
    when the store is configured and answers, and in the process
    otherwise. *)
Lemma startup_limiter h w :
  view (world (startup h w)) =
    (RateLimiter.NewRateLimiter (Configuration.RateLimit (loaded h)) (client h)).1.
Proof. rewrite view_startup. unfold made. by rewrite view_update. Qed.

(** C19: a store that does not answer the ping leaves the boot to the
    interval of the sweeper.  The limiter is made without a client and
    counts in the buckets of the process; when the interval of the
    configuration is positive the gateway listens, holding no client, with
    the sweeper running at that interval; when it is zero or negative the
    ticker of the sweeper panics and the process is gone, with code 2,
    before it listens. *)
Theorem startup_without_store h w :
  Redis.up (Host.store h) = false ->
  let interval := RateLimitConfig.CleanupInterval (Configuration.RateLimit (loaded h)) in
  RateLimiter.useRedis (view (world (startup h w))) = false /\
  RateLimiter.redis (view (world (startup h w))) = None /\
  if 0 <? interval
  then exists g w', startup h w = Running g [] w' /\
         Booted.redisClient g = None /\ Booted.sweeper g = RateLimiter.Sweeping interval
  else exists w', startup h w = Exited 2 [] w'.
Proof.
  intros Hup interval. assert (client h = None) as Hc.
  { unfold client. rewrite Hup. by destruct (negb _). }
  rewrite startup_limiter, startup_eq. unfold booted, sweeper. rewrite Hc.
  rewrite NewRateLimiter_sweeper. fold interval. split_and!; [done..|].
  destruct (0 <? interval); simpl; eauto.
Qed.

End Limiter.

End Invariants.

(** * A process in the gateway's world *)

Module MainWorld.
Import Gateway GatewayFrame EnvWorld.

(** The standard logger writes to the same output as the logger of the
    gateway, at a level of its own. *)
#[export] Instance World_stdlog : StdLog World :=
  {| log_Printf := fun msg w => emit (LogEntry.mk "std" (Now w) msg []) w |}.

(** The only document the parser reads is the one with no routes. *)
#[export] Instance World_yaml : YAML :=
  {| Unmarshal := fun data =>
       if (data =? "routes: []")%string then inl (RouteConfig.mk [])
       else inr (OtherError "yaml: unmarshal errors") |}.

#[export] Instance manager_unprinted : Unprinted World CircuitBreakerManager.
Proof. done. Qed.
#[export] Instance limiter_unprinted : Unprinted World RateLimiter.
Proof. done. Qed.
#[export] Instance registry_unprinted : Unprinted World Registry.
Proof. done. Qed.

(** A machine whose routes file is damaged and whose store is down. *)
Definition no_store : Redis := Redis.mk ∅ false 0.

Definition files (path : string) : option string :=
  if (path =? "config/routes.yaml")%string then Some "routes: [" else None.

(** A machine without a store, whose sweeper is told not to wait. *)
Definition careless : Host :=
  Host.mk None {[ "RATE_LIMIT_CLEANUP" := "0s"; "JWT_SECRET" := "s3cret" ]} files no_store.

Definition degraded : Host :=
  Host.mk None
    {[ "REDIS_HOST" := "redis"; "CIRCUIT_MAX_REQUESTS" := "-1"; "JWT_SECRET" := "s3cret" ]}
    files no_store.

(** The world before [main]: nothing initialised, no service reachable. *)
Definition blank : World := boot default_RateLimit down.

Definition life : list Event :=
  [Request notify; HealthTick; CleanupTick; Request (request "GET" "/health" [] "");
   Signal None None; Request notify].

Definition messages (p : Process World) : list string := LogEntry.msg <$> log (world p).

End MainWorld.

Section Scenarios.
Import Gateway GatewayFrame EnvWorld MainWorld.

Lemma main_keeps_wf_witness : manager_wf (world (main no_metrics degraded life blank)).
Proof. exact (main_keeps_wf no_metrics degraded life blank no_metrics_wf). Defined.

Lemma main_upstream_unavailable_witness :
  Registry.counter upstreamErrors ["gateway"; "upstream_unavailable"]
    (view (world (main no_metrics degraded life blank))) = 0.
Proof.
  exact (main_upstream_unavailable no_metrics degraded life blank "gateway" no_metrics_quiet).
Defined.

Lemma startup_without_store_witness :
  RateLimiter.useRedis (view (world (startup degraded blank))) = false /\
  RateLimiter.redis (view (world (startup degraded blank))) = None /\
  exists g w', startup degraded blank = Running g [] w' /\
    Booted.redisClient g = None /\ Booted.sweeper g = RateLimiter.Sweeping (60 * Second).
Proof. exact (startup_without_store degraded blank eq_refl). Defined.

(** The life of a process on the degraded machine: it boots with the
    default routes and the local limiter, answers 502 for the service that
    is down and 200 for its own health, stops at the signal with code 0
    and does not see the request that comes after. *)
Example main_scenario :
  let p := main no_metrics degraded life blank in
  code p = Some 0 /\
  Ctx.StatusCode <$> served p = [502; 200] /\
  CircuitConfig.MaxRequests (CircuitBreakerManager.cfg (view (world p))) = 4294967295 /\
  messages p =
    ["Using default routes: yaml: unmarshal errors"; "Starting Minisource API Gateway";
     "Redis connection failed, using in-memory rate limiter"; "Gateway listening";
     "HTTP Request"; "HTTP Request"; "Shutting down gateway..."; "Gateway stopped"].
Proof. by vm_compute. Qed.

(** With an interval of zero for the sweeper and a store that is down the
    process does not live to listen: the ticker of the sweeper panics, the exit code is
    2 and no request is answered. *)
Example crash_scenario :
  let p := main no_metrics careless life blank in
  code p = Some 2 /\ served p = [] /\
  messages p =
    ["Using default routes: yaml: unmarshal errors"; "Starting Minisource API Gateway";
     "Redis connection failed, using in-memory rate limiter"].
Proof. by vm_compute. Qed.

End Scenarios.
